(** * SneakZone: a shallow embedding of the storefront server

    The development follows the three server files of the repository
    and one function of the client:
    - [database.js]: the schema, the seed data and the promise wrappers
      [dbGet], [dbAll], [dbRun];
    - [admin.js]: the static methods of [AdminFunctions];
    - [server.js]: the middleware chain (rate limiters, session, CSRF
      guard, authentication, role gate) and the route handlers;
    - [public/app.js]: [SecurityManager.sanitizeInput], on strings as
      lists of UTF-16 code units.

    Tables are lists of rows in insertion (rowid) order.  Every SQL
    statement that occurs in the sources is one function on the database
    value, named after what the statement does and carrying the SQL text
    in its comment.  Promises that reject are values [Err]; the
    [try]/[catch] of a handler is a [match] on them.

    Third-party packages (bcryptjs, express-validator, csurf, the binding
    layer of node-sqlite3) are not part of the repository; their
    operations are fields of the class [Libs], with the content of the
    public directory, and every statement below is proved for an
    arbitrary instance of it.  express-rate-limit and the SQLite engine
    are modelled directly, as far as the options and the statements of
    the sources go: the limiter with its memory store, whose windows are
    fixed and [windowMs] long, the engine with the constraints of the
    schema, the order of its scans and the numeric affinity of a TEXT
    operand.

    Requests are served one after the other, each at the time of its
    clock, which counts seconds.  Not modelled: the expiry of sessions,
    failures of the storage itself (a SELECT always answers), requests
    that Express answers before the chain of server.js (a body that
    [express.json()] refuses, a path that does not decode), and numbers
    beyond the exact range of a JavaScript number or of an SQLite
    INTEGER. *)

From Stdlib Require Import ZArith QArith List String Ascii Bool Lia.
From Stdlib Require Import Permutation Sorted.
Import ListNotations.

Set Warnings "-register-all".

#[local] Open Scope string_scope.
#[local] Open Scope Z_scope.

(* ================================================================== *)
(** * JavaScript values *)
(* ================================================================== *)

(** A parsed JSON value: what [express.json()] leaves in [req.body] and
    what [res.json] serialises.  A missing property ([undefined]) is
    [None] at the place where it is read. *)
Inductive json : Type :=
| JNull
| JBool (b : bool)
| JNum (n : Q)
| JStr (s : string)
| JArr (items : list json)
| JObj (fields : list (string * json)).

Definition JInt (z : Z) : json := JNum (inject_Z z).

Fixpoint assoc {A : Type} (k : string) (l : list (string * A)) : option A :=
  match l with
  | [] => None
  | (k', v) :: r => if String.eqb k k' then Some v else assoc k r
  end.

(** [o.k] for an own property of a parsed body; reading a property of a
    non-object value that [express.json] can produce (an array) gives
    [undefined]. *)
Definition js_get (o : json) (k : string) : option json :=
  match o with
  | JObj fs => assoc k fs
  | _ => None
  end.

(** ToBoolean. *)
Definition js_truthy (v : option json) : bool :=
  match v with
  | None => false
  | Some JNull => false
  | Some (JBool b) => b
  | Some (JNum n) => negb (Qnum n =? 0)
  | Some (JStr s) => negb (String.eqb s "")
  | Some (JArr _) => true
  | Some (JObj _) => true
  end.

(** [typeof v === 'object'] ([null] and arrays included). *)
Definition js_typeof_object (v : json) : bool :=
  match v with
  | JNull | JArr _ | JObj _ => true
  | _ => false
  end.

(** [['user', 'admin'].includes(v)]: strict equality with one of the two
    strings. *)
Definition includes_user_admin (v : option json) : bool :=
  match v with
  | Some (JStr s) => String.eqb s "user" || String.eqb s "admin"
  | _ => false
  end.

(** ** [parseInt] with one argument

    ECMAScript [parseInt(string)]: leading white space is dropped, one
    sign is read, a [0x]/[0X] prefix selects radix 16, and the longest
    prefix of digits is the value; no digit at all is [NaN] ([None]).
    Strings are byte strings in UTF-8, so the white space characters
    beyond ASCII are matched by their encodings.  The result is exact,
    as it is in JavaScript for values below 2^53. *)
Definition ascii_code (c : ascii) : Z := Z.of_N (N_of_ascii c).

Definition is_ascii_space (c : ascii) : bool :=
  let n := ascii_code c in
  (n =? 9) || (n =? 10) || (n =? 11) || (n =? 12) || (n =? 13) || (n =? 32).

Fixpoint strip_prefix (p s : string) : option string :=
  match p, s with
  | EmptyString, _ => Some s
  | String a p', String b s' =>
      if Ascii.eqb a b then strip_prefix p' s' else None
  | String _ _, EmptyString => None
  end.

(** U+00A0, U+1680, U+2000..U+200A, U+2028, U+2029, U+202F, U+205F,
    U+3000 and U+FEFF in UTF-8. *)
Definition strip_unicode_space (s : string) : option string :=
  match s with
  | String a (String b r) =>
      if (ascii_code a =? 194) && (ascii_code b =? 160) then Some r
      else
        match r with
        | String c r' =>
            let x := ascii_code a in
            let y := ascii_code b in
            let z := ascii_code c in
            if ((x =? 225) && (y =? 154) && (z =? 128))
               || ((x =? 226) && (y =? 128)
                     && (((128 <=? z) && (z <=? 138))
                         || (z =? 168) || (z =? 169) || (z =? 175)))
               || ((x =? 226) && (y =? 129) && (z =? 159))
               || ((x =? 227) && (y =? 128) && (z =? 128))
               || ((x =? 239) && (y =? 187) && (z =? 191))
            then Some r' else None
        | EmptyString => None
        end
  | _ => None
  end.

Fixpoint js_trim_start_fuel (fuel : nat) (s : string) : string :=
  match fuel with
  | O => s
  | S f =>
      match s with
      | EmptyString => s
      | String c r =>
          if is_ascii_space c then js_trim_start_fuel f r
          else match strip_unicode_space s with
               | Some r' => js_trim_start_fuel f r'
               | None => s
               end
      end
  end.

Definition js_trim_start (s : string) : string :=
  js_trim_start_fuel (String.length s) s.

Definition digit_value (c : ascii) : option Z :=
  let n := ascii_code c in
  if (48 <=? n) && (n <=? 57) then Some (n - 48) else None.

Definition hex_digit_value (c : ascii) : option Z :=
  let n := ascii_code c in
  if (48 <=? n) && (n <=? 57) then Some (n - 48)
  else if (97 <=? n) && (n <=? 102) then Some (n - 87)
  else if (65 <=? n) && (n <=? 70) then Some (n - 55)
  else None.

(** The longest prefix of digits of [s], read in radix [radix] on top of
    [acc]; also returns the rest of the string and the number of digits
    read. *)
Fixpoint read_digits (radix : Z) (digit : ascii -> option Z)
         (s : string) (acc : Z) (count : nat) : Z * nat * string :=
  match s with
  | EmptyString => (acc, count, s)
  | String c r =>
      match digit c with
      | Some d => read_digits radix digit r (radix * acc + d) (S count)
      | None => (acc, count, s)
      end
  end.

Definition read_sign (s : string) : Z * string :=
  match s with
  | String c r =>
      if ascii_code c =? 45 then (-1, r)
      else if ascii_code c =? 43 then (1, r)
      else (1, s)
  | EmptyString => (1, s)
  end.

Definition parseInt (input : string) : option Z :=
  let (sign, s) := read_sign (js_trim_start input) in
  let '(radix, s, digit) :=
    match strip_prefix "0x" s with
    | Some r => (16, r, hex_digit_value)
    | None =>
        match strip_prefix "0X" s with
        | Some r => (16, r, hex_digit_value)
        | None => (10, s, digit_value)
        end
    end in
  let '(value, count, _) := read_digits radix digit s 0 O in
  match count with
  | O => None
  | S _ => Some (sign * value)
  end.

(** [String(n)] for an integer [n >= 0], the numeral a client puts in
    the path of a request: the decimal digits, most significant
    first. *)
Definition digit_char (d : Z) : ascii := ascii_of_N (Z.to_N (48 + d)).

Fixpoint decimal_onto (fuel : nat) (n : Z) (rest : string) : string :=
  match fuel with
  | O => rest
  | S f =>
      if n <? 10 then String (digit_char n) rest
      else decimal_onto f (n / 10) (String (digit_char (n mod 10)) rest)
  end.

Definition decimal (n : Z) : string :=
  decimal_onto (S (Z.to_nat n)) n EmptyString.

(** A string that starts with a digit. *)
Definition digit_first (s : string) : Prop :=
  exists d r, s = String (digit_char d) r /\ 0 <= d < 10.

(* ================================================================== *)
(** * The SQLite engine, as far as the statements of the sources use it *)
(* ================================================================== *)

(** A stored or bound SQL value. *)
Inductive sqlval : Type :=
| SqlNull
| SqlInt (z : Z)
| SqlReal (q : Q)
| SqlText (s : string).

Definition sql_is_null (v : sqlval) : bool :=
  match v with SqlNull => true | _ => false end.

Definition sqlval_eqb_text (v : sqlval) (s : string) : bool :=
  match v with SqlText t => String.eqb t s | _ => false end.

(** A row value as node-sqlite3 hands it to JavaScript. *)
Definition json_of_sqlval (v : sqlval) : json :=
  match v with
  | SqlNull => JNull
  | SqlInt z => JInt z
  | SqlReal q => JNum q
  | SqlText s => JStr s
  end.

(** ** Numeric affinity of a TEXT operand

    In [WHERE id = ?] the column has INTEGER affinity, so a TEXT
    parameter is first read as a number (SQLite, "Type Affinity",
    comparison rules): white space, a sign, digits, an optional
    fraction, an optional exponent, white space, and nothing else.  A
    text of digits alone is read as the integer it spells
    ([sqlite3Atoi64]).  Any other numeral is read as a double
    ([sqlite3AtoF]) and compares as an integer when the double is one
    of 64 bits ([sqlite3VdbeIntegerAffinity]): ['0.1e1'] is 1, and so is
    ['0.99999999999999999999'], which no double tells from 1.

    [nearest_double_integer] takes the double nearest to the decimal
    value, ties to even.  [sqlite3AtoF] scales the leading digits of the
    numeral in extended precision; this is the nearest double for
    numerals of up to 15 significant digits and differs from it beyond
    them at most where the value lies next to the middle between two
    doubles. *)
Fixpoint skip_ascii_spaces (s : string) : string :=
  match s with
  | String c r => if is_ascii_space c then skip_ascii_spaces r else s
  | EmptyString => s
  end.

Definition read_fraction (s : string) (acc : Z) : Z * nat * string :=
  match s with
  | String c r =>
      if ascii_code c =? 46 then read_digits 10 digit_value r acc O
      else (acc, O, s)
  | EmptyString => (acc, O, s)
  end.

(** [Some (e, rest)] for a well-formed (possibly absent) exponent part,
    [None] for an [e] that no digit follows. *)
Definition read_exponent (s : string) : option (Z * string) :=
  match s with
  | String c r =>
      if (ascii_code c =? 101) || (ascii_code c =? 69) then
        let (esign, r1) := read_sign r in
        let '(e, n, r2) := read_digits 10 digit_value r1 0 O in
        match n with
        | O => None
        | S _ => Some (esign * e, r2)
        end
      else Some (0, s)
  | EmptyString => Some (0, s)
  end.

(** The integer nearest to [p / q], ties to even, for [0 <= p] and
    [0 < q]. *)
Definition round_half_even (p q : Z) : Z :=
  let d := p / q in
  match 2 * (p mod q) ?= q with
  | Lt => d
  | Gt => d + 1
  | Eq => if Z.even d then d else d + 1
  end.

(** The double nearest to [p / q], for [0 < p] and [0 < q], when it is
    an integer: a mantissa of 53 bits with the exponent [e] of the
    binade of [p / q], down to the subnormal numbers. *)
Definition nearest_double_integer (p q : Z) : option Z :=
  let k := Z.log2 p - Z.log2 q in
  let above := if 0 <=? k then q * 2 ^ k <=? p else q <=? p * 2 ^ (- k) in
  let e := Z.max ((if above then k else k - 1) - 52) (-1074) in
  if 0 <=? e then Some (round_half_even p (q * 2 ^ e) * 2 ^ e)
  else
    let m := round_half_even (p * 2 ^ (- e)) q in
    if m mod 2 ^ (- e) =? 0 then Some (m / 2 ^ (- e)) else None.

Definition sqlite_integer_of_text (text : string) : option Z :=
  let (sign, s0) := read_sign (skip_ascii_spaces text) in
  let '(m1, n1, s1) := read_digits 10 digit_value s0 0 O in
  let '(m2, n2, s2) := read_fraction s1 m1 in
  match (n1 + n2)%nat with
  | O => None
  | S _ =>
      match read_exponent s2 with
      | None => None
      | Some (e, s3) =>
          match skip_ascii_spaces s3 with
          | EmptyString =>
              if String.eqb s1 s3 then Some (sign * m1)
              else if m2 =? 0 then Some 0
              else
                let shift := e - Z.of_nat n2 in
                match (if 0 <=? shift
                       then nearest_double_integer (m2 * 10 ^ shift) 1
                       else nearest_double_integer m2 (10 ^ (- shift))) with
                | Some v => if v <? 2 ^ 63 - 1 then Some (sign * v) else None
                | None => None
                end
          | String _ _ => None
          end
      end
  end.

(** [id = ?] on an INTEGER PRIMARY KEY column, for a bound parameter. *)
Definition id_matches (param : sqlval) (id : Z) : bool :=
  match param with
  | SqlNull => false
  | SqlInt z => z =? id
  | SqlReal q => Qeq_bool q (inject_Z id)
  | SqlText s =>
      match sqlite_integer_of_text s with
      | Some z => z =? id
      | None => false
      end
  end.

(* ================================================================== *)
(** * database.js: schema *)
(* ================================================================== *)

(** One record per table of [initSQL].  [created_at] is the value of
    CURRENT_TIMESTAMP, a number of seconds. *)

(** [users]: [email] is UNIQUE NOT NULL, [role] defaults to ['user'] and
    is CHECKed to be ['user'] or ['admin'], [is_active] defaults to 1. *)
Record User : Type := mkUser {
  u_id : Z;
  u_email : string;
  u_password : string;
  u_first_name : sqlval;
  u_last_name : sqlval;
  u_role : string;
  u_is_active : Z;
  u_created_at : Z
}.

(** [products]: no UNIQUE constraint besides the primary key. *)
Record Product : Type := mkProduct {
  p_id : Z;
  p_name : sqlval;
  p_brand : sqlval;
  p_description : sqlval;
  p_price : sqlval;
  p_image_emoji : sqlval;
  p_sizes : sqlval;
  p_created_at : Z
}.

(** [favorites]: UNIQUE(user_id, product_id); both columns are declared
    as foreign keys ON DELETE CASCADE. *)
Record Favorite : Type := mkFavorite {
  f_id : Z;
  f_user_id : Z;
  f_product_id : Z;
  f_created_at : Z
}.

(** [cart_items]: UNIQUE(user_id, product_id), [quantity] defaults to 1;
    the same two foreign keys. *)
Record CartItem : Type := mkCartItem {
  c_id : Z;
  c_user_id : Z;
  c_product_id : Z;
  c_quantity : Z;
  c_created_at : Z
}.

(** The database file as seen through the connection [db] of
    database.js.  The four [seq_] fields are the rows of
    [sqlite_sequence] (AUTOINCREMENT: the largest rowid ever handed out
    per table).  [foreign_keys] is the connection's [PRAGMA foreign_keys]
    setting: SQLite enforces FOREIGN KEY clauses, ON DELETE CASCADE
    included, only on a connection where it is on. *)
Record Database : Type := mkDatabase {
  users : list User;
  products : list Product;
  favorites : list Favorite;
  cart_items : list CartItem;
  seq_users : Z;
  seq_products : Z;
  seq_favorites : Z;
  seq_cart_items : Z;
  foreign_keys : bool
}.

(** [new sqlite3.Database(dbPath)] on a fresh file: no table has a row,
    and the pragma has SQLite's default value, off.  No statement of the
    repository changes it. *)
Definition empty_database : Database :=
  mkDatabase [] [] [] [] 0 0 0 0 false.

Definition with_users (d : Database) (us : list User) (sq : Z) : Database :=
  mkDatabase us (products d) (favorites d) (cart_items d)
             sq (seq_products d) (seq_favorites d) (seq_cart_items d)
             (foreign_keys d).

Definition with_products (d : Database) (ps : list Product) (sq : Z)
  : Database :=
  mkDatabase (users d) ps (favorites d) (cart_items d)
             (seq_users d) sq (seq_favorites d) (seq_cart_items d)
             (foreign_keys d).

Definition with_favorites (d : Database) (fs : list Favorite) (sq : Z)
  : Database :=
  mkDatabase (users d) (products d) fs (cart_items d)
             (seq_users d) (seq_products d) sq (seq_cart_items d)
             (foreign_keys d).

Definition with_cart_items (d : Database) (cs : list CartItem) (sq : Z)
  : Database :=
  mkDatabase (users d) (products d) (favorites d) cs
             (seq_users d) (seq_products d) (seq_favorites d) sq
             (foreign_keys d).

(** ** Results of the promise wrappers *)

(** A settled promise: resolved with a value or rejected. *)
Inductive Result (A : Type) : Type :=
| Ok (a : A)
| Err (message : string).
Arguments Ok {A} a.
Arguments Err {A} message.

(** What [dbRun] resolves with: [{ id: this.lastID, changes:
    this.changes }].  [run_id] is meaningful after an INSERT only. *)
Record RunResult : Type := mkRunResult {
  run_id : Z;
  run_changes : Z
}.

(** ** Row predicates *)

Definition user_has_id (id : Z) (u : User) : bool := u_id u =? id.
Definition user_has_email (e : string) (u : User) : bool :=
  String.eqb (u_email u) e.
Definition product_has_id (id : Z) (p : Product) : bool := p_id p =? id.
Definition product_has_name (n : string) (p : Product) : bool :=
  sqlval_eqb_text (p_name p) n.
Definition favorite_of (uid pid : Z) (f : Favorite) : bool :=
  (f_user_id f =? uid) && (f_product_id f =? pid).
Definition cart_item_of (uid pid : Z) (c : CartItem) : bool :=
  (c_user_id c =? uid) && (c_product_id c =? pid).

(** ORDER BY key DESC: rows with equal keys stay in the order in which
    the scan found them.  [insert_desc] puts a row in front of the rows
    found after it whose key is not larger. *)
Fixpoint insert_desc {A : Type} (key : A -> Z) (x : A) (l : list A)
  : list A :=
  match l with
  | [] => [x]
  | y :: r => if key y <=? key x then x :: l else y :: insert_desc key x r
  end.

Definition order_by_desc {A : Type} (key : A -> Z) (l : list A) : list A :=
  fold_right (insert_desc key) [] l.

(** The rows of a scan along an index on [key], whose values differ from
    row to row: by increasing [key]. *)
Fixpoint insert_asc {A : Type} (key : A -> Z) (x : A) (l : list A)
  : list A :=
  match l with
  | [] => [x]
  | y :: r => if key x <=? key y then x :: l else y :: insert_asc key x r
  end.

Definition index_order {A : Type} (key : A -> Z) (l : list A) : list A :=
  fold_right (insert_asc key) [] l.

(** ** The statements passed to [dbRun]

    One constructor per SQL text of server.js and admin.js; the
    arguments are the bound parameters. *)

(** The [validUpdates] object of [updateUser]: its only possible keys
    are [role] and [is_active], in this order.  A JavaScript boolean is
    bound as the integer 1 or 0. *)
Inductive Assignment : Type :=
| SetRole (role : string)
| SetIsActive (flag : bool).

Inductive Statement : Type :=
(** INSERT INTO users (email, password, first_name, last_name)
    VALUES (?, ?, ?, ?) *)
| InsertUser (email password : string) (first_name last_name : sqlval)
(** DELETE FROM favorites WHERE id = ? *)
| DeleteFavorite (id : Z)
(** INSERT INTO favorites (user_id, product_id) VALUES (?, ?) *)
| InsertFavorite (user_id product_id : Z)
(** UPDATE cart_items SET quantity = quantity + 1 WHERE id = ? *)
| IncrementCartItem (id : Z)
(** INSERT INTO cart_items (user_id, product_id, quantity)
    VALUES (?, ?, 1) *)
| InsertCartItem (user_id product_id : Z)
(** DELETE FROM cart_items WHERE user_id = ? AND product_id = ? *)
| DeleteCartItem (user_id product_id : Z)
(** UPDATE users SET <col> = ?, ... WHERE id = ? *)
| UpdateUser (sets : list Assignment) (id : sqlval)
(** DELETE FROM users WHERE id = ? *)
| DeleteUser (id : sqlval)
(** INSERT INTO products (name, brand, description, price, image_emoji,
    sizes) VALUES (?, ?, ?, ?, ?, ?) *)
| InsertProduct (name brand description price image_emoji sizes : sqlval).

Definition assign (u : User) (a : Assignment) : User :=
  match a with
  | SetRole r =>
      mkUser (u_id u) (u_email u) (u_password u) (u_first_name u)
             (u_last_name u) r (u_is_active u) (u_created_at u)
  | SetIsActive b =>
      mkUser (u_id u) (u_email u) (u_password u) (u_first_name u)
             (u_last_name u) (u_role u) (if b then 1 else 0)
             (u_created_at u)
  end.

Definition role_check (u : User) : bool :=
  String.eqb (u_role u) "user" || String.eqb (u_role u) "admin".

Definition increment_quantity (c : CartItem) : CartItem :=
  mkCartItem (c_id c) (c_user_id c) (c_product_id c) (c_quantity c + 1)
             (c_created_at c).

Definition count_if {A : Type} (f : A -> bool) (l : list A) : Z :=
  Z.of_nat (List.length (filter f l)).

(** Whether the parents named by a child row exist, for the foreign key
    check of an INSERT. *)
Definition parents_exist (d : Database) (uid pid : Z) : bool :=
  existsb (user_has_id uid) (users d)
  && existsb (product_has_id pid) (products d).

(** The engine on one statement at time [now]: the new database, the
    rowid of an inserted row and the number of rows changed, or the
    constraint that failed.  Integer arithmetic is exact ([quantity + 1]
    stays an INTEGER below 2^63 - 1). *)
Definition execute (now : Z) (d : Database) (st : Statement)
  : Result (Database * RunResult) :=
  match st with
  | InsertUser email password first_name last_name =>
      if sql_is_null first_name || sql_is_null last_name then
        Err "SQLITE_CONSTRAINT: NOT NULL constraint failed"
      else if existsb (user_has_email email) (users d) then
        Err "SQLITE_CONSTRAINT: UNIQUE constraint failed: users.email"
      else
        let id := seq_users d + 1 in
        let row := mkUser id email password first_name last_name
                          "user" 1 now in
        Ok (with_users d (users d ++ [row]) id, mkRunResult id 1)
  | DeleteFavorite id =>
      let keep := filter (fun f => negb (f_id f =? id)) (favorites d) in
      Ok (with_favorites d keep (seq_favorites d),
          mkRunResult 0 (count_if (fun f => f_id f =? id) (favorites d)))
  | InsertFavorite uid pid =>
      if foreign_keys d && negb (parents_exist d uid pid) then
        Err "SQLITE_CONSTRAINT: FOREIGN KEY constraint failed"
      else if existsb (favorite_of uid pid) (favorites d) then
        Err "SQLITE_CONSTRAINT: UNIQUE constraint failed: favorites.user_id, favorites.product_id"
      else
        let id := seq_favorites d + 1 in
        Ok (with_favorites d (favorites d ++ [mkFavorite id uid pid now]) id,
            mkRunResult id 1)
  | IncrementCartItem id =>
      let bump c := if c_id c =? id then increment_quantity c else c in
      Ok (with_cart_items d (map bump (cart_items d)) (seq_cart_items d),
          mkRunResult 0 (count_if (fun c => c_id c =? id) (cart_items d)))
  | InsertCartItem uid pid =>
      if foreign_keys d && negb (parents_exist d uid pid) then
        Err "SQLITE_CONSTRAINT: FOREIGN KEY constraint failed"
      else if existsb (cart_item_of uid pid) (cart_items d) then
        Err "SQLITE_CONSTRAINT: UNIQUE constraint failed: cart_items.user_id, cart_items.product_id"
      else
        let id := seq_cart_items d + 1 in
        Ok (with_cart_items d
              (cart_items d ++ [mkCartItem id uid pid 1 now]) id,
            mkRunResult id 1)
  | DeleteCartItem uid pid =>
      let keep := filter (fun c => negb (cart_item_of uid pid c))
                         (cart_items d) in
      Ok (with_cart_items d keep (seq_cart_items d),
          mkRunResult 0 (count_if (cart_item_of uid pid) (cart_items d)))
  | UpdateUser sets id =>
      let upd u := if id_matches id (u_id u)
                   then fold_left assign sets u else u in
      let checked u := negb (id_matches id (u_id u)) || role_check (upd u) in
      if forallb checked (users d) then
        Ok (with_users d (map upd (users d)) (seq_users d),
            mkRunResult 0 (count_if (fun u => id_matches id (u_id u))
                                    (users d)))
      else Err "SQLITE_CONSTRAINT: CHECK constraint failed: users"
  | DeleteUser id =>
      let gone u := id_matches id (u_id u) in
      let us := filter (fun u => negb (gone u)) (users d) in
      let n := count_if gone (users d) in
      if foreign_keys d then
        let orphan uid := existsb (fun u => gone u && (u_id u =? uid))
                                  (users d) in
        Ok (mkDatabase us (products d)
              (filter (fun f => negb (orphan (f_user_id f))) (favorites d))
              (filter (fun c => negb (orphan (c_user_id c))) (cart_items d))
              (seq_users d) (seq_products d) (seq_favorites d)
              (seq_cart_items d) (foreign_keys d),
            mkRunResult 0 n)
      else Ok (with_users d us (seq_users d), mkRunResult 0 n)
  | InsertProduct name brand description price image_emoji sizes =>
      if sql_is_null name || sql_is_null brand || sql_is_null price then
        Err "SQLITE_CONSTRAINT: NOT NULL constraint failed"
      else
        let id := seq_products d + 1 in
        let row := mkProduct id name brand description price image_emoji
                             sizes now in
        Ok (with_products d (products d ++ [row]) id, mkRunResult id 1)
  end.

(** ** The promise wrappers of database.js *)

(** [dbRun(sql, params)]: rejects with the engine's error, resolves with
    [{ id, changes }]. *)
Definition dbRun (now : Z) (d : Database) (st : Statement)
  : Result (Database * RunResult) :=
  execute now d st.

(** [dbGet] resolves with the first row or [null], [dbAll] with the list
    of rows.  A SELECT over the tables of [initSQL] violates no
    constraint, so the queries below are total; rows that a handler only
    serialises are built as JSON objects right away. *)

(** The row of [authenticateToken].
    SELECT id, email, first_name, last_name, role, is_active
    FROM users WHERE id = ? *)
Record AuthUser : Type := mkAuthUser {
  au_id : Z;
  au_email : string;
  au_first_name : sqlval;
  au_last_name : sqlval;
  au_role : string;
  au_is_active : Z
}.

Definition auth_columns (u : User) : AuthUser :=
  mkAuthUser (u_id u) (u_email u) (u_first_name u) (u_last_name u)
             (u_role u) (u_is_active u).

Definition dbGet_auth_user (d : Database) (id : Z) : option AuthUser :=
  option_map auth_columns (find (user_has_id id) (users d)).

(** SELECT id FROM users WHERE email = ? *)
Definition dbGet_user_id_by_email (d : Database) (email : string)
  : option Z :=
  option_map u_id (find (user_has_email email) (users d)).

(** The row read back by the register handler.
    SELECT id, email, first_name, last_name, role FROM users WHERE id = ? *)
Record NewUser : Type := mkNewUser {
  nu_id : Z;
  nu_email : string;
  nu_first_name : sqlval;
  nu_last_name : sqlval;
  nu_role : string
}.

Definition new_user_columns (u : User) : NewUser :=
  mkNewUser (u_id u) (u_email u) (u_first_name u) (u_last_name u)
            (u_role u).

Definition dbGet_new_user (d : Database) (id : Z) : option NewUser :=
  option_map new_user_columns (find (user_has_id id) (users d)).

(** The row of the login handler; it carries every column of the list
    (the record has [created_at] besides, which the handler never reads).
    SELECT id, email, password, first_name, last_name, role, is_active
    FROM users WHERE email = ? *)
Definition dbGet_login_user (d : Database) (email : string) : option User :=
  find (user_has_email email) (users d).

Definition product_fields (p : Product) : list (string * json) :=
  [("id", JInt (p_id p));
   ("name", json_of_sqlval (p_name p));
   ("brand", json_of_sqlval (p_brand p));
   ("description", json_of_sqlval (p_description p));
   ("price", json_of_sqlval (p_price p));
   ("image_emoji", json_of_sqlval (p_image_emoji p));
   ("sizes", json_of_sqlval (p_sizes p));
   ("created_at", JInt (p_created_at p))].

(** SELECT * FROM products *)
Definition dbAll_products (d : Database) : list json :=
  map (fun p => JObj (product_fields p)) (products d).

(** SELECT * FROM products ORDER BY created_at DESC *)
Definition dbAll_products_newest_first (d : Database) : list json :=
  map (fun p => JObj (product_fields p))
      (order_by_desc p_created_at (products d)).

(** SELECT id FROM products WHERE name = ? *)
Definition dbGet_product_id_by_name (d : Database) (name : string)
  : option Z :=
  option_map p_id (find (product_has_name name) (products d)).

(** SELECT id FROM favorites WHERE user_id = ? AND product_id = ? *)
Definition dbGet_favorite_id (d : Database) (uid pid : Z) : option Z :=
  option_map f_id (find (favorite_of uid pid) (favorites d)).

(** SELECT id, quantity FROM cart_items
    WHERE user_id = ? AND product_id = ? *)
Definition dbGet_cart_item (d : Database) (uid pid : Z) : option (Z * Z) :=
  option_map (fun c => (c_id c, c_quantity c))
             (find (cart_item_of uid pid) (cart_items d)).

(** SELECT p.*, f.created_at as favorited_at
    FROM favorites f JOIN products p ON f.product_id = p.id
    WHERE f.user_id = ? ORDER BY f.created_at DESC

    The engine finds the rows of the user through the index of
    UNIQUE(user_id, product_id), that is by product id, and sorts
    them. *)
Definition dbAll_favorites (d : Database) (uid : Z) : list json :=
  flat_map
    (fun f =>
       map (fun p => JObj (product_fields p
                             ++ [("favorited_at", JInt (f_created_at f))]))
           (filter (product_has_id (f_product_id f)) (products d)))
    (order_by_desc f_created_at
       (index_order f_product_id
          (filter (fun f => f_user_id f =? uid) (favorites d)))).

(** SELECT p.*, c.quantity
    FROM cart_items c JOIN products p ON c.product_id = p.id
    WHERE c.user_id = ?

    There is no ORDER BY: the rows come as the engine finds them,
    through the index of UNIQUE(user_id, product_id), that is by
    product id. *)
Definition dbAll_cart (d : Database) (uid : Z) : list json :=
  flat_map
    (fun c =>
       map (fun p => JObj (product_fields p
                             ++ [("quantity", JInt (c_quantity c))]))
           (filter (product_has_id (c_product_id c)) (products d)))
    (index_order c_product_id
       (filter (fun c => c_user_id c =? uid) (cart_items d))).

(** SELECT id, email, first_name, last_name, role, is_active, created_at
    FROM users ORDER BY created_at DESC *)
Definition user_listing_fields (u : User) : list (string * json) :=
  [("id", JInt (u_id u));
   ("email", JStr (u_email u));
   ("first_name", json_of_sqlval (u_first_name u));
   ("last_name", json_of_sqlval (u_last_name u));
   ("role", JStr (u_role u));
   ("is_active", JInt (u_is_active u));
   ("created_at", JInt (u_created_at u))].

Definition dbAll_users (d : Database) : list json :=
  map (fun u => JObj (user_listing_fields u))
      (order_by_desc u_created_at (users d)).

(** The four COUNT( * ) queries of [getStats]. *)
Definition dbGet_count_users (d : Database) : Z :=
  count_if (fun _ => true) (users d).
Definition dbGet_count_admins (d : Database) : Z :=
  count_if (fun u => String.eqb (u_role u) "admin") (users d).
Definition dbGet_count_active (d : Database) : Z :=
  count_if (fun u => u_is_active u =? 1) (users d).
Definition dbGet_count_products (d : Database) : Z :=
  count_if (fun _ => true) (products d).

(** ** [initDatabase]

    The CREATE TABLE IF NOT EXISTS statements leave existing rows alone.
    The default administrator is inserted with INSERT OR IGNORE, which
    skips the row when its email is taken; the rowid of the skipped row
    is drawn before the conflict is seen and stays recorded in
    sqlite_sequence, so it is never given to a later row.  The three
    products are inserted with INSERT OR IGNORE as well, which on a
    table without a UNIQUE constraint inserts them at every start. *)
Definition insert_or_ignore_admin (now : Z) (hash : string) (d : Database)
  : Database :=
  let id := seq_users d + 1 in
  if existsb (user_has_email "admin@sneakzone.com") (users d) then
    with_users d (users d) id
  else
    with_users d
      (users d ++ [mkUser id "admin@sneakzone.com" hash (SqlText "Admin")
                          (SqlText "SneakZone") "admin" 1 now])
      id.

Definition insert_seed_product (now : Z) (d : Database)
           (row : string * string * string * Z * string * string)
  : Database :=
  let '(name, brand, description, price, emoji, sizes) := row in
  let id := seq_products d + 1 in
  with_products d
    (products d ++ [mkProduct id (SqlText name) (SqlText brand)
                              (SqlText description) (SqlInt price)
                              (SqlText emoji) (SqlText sizes) now])
    id.

Definition seed_products : list (string * string * string * Z * string * string) :=
  [("Air Jordan 1 Retro High", "NIKE", "Chicago - Rouge/Blanc/Noir", 179,
    "👟", "38-46");
   ("Yeezy Boost 350 V2", "ADIDAS", "Zebra - Blanc/Noir", 249, "🏃",
    "36-45");
   ("Air Max 90", "NIKE", "Triple White", 129, "⚡", "37-47")].

(* ================================================================== *)
(** * Third-party operations *)
(* ================================================================== *)

(** What the server calls in packages that are not part of the
    repository, and the files it finds beside it.  Randomness (the
    bcrypt salt, the CSRF secret and salt) is an argument. *)
Class Libs : Type := {
  (** bcryptjs: [hash(password, 12)] with the drawn salt, and
      [compare(password, hash)], both on strings. *)
  bcrypt_hash : string -> string -> string;
  bcrypt_compare : string -> string -> bool;
  (** express-validator, on the value of a body field. *)
  isEmail : option json -> bool;
  normalizeEmail : option json -> string;
  isLength : Z -> option Z -> option json -> bool;
  notEmpty : option json -> bool;
  (** [errors.array()] of a failed validation, from the body. *)
  validation_errors : json -> json;
  (** [decodeURIComponent]; [None] when it throws URIError. *)
  decodeURIComponent : string -> option string;
  (** node-sqlite3 and column affinity: the value stored in a TEXT or
      NUMERIC column for a bound JavaScript value that is neither
      [null]/[undefined] nor, for TEXT, a string. *)
  store_text : json -> sqlval;
  store_numeric : json -> sqlval;
  (** String conversion of a value that is not a string, in [ip + '-' +
      email]. *)
  js_to_string : json -> string;
  (** csrf (used by csurf): [tokens.create(secret)] with the drawn salt,
      and [tokens.verify(secret, token)] on a non-empty string. *)
  csrf_create : string -> string -> string;
  csrf_verify : string -> string -> bool;
  (** express-rate-limit, whose memory store differs between versions:
      the start of the window that a hit at time [now] opens, for
      windows of the given length.  It is the time of the hit where
      every key has windows of its own (version 7), and the last tick
      of the store's timer where all keys are reset together (versions
      up to 6); in both the hit falls into the window it opens. *)
  window_start : Z -> Z -> Z;
  window_start_le :
    forall window now,
      0 < window ->
      window_start window now <= now < window_start window now + window;
  (** The directory [public] beside server.js while the server runs:
      whether it holds a file of this name. *)
  public_file : string -> bool
}.

Section Server.

Context {L : Libs}.

Definition bind_text (v : option json) : sqlval :=
  match v with
  | None => SqlNull
  | Some JNull => SqlNull
  | Some (JStr s) => SqlText s
  | Some j => store_text j
  end.

Definition bind_numeric (v : option json) : sqlval :=
  match v with
  | None => SqlNull
  | Some JNull => SqlNull
  | Some j => store_numeric j
  end.

(** [bcrypt.hash(password, 12)] and [bcrypt.compare(password, hash)]
    reject with "Illegal arguments" unless the password is a string. *)
Definition bcrypt_hash_js (password : option json) (salt : string)
  : Result string :=
  match password with
  | Some (JStr p) => Ok (bcrypt_hash p salt)
  | _ => Err "Illegal arguments"
  end.

Definition bcrypt_compare_js (password : option json) (hash : string)
  : Result bool :=
  match password with
  | Some (JStr p) => Ok (bcrypt_compare p hash)
  | _ => Err "Illegal arguments"
  end.

Definition initDatabase (now : Z) (salt : string) (d : Database)
  : Database :=
  let adminHash := bcrypt_hash "#Adm1nSneakZone97!" salt in
  fold_left (insert_seed_product now) seed_products
            (insert_or_ignore_admin now adminHash d).

(* ================================================================== *)
(** * server.js: requests, sessions, responses *)
(* ================================================================== *)

(** The session object of express-session, with the two properties the
    server and csurf store in it. *)
Record Session : Type := mkSession {
  userId : option Z;
  csrfSecret : option string
}.

Definition empty_session : Session := mkSession None None.

(** A request as the middleware chain sees it after [express.json()].
    [req_path] is the list of path segments, percent-decoded once as
    Express does for route parameters.  [req_csrf_header] is the token
    found in the query string or in one of the four headers csurf reads.
    [req_now] is the clock, in seconds, [req_secret] and [req_salt] the
    random strings drawn while the request is served. *)
Record Request : Type := mkRequest {
  req_method : string;
  req_path : list string;
  req_body : json;
  req_ip : string;
  req_sid : string;
  req_csrf_header : option string;
  req_now : Z;
  req_secret : string;
  req_salt : string
}.

(** What a response carries: a JSON value, a file of the public
    directory, or the HTML page that Express's final handler writes for
    an error that no middleware of the application answers. *)
Inductive Body : Type :=
| JsonBody (j : json)
| FileBody (name : string)
| ErrorPage.

Record Response : Type := mkResponse {
  status : Z;
  body : Body
}.

(** [res.json(j)] and [res.status(code).json(j)]. *)
Definition json_ok (j : json) : Response := mkResponse 200 (JsonBody j).
Definition json_status (code : Z) (j : json) : Response :=
  mkResponse code (JsonBody j).

(** [{ success: false, message }] *)
Definition failure (message : string) : json :=
  JObj [("success", JBool false); ("message", JStr message)].

(** [{ success: true, message }] *)
Definition success (message : string) : json :=
  JObj [("success", JBool true); ("message", JStr message)].

(** What a handler leaves behind: the database, the session of the
    request and the response sent. *)
Record Outcome : Type := mkOutcome {
  out_db : Database;
  out_session : Session;
  out_response : Response
}.

(** ** Middleware *)

(** [authenticateToken]: the response it sends, or the row it stores in
    [req.user] before calling [next]. *)
Definition authenticateToken (d : Database) (s : Session)
  : Response + AuthUser :=
  match userId s with
  | None => inl (json_status 401 (failure "Non authentifié"))
  | Some id =>
      if id =? 0 then inl (json_status 401 (failure "Non authentifié"))
      else
        match dbGet_auth_user d id with
        | None =>
            inl (json_status 401
                   (failure "Utilisateur non trouvé ou désactivé"))
        | Some user =>
            if au_is_active user =? 0 then
              inl (json_status 401
                     (failure "Utilisateur non trouvé ou désactivé"))
            else inr user
        end
  end.

(** [requireAdmin]: the 403 it sends, or [None] when it calls [next]. *)
Definition requireAdmin (user : AuthUser) : option Response :=
  if String.eqb (au_role user) "admin" then None
  else Some (json_status 403 (failure "Accès administrateur requis")).

(** [handleValidationErrors], for a chain whose validators gave
    [valid]. *)
Definition handleValidationErrors (valid : bool) (b : json)
  : option Response :=
  if valid then None
  else Some (json_status 400
               (JObj [("success", JBool false);
                      ("message", JStr "Données invalides");
                      ("errors", validation_errors b)])).

(** A route behind [authenticateToken]. *)
Definition authenticated (handler : AuthUser -> Database -> Database * Response)
           (s : Session) (d : Database) : Outcome :=
  match authenticateToken d s with
  | inl r => mkOutcome d s r
  | inr user => let (d', r) := handler user d in mkOutcome d' s r
  end.

(** A route behind [authenticateToken, requireAdmin]. *)
Definition admin_only (handler : AuthUser -> Database -> Database * Response)
           (s : Session) (d : Database) : Outcome :=
  authenticated
    (fun user d0 =>
       match requireAdmin user with
       | Some r => (d0, r)
       | None => handler user d0
       end) s d.

(** ** Public routes *)

(** GET /api/products *)
Definition get_products (d : Database) : Response :=
  json_ok (JObj [("success", JBool true);
                 ("products", JArr (dbAll_products d))]).

(** The [user] object of the register and login responses. *)
Definition user_object (id : Z) (email : string) (first_name last_name : sqlval)
           (role : string) : json :=
  JObj [("id", JInt id);
        ("email", JStr email);
        ("firstName", json_of_sqlval first_name);
        ("lastName", json_of_sqlval last_name);
        ("role", JStr role)].

(** POST /api/auth/register *)
Definition register (r : Request) (s : Session) (d : Database) : Outcome :=
  let b := req_body r in
  let valid := isEmail (js_get b "email")
               && isLength 8 None (js_get b "password")
               && isLength 2 (Some 50) (js_get b "firstName")
               && isLength 2 (Some 50) (js_get b "lastName") in
  match handleValidationErrors valid b with
  | Some resp => mkOutcome d s resp
  | None =>
      let email := normalizeEmail (js_get b "email") in
      let error := json_status 500 (failure "Erreur création compte") in
      match dbGet_user_id_by_email d email with
      | Some _ =>
          mkOutcome d s
            (json_status 400 (failure "Un compte avec cet email existe déjà"))
      | None =>
          match bcrypt_hash_js (js_get b "password") (req_salt r) with
          | Err _ => mkOutcome d s error
          | Ok hashedPassword =>
              match dbRun (req_now r) d
                          (InsertUser email hashedPassword
                                      (bind_text (js_get b "firstName"))
                                      (bind_text (js_get b "lastName"))) with
              | Err _ => mkOutcome d s error
              | Ok (d', result) =>
                  let s' := mkSession (Some (run_id result)) (csrfSecret s) in
                  match dbGet_new_user d' (run_id result) with
                  | None => mkOutcome d' s' error
                  | Some newUser =>
                      mkOutcome d' s'
                        (json_ok
                           (JObj [("success", JBool true);
                                  ("message", JStr "Compte créé avec succès");
                                  ("user",
                                   user_object (nu_id newUser)
                                     (nu_email newUser)
                                     (nu_first_name newUser)
                                     (nu_last_name newUser)
                                     (nu_role newUser))]))
                  end
              end
          end
      end
  end.

(** POST /api/auth/login *)
Definition login (r : Request) (s : Session) (d : Database) : Outcome :=
  let b := req_body r in
  let valid := isEmail (js_get b "email") && notEmpty (js_get b "password") in
  match handleValidationErrors valid b with
  | Some resp => mkOutcome d s resp
  | None =>
      let email := normalizeEmail (js_get b "email") in
      match dbGet_login_user d email with
      | None =>
          mkOutcome d s
            (json_status 401 (failure "Email ou mot de passe incorrect"))
      | Some user =>
          if u_is_active user =? 0 then
            mkOutcome d s (json_status 401 (failure "Compte désactivé"))
          else
            match bcrypt_compare_js (js_get b "password") (u_password user)
            with
            | Err _ =>
                mkOutcome d s (json_status 500 (failure "Erreur connexion"))
            | Ok false =>
                mkOutcome d s
                  (json_status 401
                     (failure "Email ou mot de passe incorrect"))
            | Ok true =>
                mkOutcome d (mkSession (Some (u_id user)) (csrfSecret s))
                  (json_ok
                     (JObj [("success", JBool true);
                            ("message", JStr "Connexion réussie");
                            ("user",
                             user_object (u_id user) (u_email user)
                               (u_first_name user) (u_last_name user)
                               (u_role user))]))
            end
      end
  end.

Definition json_of_auth_user (u : AuthUser) : json :=
  JObj [("id", JInt (au_id u));
        ("email", JStr (au_email u));
        ("first_name", json_of_sqlval (au_first_name u));
        ("last_name", json_of_sqlval (au_last_name u));
        ("role", JStr (au_role u));
        ("is_active", JInt (au_is_active u))].

(** GET /api/auth/verify *)
Definition verify : Session -> Database -> Outcome :=
  authenticated
    (fun user d =>
       (d, json_ok (JObj [("success", JBool true);
                          ("user", json_of_auth_user user)]))).

(** POST /api/auth/logout: the session is destroyed and the cookie
    cleared. *)
Definition logout (s : Session) (d : Database) : Outcome :=
  mkOutcome d empty_session (json_ok (success "Déconnexion réussie")).

(** ** User routes *)

(** GET /api/users/favorites *)
Definition get_favorites : Session -> Database -> Outcome :=
  authenticated
    (fun user d =>
       (d, json_ok (JObj [("success", JBool true);
                          ("favorites", JArr (dbAll_favorites d (au_id user)))]))).

(** The handler of POST /api/users/favorites/:productName, with
    [req.user] set. *)
Definition toggle_favorite (now : Z) (productName : string)
           (user : AuthUser) (d : Database) : Database * Response :=
  let error := json_status 500 (failure "Erreur gestion favoris") in
  match decodeURIComponent productName with
  | None => (d, error)
  | Some decodedProductName =>
      match dbGet_product_id_by_name d decodedProductName with
      | None => (d, json_status 404 (failure "Produit non trouvé"))
      | Some product_id =>
          match dbGet_favorite_id d (au_id user) product_id with
          | Some favorite_id =>
              match dbRun now d (DeleteFavorite favorite_id) with
              | Err _ => (d, error)
              | Ok (d', _) =>
                  (d', json_ok
                         (JObj [("success", JBool true);
                                ("message", JStr "Produit retiré des favoris");
                                ("isFavorite", JBool false)]))
              end
          | None =>
              match dbRun now d (InsertFavorite (au_id user) product_id) with
              | Err _ => (d, error)
              | Ok (d', _) =>
                  (d', json_ok
                         (JObj [("success", JBool true);
                                ("message", JStr "Produit ajouté aux favoris");
                                ("isFavorite", JBool true)]))
              end
          end
      end
  end.

(** GET /api/users/cart *)
Definition get_cart : Session -> Database -> Outcome :=
  authenticated
    (fun user d =>
       (d, json_ok (JObj [("success", JBool true);
                          ("cartItems", JArr (dbAll_cart d (au_id user)))]))).

(** The handler of POST /api/users/cart/:productName. *)
Definition add_to_cart (now : Z) (productName : string)
           (user : AuthUser) (d : Database) : Database * Response :=
  let error := json_status 500 (failure "Erreur ajout panier") in
  match decodeURIComponent productName with
  | None => (d, error)
  | Some decodedProductName =>
      match dbGet_product_id_by_name d decodedProductName with
      | None => (d, json_status 404 (failure "Produit non trouvé"))
      | Some product_id =>
          let statement :=
            match dbGet_cart_item d (au_id user) product_id with
            | Some (item_id, _) => IncrementCartItem item_id
            | None => InsertCartItem (au_id user) product_id
            end in
          match dbRun now d statement with
          | Err _ => (d, error)
          | Ok (d', _) => (d', json_ok (success "Produit ajouté au panier"))
          end
      end
  end.

(** The handler of DELETE /api/users/cart/:productName. *)
Definition remove_from_cart (now : Z) (productName : string)
           (user : AuthUser) (d : Database) : Database * Response :=
  let error := json_status 500 (failure "Erreur suppression panier") in
  match decodeURIComponent productName with
  | None => (d, error)
  | Some decodedProductName =>
      match dbGet_product_id_by_name d decodedProductName with
      | None => (d, json_status 404 (failure "Produit non trouvé"))
      | Some product_id =>
          match dbRun now d (DeleteCartItem (au_id user) product_id) with
          | Err _ => (d, error)
          | Ok (d', _) => (d', json_ok (success "Produit retiré du panier"))
          end
      end
  end.

(* ================================================================== *)
(** * admin.js: [AdminFunctions] *)
(* ================================================================== *)

Definition getUsers (d : Database) : json :=
  JObj [("success", JBool true); ("users", JArr (dbAll_users d))].

Definition getStats (d : Database) : json :=
  let totalUsers := dbGet_count_users d in
  let totalAdmins := dbGet_count_admins d in
  let activeUsers := dbGet_count_active d in
  let totalProducts := dbGet_count_products d in
  JObj [("success", JBool true);
        ("stats",
         JObj [("totalUsers", JInt totalUsers);
               ("totalAdmins", JInt totalAdmins);
               ("activeUsers", JInt activeUsers);
               ("totalProducts", JInt totalProducts);
               ("totalRegularUsers", JInt (totalUsers - totalAdmins))])].

(** The [validUpdates] object built from the request body. *)
Definition validUpdates (updates : json) : list Assignment :=
  let role := js_get updates "role" in
  (if js_truthy role && includes_user_admin role then
     match role with
     | Some (JStr r) => [SetRole r]
     | _ => []
     end
   else [])
  ++
  match js_get updates "is_active" with
  | Some (JBool flag) => [SetIsActive flag]
  | _ => []
  end.

(** [updateUser(userId, updates)]; [userId] is the route parameter, a
    string, pushed last onto the bound values. *)
Definition updateUser (now : Z) (userId : string) (updates : json)
           (d : Database) : Database * json :=
  match validUpdates updates with
  | [] => (d, failure "Aucune modification valide")
  | sets =>
      match dbRun now d (UpdateUser sets (SqlText userId)) with
      | Err _ => (d, failure "Erreur modification")
      | Ok (d', _) => (d', success "Utilisateur modifié avec succès")
      end
  end.

Definition deleteUser (now : Z) (userId : string) (d : Database)
  : Database * json :=
  match dbRun now d (DeleteUser (SqlText userId)) with
  | Err _ => (d, failure "Erreur suppression")
  | Ok (d', _) => (d', success "Utilisateur supprimé avec succès")
  end.

Definition addProduct (now : Z) (productData : json) (d : Database)
  : Database * json :=
  match dbRun now d
              (InsertProduct (bind_text (js_get productData "name"))
                             (bind_text (js_get productData "brand"))
                             (bind_text (js_get productData "description"))
                             (bind_numeric (js_get productData "price"))
                             (bind_text (js_get productData "image_emoji"))
                             (bind_text (js_get productData "sizes"))) with
  | Err _ => (d, failure "Erreur ajout produit")
  | Ok (d', _) => (d', success "Produit ajouté avec succès")
  end.

Definition getAllProducts (d : Database) : json :=
  JObj [("success", JBool true);
        ("products", JArr (dbAll_products_newest_first d))].

(** ** Admin routes of server.js *)

(** [parseInt(userId) === req.user.id] *)
Definition is_own_id (userId : string) (user : AuthUser) : bool :=
  match parseInt userId with
  | Some n => n =? au_id user
  | None => false
  end.

(** The handler of PUT /api/admin/users/:userId. *)
Definition put_admin_user (now : Z) (userId : string) (b : json)
           (user : AuthUser) (d : Database) : Database * Response :=
  if is_own_id userId user then
    (d, json_status 400 (failure "Impossible de modifier son propre compte"))
  else
    let (d', result) := updateUser now userId b d in
    (d', json_ok result).

(** The handler of DELETE /api/admin/users/:userId. *)
Definition delete_admin_user (now : Z) (userId : string)
           (user : AuthUser) (d : Database) : Database * Response :=
  if is_own_id userId user then
    (d, json_status 400 (failure "Impossible de supprimer son propre compte"))
  else
    let (d', result) := deleteUser now userId d in
    (d', json_ok result).

(** POST /api/admin/products *)
Definition post_admin_product (now : Z) (b : json)
           (user : AuthUser) (d : Database) : Database * Response :=
  let (d', result) := addProduct now b d in
  (d', json_ok result).

(* ================================================================== *)
(** * server.js: rate limiting *)
(* ================================================================== *)

(** The memory store of express-rate-limit: for a key, the hits counted
    in its window and the time at which the window ends.  The middleware
    counts the request, answers 429 with the configured message when the
    count exceeds [max], and otherwise calls [next]; with
    [skipSuccessfulRequests] the hit is taken back when the response
    finishes with a status below 400.

    A window lasts [windowMs] milliseconds.  The clock of a request
    counts seconds, so a window lasts [windowMs / 1000] of them.  A hit
    that finds no window of its key, or one that has ended, opens a new
    window, which starts at [window_start] and is counted from 1. *)
Definition Hits : Type := list (string * (N * Z)).

(** The hits of [key] that count at time [now]. *)
Definition hits_of (now : Z) (key : string) (h : Hits) : N :=
  match assoc key h with
  | Some (n, resetTime) => if now <? resetTime then n else 0%N
  | None => 0%N
  end.

(** The end of the window in which a hit of [key] at time [now] is
    counted. *)
Definition reset_time (window now : Z) (key : string) (h : Hits) : Z :=
  match assoc key h with
  | Some (n, resetTime) =>
      if now <? resetTime then resetTime
      else window_start window now + window
  | None => window_start window now + window
  end.

Definition set_hits (key : string) (entry : N * Z) (h : Hits) : Hits :=
  (key, entry) :: filter (fun e => negb (String.eqb (fst e) key)) h.

Definition increment (window now : Z) (key : string) (h : Hits) : Hits * N :=
  let totalHits := (hits_of now key h + 1)%N in
  (set_hits key (totalHits, reset_time window now key h) h, totalHits).

Definition decrement (key : string) (h : Hits) : Hits :=
  match assoc key h with
  | Some (n, resetTime) =>
      if (n =? 0)%N then h else set_hits key ((n - 1)%N, resetTime) h
  | None => h
  end.

Record LimiterOptions : Type := mkLimiterOptions {
  windowMs : Z;
  max : N;
  message : json;
  skipSuccessfulRequests : bool
}.

Definition authLimiter : LimiterOptions :=
  mkLimiterOptions
    (15 * 60 * 1000) 10
    (failure "Trop de tentatives de connexion. Réessayez dans 15 minutes.")
    true.

Definition apiLimiter : LimiterOptions :=
  mkLimiterOptions (15 * 60 * 1000) 200
                   (failure "Trop de requêtes. Réessayez plus tard.")
                   false.

(** The middleware around the rest of the chain [next], which runs on a
    state of type [S], for a request that arrives at time [now]. *)
Definition rateLimit {S : Type} (options : LimiterOptions) (key : string)
           (now : Z) (next : S -> S * Response) (h : Hits) (st : S)
  : Hits * S * Response :=
  let (h1, totalHits) := increment (windowMs options / 1000) now key h in
  if (max options <? totalHits)%N then
    (h1, st, json_status 429 (message options))
  else
    let (st', resp) := next st in
    (if skipSuccessfulRequests options && (status resp <? 400)
     then decrement key h1 else h1,
     st', resp).

Definition js_string (v : json) : string :=
  match v with
  | JStr s => s
  | _ => js_to_string v
  end.

(** The [keyGenerator] of [authLimiter]; the body is the one parsed by
    [express.json()], before any sanitizer runs. *)
Definition auth_key (r : Request) : string :=
  let b := req_body r in
  match js_get b "email" with
  | Some email =>
      if js_truthy (Some b) && js_typeof_object b && js_truthy (Some email)
      then req_ip r ++ "-" ++ js_string email
      else req_ip r ++ "-unknown"
  | None => req_ip r ++ "-unknown"
  end.

(** The default key of [apiLimiter]. *)
Definition api_key (r : Request) : string := req_ip r.

(* ================================================================== *)
(** * server.js: CSRF protection *)
(* ================================================================== *)

(** The token csurf looks for: [body._csrf], then the query string and
    the headers. *)
Definition csrf_value (r : Request) : option json :=
  if js_truthy (js_get (req_body r) "_csrf")
  then js_get (req_body r) "_csrf"
  else option_map JStr (req_csrf_header r).

(** [tokens.verify(secret, token)]: false unless both are non-empty
    strings. *)
Definition tokens_verify (secret : string) (token : option json) : bool :=
  match token with
  | Some (JStr t) =>
      negb (String.eqb secret "") && negb (String.eqb t "")
      && csrf_verify secret t
  | _ => false
  end.

(** The secret csurf works with: the one of the session, or a new one
    which it stores in the session. *)
Definition session_secret (r : Request) (s : Session) : string :=
  match csrfSecret s with
  | Some secret => if String.eqb secret "" then req_secret r else secret
  | None => req_secret r
  end.

Definition ignored_method (m : string) : bool :=
  String.eqb m "GET" || String.eqb m "HEAD" || String.eqb m "OPTIONS".

(** [csrfProtection = csrf({ cookie: false })]: the session with its
    secret, and whether [next] is called without error; otherwise the
    error has code EBADCSRFTOKEN. *)
Definition csrfProtection (r : Request) (s : Session) : Session * bool :=
  let secret := session_secret r s in
  (mkSession (userId s) (Some secret),
   ignored_method (req_method r) || tokens_verify secret (csrf_value r)).

(** The guard mounted on /api:
    [if (['GET', 'HEAD', 'OPTIONS'].includes(req.method)) return next();
     csrfProtection(req, res, next);] *)
Definition csrf_guard (r : Request) (s : Session) : Session * bool :=
  if ignored_method (req_method r) then (s, true)
  else csrfProtection r s.

(** The error handler at the end of the chain, on EBADCSRFTOKEN. *)
Definition csrf_error_response : Response :=
  json_status 403 (failure "Token CSRF invalide").

(** GET /api/csrf-token, behind [csrfProtection]. *)
Definition get_csrf_token (r : Request) (s : Session) (d : Database)
  : Outcome :=
  let (s', passed) := csrfProtection r s in
  if passed then
    mkOutcome d s'
      (json_ok (JObj [("success", JBool true);
                      ("csrfToken",
                       JStr (csrf_create (session_secret r s') (req_salt r)))]))
  else mkOutcome d s' csrf_error_response.

(* ================================================================== *)
(** * server.js: routing *)
(* ================================================================== *)

Definition lower_ascii (c : ascii) : ascii :=
  let n := ascii_code c in
  if (65 <=? n) && (n <=? 90) then ascii_of_N (Z.to_N (n + 32)) else c.

Fixpoint lower (s : string) : string :=
  match s with
  | EmptyString => EmptyString
  | String c r => String (lower_ascii c) (lower r)
  end.

(** A path pattern: literal segments (matched without regard to case, as
    Express does by default) and named parameters, which take one
    non-empty segment. *)
Inductive Segment : Type :=
| Lit (s : string)
| Param.

(** The parameters captured when the whole path matches; one trailing
    slash is allowed. *)
Fixpoint match_path (pattern : list Segment) (path : list string)
  : option (list string) :=
  match pattern, path with
  | [], [] => Some []
  | [], [last] => if String.eqb last "" then Some [] else None
  | Lit s :: pattern', seg :: path' =>
      if String.eqb (lower seg) s then match_path pattern' path' else None
  | Param :: pattern', seg :: path' =>
      if String.eqb seg "" then None
      else option_map (cons seg) (match_path pattern' path')
  | _, _ => None
  end.

(** [app.use(prefix, ...)]: the path starts with the segments of the
    prefix. *)
Fixpoint mounted_at (prefix path : list string) : bool :=
  match prefix, path with
  | [], _ => true
  | p :: prefix', seg :: path' =>
      String.eqb (lower seg) p && mounted_at prefix' path'
  | _ :: _, [] => false
  end.

(** [app.get] also serves HEAD. *)
Definition verb_matches (verb method : string) : bool :=
  String.eqb method verb
  || (String.eqb verb "GET" && String.eqb method "HEAD").

Definition first_param (params : list string) : string :=
  match params with
  | p :: _ => p
  | [] => ""
  end.

Record Route : Type := mkRoute {
  route_verb : string;
  route_pattern : list Segment;
  route_handler : list string -> Request -> Session -> Database -> Outcome
}.

(** The routes of server.js, in the order of registration. *)
Definition routes : list Route :=
  [ mkRoute "GET" [Lit "api"; Lit "products"]
      (fun _ r s d => mkOutcome d s (get_products d));
    mkRoute "POST" [Lit "api"; Lit "auth"; Lit "register"]
      (fun _ r s d => register r s d);
    mkRoute "POST" [Lit "api"; Lit "auth"; Lit "login"]
      (fun _ r s d => login r s d);
    mkRoute "GET" [Lit "api"; Lit "auth"; Lit "verify"]
      (fun _ r s d => verify s d);
    mkRoute "POST" [Lit "api"; Lit "auth"; Lit "logout"]
      (fun _ r s d => logout s d);
    mkRoute "GET" [Lit "api"; Lit "users"; Lit "favorites"]
      (fun _ r s d => get_favorites s d);
    mkRoute "POST" [Lit "api"; Lit "users"; Lit "favorites"; Param]
      (fun ps r s d =>
         authenticated (toggle_favorite (req_now r) (first_param ps)) s d);
    mkRoute "GET" [Lit "api"; Lit "users"; Lit "cart"]
      (fun _ r s d => get_cart s d);
    mkRoute "POST" [Lit "api"; Lit "users"; Lit "cart"; Param]
      (fun ps r s d =>
         authenticated (add_to_cart (req_now r) (first_param ps)) s d);
    mkRoute "DELETE" [Lit "api"; Lit "users"; Lit "cart"; Param]
      (fun ps r s d =>
         authenticated (remove_from_cart (req_now r) (first_param ps)) s d);
    mkRoute "GET" [Lit "api"; Lit "admin"; Lit "users"]
      (fun _ r s d => admin_only (fun _ d0 => (d0, json_ok (getUsers d0))) s d);
    mkRoute "GET" [Lit "api"; Lit "admin"; Lit "stats"]
      (fun _ r s d => admin_only (fun _ d0 => (d0, json_ok (getStats d0))) s d);
    mkRoute "PUT" [Lit "api"; Lit "admin"; Lit "users"; Param]
      (fun ps r s d =>
         admin_only
           (put_admin_user (req_now r) (first_param ps) (req_body r)) s d);
    mkRoute "DELETE" [Lit "api"; Lit "admin"; Lit "users"; Param]
      (fun ps r s d =>
         admin_only (delete_admin_user (req_now r) (first_param ps)) s d);
    mkRoute "GET" [Lit "api"; Lit "admin"; Lit "products"]
      (fun _ r s d =>
         admin_only (fun _ d0 => (d0, json_ok (getAllProducts d0))) s d);
    mkRoute "POST" [Lit "api"; Lit "admin"; Lit "products"]
      (fun _ r s d =>
         admin_only (post_admin_product (req_now r) (req_body r)) s d) ].

Fixpoint dispatch (table : list Route) (r : Request) (s : Session)
         (d : Database) : option Outcome :=
  match table with
  | [] => None
  | route :: rest =>
      if verb_matches (route_verb route) (req_method r) then
        match match_path (route_pattern route) (req_path r) with
        | Some params => Some (route_handler route params r s d)
        | None => dispatch rest r s d
        end
      else dispatch rest r s d
  end.

(** [express.static] on the public directory, which holds files and no
    directory: it answers GET and HEAD for a file that is there, with
    index.html for the directory itself, passes over names that start
    with a dot, and calls [next] otherwise. *)
Definition static_file (r : Request) : option string :=
  if String.eqb (req_method r) "GET" || String.eqb (req_method r) "HEAD" then
    let name :=
      match req_path r with
      | [] => Some "index.html"
      | [name] => Some (if String.eqb name "" then "index.html" else name)
      | _ => None
      end in
    match name with
    | Some (String c rest) =>
        if negb (Ascii.eqb c ".") && public_file (String c rest)
        then name else None
    | _ => None
    end
  else None.

(** [res.sendFile] of public/index.html.  When the file is missing the
    error goes to [next]; the error handler of server.js stands before
    this middleware and is not reached, so Express answers with its own
    page and the status 404 of the error. *)
Definition send_index : Response :=
  if public_file "index.html" then mkResponse 200 (FileBody "index.html")
  else mkResponse 404 ErrorPage.

(** The last middleware: [req.path.startsWith('/api/')]. *)
Definition spa_route (r : Request) : Response :=
  match req_path r with
  | first :: _ :: _ =>
      if String.eqb first "api" then
        json_status 404 (failure "Route API non trouvée")
      else send_index
  | _ => send_index
  end.

(** The chain below the session middleware: the token route, the CSRF
    guard of /api, static files, the routes, the fallback; a CSRF error
    skips to the error handler. *)
Definition serve (r : Request) (s : Session) (d : Database) : Outcome :=
  if verb_matches "GET" (req_method r)
     && match match_path [Lit "api"; Lit "csrf-token"] (req_path r) with
        | Some _ => true
        | None => false
        end
  then get_csrf_token r s d
  else
    let (s1, passed) :=
      if mounted_at ["api"] (req_path r) then csrf_guard r s else (s, true) in
    if passed then
      match static_file r with
      | Some name => mkOutcome d s1 (mkResponse 200 (FileBody name))
      | None =>
          match dispatch routes r s1 d with
          | Some o => o
          | None => mkOutcome d s1 (spa_route r)
          end
      end
    else mkOutcome d s1 csrf_error_response.

(** ** The server process *)

(** The database file and the three memory stores. *)
Record AppState : Type := mkAppState {
  db : Database;
  sessions : list (string * Session);
  auth_hits : Hits;
  api_hits : Hits
}.

Definition load_session (sid : string) (store : list (string * Session))
  : Session :=
  match assoc sid store with
  | Some s => s
  | None => empty_session
  end.

(** [saveUninitialized: false]: a session without content is not
    kept. *)
Definition save_session (sid : string) (s : Session)
           (store : list (string * Session)) : list (string * Session) :=
  let others := filter (fun e => negb (String.eqb (fst e) sid)) store in
  match userId s, csrfSecret s with
  | None, None => others
  | _, _ => (sid, s) :: others
  end.

(** The session middleware around [serve]. *)
Definition with_session (r : Request)
           (st : Database * list (string * Session))
  : (Database * list (string * Session)) * Response :=
  let (d, store) := st in
  let o := serve r (load_session (req_sid r) store) d in
  ((out_db o, save_session (req_sid r) (out_session o) store),
   out_response o).

(** [app.use('/api', apiLimiter)] around the session middleware. *)
Definition with_api_limiter (r : Request)
           (st : Hits * (Database * list (string * Session)))
  : (Hits * (Database * list (string * Session))) * Response :=
  let (h, inner) := st in
  if mounted_at ["api"] (req_path r) then
    let '(h', inner', resp) :=
      rateLimit apiLimiter (api_key r) (req_now r) (with_session r) h inner in
    ((h', inner'), resp)
  else
    let (inner', resp) := with_session r inner in
    ((h, inner'), resp).

(** The whole chain on one request. *)
Definition app (r : Request) (st : AppState) : AppState * Response :=
  let inner := (api_hits st, (db st, sessions st)) in
  let '(ah, (ph, (d, store)), resp) :=
    if mounted_at ["api"; "auth"; "login"] (req_path r)
       || mounted_at ["api"; "auth"; "register"] (req_path r)
    then rateLimit authLimiter (auth_key r) (req_now r) (with_api_limiter r)
                   (auth_hits st) inner
    else
      let (inner', resp) := with_api_limiter r inner in
      (auth_hits st, inner', resp) in
  (mkAppState d store ah ph, resp).

(** What happens to the server: a request is served, or the process is
    started again ([startServer]: [initDatabase] on the database file,
    empty memory stores). *)
Inductive Event : Type :=
| Serve (r : Request)
| Start (now : Z) (salt : string).

Definition step (st : AppState) (e : Event) : AppState :=
  match e with
  | Serve r => fst (app r st)
  | Start now salt => mkAppState (initDatabase now salt (db st)) [] [] []
  end.

Definition run (st : AppState) (events : list Event) : AppState :=
  fold_left step events st.

(** The responses of the requests of a run, in order. *)
Fixpoint responses (st : AppState) (events : list Event) : list Response :=
  match events with
  | [] => []
  | e :: rest =>
      match e with
      | Serve r => [snd (app r st)]
      | _ => []
      end ++ responses (step st e) rest
  end.

Definition installed : AppState := mkAppState empty_database [] [] [].

(** The states of a server that was started on a fresh database file. *)
Definition reachable (st : AppState) : Prop :=
  exists now salt events, st = run installed (Start now salt :: events).

End Server.

(* ================================================================== *)
(** * public/app.js: [SecurityManager.sanitizeInput] *)
(* ================================================================== *)

(** In the browser a string is the sequence of its UTF-16 code units;
    the regular expressions of [sanitizeInput] have no [u] flag and work
    on code units.  [units_of] gives the code units of an ASCII
    literal. *)
Definition units_of (s : string) : list Z :=
  map ascii_code (list_ascii_of_string s).

(** Canonicalisation under the [i] flag, on the code units that can
    match an ASCII character of a pattern: a code unit from 128 on is
    never canonicalised to one below 128, an ASCII letter is
    canonicalised to its upper case. *)
Definition upper_unit (c : Z) : Z :=
  if (97 <=? c) && (c <=? 122) then c - 32 else c.

(** The rest of [s] after a case-insensitive match of the literal
    [pattern] at its start. *)
Fixpoint prefix_ci (pattern s : list Z) : option (list Z) :=
  match pattern, s with
  | [], _ => Some s
  | p :: pattern', c :: s' =>
      if upper_unit c =? upper_unit p then prefix_ci pattern' s' else None
  | _ :: _, [] => None
  end.

(** [\w] *)
Definition is_word (c : Z) : bool :=
  ((48 <=? c) && (c <=? 57)) || ((65 <=? c) && (c <=? 90)) || (c =? 95)
  || ((97 <=? c) && (c <=? 122)).

Fixpoint skip_word (s : list Z) : list Z :=
  match s with
  | c :: s' => if is_word c then skip_word s' else s
  | [] => []
  end.

(** [/on\w+=/i] at the start of [s]: [\w+] takes every word character
    that follows, and [=], which is none, has to come next. *)
Definition match_handler (s : list Z) : option (list Z) :=
  match prefix_ci (units_of "on") s with
  | Some (c :: rest) =>
      if is_word c then
        match skip_word rest with
        | e :: rest' => if e =? 61 then Some rest' else None
        | [] => None
        end
      else None
  | _ => None
  end.

(** A character class at the start of [s]. *)
Definition match_class (class : Z -> bool) (s : list Z) : option (list Z) :=
  match s with
  | c :: s' => if class c then Some s' else None
  | [] => None
  end.

(** [/[<>]/] *)
Definition is_angle (c : Z) : bool := (c =? 60) || (c =? 62).

(** [/[\x00-\x1f\x7f-\x9f]/] *)
Definition is_control (c : Z) : bool :=
  ((0 <=? c) && (c <=? 31)) || ((127 <=? c) && (c <=? 159)).

(** [s.replace(re, '')] for a regular expression with the [g] flag that
    matches no empty string: the matches are found from left to right,
    each search starting where the last match ended.  [matcher s] is the
    rest of [s] after a match at its start. *)
Fixpoint remove_matches (fuel : nat) (matcher : list Z -> option (list Z))
         (s : list Z) : list Z :=
  match fuel with
  | O => s
  | S fuel' =>
      match s with
      | [] => []
      | c :: s' =>
          match matcher s with
          | Some rest => remove_matches fuel' matcher rest
          | None => c :: remove_matches fuel' matcher s'
          end
      end
  end.

Definition replace_all (matcher : list Z -> option (list Z)) (s : list Z)
  : list Z :=
  remove_matches (List.length s) matcher s.

(** WhiteSpace and LineTerminator of ECMAScript, which [trim] removes at
    both ends. *)
Definition is_white_space (c : Z) : bool :=
  ((9 <=? c) && (c <=? 13)) || (c =? 32) || (c =? 160) || (c =? 5760)
  || ((8192 <=? c) && (c <=? 8202)) || (c =? 8232) || (c =? 8233)
  || (c =? 8239) || (c =? 8287) || (c =? 12288) || (c =? 65279).

Fixpoint trim_start (s : list Z) : list Z :=
  match s with
  | c :: s' => if is_white_space c then trim_start s' else s
  | [] => []
  end.

Definition trim (s : list Z) : list Z :=
  rev (trim_start (rev (trim_start s))).

(** [sanitizeInput(input)] for a string [input] (any other value is
    returned as it is). *)
Definition sanitizeInput (input : list Z) : list Z :=
  trim
    (replace_all (match_class is_control)
       (replace_all (prefix_ci (units_of "vbscript:"))
          (replace_all (prefix_ci (units_of "data:"))
             (replace_all match_handler
                (replace_all (prefix_ci (units_of "javascript:"))
                   (replace_all (match_class is_angle) input)))))).

(** [t] is [s] with some code units left out. *)
Inductive Subsequence : list Z -> list Z -> Prop :=
| subsequence_nil : Subsequence [] []
| subsequence_skip c t s : Subsequence t s -> Subsequence t (c :: s)
| subsequence_keep c t s : Subsequence t s -> Subsequence (c :: t) (c :: s).

(** Whether the literal occurs in [s], case-insensitively. *)
Fixpoint occurs_ci (pattern s : list Z) : bool :=
  match prefix_ci pattern s with
  | Some _ => true
  | None =>
      match s with
      | _ :: s' => occurs_ci pattern s'
      | [] => false
      end
  end.

(** A matcher that answers with a suffix of the string it is given. *)
Definition cuts (matcher : list Z -> option (list Z)) : Prop :=
  forall s rest, matcher s = Some rest -> exists pre, s = (pre ++ rest)%list.

(* ================================================================== *)
(** * Notions used in the statements *)
(* ================================================================== *)

(** ** Constraints of the schema as predicates on a database value *)

(** PRIMARY KEY AUTOINCREMENT: rowids are distinct and none exceeds the
    table's entry in [sqlite_sequence]. *)
Definition rowids_ok {A : Type} (rowid : A -> Z) (sequence : Z) (rows : list A)
  : Prop :=
  NoDup (map rowid rows) /\ Forall (fun x => rowid x <= sequence) rows.

(** UNIQUE(user_id, product_id). *)
Definition unique_pairs {A : Type} (of_pair : Z -> Z -> A -> bool)
           (rows : list A) : Prop :=
  forall uid pid, (List.length (filter (of_pair uid pid) rows) <= 1)%nat.

Record well_formed (d : Database) : Prop := mkWellFormed {
  wf_users : rowids_ok u_id (seq_users d) (users d);
  wf_emails : NoDup (map u_email (users d));
  wf_roles : Forall (fun u => role_check u = true) (users d);
  wf_products : rowids_ok p_id (seq_products d) (products d);
  wf_favorites : rowids_ok f_id (seq_favorites d) (favorites d);
  wf_favorite_pairs : unique_pairs favorite_of (favorites d);
  wf_cart_items : rowids_ok c_id (seq_cart_items d) (cart_items d);
  wf_cart_pairs : unique_pairs cart_item_of (cart_items d)
}.

(** A favorites or cart row whose user, respectively product, is not in
    its table. *)
Definition user_exists (d : Database) (uid : Z) : bool :=
  existsb (user_has_id uid) (users d).
Definition product_exists (d : Database) (pid : Z) : bool :=
  existsb (product_has_id pid) (products d).

Definition dangling_favorite (d : Database) (f : Favorite) : bool :=
  negb (user_exists d (f_user_id f) && product_exists d (f_product_id f)).
Definition dangling_cart_item (d : Database) (c : CartItem) : bool :=
  negb (user_exists d (c_user_id c) && product_exists d (c_product_id c)).

(** No cart row with a quantity below 1. *)
Definition quantities_positive (d : Database) : Prop :=
  Forall (fun c => 1 <= c_quantity c) (cart_items d).

(** The three properties that every step keeps. *)
Definition db_invariant (d : Database) : Prop :=
  well_formed d /\ quantities_positive d /\ foreign_keys d = false.

(** One step of the database: nothing, or one statement that the engine
    accepted. *)
Definition db_transition (d d' : Database) : Prop :=
  d' = d \/ exists now st res, execute now d st = Ok (d', res).

(** The status codes the routes and the chain answer with. *)
Definition handler_status (code : Z) : Prop :=
  In code [200; 400; 401; 403; 404; 500].

(** ** The whitelist of the user update, in the words of the
    specification: a role that is ['user'] or ['admin'], an active flag
    that is a boolean. *)
Definition requested_role (b : json) : option string :=
  match js_get b "role" with
  | Some (JStr r) =>
      if String.eqb r "user" || String.eqb r "admin" then Some r else None
  | _ => None
  end.

Definition requested_active (b : json) : option bool :=
  match js_get b "is_active" with
  | Some (JBool flag) => Some flag
  | _ => None
  end.

(** The row with at most these two columns replaced. *)
Definition with_role_and_active (role : option string) (active : option bool)
           (u : User) : User :=
  mkUser (u_id u) (u_email u) (u_password u) (u_first_name u)
         (u_last_name u)
         (match role with Some r => r | None => u_role u end)
         (match active with
          | Some flag => if flag then 1 else 0
          | None => u_is_active u
          end)
         (u_created_at u).

(** ** Databases that differ in stored password hashes only *)

Definition without_password (u : User) : User :=
  mkUser (u_id u) (u_email u) "" (u_first_name u) (u_last_name u)
         (u_role u) (u_is_active u) (u_created_at u).

Definition without_passwords (d : Database) : Database :=
  with_users d (map without_password (users d)) (seq_users d).

Definition same_but_passwords (d1 d2 : Database) : Prop :=
  without_passwords d1 = without_passwords d2.

(** The engine's answer with the hashes and the message of the error
    left out. *)
Definition hashless_result (res : Result (Database * RunResult))
  : option (Database * RunResult) :=
  match res with
  | Ok (d, r) => Some (without_passwords d, r)
  | Err _ => None
  end.

(** Two runs of a route are related when they answer the same. *)
Definition same_response (o1 o2 : Outcome) : Prop :=
  out_response o1 = out_response o2.

(** ... or answer the same whenever they answer with the same status. *)
Definition same_response_if_same_status (o1 o2 : Outcome) : Prop :=
  status (out_response o1) = status (out_response o2) ->
  out_response o1 = out_response o2.

(** The database [d] with one more cart row for the pair, of quantity
    [q], inserted at time [now]. *)
Definition with_cart_row (d : Database) (uid pid q now : Z) : Database :=
  with_cart_items d
    (cart_items d ++ [mkCartItem (seq_cart_items d + 1) uid pid q now])%list
    (seq_cart_items d + 1).

(** The [id] column of an entry of a listing. *)
Definition entry_id (j : json) : Z :=
  match js_get j "id" with
  | Some (JNum q) => Qnum q / Z.pos (Qden q)
  | _ => 0
  end.

(** ** Routes under a mount point *)

(** [false] only when no path under [prefix] matches [pattern]: a
    literal segment of the pattern differs from the segment of the
    prefix at its position. *)
Fixpoint pattern_under (prefix : list string) (pattern : list Segment) : bool :=
  match prefix, pattern with
  | p :: prefix', Lit s :: pattern' =>
      String.eqb s p && pattern_under prefix' pattern'
  | _ :: prefix', Param :: pattern' => pattern_under prefix' pattern'
  | _, _ => true
  end.

(** The paths behind [authenticateToken]. *)
Definition needs_user (path : list string) : bool :=
  mounted_at ["api"; "users"] path
  || mounted_at ["api"; "admin"] path
  || mounted_at ["api"; "auth"; "verify"] path.

(** ** The rows of the other users *)

Definition others_favorites (uid : Z) (d : Database) : list Favorite :=
  filter (fun f => negb (f_user_id f =? uid)) (favorites d).

Definition others_cart_items (uid : Z) (d : Database) : list CartItem :=
  filter (fun c => negb (c_user_id c =? uid)) (cart_items d).

(** What the routes under /api/users leave alone for user [uid]:
    accounts, products, and the favorites and cart rows of everybody
    else. *)
Definition same_for_others (uid : Z) (d d' : Database) : Prop :=
  users d' = users d
  /\ products d' = products d
  /\ others_favorites uid d' = others_favorites uid d
  /\ others_cart_items uid d' = others_cart_items uid d.

(** ** The envelope of the responses

    A JSON response is an object whose [success] field is a boolean;
    [success: true] comes with status 200 only, and [success: false]
    comes with a [message] that is a string.  A file is sent with
    status 200, the error page for a missing file with status 404. *)
Definition envelope_ok (resp : Response) : bool :=
  match body resp with
  | FileBody _ => status resp =? 200
  | ErrorPage => status resp =? 404
  | JsonBody (JObj fields) =>
      match assoc "success" fields with
      | Some (JBool true) => status resp =? 200
      | Some (JBool false) =>
          match assoc "message" fields with
          | Some (JStr _) => true
          | _ => false
          end
      | _ => false
      end
  | JsonBody _ => false
  end.

(** A request that the logout route answers. *)
Definition is_logout (r : Request) : bool :=
  verb_matches "POST" (req_method r)
  && match match_path [Lit "api"; Lit "auth"; Lit "logout"] (req_path r) with
     | Some _ => true
     | None => false
     end.

(** ** The rows that name one product *)

Definition favorites_of_product (pid : Z) (d : Database) : list Favorite :=
  filter (fun f => f_product_id f =? pid) (favorites d).

Definition cart_items_of_product (pid : Z) (d : Database) : list CartItem :=
  filter (fun c => c_product_id c =? pid) (cart_items d).

Definition same_for_product (pid : Z) (d d' : Database) : Prop :=
  favorites_of_product pid d' = favorites_of_product pid d
  /\ cart_items_of_product pid d' = cart_items_of_product pid d.

Section Runs.

Context {L : Libs}.

(** The same route served once per clock value of [times], one request
    after the other, on the session and database left by the previous
    one. *)
Fixpoint serve_times (route : Z -> Session -> Database -> Outcome)
         (times : list Z) (s : Session) (d : Database)
  : Session * Database * list Response :=
  match times with
  | [] => (s, d, [])
  | now :: rest =>
      let o := route now s d in
      let '(s', d', rs) := serve_times route rest (out_session o) (out_db o) in
      (s', d', out_response o :: rs)
  end.

(** POST and DELETE /api/users/cart/:productName and POST
    /api/users/favorites/:productName as functions of the clock. *)
Definition post_cart (productName : string) (now : Z)
  : Session -> Database -> Outcome :=
  authenticated (add_to_cart now productName).

Definition delete_cart (productName : string) (now : Z)
  : Session -> Database -> Outcome :=
  authenticated (remove_from_cart now productName).

Definition post_favorite (productName : string) (now : Z)
  : Session -> Database -> Outcome :=
  authenticated (toggle_favorite now productName).

(** Requests served one after the other, each paired with its
    response. *)
Fixpoint serve_all (st : AppState) (rs : list Request)
  : list (Request * Response) :=
  match rs with
  | [] => []
  | r :: rest => (r, snd (app r st)) :: serve_all (fst (app r st)) rest
  end.

(** The state that the requests leave. *)
Definition state_after (st : AppState) (rs : list Request) : AppState :=
  fold_left (fun st r => fst (app r st)) rs st.

(** The end of the window of [key] that a store records. *)
Definition window_end (key : string) (h : Hits) : option Z :=
  option_map snd (assoc key h).

(** Whether [key] has a window that has not ended at time [now]. *)
Definition window_open (now : Z) (key : string) (h : Hits) : bool :=
  match window_end key h with
  | Some resetTime => now <? resetTime
  | None => false
  end.

Definition on_auth_route (r : Request) : bool :=
  mounted_at ["api"; "auth"; "login"] (req_path r)
  || mounted_at ["api"; "auth"; "register"] (req_path r).

(** The request got past the rate limiters: only they answer 429. *)
Definition admitted (resp : Response) : bool := negb (status resp =? 429).

(** A login or register attempt of [key] that was admitted. *)
Definition admitted_attempt (key : string) (e : Request * Response) : bool :=
  on_auth_route (fst e) && String.eqb (auth_key (fst e)) key
  && admitted (snd e).

(** An admitted attempt that failed (status 400 or above). *)
Definition failed_attempt (key : string) (e : Request * Response) : bool :=
  admitted_attempt key e && (400 <=? status (snd e)).

(** An admitted request of the client address [ip] to a path under
    /api. *)
Definition admitted_api_request (ip : string) (e : Request * Response)
  : bool :=
  mounted_at ["api"] (req_path (fst e)) && String.eqb (req_ip (fst e)) ip
  && admitted (snd e).

(** What is sent for a path outside /api: a file that is there, or the
    error page for the missing index.html. *)
Definition file_or_error_page (resp : Response) : Prop :=
  (exists name,
      public_file name = true /\ resp = mkResponse 200 (FileBody name))
  \/ (public_file "index.html" = false /\ resp = mkResponse 404 ErrorPage).

End Runs.

(* ================================================================== *)
(** * A small instance of the third-party operations *)
(* ================================================================== *)

(** Stand-ins with the interface of [Libs], simple enough to run the
    server on concrete requests: hashing wraps the password, an email is
    a string with an [@], percent-decoding is defined on strings without
    [%], where it is the identity.  The public directory is the one of
    the repository, which holds app.js and nothing else. *)
Fixpoint contains_char (c : ascii) (s : string) : bool :=
  match s with
  | EmptyString => false
  | String x r => Ascii.eqb x c || contains_char c r
  end.

Definition sample_length_ok (lo : Z) (hi : option Z) (v : option json) : bool :=
  match v with
  | Some (JStr s) =>
      let n := Z.of_nat (String.length s) in
      (lo <=? n) && match hi with Some h => n <=? h | None => true end
  | _ => false
  end.

#[local] Instance sample_libs : Libs := {|
  bcrypt_hash := fun password salt => "$2a$12$" ++ salt ++ "$" ++ password;
  bcrypt_compare := fun password hash =>
    match strip_prefix "$2a$12$" hash with
    | Some rest =>
        String.eqb (substring (String.length rest - String.length password)
                              (String.length password) rest) password
    | None => false
    end;
  isEmail := fun v =>
    match v with Some (JStr s) => contains_char "@"%char s | _ => false end;
  normalizeEmail := fun v =>
    match v with Some (JStr s) => lower s | _ => "" end;
  isLength := sample_length_ok;
  notEmpty := fun v =>
    match v with
    | Some (JStr s) => negb (String.eqb s "")
    | Some _ => true
    | None => false
    end;
  validation_errors := fun _ => JArr [];
  decodeURIComponent := fun s =>
    if contains_char "%"%char s then None else Some s;
  store_text := fun _ => SqlText "[object Object]";
  store_numeric := fun v =>
    match v with
    | JNum q => if (Qden q =? 1)%positive then SqlInt (Qnum q) else SqlReal q
    | _ => SqlNull
    end;
  js_to_string := fun _ => "[object Object]";
  csrf_create := fun secret salt => salt ++ "-" ++ secret;
  csrf_verify := fun secret token =>
    String.eqb (substring (String.length token - String.length secret)
                          (String.length secret) token) secret;
  window_start := fun _ now => now;
  window_start_le := fun window now H =>
    conj (Z.le_refl now) (Z.lt_add_pos_r window now H);
  public_file := fun name => String.eqb name "app.js"
|}.

Definition sample_request (method : string) (path : list string)
           (b : json) (sid : string) (token : option string) (now : Z)
  : Request :=
  mkRequest method path b "203.0.113.7" sid token now
            ("secret-of-" ++ sid) "salt".

Definition started : AppState :=
  run installed [Start 1000 "seed"].

Definition jane : json :=
  JObj [("email", JStr "u1@example.com"); ("password", JStr "password1");
        ("firstName", JStr "Jane"); ("lastName", JStr "Doe")].

Definition jane_token : option string := Some "salt-secret-of-jane".
Definition root_token : option string := Some "salt-secret-of-root".

Definition root_credentials : json :=
  JObj [("email", JStr "admin@sneakzone.com");
        ("password", JStr "#Adm1nSneakZone97!")].


(** The default administrator, logged in on session [root]. *)
Definition root_session : Session := mkSession (Some 1) None.

Definition root_user : AuthUser :=
  mkAuthUser 1 "admin@sneakzone.com" (SqlText "Admin") (SqlText "SneakZone")
             "admin" 1.

Definition token_request (sid : string) (now : Z) : Request :=
  sample_request "GET" ["api"; "csrf-token"] (JObj []) sid None now.

Definition login_attempt (credentials : json) (now : Z) : Request :=
  sample_request "POST" ["api"; "auth"; "login"] credentials "root"
                 root_token now.

(** The email of the default administrator with a wrong password. *)
Definition wrong_credentials : json :=
  JObj [("email", JStr "admin@sneakzone.com"); ("password", JStr "guess")].

(** One login attempt per clock value of [times]. *)
Definition login_attempts (credentials : json) (times : list Z)
  : list Request :=
  map (login_attempt credentials) times.

(** The server after session [root] has fetched its CSRF token. *)
Definition token_issued : AppState :=
  fst (app (token_request "root" 2000) started).

(** Jane registers, marks a product as favorite and puts it in her cart;
    the administrator logs in and deletes her account. *)
Definition jane_is_deleted : list Event :=
  [Serve (token_request "jane" 1001);
   Serve (sample_request "POST" ["api"; "auth"; "register"] jane "jane"
                         jane_token 1002);
   Serve (sample_request "POST" ["api"; "users"; "favorites"; "Air Max 90"]
                         (JObj []) "jane" jane_token 1003);
   Serve (sample_request "POST" ["api"; "users"; "cart"; "Air Max 90"]
                         (JObj []) "jane" jane_token 1004);
   Serve (token_request "root" 1005);
   Serve (login_attempt root_credentials 1006);
   Serve (sample_request "DELETE" ["api"; "admin"; "users"; "2"] (JObj [])
                         "root" root_token 1007)].

(** The state after Jane asked for a token and registered, her session
    and her row. *)
Definition jane_registered : AppState :=
  run started
      [Serve (token_request "jane" 1001);
       Serve (sample_request "POST" ["api"; "auth"; "register"] jane "jane"
                             jane_token 1002)].

Definition jane_session : Session :=
  mkSession (Some 2) (Some "secret-of-jane").

Definition jane_user : AuthUser :=
  mkAuthUser 2 "u1@example.com" (SqlText "Jane") (SqlText "Doe") "user" 1.

Definition jane_row : User :=
  mkUser 2 "u1@example.com" "$2a$12$salt$password1" (SqlText "Jane")
         (SqlText "Doe") "user" 1 1002.

Definition root_row : User :=
  mkUser 1 "admin@sneakzone.com" "$2a$12$seed$#Adm1nSneakZone97!"
         (SqlText "Admin") (SqlText "SneakZone") "admin" 1 1000.

(** The third product of the seed. *)
Definition air_max : Product :=
  mkProduct 3 (SqlText "Air Max 90") (SqlText "NIKE") (SqlText "Triple White")
            (SqlInt 129) (SqlText "⚡") (SqlText "37-47") 1000.


(** The administrator logs in and adds a product whose name holds a
    percent sign. *)
Definition cotton : json :=
  JObj [("name", JStr "Runner 100%"); ("brand", JStr "PUMA");
        ("price", JInt 99)].

Definition cotton_added : AppState :=
  run started
      [Serve (token_request "root" 1005);
       Serve (login_attempt root_credentials 1006);
       Serve (sample_request "POST" ["api"; "admin"; "products"] cotton "root"
                             root_token 1007)].

Definition runner : Product :=
  mkProduct 4 (SqlText "Runner 100%") (SqlText "PUMA") SqlNull (SqlInt 99)
            SqlNull SqlNull 1007.

(** A request to put a product in the cart, with no cookie and no
    token. *)
Definition guest_cart_request : Request :=
  sample_request "POST" ["api"; "users"; "cart"; "Air Max 90"] (JObj [])
                 "guest" None 1001.

(** The default administrator is logged in on session [root]. *)
Definition root_logged_in : AppState :=
  run started [Serve (token_request "root" 1005);
               Serve (login_attempt root_credentials 1006)].

(** The same on a server whose database was seeded with another
    salt. *)
Definition root_logged_in_elsewhere : AppState :=
  run installed [Start 1000 "other";
                 Serve (token_request "root" 1005);
                 Serve (login_attempt root_credentials 1006)].

(** Credentials whose password is a number. *)
Definition numeric_password (email : string) : json :=
  JObj [("email", JStr email); ("password", JInt 12345678)].

(** The administrator has put "Air Max 90" in the cart. *)
Definition air_max_in_cart : AppState :=
  run root_logged_in
      [Serve (sample_request "POST" ["api"; "users"; "cart"; "Air Max 90"]
                             (JObj []) "root" root_token 1007)].

(** The first product of the seed. *)
Definition air_jordan : Product :=
  mkProduct 1 (SqlText "Air Jordan 1 Retro High") (SqlText "NIKE")
            (SqlText "Chicago - Rouge/Blanc/Noir") (SqlInt 179) (SqlText "👟")
            (SqlText "38-46") 1000.

(* ================================================================== *)
(** * Facts about lists and rows *)
(* ================================================================== *)

Section ListFacts.

Context {A : Type}.
Implicit Types (f g : A -> bool) (l : list A).

Lemma find_hd_filter f l : find f l = hd_error (filter f l).
Proof.
  induction l as [|x l IH]; simpl; [reflexivity|].
  destruct (f x); simpl; auto.
Qed.

Lemma filter_comm f g l : filter f (filter g l) = filter g (filter f l).
Proof.
  induction l as [|x l IH]; simpl; [reflexivity|].
  destruct (f x) eqn:Hf, (g x) eqn:Hg; simpl; rewrite ?Hf, ?Hg, IH; reflexivity.
Qed.

Lemma filter_all f l : (forall x, In x l -> f x = true) -> filter f l = l.
Proof.
  induction l as [|x l IH]; simpl; intros H; [reflexivity|].
  rewrite (H x (or_introl eq_refl)), IH; auto.
Qed.

Lemma filter_none f l : (forall x, In x l -> f x = false) -> filter f l = [].
Proof.
  induction l as [|x l IH]; simpl; intros H; [reflexivity|].
  rewrite (H x (or_introl eq_refl)), IH; auto.
Qed.

Lemma filter_nil_none f l x : filter f l = [] -> In x l -> f x = false.
Proof.
  intros H Hin. destruct (f x) eqn:E; [|reflexivity].
  assert (In x (filter f l)) by (apply filter_In; auto).
  rewrite H in *. contradiction.
Qed.

Lemma existsb_filter_nil f l : existsb f l = false <-> filter f l = [].
Proof.
  induction l as [|x l IH]; simpl; [tauto|].
  destruct (f x); simpl; [split; discriminate | exact IH].
Qed.

Lemma existsb_find_some f l : existsb f l = true -> exists x, find f l = Some x.
Proof.
  induction l as [|x l IH]; simpl; [discriminate|].
  destruct (f x); simpl; eauto.
Qed.

Lemma find_none_existsb f l : find f l = None -> existsb f l = false.
Proof.
  induction l as [|x l IH]; simpl; [reflexivity|].
  destruct (f x); simpl; [discriminate | exact IH].
Qed.

Lemma find_some_existsb f l x : find f l = Some x -> existsb f l = true.
Proof.
  intros H. apply existsb_exists. exists x.
  apply find_some in H. exact H.
Qed.

(** With at most one row satisfying [f], the row found is the only
    one. *)
Lemma found_is_only f l x :
  (List.length (filter f l) <= 1)%nat -> find f l = Some x -> filter f l = [x].
Proof.
  rewrite find_hd_filter. destruct (filter f l) as [|y [|z r]]; simpl;
    intros Hlen H; try discriminate; [congruence | lia].
Qed.

Lemma count_if_app f l l' : count_if f (l ++ l') = count_if f l + count_if f l'.
Proof.
  unfold count_if. rewrite filter_app, length_app. lia.
Qed.

(** Distinct keys: a row is determined by its key. *)
Lemma nodup_key_eq (key : A -> Z) l x y :
  NoDup (map key l) -> In x l -> In y l -> key x = key y -> x = y.
Proof.
  induction l as [|a l IH]; simpl; [contradiction|].
  intros Hnd Hx Hy Hk. inversion Hnd as [|? ? Hnotin Hnd']; subst.
  destruct Hx as [->|Hx], Hy as [->|Hy]; auto.
  - exfalso. apply Hnotin. rewrite Hk. apply in_map. exact Hy.
  - exfalso. apply Hnotin. rewrite <- Hk. apply in_map. exact Hx.
Qed.

End ListFacts.

Lemma with_favorites_same d : with_favorites d (favorites d) (seq_favorites d) = d.
Proof. destruct d; reflexivity. Qed.

Lemma with_cart_items_same d :
  with_cart_items d (cart_items d) (seq_cart_items d) = d.
Proof. destruct d; reflexivity. Qed.

Lemma with_users_same d : with_users d (users d) (seq_users d) = d.
Proof. destruct d; reflexivity. Qed.

(* ================================================================== *)
(** * Properties of the server *)
(* ================================================================== *)

Section Properties.

Context {L : Libs}.

(** ** Authentication *)

Lemma authenticated_as s d user handler :
  authenticateToken d s = inr user ->
  authenticated handler s d
  = mkOutcome (fst (handler user d)) s (snd (handler user d)).
Proof.
  intros H. unfold authenticated. rewrite H.
  destruct (handler user d); reflexivity.
Qed.

Lemma authenticateToken_same_users d d' s :
  users d' = users d -> authenticateToken d' s = authenticateToken d s.
Proof.
  intros H. unfold authenticateToken, dbGet_auth_user. rewrite H. reflexivity.
Qed.

(** The row in [req.user] is a row of [users]. *)
Lemma authenticated_user_exists d s user :
  authenticateToken d s = inr user -> user_exists d (au_id user) = true.
Proof.
  unfold authenticateToken, dbGet_auth_user, user_exists.
  destruct (userId s) as [id|]; [|discriminate].
  destruct (id =? 0); [discriminate|].
  destruct (find (user_has_id id) (users d)) as [u|] eqn:Hfind; simpl;
    [|discriminate].
  destruct (u_is_active u =? 0); [discriminate|].
  intros H. injection H as <-. simpl.
  apply existsb_exists. exists u. apply find_some in Hfind.
  destruct Hfind as [Hin Hid]. split; [exact Hin|].
  unfold user_has_id in *. rewrite Z.eqb_refl. reflexivity.
Qed.

Lemma named_product_exists d name pid :
  dbGet_product_id_by_name d name = Some pid -> product_exists d pid = true.
Proof.
  unfold dbGet_product_id_by_name, product_exists.
  destruct (find (product_has_name name) (products d)) as [p|] eqn:Hfind;
    simpl; [|discriminate].
  intros H. injection H as <-.
  apply existsb_exists. exists p. apply find_some in Hfind.
  split; [tauto|]. unfold product_has_id. apply Z.eqb_refl.
Qed.

Lemma parents_of_request d s user name pid :
  authenticateToken d s = inr user ->
  dbGet_product_id_by_name d name = Some pid ->
  parents_exist d (au_id user) pid = true.
Proof.
  intros Hu Hp. unfold parents_exist.
  apply authenticated_user_exists in Hu. apply named_product_exists in Hp.
  unfold user_exists, product_exists in *. rewrite Hu, Hp. reflexivity.
Qed.

(** ** Favorites *)

Lemma toggle_favorite_absent now key name pid user d :
  decodeURIComponent key = Some name ->
  dbGet_product_id_by_name d name = Some pid ->
  existsb (favorite_of (au_id user) pid) (favorites d) = false ->
  parents_exist d (au_id user) pid = true ->
  toggle_favorite now key user d
  = (with_favorites d
       (favorites d ++ [mkFavorite (seq_favorites d + 1) (au_id user) pid now])
       (seq_favorites d + 1),
     json_ok (JObj [("success", JBool true);
                    ("message", JStr "Produit ajouté aux favoris");
                    ("isFavorite", JBool true)])).
Proof.
  intros Hkey Hprod Habsent Hparents.
  unfold toggle_favorite. rewrite Hkey, Hprod.
  unfold dbGet_favorite_id.
  destruct (find (favorite_of (au_id user) pid) (favorites d)) as [f|] eqn:Hf.
  - apply find_some_existsb in Hf. congruence.
  - simpl. rewrite Hparents, Habsent, andb_false_r. reflexivity.
Qed.

Lemma toggle_favorite_present now key name pid user d f :
  decodeURIComponent key = Some name ->
  dbGet_product_id_by_name d name = Some pid ->
  find (favorite_of (au_id user) pid) (favorites d) = Some f ->
  toggle_favorite now key user d
  = (with_favorites d
       (filter (fun x => negb (f_id x =? f_id f)) (favorites d))
       (seq_favorites d),
     json_ok (JObj [("success", JBool true);
                    ("message", JStr "Produit retiré des favoris");
                    ("isFavorite", JBool false)])).
Proof.
  intros Hkey Hprod Hf.
  unfold toggle_favorite. rewrite Hkey, Hprod.
  unfold dbGet_favorite_id. rewrite Hf. reflexivity.
Qed.

(** Deleting the row found by its rowid deletes the rows of the pair and
    no other. *)
Lemma delete_found_favorite d uid pid f :
  well_formed d ->
  find (favorite_of uid pid) (favorites d) = Some f ->
  filter (fun x => negb (f_id x =? f_id f)) (favorites d)
  = filter (fun x => negb (favorite_of uid pid x)) (favorites d).
Proof.
  intros Hwf Hf.
  pose proof (found_is_only _ _ _ (wf_favorite_pairs d Hwf uid pid) Hf) as Honly.
  destruct (wf_favorites d Hwf) as [Hnd _].
  pose proof (find_some _ _ Hf) as [Hin Hfav].
  apply filter_ext_in. intros x Hx. f_equal.
  destruct (f_id x =? f_id f) eqn:Hid.
  - apply Z.eqb_eq in Hid.
    rewrite (nodup_key_eq f_id _ x f Hnd Hx Hin Hid). symmetry. exact Hfav.
  - destruct (favorite_of uid pid x) eqn:Hx'; [|reflexivity].
    assert (Hmem : In x (filter (favorite_of uid pid) (favorites d)))
      by (apply filter_In; auto).
    rewrite Honly in Hmem. destruct Hmem as [->|[]].
    rewrite Z.eqb_refl in Hid. discriminate.
Qed.

Lemma filter_not_of_pair_after uid pid (l : list Favorite) :
  filter (favorite_of uid pid)
         (filter (fun x => negb (favorite_of uid pid x)) l) = [].
Proof.
  apply filter_none. intros x Hx. apply filter_In in Hx.
  destruct Hx as [_ Hx]. destruct (favorite_of uid pid x); [discriminate|reflexivity].
Qed.

(** C1. For an authenticated user and a lookup key, the favorites toggle
    answers 404 when the key names no product; when it names product
    [pid] it deletes the row of the pair and reports isFavorite=false if
    there is one, and inserts the row and reports isFavorite=true if
    there is none.  From a state without the row, a second toggle
    reports isFavorite=false and leaves the favorites table as it was at
    the start, with no row for the pair. *)
Theorem favorites_toggle :
  forall (s : Session) (d : Database) (user : AuthUser) (key name : string)
         (now : Z),
    well_formed d ->
    authenticateToken d s = inr user ->
    decodeURIComponent key = Some name ->
    let uid := au_id user in
    let o := post_favorite key now s d in
    (dbGet_product_id_by_name d name = None ->
     o = mkOutcome d s (json_status 404 (failure "Produit non trouvé")))
    /\
    (forall pid,
        dbGet_product_id_by_name d name = Some pid ->
        (existsb (favorite_of uid pid) (favorites d) = true ->
         out_response o
         = json_ok (JObj [("success", JBool true);
                          ("message", JStr "Produit retiré des favoris");
                          ("isFavorite", JBool false)])
         /\ favorites (out_db o)
            = filter (fun f => negb (favorite_of uid pid f)) (favorites d)
         /\ count_if (favorite_of uid pid) (favorites (out_db o)) = 0)
        /\
        (existsb (favorite_of uid pid) (favorites d) = false ->
         out_response o
         = json_ok (JObj [("success", JBool true);
                          ("message", JStr "Produit ajouté aux favoris");
                          ("isFavorite", JBool true)])
         /\ favorites (out_db o)
            = (favorites d
                 ++ [mkFavorite (seq_favorites d + 1) uid pid now])%list
         /\ count_if (favorite_of uid pid) (favorites (out_db o)) = 1
         /\ forall now',
             let o' := post_favorite key now' (out_session o) (out_db o) in
             out_response o'
             = json_ok (JObj [("success", JBool true);
                              ("message", JStr "Produit retiré des favoris");
                              ("isFavorite", JBool false)])
             /\ favorites (out_db o') = favorites d
             /\ count_if (favorite_of uid pid) (favorites (out_db o')) = 0
             /\ users (out_db o') = users d
             /\ products (out_db o') = products d
             /\ cart_items (out_db o') = cart_items d)).
Proof.
  intros s d user key name now Hwf Hauth Hkey uid o.
  subst o. unfold post_favorite. rewrite (authenticated_as _ _ _ _ Hauth).
  split.
  - intros Hnone. unfold toggle_favorite. rewrite Hkey, Hnone. reflexivity.
  - intros pid Hprod. split.
    + intros Hpresent.
      destruct (existsb_find_some _ _ Hpresent) as [f Hf].
      rewrite (toggle_favorite_present now _ _ _ _ _ _ Hkey Hprod Hf). simpl.
      rewrite (delete_found_favorite _ _ _ _ Hwf Hf).
      repeat split. unfold count_if.
      fold uid. rewrite filter_not_of_pair_after. reflexivity.
    + intros Habsent.
      pose proof (parents_of_request _ _ _ _ _ Hauth Hprod) as Hparents.
      rewrite (toggle_favorite_absent now _ _ _ _ _ Hkey Hprod Habsent Hparents).
      simpl. fold uid.
      assert (Hnil : filter (favorite_of uid pid) (favorites d) = [])
        by (apply existsb_filter_nil; exact Habsent).
      assert (Hself : favorite_of uid pid
                        (mkFavorite (seq_favorites d + 1) uid pid now) = true)
        by (unfold favorite_of; simpl; rewrite !Z.eqb_refl; reflexivity).
      split; [reflexivity|]. split; [reflexivity|]. split.
      { rewrite count_if_app. unfold count_if. rewrite Hnil. simpl.
        rewrite Hself. reflexivity. }
      intros now'.
      set (row := mkFavorite (seq_favorites d + 1) uid pid now) in *.
      set (d1 := with_favorites d (favorites d ++ [row])%list (seq_favorites d + 1)).
      assert (Hauth1 : authenticateToken d1 s = inr user)
        by (rewrite <- Hauth; apply authenticateToken_same_users; reflexivity).
      rewrite (authenticated_as _ _ _ _ Hauth1).
      assert (Hfind : find (favorite_of uid pid) (favorites d1) = Some row).
      { rewrite find_hd_filter. simpl. rewrite filter_app, Hnil. simpl.
        rewrite Hself. reflexivity. }
      assert (Hprod1 : dbGet_product_id_by_name d1 name = Some pid) by exact Hprod.
      rewrite (toggle_favorite_present now' _ _ _ _ _ _ Hkey Hprod1 Hfind).
      simpl.
      assert (Hback : filter (fun x => negb (f_id x =? seq_favorites d + 1))
                             (favorites d ++ [row])%list = favorites d).
      { rewrite filter_app. simpl. rewrite Z.eqb_refl. simpl.
        rewrite app_nil_r. apply filter_all. intros x Hx.
        destruct (wf_favorites d Hwf) as [_ Hle].
        rewrite Forall_forall in Hle. specialize (Hle x Hx).
        destruct (f_id x =? seq_favorites d + 1) eqn:E; [|reflexivity].
        apply Z.eqb_eq in E. lia. }
      rewrite Hback. repeat split.
      unfold count_if. rewrite Hnil. reflexivity.
Qed.

(** ** Cart *)

Lemma cart_row_of_pair uid pid id q now :
  cart_item_of uid pid (mkCartItem id uid pid q now) = true.
Proof. unfold cart_item_of. simpl. rewrite !Z.eqb_refl. reflexivity. Qed.

Lemma add_to_cart_first now key name pid user d :
  decodeURIComponent key = Some name ->
  dbGet_product_id_by_name d name = Some pid ->
  existsb (cart_item_of (au_id user) pid) (cart_items d) = false ->
  parents_exist d (au_id user) pid = true ->
  add_to_cart now key user d
  = (with_cart_row d (au_id user) pid 1 now,
     json_ok (success "Produit ajouté au panier")).
Proof.
  intros Hkey Hprod Habsent Hparents.
  unfold add_to_cart. rewrite Hkey, Hprod. unfold dbGet_cart_item.
  destruct (find (cart_item_of (au_id user) pid) (cart_items d)) as [c|] eqn:Hc.
  - apply find_some_existsb in Hc. congruence.
  - simpl. rewrite Hparents, Habsent, andb_false_r. reflexivity.
Qed.

Lemma add_to_cart_again now key name pid user d q t :
  well_formed d ->
  decodeURIComponent key = Some name ->
  dbGet_product_id_by_name d name = Some pid ->
  existsb (cart_item_of (au_id user) pid) (cart_items d) = false ->
  add_to_cart now key user (with_cart_row d (au_id user) pid q t)
  = (with_cart_row d (au_id user) pid (q + 1) t,
     json_ok (success "Produit ajouté au panier")).
Proof.
  intros Hwf Hkey Hprod Habsent.
  apply existsb_filter_nil in Habsent.
  unfold add_to_cart. rewrite Hkey.
  change (dbGet_product_id_by_name (with_cart_row d (au_id user) pid q t) name)
    with (dbGet_product_id_by_name d name).
  rewrite Hprod. unfold dbGet_cart_item, with_cart_row. simpl.
  rewrite find_hd_filter, filter_app, Habsent. simpl.
  rewrite cart_row_of_pair. simpl.
  rewrite map_app. simpl. rewrite Z.eqb_refl.
  replace (map _ (cart_items d)) with (cart_items d).
  - reflexivity.
  - symmetry. rewrite <- (map_id (cart_items d)) at 2.
    apply map_ext_in. intros c Hc.
    destruct (wf_cart_items d Hwf) as [_ Hle].
    rewrite Forall_forall in Hle. specialize (Hle c Hc).
    destruct (c_id c =? seq_cart_items d + 1) eqn:E; [|reflexivity].
    apply Z.eqb_eq in E. lia.
Qed.

Lemma post_cart_repeated key name pid user s d t :
  well_formed d ->
  authenticateToken d s = inr user ->
  decodeURIComponent key = Some name ->
  dbGet_product_id_by_name d name = Some pid ->
  existsb (cart_item_of (au_id user) pid) (cart_items d) = false ->
  forall times q,
    serve_times (post_cart key) times s (with_cart_row d (au_id user) pid q t)
    = (s,
       with_cart_row d (au_id user) pid (q + Z.of_nat (List.length times)) t,
       repeat (json_ok (success "Produit ajouté au panier"))
              (List.length times)).
Proof.
  intros Hwf Hauth Hkey Hprod Habsent.
  induction times as [|now times IH]; intros q.
  - simpl. rewrite Z.add_0_r. reflexivity.
  - assert (Hauth' : authenticateToken
                       (with_cart_row d (au_id user) pid q t) s = inr user)
      by (rewrite <- Hauth; apply authenticateToken_same_users; reflexivity).
    assert (Hstep : post_cart key now s (with_cart_row d (au_id user) pid q t)
                    = mkOutcome (with_cart_row d (au_id user) pid (q + 1) t) s
                        (json_ok (success "Produit ajouté au panier"))).
    { unfold post_cart. rewrite (authenticated_as _ _ _ _ Hauth').
      rewrite (add_to_cart_again now _ _ _ _ _ q t Hwf Hkey Hprod Habsent).
      reflexivity. }
    cbn [serve_times]. rewrite Hstep.
    cbn [out_db out_session out_response].
    rewrite IH. cbn [List.length repeat].
    replace (q + 1 + Z.of_nat (List.length times))
      with (q + Z.of_nat (S (List.length times))) by lia.
    reflexivity.
Qed.

(** C2. For an authenticated user and a lookup key, adding to the cart
    answers 404 when the key names no product.  When it names product
    [pid] and the user has no cart row for it, N >= 1 adds in a row all
    succeed and leave exactly one row for the pair, the one inserted by
    the first add, with quantity N; one remove with the same key then
    deletes that row and leaves the cart table as it was before the
    first add. *)
Theorem cart_add_n_then_remove :
  forall (s : Session) (d : Database) (user : AuthUser) (key name : string)
         (now : Z) (times : list Z),
    well_formed d ->
    authenticateToken d s = inr user ->
    decodeURIComponent key = Some name ->
    let uid := au_id user in
    (dbGet_product_id_by_name d name = None ->
     post_cart key now s d
     = mkOutcome d s (json_status 404 (failure "Produit non trouvé")))
    /\
    (forall pid,
        dbGet_product_id_by_name d name = Some pid ->
        existsb (cart_item_of uid pid) (cart_items d) = false ->
        let n := List.length (now :: times) in
        let run := serve_times (post_cart key) (now :: times) s d in
        let dn := snd (fst run) in
        let row := mkCartItem (seq_cart_items d + 1) uid pid (Z.of_nat n) now in
        snd run = repeat (json_ok (success "Produit ajouté au panier")) n
        /\ cart_items dn = (cart_items d ++ [row])%list
        /\ filter (cart_item_of uid pid) (cart_items dn) = [row]
        /\ forall now',
            let o := delete_cart key now' (fst (fst run)) dn in
            out_response o = json_ok (success "Produit retiré du panier")
            /\ cart_items (out_db o) = cart_items d
            /\ count_if (cart_item_of uid pid) (cart_items (out_db o)) = 0).
Proof.
  intros s d user key name now times Hwf Hauth Hkey uid. subst uid. split.
  - intros Hnone. unfold post_cart. rewrite (authenticated_as _ _ _ _ Hauth).
    unfold add_to_cart. rewrite Hkey, Hnone. reflexivity.
  - intros pid Hprod Habsent n run dn row.
    pose proof (parents_of_request _ _ _ _ _ Hauth Hprod) as Hparents.
    assert (Hrun : run = (s, with_cart_row d (au_id user) pid (Z.of_nat n) now,
                          repeat (json_ok (success "Produit ajouté au panier")) n)).
    { assert (Hstep : post_cart key now s d
                      = mkOutcome (with_cart_row d (au_id user) pid 1 now) s
                          (json_ok (success "Produit ajouté au panier"))).
      { unfold post_cart. rewrite (authenticated_as _ _ _ _ Hauth).
        rewrite (add_to_cart_first now _ _ _ _ _ Hkey Hprod Habsent Hparents).
        reflexivity. }
      subst run n. cbn [serve_times]. rewrite Hstep.
      cbn [out_db out_session out_response].
      rewrite (post_cart_repeated key name pid user s d now
                 Hwf Hauth Hkey Hprod Habsent times 1).
      cbn [List.length repeat].
      replace (1 + Z.of_nat (List.length times))
        with (Z.of_nat (S (List.length times))) by lia.
      reflexivity. }
    assert (Hnil : filter (cart_item_of (au_id user) pid) (cart_items d) = [])
      by (apply existsb_filter_nil; exact Habsent).
    subst dn. rewrite Hrun. cbn [fst snd].
    split; [reflexivity|]. split; [reflexivity|]. split.
    { unfold with_cart_row. simpl. rewrite filter_app, Hnil. simpl.
      rewrite cart_row_of_pair. reflexivity. }
    intros now'. cbv zeta. unfold delete_cart.
    assert (Hauth' : authenticateToken
                       (with_cart_row d (au_id user) pid (Z.of_nat n) now) s = inr user)
      by (rewrite <- Hauth; apply authenticateToken_same_users; reflexivity).
    rewrite (authenticated_as _ _ _ _ Hauth').
    unfold remove_from_cart. rewrite Hkey.
    change (dbGet_product_id_by_name
              (with_cart_row d (au_id user) pid (Z.of_nat n) now) name)
      with (dbGet_product_id_by_name d name).
    rewrite Hprod. simpl.
    rewrite filter_app. simpl. rewrite cart_row_of_pair. simpl.
    rewrite app_nil_r.
    assert (Hkeep : filter (fun c => negb (cart_item_of (au_id user) pid c)) (cart_items d)
                    = cart_items d).
    { apply filter_all. intros c Hc.
      rewrite (filter_nil_none _ _ _ Hnil Hc). reflexivity. }
    rewrite Hkeep. repeat split.
    unfold count_if. rewrite Hnil. reflexivity.
Qed.

(** For an authenticated user, removing from the cart answers 404
    exactly when the (decodable) key names no product; when it names
    product [pid] the answer is the success response whatever the cart
    holds, the rows of the pair are gone afterwards, and without such a
    row the database is left as it was. *)
Theorem cart_remove_absent_succeeds :
  forall (s : Session) (d : Database) (user : AuthUser) (key name : string)
         (now : Z),
    authenticateToken d s = inr user ->
    decodeURIComponent key = Some name ->
    let uid := au_id user in
    let o := delete_cart key now s d in
    (dbGet_product_id_by_name d name = None ->
     o = mkOutcome d s (json_status 404 (failure "Produit non trouvé")))
    /\
    (forall pid,
        dbGet_product_id_by_name d name = Some pid ->
        out_response o = json_ok (success "Produit retiré du panier")
        /\ status (out_response o) = 200
        /\ cart_items (out_db o)
           = filter (fun c => negb (cart_item_of uid pid c)) (cart_items d)
        /\ (existsb (cart_item_of uid pid) (cart_items d) = false ->
            o = mkOutcome d s (json_ok (success "Produit retiré du panier")))).
Proof.
  intros s d user key name now Hauth Hkey uid o. subst o.
  unfold delete_cart. rewrite (authenticated_as _ _ _ _ Hauth).
  unfold remove_from_cart. rewrite Hkey. split.
  - intros ->. reflexivity.
  - intros pid ->. simpl. fold uid. repeat split.
    intros Habsent. apply existsb_filter_nil in Habsent.
    assert (Hkeep : filter (fun c => negb (cart_item_of uid pid c)) (cart_items d)
                    = cart_items d).
    { apply filter_all. intros c Hc.
      rewrite (filter_nil_none _ _ _ Habsent Hc). reflexivity. }
    rewrite Hkeep, with_cart_items_same. reflexivity.
Qed.

(** C9 (amended).  For an authenticated user, removing from the cart
    fails in two ways only: with 500 "Erreur suppression panier",
    exactly when [decodeURIComponent] rejects the key, and with 404
    "Produit non trouvé", exactly when the decoded key names no
    product; both leave the database as it was.  When the decoded key
    names product [pid] the answer is the success response, with status
    200, whatever the cart holds; the rows of the pair are gone
    afterwards, and without such a row the database is left as it
    was. *)
Theorem cart_remove_outcomes :
  forall (s : Session) (d : Database) (user : AuthUser) (key : string)
         (now : Z),
    authenticateToken d s = inr user ->
    let uid := au_id user in
    let o := delete_cart key now s d in
    (decodeURIComponent key = None ->
     o = mkOutcome d s (json_status 500 (failure "Erreur suppression panier")))
    /\ (forall name,
           decodeURIComponent key = Some name ->
           (dbGet_product_id_by_name d name = None ->
            o = mkOutcome d s (json_status 404 (failure "Produit non trouvé")))
           /\ (forall pid,
                  dbGet_product_id_by_name d name = Some pid ->
                  out_response o = json_ok (success "Produit retiré du panier")
                  /\ cart_items (out_db o)
                     = filter (fun c => negb (cart_item_of uid pid c))
                              (cart_items d)
                  /\ (existsb (cart_item_of uid pid) (cart_items d) = false ->
                      o = mkOutcome d s
                            (json_ok (success "Produit retiré du panier")))))
    /\ (status (out_response o) = 500 <-> decodeURIComponent key = None)
    /\ (status (out_response o) = 404
        <-> exists name,
            decodeURIComponent key = Some name
            /\ dbGet_product_id_by_name d name = None)
    /\ (status (out_response o) = 200
        <-> exists name pid,
            decodeURIComponent key = Some name
            /\ dbGet_product_id_by_name d name = Some pid).
Proof.
  intros s d user key now Hauth uid o. subst o.
  unfold delete_cart. rewrite (authenticated_as _ _ _ _ Hauth).
  unfold remove_from_cart.
  destruct (decodeURIComponent key) as [name|].
  - destruct (dbGet_product_id_by_name d name) as [pid|] eqn:Hget.
    + cbn [dbRun execute fst snd out_response out_db status json_ok json_status].
      fold uid.
      split; [intros H; discriminate H|]. split.
      { intros name' Hname. injection Hname as <-. rewrite Hget.
        split; [intros H; discriminate H|].
        intros pid' Hpid. injection Hpid as <-.
        split; [reflexivity|]. split; [reflexivity|].
        intros Habsent. apply existsb_filter_nil in Habsent.
        assert (Hkeep : filter (fun c => negb (cart_item_of uid pid c))
                               (cart_items d) = cart_items d).
        { apply filter_all. intros c Hc.
          rewrite (filter_nil_none _ _ _ Habsent Hc). reflexivity. }
        rewrite Hkeep, with_cart_items_same. reflexivity. }
      split; [split; intros H; discriminate H|].
      split.
      { split; [intros H; discriminate H|].
        intros [name' [Hname Hnone]]. congruence. }
      split; [intros _; eauto | reflexivity].
    + cbn [fst snd out_response out_db status json_ok json_status].
      split; [intros H; discriminate H|]. split.
      { intros name' Hname. injection Hname as <-. rewrite Hget.
        split; [reflexivity|]. intros pid' Hpid. discriminate Hpid. }
      split; [split; intros H; discriminate H|].
      split; [split; [intros _; eauto | reflexivity]|].
      split; [intros H; discriminate H|].
      intros [name' [pid [Hname Hpid]]]. congruence.
  - cbn [fst snd out_response out_db status json_ok json_status].
    split; [reflexivity|]. split; [intros name' Hname; discriminate Hname|].
    split; [split; reflexivity|].
    split.
    { split; [intros H; discriminate H|].
      intros [name' [Hname _]]. discriminate Hname. }
    split; [intros H; discriminate H|].
    intros [name' [pid [Hname _]]]. discriminate Hname.
Qed.

(** ** Login *)

(** A login request that passes the validators answers 401 with the
    message "Email ou mot de passe incorrect" and changes neither the
    database nor the session, both when its email is the one of a stored
    active user whose hash the password does not match and when its
    email is the one of no stored user: the two responses are the
    same. *)
Theorem login_failures_indistinguishable :
  forall (r1 r2 : Request) (s1 s2 : Session) (d1 d2 : Database) (user : User),
    let email r := js_get (req_body r) "email" in
    let password r := js_get (req_body r) "password" in
    isEmail (email r1) && notEmpty (password r1) = true ->
    isEmail (email r2) && notEmpty (password r2) = true ->
    dbGet_login_user d1 (normalizeEmail (email r1)) = Some user ->
    u_is_active user <> 0 ->
    bcrypt_compare_js (password r1) (u_password user) = Ok false ->
    dbGet_login_user d2 (normalizeEmail (email r2)) = None ->
    let generic :=
      json_status 401 (failure "Email ou mot de passe incorrect") in
    login r1 s1 d1 = mkOutcome d1 s1 generic
    /\ login r2 s2 d2 = mkOutcome d2 s2 generic
    /\ out_response (login r1 s1 d1) = out_response (login r2 s2 d2)
    /\ status (out_response (login r1 s1 d1)) = 401.
Proof.
  intros r1 r2 s1 s2 d1 d2 user email password Hv1 Hv2 Hfound Hactive Hwrong
         Hnone generic.
  subst email password. cbv beta in *.
  assert (H1 : login r1 s1 d1 = mkOutcome d1 s1 generic).
  { unfold login. rewrite Hv1. cbn [handleValidationErrors].
    rewrite Hfound. apply Z.eqb_neq in Hactive. rewrite Hactive, Hwrong.
    reflexivity. }
  assert (H2 : login r2 s2 d2 = mkOutcome d2 s2 generic).
  { unfold login. rewrite Hv2. cbn [handleValidationErrors].
    rewrite Hnone. reflexivity. }
  rewrite H1, H2. repeat split.
Qed.

(** X2. A password that is not a string passes [notEmpty] when the
    validator says so and makes [bcrypt.compare] reject: for the email
    of a stored active user the answer is then 500 "Erreur connexion",
    not the 401 that an unknown email gets. *)
Lemma login_password_not_a_string :
  forall (r : Request) (s : Session) (d : Database) (user : User),
    let email := js_get (req_body r) "email" in
    let password := js_get (req_body r) "password" in
    isEmail email && notEmpty password = true ->
    dbGet_login_user d (normalizeEmail email) = Some user ->
    u_is_active user <> 0 ->
    (forall p, password <> Some (JStr p)) ->
    login r s d = mkOutcome d s (json_status 500 (failure "Erreur connexion")).
Proof.
  intros r s d user email password Hvalid Hfound Hactive Hnot.
  subst email password. unfold login. rewrite Hvalid.
  cbn [handleValidationErrors]. rewrite Hfound.
  apply Z.eqb_neq in Hactive. rewrite Hactive.
  unfold bcrypt_compare_js.
  destruct (js_get (req_body r) "password") as [[|flag|n|p|items|fields]|];
    try reflexivity.
  exfalso. apply (Hnot p). reflexivity.
Qed.

(** ** [parseInt] reads a decimal numeral as its number *)

Lemma digit_cases d :
  0 <= d < 10 ->
  d = 0 \/ d = 1 \/ d = 2 \/ d = 3 \/ d = 4 \/ d = 5 \/ d = 6 \/ d = 7
  \/ d = 8 \/ d = 9.
Proof. lia. Qed.

Ltac each_digit H :=
  apply digit_cases in H;
  repeat (destruct H as [H|H]; [subst|]); subst.

Lemma digit_value_char d : 0 <= d < 10 -> digit_value (digit_char d) = Some d.
Proof. intros H. each_digit H; reflexivity. Qed.

Lemma read_decimal fuel :
  forall n rest a c,
    0 <= n -> (Z.to_nat n < fuel)%nat ->
    exists k,
      read_digits 10 digit_value (decimal_onto fuel n rest) a c
      = read_digits 10 digit_value rest (a * 10 ^ Z.of_nat (S k) + n)
                    (S (c + k)).
Proof.
  induction fuel as [|f IH]; intros n rest a c Hn Hfuel; [lia|].
  cbn [decimal_onto]. destruct (n <? 10) eqn:Hsmall.
  - apply Z.ltb_lt in Hsmall. exists O. cbn [read_digits].
    rewrite digit_value_char by lia.
    rewrite Nat.add_0_r. f_equal. lia.
  - apply Z.ltb_ge in Hsmall.
    assert (Hdiv : 0 <= n / 10 < n)
      by (split; [apply Z.div_pos; lia | apply Z.div_lt; lia]).
    destruct (IH (n / 10) (String (digit_char (n mod 10)) rest) a c)
      as [k Hk]; [lia | lia |].
    exists (S k). rewrite Hk. cbn [read_digits].
    rewrite digit_value_char by (apply Z.mod_pos_bound; lia).
    f_equal; [|lia].
    pose proof (Z.div_mod n 10 ltac:(lia)) as Hdm.
    replace (Z.of_nat (S (S k))) with (Z.of_nat (S k) + 1) by lia.
    rewrite Z.pow_add_r by lia. lia.
Qed.

Lemma decimal_shape fuel :
  forall n rest,
    0 <= n -> (Z.to_nat n < fuel)%nat ->
    rest = EmptyString \/ digit_first rest ->
    exists d r,
      decimal_onto fuel n rest = String (digit_char d) r
      /\ 0 <= d < 10 /\ (r = EmptyString \/ digit_first r).
Proof.
  induction fuel as [|f IH]; intros n rest Hn Hfuel Hrest; [lia|].
  cbn [decimal_onto]. destruct (n <? 10) eqn:Hsmall.
  - apply Z.ltb_lt in Hsmall. exists n, rest. repeat split; auto; lia.
  - apply Z.ltb_ge in Hsmall.
    assert (Hdiv : 0 <= n / 10 < n)
      by (split; [apply Z.div_pos; lia | apply Z.div_lt; lia]).
    apply IH; [lia | lia |]. right. exists (n mod 10), rest.
    split; [reflexivity | apply Z.mod_pos_bound; lia].
Qed.

Lemma parseInt_digit_first d r :
  0 <= d < 10 -> (r = EmptyString \/ digit_first r) ->
  parseInt (String (digit_char d) r)
  = let '(value, count, _) :=
      read_digits 10 digit_value (String (digit_char d) r) 0 O in
    match count with
    | O => None
    | S _ => Some value
    end.
Proof.
  intros Hd Hr. unfold parseInt.
  assert (Htrim : js_trim_start (String (digit_char d) r)
                  = String (digit_char d) r).
  { unfold js_trim_start. cbn [String.length js_trim_start_fuel].
    each_digit Hd; cbn; destruct r as [|c [|c' r']]; reflexivity. }
  rewrite Htrim.
  assert (Hsign : read_sign (String (digit_char d) r)
                  = (1, String (digit_char d) r))
    by (each_digit Hd; reflexivity).
  rewrite Hsign.
  assert (Hx : strip_prefix "0x" (String (digit_char d) r) = None
               /\ strip_prefix "0X" (String (digit_char d) r) = None).
  { destruct Hr as [->|[d' [r' [-> Hd']]]].
    - each_digit Hd; split; reflexivity.
    - each_digit Hd; each_digit Hd'; split; reflexivity. }
  destruct Hx as [Hx1 Hx2]. rewrite Hx1, Hx2.
  destruct (read_digits 10 digit_value (String (digit_char d) r) 0 0)
    as [[value count] rest].
  destruct count; [reflexivity|]. f_equal. lia.
Qed.

(** [parseInt(String(n)) === n] for every integer [n >= 0]. *)
Lemma parseInt_decimal n : 0 <= n -> parseInt (decimal n) = Some n.
Proof.
  intros Hn. unfold decimal.
  destruct (decimal_shape (S (Z.to_nat n)) n EmptyString Hn ltac:(lia)
                          (or_introl eq_refl))
    as [d [r [Hshape [Hd Hr]]]].
  destruct (read_decimal (S (Z.to_nat n)) n EmptyString 0 O Hn ltac:(lia))
    as [k Hk].
  rewrite Hshape in *. rewrite (parseInt_digit_first d r Hd Hr), Hk.
  cbn [read_digits]. f_equal; lia.
Qed.

(** ** The guard of the admin user routes *)

(** Where [parseInt] reads the route parameter as the administrator's
    own id, both routes answer 400 and leave the database alone. *)
Lemma own_id_guard_rejects now userId b user d :
  parseInt userId = Some (au_id user) ->
  put_admin_user now userId b user d
  = (d, json_status 400 (failure "Impossible de modifier son propre compte"))
  /\ delete_admin_user now userId user d
     = (d, json_status 400 (failure "Impossible de supprimer son propre compte")).
Proof.
  intros H. unfold put_admin_user, delete_admin_user, is_own_id.
  rewrite H, Z.eqb_refl. split; reflexivity.
Qed.

(** The guard on the spellings it reads as the id.  For an
    authenticated administrator with id [a], a PUT or a
    DELETE of /api/admin/users/:userId whose parameter is the numeral of
    [a], or any other string that [parseInt] reads as [a], is answered
    400, "Impossible de modifier son propre compte" respectively
    "Impossible de supprimer son propre compte", without a statement
    being run: the database and the session are the ones the request
    found. *)
Theorem admin_own_id_is_rejected :
  forall (now : Z) (userId : string) (b : json) (s : Session) (d : Database)
         (user : AuthUser),
    authenticateToken d s = inr user ->
    au_role user = "admin" ->
    (0 <= au_id user /\ userId = decimal (au_id user))
    \/ parseInt userId = Some (au_id user) ->
    admin_only (put_admin_user now userId b) s d
    = mkOutcome d s
        (json_status 400 (failure "Impossible de modifier son propre compte"))
    /\ admin_only (delete_admin_user now userId) s d
       = mkOutcome d s
           (json_status 400
              (failure "Impossible de supprimer son propre compte")).
Proof.
  intros now userId b s d user Hauth Hadmin Hown.
  assert (Hparsed : parseInt userId = Some (au_id user)).
  { destruct Hown as [[Hpos ->]|H]; [apply parseInt_decimal; exact Hpos|exact H]. }
  destruct (own_id_guard_rejects now userId b user d Hparsed) as [Hput Hdelete].
  unfold admin_only. rewrite !(authenticated_as _ _ _ _ Hauth).
  unfold requireAdmin. rewrite Hadmin.
  change (String.eqb "admin" "admin") with true. cbv iota.
  rewrite Hput, Hdelete. split; reflexivity.
Qed.

(** The guard and the statement read the parameter differently:
    [parseInt] stops at the first character that is not a digit, SQLite
    reads the whole literal. *)
Lemma scientific_notation_is_read_twice :
  parseInt "0.1e1" = Some 0 /\ id_matches (SqlText "0.1e1") 1 = true.
Proof. split; reflexivity. Qed.

Lemma default_admin_row now salt :
  users (initDatabase now salt empty_database)
  = [mkUser 1 "admin@sneakzone.com" (bcrypt_hash "#Adm1nSneakZone97!" salt)
            (SqlText "Admin") (SqlText "SneakZone") "admin" 1 now].
Proof. reflexivity. Qed.

(** X1. The guard reads the parameter with [parseInt], the statement
    with SQLite's numeric affinity.  On the database that [initDatabase]
    creates, the default administrator has id 1.  Logged in, a DELETE of
    /api/admin/users/0.1e1 is not stopped by the guard and deletes the
    administrator's own row; a PUT of the same path with [{ role:
    'user', is_active: false }] changes the administrator's own role and
    active flag.  Both answer 200 with a success message. *)
Theorem admin_modifies_own_account :
  forall (now salt_now : Z) (salt : string),
    let d := initDatabase salt_now salt empty_database in
    let s := mkSession (Some 1) None in
    let change := JObj [("role", JStr "user"); ("is_active", JBool false)] in
    let removed := admin_only (delete_admin_user now "0.1e1") s d in
    let changed := admin_only (put_admin_user now "0.1e1" change) s d in
    option_map au_id (match authenticateToken d s with
                      | inr user => Some user
                      | inl _ => None
                      end) = Some 1
    /\ out_response removed
       = json_ok (success "Utilisateur supprimé avec succès")
    /\ users (out_db removed) = []
    /\ out_response changed
       = json_ok (success "Utilisateur modifié avec succès")
    /\ map (fun u => (u_id u, u_role u, u_is_active u)) (users (out_db changed))
       = [(1, "user", 0)].
Proof.
  intros now salt_now salt. cbv zeta. repeat split.
Qed.

(** ** [updateUser] *)

(** The object built by the code holds the two whitelisted fields and
    nothing else. *)
Lemma validUpdates_whitelist b :
  validUpdates b
  = (match requested_role b with Some r => [SetRole r] | None => [] end
     ++ match requested_active b with
        | Some flag => [SetIsActive flag]
        | None => []
        end)%list.
Proof.
  unfold validUpdates, requested_role, requested_active. f_equal.
  2: destruct (js_get b "is_active") as [[|flag|n|r|items|fields]|];
     reflexivity.
  destruct (js_get b "role") as [[|flag|n|r|items|fields]|]; simpl;
    rewrite ?andb_false_r; try reflexivity.
  destruct (String.eqb r "user") eqn:Hu, (String.eqb r "admin") eqn:Ha,
           (String.eqb r "") eqn:He; simpl; try reflexivity;
    apply String.eqb_eq in He; subst r; discriminate.
Qed.

Lemma fold_assign_whitelist b u :
  fold_left assign (validUpdates b) u
  = with_role_and_active (requested_role b) (requested_active b) u.
Proof.
  rewrite validUpdates_whitelist.
  destruct (requested_role b), (requested_active b), u; reflexivity.
Qed.

Lemma requested_role_valid b r :
  requested_role b = Some r ->
  String.eqb r "user" || String.eqb r "admin" = true.
Proof.
  unfold requested_role.
  destruct (js_get b "role") as [[|flag|n|x|items|fields]|]; try discriminate.
  destruct (String.eqb x "user" || String.eqb x "admin") eqn:E;
    [|discriminate].
  intros H. injection H as <-. exact E.
Qed.

(** C5. [updateUser] reads two fields of the body: [role], taken when it
    is 'user' or 'admin', and [is_active], taken when it is a boolean.
    With neither it returns success=false with the message "Aucune
    modification valide" and the database is the one it was given.
    Otherwise the rows that [id = userId] selects get the requested role
    and flag and keep every other column, and nothing else changes.  Two
    bodies that agree on the two fields give the same result. *)
Theorem updateUser_whitelist :
  forall (now : Z) (userId : string) (b : json) (d : Database),
    Forall (fun u => role_check u = true) (users d) ->
    let role := requested_role b in
    let active := requested_active b in
    (role = None -> active = None ->
     updateUser now userId b d = (d, failure "Aucune modification valide"))
    /\
    (role <> None \/ active <> None ->
     updateUser now userId b d
     = (with_users d
          (map (fun u => if id_matches (SqlText userId) (u_id u)
                         then with_role_and_active role active u else u)
               (users d))
          (seq_users d),
        success "Utilisateur modifié avec succès"))
    /\
    (forall b',
        requested_role b' = role -> requested_active b' = active ->
        updateUser now userId b' d = updateUser now userId b d).
Proof.
  intros now userId b d Hroles role active. split; [|split].
  - intros Hr Ha. unfold updateUser. rewrite validUpdates_whitelist.
    fold role active. rewrite Hr, Ha. reflexivity.
  - intros Hsome. unfold updateUser.
    destruct (validUpdates b) as [|a sets] eqn:Hsets.
    { rewrite validUpdates_whitelist in Hsets. fold role active in Hsets.
      destruct role, active; try discriminate. destruct Hsome; congruence. }
    rewrite <- Hsets. unfold dbRun, execute.
    assert (Hcheck :
              forallb (fun u =>
                         negb (id_matches (SqlText userId) (u_id u))
                         || role_check
                              (if id_matches (SqlText userId) (u_id u)
                               then fold_left assign (validUpdates b) u else u))
                      (users d) = true).
    { apply forallb_forall. intros u Hu.
      rewrite Forall_forall in Hroles. specialize (Hroles u Hu).
      destruct (id_matches (SqlText userId) (u_id u)); simpl; [|reflexivity].
      rewrite fold_assign_whitelist. fold role active.
      destruct role as [r|] eqn:Hr.
      - unfold role_check, with_role_and_active. simpl.
        apply (requested_role_valid b). exact Hr.
      - unfold role_check, with_role_and_active in *. simpl. exact Hroles. }
    rewrite Hcheck. f_equal. f_equal.
    apply map_ext. intros u.
    destruct (id_matches (SqlText userId) (u_id u)); [|reflexivity].
    apply fold_assign_whitelist.
  - intros b' Hr Ha. unfold updateUser.
    rewrite (validUpdates_whitelist b'), (validUpdates_whitelist b).
    fold role active. rewrite Hr, Ha. reflexivity.
Qed.

(** ** The chain as a whole *)

(** A request is either answered 429 by a rate limiter, which leaves the
    database and the sessions alone, or served by the chain below the
    session middleware. *)
Lemma app_limited_or_served r st :
  let o := serve r (load_session (req_sid r) (sessions st)) (db st) in
  (status (snd (app r st)) = 429
   /\ db (fst (app r st)) = db st
   /\ sessions (fst (app r st)) = sessions st)
  \/ (snd (app r st) = out_response o
      /\ db (fst (app r st)) = out_db o
      /\ sessions (fst (app r st))
         = save_session (req_sid r) (out_session o) (sessions st)).
Proof.
  intros o. unfold app, with_api_limiter, rateLimit, with_session, increment.
  fold o. clearbody o.
  destruct (mounted_at ["api"; "auth"; "login"] (req_path r)
            || mounted_at ["api"; "auth"; "register"] (req_path r));
    destruct (mounted_at ["api"] (req_path r)); cbn [fst snd];
    repeat match goal with
           | |- context [if (?a <? ?b)%N then _ else _] =>
               destruct (a <? b)%N; cbn [fst snd]
           end;
    cbn [fst snd db sessions status json_status]; auto.
Qed.

(** ** CSRF *)

Lemma unsafe_method_is_no_get m :
  ignored_method m = false -> verb_matches "GET" m = false.
Proof.
  unfold ignored_method, verb_matches. intros H.
  apply orb_false_iff in H. destruct H as [H _].
  apply orb_false_iff in H. destruct H as [Hget Hhead].
  rewrite Hget, Hhead. reflexivity.
Qed.

(** The secret stored by csurf is the one it goes on using. *)
Lemma session_secret_stored r r' s :
  session_secret r s <> "" ->
  session_secret r' (mkSession (userId s) (Some (session_secret r s)))
  = session_secret r s.
Proof.
  intros Hne. unfold session_secret at 1. cbn [csrfSecret].
  destruct (String.eqb (session_secret r s) "") eqn:E; [|reflexivity].
  apply String.eqb_eq in E. contradiction.
Qed.

(** GET /api/csrf-token answers with a token made from the secret of the
    session and stores that secret. *)
Lemma csrf_token_issued r0 s d0 :
  req_method r0 = "GET" ->
  req_path r0 = ["api"; "csrf-token"] ->
  session_secret r0 s <> "" ->
  serve r0 s d0
  = mkOutcome d0 (mkSession (userId s) (Some (session_secret r0 s)))
      (json_ok (JObj [("success", JBool true);
                      ("csrfToken",
                       JStr (csrf_create (session_secret r0 s) (req_salt r0)))])).
Proof.
  intros Hm Hp Hne. unfold serve. rewrite Hm, Hp. cbn [verb_matches].
  change (String.eqb "GET" "GET") with true. cbn [orb andb].
  change (match_path [Lit "api"; Lit "csrf-token"] ["api"; "csrf-token"])
    with (Some (@nil string)).
  cbv iota. unfold get_csrf_token, csrfProtection. rewrite Hm.
  change (ignored_method "GET") with true. cbn [orb].
  rewrite (session_secret_stored r0 r0 s Hne). reflexivity.
Qed.

(** Without a token that verifies, a request with an unsafe method goes
    from the guard to the error handler. *)
Lemma serve_without_token r s d :
  mounted_at ["api"] (req_path r) = true ->
  ignored_method (req_method r) = false ->
  tokens_verify (session_secret r s) (csrf_value r) = false ->
  serve r s d
  = mkOutcome d (mkSession (userId s) (Some (session_secret r s)))
              csrf_error_response.
Proof.
  intros Hapi Hunsafe Hbad. unfold serve.
  rewrite (unsafe_method_is_no_get _ Hunsafe), Hapi. cbn [andb].
  unfold csrf_guard, csrfProtection. rewrite Hunsafe, Hbad. reflexivity.
Qed.

(** Seen from outside, such a request is answered 403, or 429 when a
    rate limiter answers first, and the database stays as it was. *)
Lemma app_without_token r st :
  mounted_at ["api"] (req_path r) = true ->
  ignored_method (req_method r) = false ->
  tokens_verify (session_secret r (load_session (req_sid r) (sessions st)))
                (csrf_value r) = false ->
  db (fst (app r st)) = db st
  /\ (snd (app r st) = csrf_error_response \/ status (snd (app r st)) = 429).
Proof.
  intros Hapi Hunsafe Hbad.
  pose proof (app_limited_or_served r st) as H. cbv zeta in H.
  rewrite (serve_without_token _ _ _ Hapi Hunsafe Hbad) in H.
  cbn [out_response out_db] in H.
  destruct H as [[Hstatus [Hdb _]]|[Hresp [Hdb _]]]; auto.
Qed.

(** C7. On a path under /api, a request with method GET, HEAD or OPTIONS
    passes the guard untouched.  A request with another method whose
    token does not verify against the secret of its session is answered
    403 "Token CSRF invalide" by the chain, which leaves the database
    and the user of the session as they were.  The same request carrying
    the token that GET /api/csrf-token issued for the session passes the
    guard, given that the csrf package verifies the tokens it creates
    (and that secret and token are not empty). *)
Theorem csrf_guard_on_unsafe_methods :
  forall (r : Request) (s : Session) (d : Database),
    mounted_at ["api"] (req_path r) = true ->
    (ignored_method (req_method r) = true -> csrf_guard r s = (s, true))
    /\
    (ignored_method (req_method r) = false ->
     tokens_verify (session_secret r s) (csrf_value r) = false ->
     out_response (serve r s d) = csrf_error_response
     /\ status (out_response (serve r s d)) = 403
     /\ out_db (serve r s d) = d
     /\ userId (out_session (serve r s d)) = userId s)
    /\
    (ignored_method (req_method r) = false ->
     forall (r0 : Request) (d0 : Database),
       req_method r0 = "GET" ->
       req_path r0 = ["api"; "csrf-token"] ->
       let secret := session_secret r0 s in
       let token := csrf_create secret (req_salt r0) in
       let issued := serve r0 s d0 in
       secret <> "" -> token <> "" -> csrf_verify secret token = true ->
       out_response issued
       = json_ok (JObj [("success", JBool true); ("csrfToken", JStr token)])
       /\ (csrf_value r = Some (JStr token) ->
           csrf_guard r (out_session issued) = (out_session issued, true))).
Proof.
  intros r s d Hapi. split; [|split].
  - intros Hsafe. unfold csrf_guard. rewrite Hsafe. reflexivity.
  - intros Hunsafe Hbad.
    rewrite (serve_without_token _ _ _ Hapi Hunsafe Hbad).
    cbn [out_response out_db out_session userId].
    repeat split.
  - intros Hunsafe r0 d0 Hm Hp secret token issued Hsecret Htoken Hverify.
    subst issued. rewrite (csrf_token_issued r0 s d0 Hm Hp Hsecret).
    cbn [out_response out_session]. split; [reflexivity|].
    intros Hvalue. unfold csrf_guard, csrfProtection. rewrite Hunsafe.
    rewrite (session_secret_stored r0 r s Hsecret). fold secret.
    rewrite Hvalue. unfold tokens_verify. fold token. rewrite Hverify.
    apply String.eqb_neq in Hsecret, Htoken. fold secret in Hsecret.
    rewrite Hsecret, Htoken. reflexivity.
Qed.

(** ** Rate limiting *)

Lemma assoc_filter_other {A : Type} (k k' : string) (l : list (string * A)) :
  String.eqb k k' = false ->
  assoc k (filter (fun e => negb (String.eqb (fst e) k')) l) = assoc k l.
Proof.
  intros Hne. induction l as [|[x v] l IH]; simpl; [reflexivity|].
  destruct (String.eqb x k') eqn:Hx; simpl.
  - apply String.eqb_eq in Hx. subst x. rewrite Hne. exact IH.
  - rewrite IH. reflexivity.
Qed.

Lemma assoc_set_hits_same k e (h : Hits) : assoc k (set_hits k e h) = Some e.
Proof. unfold set_hits. simpl. rewrite String.eqb_refl. reflexivity. Qed.

Lemma assoc_set_hits_other k k' e (h : Hits) :
  String.eqb k k' = false -> assoc k (set_hits k' e h) = assoc k h.
Proof.
  intros Hne. unfold set_hits. simpl. rewrite Hne.
  apply assoc_filter_other. exact Hne.
Qed.

Lemma assoc_decrement_other k k' (h : Hits) :
  String.eqb k k' = false -> assoc k (decrement k' h) = assoc k h.
Proof.
  intros Hne. unfold decrement.
  destruct (assoc k' h) as [[n t]|]; [|reflexivity].
  destruct (n =? 0)%N; [reflexivity|]. apply assoc_set_hits_other. exact Hne.
Qed.

Lemma assoc_increment_other window now k k' (h : Hits) :
  String.eqb k k' = false ->
  assoc k (fst (increment window now k' h)) = assoc k h.
Proof. intros Hne. unfold increment. cbn [fst]. apply assoc_set_hits_other. exact Hne. Qed.

Lemma hits_of_same_entry now k (h h' : Hits) :
  assoc k h' = assoc k h -> hits_of now k h' = hits_of now k h.
Proof. unfold hits_of. intros ->. reflexivity. Qed.

(** A hit is counted in a window that has not ended. *)
Lemma reset_time_ahead window now key (h : Hits) :
  0 < window -> now < reset_time window now key h.
Proof.
  intros Hw. unfold reset_time.
  pose proof (window_start_le window now Hw) as Hstart.
  destruct (assoc key h) as [[n t]|]; [|lia].
  destruct (now <? t) eqn:E; [apply Z.ltb_lt in E; exact E | lia].
Qed.

(** A window that a hit opens ends at most its length later. *)
Lemma reset_time_of_new_window window now key (h : Hits) :
  0 < window -> window_open now key h = false ->
  reset_time window now key h <= now + window.
Proof.
  intros Hw. unfold window_open, window_end, reset_time.
  pose proof (window_start_le window now Hw) as Hstart.
  destruct (assoc key h) as [[n t]|]; cbn [option_map snd]; [|lia].
  destruct (now <? t); [discriminate | lia].
Qed.

Lemma reset_time_in_window window now key (h : Hits) n T :
  assoc key h = Some (n, T) -> now < T ->
  reset_time window now key h = T /\ hits_of now key h = n.
Proof.
  intros He Hnow. unfold reset_time, hits_of. rewrite He.
  apply Z.ltb_lt in Hnow. rewrite Hnow. split; reflexivity.
Qed.

(** The entry of the key of a request after the limiter: the hit stays
    counted unless it is taken back, in the window of the hit. *)
Lemma rateLimit_entry {S : Type} options key now (next : S -> S * Response)
      (h : Hits) st :
  let window := windowMs options / 1000 in
  let '(h', st', resp) := rateLimit options key now next h st in
  exists n',
    assoc key h' = Some (n', reset_time window now key h)
    /\ (hits_of now key h <= n')%N
    /\ ((max options <= hits_of now key h)%N ->
        st' = st /\ resp = json_status 429 (message options))
    /\ (admitted resp = true ->
        (hits_of now key h < max options)%N
        /\ (skipSuccessfulRequests options && (status resp <? 400) = false ->
            n' = (hits_of now key h + 1)%N)).
Proof.
  intros window. unfold rateLimit, increment. fold window.
  set (total := (hits_of now key h + 1)%N).
  set (T := reset_time window now key h).
  destruct (max options <? total)%N eqn:Hmax.
  - apply N.ltb_lt in Hmax. exists total.
    rewrite assoc_set_hits_same. unfold admitted. cbn [status json_status].
    repeat split; try (subst total; lia); try (intros H; discriminate H).
  - apply N.ltb_ge in Hmax. destruct (next st) as [st' resp].
    destruct (skipSuccessfulRequests options && (status resp <? 400)) eqn:Hskip.
    + exists (hits_of now key h). unfold decrement.
      rewrite assoc_set_hits_same.
      destruct (total =? 0)%N eqn:E; [apply N.eqb_eq in E; subst total; lia|].
      rewrite assoc_set_hits_same.
      replace (total - 1)%N with (hits_of now key h) by (subst total; lia).
      repeat split; try (subst total; lia);
        try (intros _ H; discriminate H); try (intros H; discriminate H).
    + exists total. rewrite assoc_set_hits_same.
      repeat split; subst total; lia.
Qed.

Lemma rateLimit_other {S : Type} options key k now (next : S -> S * Response)
      (h : Hits) st :
  String.eqb k key = false ->
  assoc k (fst (fst (rateLimit options key now next h st))) = assoc k h.
Proof.
  intros Hne. unfold rateLimit.
  pose proof (assoc_increment_other (windowMs options / 1000) now k key h Hne)
    as Hinc.
  destruct (increment (windowMs options / 1000) now key h) as [h1 total].
  cbn [fst] in Hinc.
  destruct (max options <? total)%N; [exact Hinc|].
  destruct (next st) as [st' resp]. cbn [fst].
  destruct (skipSuccessfulRequests options && (status resp <? 400));
    [rewrite assoc_decrement_other by exact Hne|]; exact Hinc.
Qed.

(** One request through a limiter while the window of [k] is open: the
    window stays, the count of [k] never goes down, a request of the
    key that is let through and stays counted finds the count below
    [max] and raises it by one, and a request of the key that finds
    the count at [max] is answered 429. *)
Lemma rateLimit_counts {S : Type} options key k now (next : S -> S * Response)
      (h : Hits) st n T :
  assoc k h = Some (n, T) -> now < T ->
  let '(h', st', resp) := rateLimit options key now next h st in
  exists n',
    assoc k h' = Some (n', T)
    /\ (n <= n')%N
    /\ (String.eqb k key = true ->
        ((max options <= n)%N ->
         st' = st /\ resp = json_status 429 (message options))
        /\ (admitted resp = true ->
            skipSuccessfulRequests options && (status resp <? 400) = false ->
            (n < max options)%N /\ n' = (n + 1)%N)).
Proof.
  intros He Hnow.
  destruct (String.eqb k key) eqn:Hk.
  - apply String.eqb_eq in Hk. subst k.
    pose proof (rateLimit_entry options key now next h st) as H.
    cbv zeta in H.
    destruct (reset_time_in_window (windowMs options / 1000) now key h n T
                                   He Hnow) as [HT Hn].
    rewrite HT, Hn in H.
    destruct (rateLimit options key now next h st) as [[h' st'] resp].
    destruct H as [n' [He' [Hle [Hfull Hadm]]]].
    exists n'. split; [exact He'|]. split; [exact Hle|].
    intros _. split; [exact Hfull|].
    intros Hok Hskip. destruct (Hadm Hok) as [Hlt Hnext]. auto.
  - pose proof (rateLimit_other options key k now next h st Hk) as H.
    destruct (rateLimit options key now next h st) as [[h' st'] resp].
    cbn [fst] in H. exists n. rewrite H.
    split; [exact He|]. split; [lia|]. intros Hd. discriminate Hd.
Qed.

Lemma with_api_limiter_counts r (h : Hits) inner ip n T :
  assoc ip h = Some (n, T) -> req_now r < T ->
  let '((h', _), resp) := with_api_limiter r (h, inner) in
  exists n',
    assoc ip h' = Some (n', T)
    /\ (n <= n')%N
    /\ (admitted_api_request ip (r, resp) = true ->
        (n < 200)%N /\ n' = (n + 1)%N).
Proof.
  intros He Hnow. unfold with_api_limiter, admitted_api_request. cbn [fst snd].
  destruct (mounted_at ["api"] (req_path r)) eqn:Hapi.
  - pose proof (rateLimit_counts apiLimiter (api_key r) ip (req_now r)
                                 (with_session r) h inner n T He Hnow) as H.
    destruct (rateLimit apiLimiter (api_key r) (req_now r) (with_session r)
                        h inner) as [[h' inner'] resp].
    destruct H as [n' [He' [Hle Hkey]]].
    exists n'. split; [exact He'|]. split; [exact Hle|].
    intros Hreq. apply andb_prop in Hreq. destruct Hreq as [Hreq Hok].
    apply andb_prop in Hreq. destruct Hreq as [_ Hip].
    rewrite String.eqb_sym in Hip. destruct (Hkey Hip) as [_ Hadm].
    apply Hadm; [exact Hok | reflexivity].
  - destruct (with_session r inner) as [inner' resp].
    exists n. split; [exact He|]. split; [lia|]. intros H. discriminate H.
Qed.

Lemma app_api_counts r st ip n T :
  assoc ip (api_hits st) = Some (n, T) -> req_now r < T ->
  exists n',
    assoc ip (api_hits (fst (app r st))) = Some (n', T)
    /\ (n <= n')%N
    /\ (admitted_api_request ip (r, snd (app r st)) = true ->
        (n < 200)%N /\ n' = (n + 1)%N).
Proof.
  intros He Hnow. unfold app.
  pose proof (with_api_limiter_counts r (api_hits st) (db st, sessions st) ip
                                      n T He Hnow) as Hinner.
  destruct (mounted_at ["api"; "auth"; "login"] (req_path r)
            || mounted_at ["api"; "auth"; "register"] (req_path r)).
  - unfold rateLimit.
    destruct (increment (windowMs authLimiter / 1000) (req_now r) (auth_key r)
                        (auth_hits st)) as [h1 total].
    destruct (max authLimiter <? total)%N.
    + cbn [fst snd api_hits]. exists n. split; [exact He|]. split; [lia|].
      unfold admitted_api_request, admitted. cbn [fst snd status json_status].
      rewrite andb_false_r. discriminate.
    + destruct (with_api_limiter r (api_hits st, (db st, sessions st)))
        as [[ph [d store]] resp].
      cbn [fst snd api_hits]. exact Hinner.
  - destruct (with_api_limiter r (api_hits st, (db st, sessions st)))
      as [[ph [d store]] resp].
    cbn [fst snd api_hits]. exact Hinner.
Qed.

Lemma failed_attempt_counted key r resp :
  failed_attempt key (r, resp) = true ->
  on_auth_route r = true
  /\ String.eqb key (auth_key r) = true
  /\ admitted resp = true
  /\ skipSuccessfulRequests authLimiter && (status resp <? 400) = false.
Proof.
  unfold failed_attempt, admitted_attempt. cbn [fst snd].
  intros Hreq. apply andb_prop in Hreq. destruct Hreq as [Hreq Hfailed].
  apply andb_prop in Hreq. destruct Hreq as [Hreq Hok].
  apply andb_prop in Hreq. destruct Hreq as [Hroute Hkey].
  rewrite String.eqb_sym. repeat split; auto.
  apply Z.leb_le in Hfailed.
  replace (status resp <? 400) with false
    by (symmetry; apply Z.ltb_ge; exact Hfailed).
  apply andb_false_r.
Qed.

Lemma app_auth_counts r st key n T :
  assoc key (auth_hits st) = Some (n, T) -> req_now r < T ->
  exists n',
    assoc key (auth_hits (fst (app r st))) = Some (n', T)
    /\ (n <= n')%N
    /\ (failed_attempt key (r, snd (app r st)) = true ->
        (n < 10)%N /\ n' = (n + 1)%N)
    /\ (on_auth_route r = true -> auth_key r = key -> (10 <= n)%N ->
        snd (app r st) = json_status 429 (message authLimiter)
        /\ db (fst (app r st)) = db st
        /\ sessions (fst (app r st)) = sessions st).
Proof.
  intros He Hnow.
  assert (Hfailed : forall resp, failed_attempt key (r, resp) = true ->
                                 on_auth_route r = true)
    by (intros resp H; apply (failed_attempt_counted key r resp H)).
  unfold app. unfold on_auth_route in *.
  destruct (mounted_at ["api"; "auth"; "login"] (req_path r)
            || mounted_at ["api"; "auth"; "register"] (req_path r)).
  - pose proof (rateLimit_counts authLimiter (auth_key r) key (req_now r)
                  (with_api_limiter r) (auth_hits st)
                  (api_hits st, (db st, sessions st)) n T He Hnow) as H.
    destruct (rateLimit authLimiter (auth_key r) (req_now r)
                (with_api_limiter r) (auth_hits st)
                (api_hits st, (db st, sessions st)))
      as [[ah [ph [d store]]] resp].
    cbn [fst snd auth_hits db sessions].
    destruct H as [n' [He' [Hle Hkey]]].
    exists n'. split; [exact He'|]. split; [exact Hle|]. split.
    + intros Hreq.
      destruct (failed_attempt_counted key r resp Hreq) as [_ [Hk [Hok Hskip]]].
      destruct (Hkey Hk) as [_ Hadm]. exact (Hadm Hok Hskip).
    + intros _ Hk Hfull. subst key.
      destruct (Hkey (String.eqb_refl _)) as [Hrej _].
      destruct (Hrej Hfull) as [Hst ->]. injection Hst as _ -> ->. auto.
  - destruct (with_api_limiter r (api_hits st, (db st, sessions st)))
      as [[ph [d store]] resp].
    cbn [fst snd auth_hits]. exists n. split; [exact He|]. split; [lia|].
    split; [|intros H; discriminate H].
    intros H. specialize (Hfailed resp H). discriminate Hfailed.
Qed.

(** A bound on what a counter lets through while its window is open. *)
Lemma bounded_in_window (limit : N) (entry : AppState -> option (N * Z))
      (counted : Request * Response -> bool) (T : Z) :
  (forall r st n,
      entry st = Some (n, T) -> req_now r < T ->
      exists n',
        entry (fst (app r st)) = Some (n', T)
        /\ (n <= n')%N
        /\ (counted (r, snd (app r st)) = true ->
            (n < limit)%N /\ n' = (n + 1)%N)) ->
  forall rs st n,
    entry st = Some (n, T) ->
    Forall (fun r => req_now r < T) rs ->
    exists n',
      entry (state_after st rs) = Some (n', T)
      /\ Z.of_N n + count_if counted (serve_all st rs) <= Z.of_N n'
      /\ count_if counted (serve_all st rs)
         <= Z.of_N limit - Z.min (Z.of_N limit) (Z.of_N n).
Proof.
  intros Hstep. induction rs as [|r rs IH]; intros st n He Hall.
  - exists n. unfold count_if. simpl. split; [exact He|]. lia.
  - inversion Hall as [|? ? Hr Hrs]; subst.
    destruct (Hstep r st n He Hr) as [n1 [He1 [Hle Hcounted]]].
    destruct (IH (fst (app r st)) n1 He1 Hrs) as [n' [He' [Hsum Hbound]]].
    exists n'. cbn [state_after fold_left serve_all].
    split; [exact He'|].
    unfold count_if in *. cbn [filter].
    destruct (counted (r, snd (app r st))).
    + destruct (Hcounted eq_refl) as [Hlt Hnext]. subst n1.
      cbn [List.length]. lia.
    + lia.
Qed.

Lemma state_after_app st rs1 rs2 :
  state_after st (rs1 ++ rs2) = state_after (state_after st rs1) rs2.
Proof. unfold state_after. apply fold_left_app. Qed.

Lemma serve_all_app st rs1 rs2 :
  serve_all st (rs1 ++ rs2)
  = (serve_all st rs1 ++ serve_all (state_after st rs1) rs2)%list.
Proof.
  revert st. induction rs1 as [|r rs1 IH]; intros st; [reflexivity|].
  cbn [Datatypes.app serve_all state_after fold_left]. rewrite IH.
  reflexivity.
Qed.

(** A request of [ip] that got past the limiter of /api is counted
    afterwards. *)
Lemma app_api_entry r st ip :
  admitted_api_request ip (r, snd (app r st)) = true ->
  exists n T,
    assoc ip (api_hits (fst (app r st))) = Some (n, T) /\ (1 <= n)%N.
Proof.
  unfold admitted_api_request. cbn [fst snd]. intros Hr.
  apply andb_prop in Hr. destruct Hr as [Hr Hok].
  apply andb_prop in Hr. destruct Hr as [Hapi Hip].
  apply String.eqb_eq in Hip. subst ip. revert Hok.
  assert (Hinner :
            let '((h', _), resp) :=
              with_api_limiter r (api_hits st, (db st, sessions st)) in
            admitted resp = true ->
            exists n T, assoc (req_ip r) h' = Some (n, T) /\ (1 <= n)%N).
  { unfold with_api_limiter. rewrite Hapi.
    pose proof (rateLimit_entry apiLimiter (api_key r) (req_now r)
                  (with_session r) (api_hits st) (db st, sessions st)) as H.
    cbv zeta in H.
    destruct (rateLimit apiLimiter (api_key r) (req_now r) (with_session r)
                        (api_hits st) (db st, sessions st))
      as [[h' inner'] resp'].
    destruct H as [n' [He [_ [_ Hadm]]]]. intros Hok.
    destruct (Hadm Hok) as [_ Hnext]. exists n'. eexists.
    split; [exact He|]. rewrite (Hnext eq_refl). lia. }
  unfold app.
  destruct (mounted_at ["api"; "auth"; "login"] (req_path r)
            || mounted_at ["api"; "auth"; "register"] (req_path r)).
  - unfold rateLimit.
    destruct (increment (windowMs authLimiter / 1000) (req_now r)
                        (auth_key r) (auth_hits st)) as [h1 total].
    destruct (max authLimiter <? total)%N.
    + cbn [fst snd]. unfold admitted. cbn [status json_status].
      intros H. discriminate H.
    + destruct (with_api_limiter r (api_hits st, (db st, sessions st)))
        as [[ph [d store]] resp].
      cbn [fst snd api_hits]. exact Hinner.
  - destruct (with_api_limiter r (api_hits st, (db st, sessions st)))
      as [[ph [d store]] resp].
    cbn [fst snd api_hits]. exact Hinner.
Qed.


(** ** Facts that hold route by route *)

Lemma dispatch_forall (P : Request -> Session -> Database -> Outcome -> Prop)
      table r s d o :
  Forall (fun route => forall ps, P r s d (route_handler route ps r s d)) table ->
  dispatch table r s d = Some o -> P r s d o.
Proof.
  induction table as [|route table IH]; simpl; [discriminate|].
  intros Hall. inversion Hall as [|? ? Hroute Hrest]; subst.
  destruct (verb_matches (route_verb route) (req_method r)); [|auto].
  destruct (match_path (route_pattern route) (req_path r)); [|auto].
  intros H. injection H as <-. apply Hroute.
Qed.

(** What holds of the outcome of every route, of the token route and of
    the responses the chain sends itself, holds of the chain. *)
Lemma serve_forall (P : Request -> Session -> Database -> Outcome -> Prop) r s d :
  Forall (fun route => forall ps s', P r s d (route_handler route ps r s' d))
         routes ->
  P r s d (get_csrf_token r s d) ->
  (forall s' resp,
      (resp = csrf_error_response \/ resp = spa_route r
       \/ exists name, resp = mkResponse 200 (FileBody name)) ->
      P r s d (mkOutcome d s' resp)) ->
  P r s d (serve r s d).
Proof.
  intros Hroutes Htoken Hown. unfold serve.
  destruct (verb_matches "GET" (req_method r)
            && match match_path [Lit "api"; Lit "csrf-token"] (req_path r) with
               | Some _ => true
               | None => false
               end); [exact Htoken|].
  destruct (if mounted_at ["api"] (req_path r) then csrf_guard r s else (s, true))
    as [s1 passed].
  destruct passed; [|apply Hown; auto].
  destruct (static_file r) as [name|]; [apply Hown; eauto|].
  destruct (dispatch routes r s1 d) as [o|] eqn:Hd; [|apply Hown; auto].
  apply (dispatch_forall (fun r0 _ d0 o0 => P r0 s d0 o0) routes r s1 d o);
    [|exact Hd].
  eapply Forall_impl; [|exact Hroutes]. intros route H ps. apply H.
Qed.

(** Case analysis on the innermost scrutinee of the goal. *)
Ltac break_match :=
  match goal with
  | |- context [match ?x with _ => _ end] =>
      lazymatch x with
      | context [match _ with _ => _ end] => fail
      | _ => destruct x eqn:?
      end
  end.

Ltac routes_by tac :=
  unfold routes; repeat (apply Forall_cons; [intros; cbn [route_handler]; tac|]);
  try apply Forall_nil.

Ltac status_cases :=
  unfold handler_status; repeat (break_match; cbv beta iota); cbn; tauto.

(** The chain below the limiters never answers 429: a response with
    that status comes from a rate limiter. *)
Lemma serve_status r s d : handler_status (status (out_response (serve r s d))).
Proof.
  apply (serve_forall (fun _ _ _ o => handler_status (status (out_response o)))).
  - routes_by ltac:(
      unfold register, login, verify, logout, get_favorites, get_cart,
        admin_only, authenticated, authenticateToken, requireAdmin,
        handleValidationErrors, get_products,
        toggle_favorite, add_to_cart, remove_from_cart, put_admin_user,
        delete_admin_user, post_admin_product, updateUser, deleteUser,
        addProduct; status_cases).
  - unfold get_csrf_token. status_cases.
  - intros s' resp [->|[->|[name ->]]]; unfold spa_route, send_index;
      status_cases.
Qed.

Lemma serve_never_429 r s d : status (out_response (serve r s d)) <> 429.
Proof.
  pose proof (serve_status r s d) as H. unfold handler_status in H. simpl in H.
  intros E. rewrite E in H. intuition discriminate.
Qed.

(** ** The constraints of the schema hold in every state *)

Lemma NoDup_map_filter {A B : Type} (key : A -> B) (f : A -> bool) l :
  NoDup (map key l) -> NoDup (map key (filter f l)).
Proof.
  induction l as [|x l IH]; simpl; [auto|].
  intros H. inversion H as [|? ? Hnotin Hnd]; subst.
  destruct (f x); simpl; [|auto].
  constructor; [|auto]. intros Hin. apply Hnotin.
  apply in_map_iff in Hin. destruct Hin as [y [Hy Hin]].
  apply filter_In in Hin. rewrite <- Hy. apply in_map. tauto.
Qed.

Lemma rowids_ok_filter {A : Type} (rowid : A -> Z) sequence f rows :
  rowids_ok rowid sequence rows -> rowids_ok rowid sequence (filter f rows).
Proof.
  intros [Hnd Hle]. split; [apply NoDup_map_filter; exact Hnd|].
  rewrite Forall_forall in *. intros x Hx. apply filter_In in Hx. apply Hle. tauto.
Qed.

Lemma rowids_ok_map {A : Type} (rowid : A -> Z) sequence (g : A -> A) rows :
  (forall x, rowid (g x) = rowid x) ->
  rowids_ok rowid sequence rows -> rowids_ok rowid sequence (map g rows).
Proof.
  intros Hg [Hnd Hle]. split.
  - rewrite map_map. rewrite (map_ext _ rowid) by exact Hg. exact Hnd.
  - rewrite Forall_forall in *. intros y Hy. apply in_map_iff in Hy.
    destruct Hy as [x [<- Hx]]. rewrite Hg. auto.
Qed.

Lemma rowids_ok_insert {A : Type} (rowid : A -> Z) sequence rows row :
  rowid row = sequence + 1 ->
  rowids_ok rowid sequence rows ->
  rowids_ok rowid (sequence + 1) (rows ++ [row]).
Proof.
  intros Hrow [Hnd Hle]. rewrite Forall_forall in Hle. split.
  - rewrite map_app. simpl. apply NoDup_app.
    + exact Hnd.
    + constructor; [simpl; tauto | constructor].
    + intros x Hx [Hy|[]]. apply in_map_iff in Hx.
      destruct Hx as [y [Heq Hin]]. specialize (Hle y Hin). lia.
  - apply Forall_app. split.
    + rewrite Forall_forall. intros x Hx. specialize (Hle x Hx). lia.
    + constructor; [lia | constructor].
Qed.

Lemma unique_pairs_filter {A : Type} (of_pair : Z -> Z -> A -> bool) f rows :
  unique_pairs of_pair rows -> unique_pairs of_pair (filter f rows).
Proof.
  intros H uid pid. specialize (H uid pid).
  rewrite filter_comm.
  pose proof (filter_length_le f (filter (of_pair uid pid) rows)). lia.
Qed.

Lemma unique_pairs_map {A : Type} (of_pair : Z -> Z -> A -> bool)
      (g : A -> A) rows :
  (forall uid pid x, of_pair uid pid (g x) = of_pair uid pid x) ->
  unique_pairs of_pair rows -> unique_pairs of_pair (map g rows).
Proof.
  intros Hg H uid pid. specialize (H uid pid).
  replace (List.length (filter (of_pair uid pid) (map g rows)))
    with (List.length (filter (of_pair uid pid) rows)); [exact H|].
  clear H. induction rows as [|x rows IH]; simpl; [reflexivity|].
  rewrite Hg. destruct (of_pair uid pid x); simpl; rewrite IH; reflexivity.
Qed.

Lemma unique_pairs_insert {A : Type} (of_pair : Z -> Z -> A -> bool)
      rows row u p :
  (forall uid pid, of_pair uid pid row = true -> of_pair uid pid = of_pair u p) ->
  existsb (of_pair u p) rows = false ->
  unique_pairs of_pair rows -> unique_pairs of_pair (rows ++ [row]).
Proof.
  intros Hrow Habsent H uid pid. rewrite filter_app, length_app. simpl.
  destruct (of_pair uid pid row) eqn:E; simpl.
  - rewrite (Hrow uid pid E).
    apply existsb_filter_nil in Habsent. rewrite Habsent. simpl. lia.
  - specialize (H uid pid). lia.
Qed.

Lemma favorite_of_determines uid pid u p now id :
  favorite_of uid pid (mkFavorite id u p now) = true ->
  favorite_of uid pid = favorite_of u p.
Proof.
  unfold favorite_of. simpl. intros H. apply andb_prop in H.
  destruct H as [Hu Hp]. apply Z.eqb_eq in Hu, Hp. subst. reflexivity.
Qed.

Lemma cart_item_of_determines uid pid u p q now id :
  cart_item_of uid pid (mkCartItem id u p q now) = true ->
  cart_item_of uid pid = cart_item_of u p.
Proof.
  unfold cart_item_of. simpl. intros H. apply andb_prop in H.
  destruct H as [Hu Hp]. apply Z.eqb_eq in Hu, Hp. subst. reflexivity.
Qed.

Lemma emails_of_assigned sets id us :
  map u_email
      (map (fun u => if id_matches id (u_id u)
                     then fold_left assign sets u else u) us)
  = map u_email us.
Proof.
  rewrite map_map. apply map_ext. intros u.
  destruct (id_matches id (u_id u)); [|reflexivity].
  revert u. induction sets as [|a sets IH]; intros u; simpl; [reflexivity|].
  rewrite IH. destruct a; reflexivity.
Qed.

Lemma id_of_assigned sets id u :
  u_id (if id_matches id (u_id u) then fold_left assign sets u else u) = u_id u.
Proof.
  destruct (id_matches id (u_id u)); [|reflexivity].
  revert u. induction sets as [|a sets IH]; intros u; simpl; [reflexivity|].
  rewrite IH. destruct a; reflexivity.
Qed.

Lemma execute_well_formed now d st d' res :
  well_formed d -> execute now d st = Ok (d', res) -> well_formed d'.
Proof.
  intros [Hu He Hr Hp Hf Hfp Hc Hcp] H.
  destruct st; simpl in H;
    repeat match type of H with
           | (if ?c then _ else _) = _ => destruct c eqn:?; try discriminate
           end;
    injection H as <- _; constructor; cbn; auto.
  - (* InsertUser *)
    apply rowids_ok_insert; auto.
  - rewrite map_app. simpl. apply NoDup_app; auto.
    + constructor; [simpl; tauto | constructor].
    + intros x Hx [Hy|[]]. subst x.
      apply in_map_iff in Hx. destruct Hx as [u [Heq Hin]].
      match goal with
      | Hex : existsb (user_has_email _) _ = false |- _ =>
          apply existsb_filter_nil in Hex;
          pose proof (filter_nil_none _ _ _ Hex Hin) as Hno
      end.
      unfold user_has_email in Hno. rewrite Heq, String.eqb_refl in Hno.
      discriminate.
  - apply Forall_app. split; [exact Hr|]. constructor; [reflexivity|constructor].
  - (* DeleteFavorite *)
    apply rowids_ok_filter; auto.
  - apply unique_pairs_filter; auto.
  - (* InsertFavorite *)
    apply rowids_ok_insert; auto.
  - eapply unique_pairs_insert; eauto.
    intros uid pid. apply favorite_of_determines.
  - (* IncrementCartItem *)
    apply rowids_ok_map; auto. intros c. destruct (c_id c =? id); reflexivity.
  - apply unique_pairs_map; auto.
    intros uid pid c. destruct (c_id c =? id); reflexivity.
  - (* InsertCartItem *)
    apply rowids_ok_insert; auto.
  - eapply unique_pairs_insert; eauto.
    intros uid pid. apply cart_item_of_determines.
  - (* DeleteCartItem *)
    apply rowids_ok_filter; auto.
  - apply unique_pairs_filter; auto.
  - (* UpdateUser *)
    apply rowids_ok_map; auto. intros u. apply id_of_assigned.
  - rewrite emails_of_assigned. exact He.
  - rewrite Forall_forall in *. intros u' Hu'. apply in_map_iff in Hu'.
    destruct Hu' as [u [<- Hin]].
    match goal with
    | Hall : forallb _ _ = true |- _ =>
        rewrite forallb_forall in Hall; specialize (Hall u Hin)
    end.
    destruct (id_matches id (u_id u)); simpl in *; auto.
  - (* DeleteUser, foreign keys on *)
    apply rowids_ok_filter; auto.
  - apply NoDup_map_filter; auto.
  - rewrite Forall_forall in *. intros u Hin. apply filter_In in Hin.
    apply Hr. tauto.
  - apply rowids_ok_filter; auto.
  - apply unique_pairs_filter; auto.
  - apply rowids_ok_filter; auto.
  - apply unique_pairs_filter; auto.
  - (* DeleteUser, foreign keys off *)
    apply rowids_ok_filter; auto.
  - apply NoDup_map_filter; auto.
  - rewrite Forall_forall in *. intros u Hin. apply filter_In in Hin.
    apply Hr. tauto.
  - (* InsertProduct *)
    apply rowids_ok_insert; auto.
Qed.

Lemma execute_quantities now d st d' res :
  quantities_positive d -> execute now d st = Ok (d', res) ->
  quantities_positive d'.
Proof.
  unfold quantities_positive. intros Hq H.
  destruct st; simpl in H;
    repeat match type of H with
           | (if ?c then _ else _) = _ => destruct c eqn:?; try discriminate
           end;
    injection H as <- _; cbn; auto.
  - rewrite Forall_forall in *. intros c' Hc'. apply in_map_iff in Hc'.
    destruct Hc' as [c [<- Hin]]. specialize (Hq c Hin).
    destruct (c_id c =? id); simpl; lia.
  - apply Forall_app. split; [exact Hq|]. constructor; [simpl; lia|constructor].
  - rewrite Forall_forall in *. intros c Hin. apply filter_In in Hin.
    apply Hq. tauto.
  - rewrite Forall_forall in *. intros c Hin. apply filter_In in Hin.
    apply Hq. tauto.
Qed.

Lemma execute_foreign_keys now d st d' res :
  execute now d st = Ok (d', res) -> foreign_keys d' = foreign_keys d.
Proof.
  intros H.
  destruct st; simpl in H;
    repeat match type of H with
           | (if ?c then _ else _) = _ => destruct c eqn:?; try discriminate
           end;
    injection H as <- _; cbn; congruence.
Qed.

Lemma db_transition_invariant d d' :
  db_transition d d' -> db_invariant d -> db_invariant d'.
Proof.
  intros [->|[now [st [res H]]]] [Hwf [Hq Hfk]];
    [exact (conj Hwf (conj Hq Hfk))|].
  split; [|split].
  - exact (execute_well_formed _ _ _ _ _ Hwf H).
  - exact (execute_quantities _ _ _ _ _ Hq H).
  - rewrite (execute_foreign_keys _ _ _ _ _ H). exact Hfk.
Qed.

Ltac transition_cases :=
  unfold db_transition; repeat (break_match; cbv beta iota);
  cbn [out_db fst snd];
  solve [ left; reflexivity
        | right; do 3 eexists; unfold dbRun in *; eassumption ].

(** A request runs at most one statement. *)
Lemma serve_transition r s d : db_transition d (out_db (serve r s d)).
Proof.
  apply (serve_forall (fun _ _ d0 o => db_transition d0 (out_db o))).
  - routes_by ltac:(
      unfold register, login, verify, logout, get_favorites, get_cart,
        admin_only, authenticated, authenticateToken, requireAdmin,
        handleValidationErrors, get_products,
        toggle_favorite, add_to_cart, remove_from_cart, put_admin_user,
        delete_admin_user, post_admin_product, updateUser, deleteUser,
        addProduct; transition_cases).
  - unfold get_csrf_token. transition_cases.
  - intros s' resp _. left. reflexivity.
Qed.

Lemma app_transition r st : db_transition (db st) (db (fst (app r st))).
Proof.
  destruct (app_limited_or_served r st) as [[_ [H _]]|[_ [H _]]]; rewrite H.
  - left. reflexivity.
  - apply serve_transition.
Qed.

Lemma insert_seed_product_invariant now d row :
  db_invariant d -> db_invariant (insert_seed_product now d row).
Proof.
  intros [[Hu He Hr Hp Hf Hfp Hc Hcp] [Hq Hfk]].
  destruct row as [[[[[name brand] description] price] emoji] sizes].
  split; [|split]; [constructor|..]; cbn; auto.
  apply rowids_ok_insert; auto.
Qed.

Lemma initDatabase_invariant now salt d :
  db_invariant d -> db_invariant (initDatabase now salt d).
Proof.
  intros Hd. unfold initDatabase.
  assert (Hadmin : db_invariant
                     (insert_or_ignore_admin now
                        (bcrypt_hash "#Adm1nSneakZone97!" salt) d)).
  { unfold insert_or_ignore_admin.
    destruct Hd as [[Hu He Hr Hp Hf Hfp Hc Hcp] [Hq Hfk]].
    destruct (existsb (user_has_email "admin@sneakzone.com") (users d)) eqn:Hex.
    { split; [|split]; [constructor|..]; cbn; auto.
      destruct Hu as [Hnd Hle]. split; [exact Hnd|].
      rewrite Forall_forall in *. intros x Hx. specialize (Hle x Hx). lia. }
    split; [|split]; [constructor|..]; cbn; auto.
    - apply rowids_ok_insert; auto.
    - rewrite map_app. simpl. apply NoDup_app; auto.
      + constructor; [simpl; tauto | constructor].
      + intros x Hx [Hy|[]]. subst x.
        apply in_map_iff in Hx. destruct Hx as [u [Heq Hin]].
        apply existsb_filter_nil in Hex.
        pose proof (filter_nil_none _ _ _ Hex Hin) as Hno.
        unfold user_has_email in Hno. rewrite Heq in Hno. discriminate.
    - apply Forall_app. split; [exact Hr|].
      constructor; [reflexivity|constructor]. }
  revert Hadmin. generalize (insert_or_ignore_admin now
                               (bcrypt_hash "#Adm1nSneakZone97!" salt) d).
  induction seed_products as [|row rows IH]; intros d0 Hd0; simpl; [exact Hd0|].
  apply IH. apply insert_seed_product_invariant. exact Hd0.
Qed.

Lemma step_invariant st e : db_invariant (db st) -> db_invariant (db (step st e)).
Proof.
  intros H. destruct e; cbn [step db]; auto.
  - eapply db_transition_invariant; [apply app_transition | exact H].
  - apply initDatabase_invariant. exact H.
Qed.

Lemma run_invariant events :
  forall st, db_invariant (db st) -> db_invariant (db (run st events)).
Proof.
  unfold run. induction events as [|e events IH]; intros st H; simpl; [exact H|].
  apply IH. apply step_invariant. exact H.
Qed.

Lemma empty_database_invariant : db_invariant empty_database.
Proof.
  split; [|split]; [constructor|..]; cbn;
    try (split; constructor); try constructor; try reflexivity;
    intros uid pid; simpl; lia.
Qed.

Lemma reachable_invariant st : reachable st -> db_invariant (db st).
Proof.
  intros [now [salt [events ->]]]. apply run_invariant.
  exact empty_database_invariant.
Qed.

(** X3. In every reachable state the constraints of the schema hold
    (distinct rowids below the sequence, distinct emails, roles 'user'
    or 'admin', at most one favorites row and one cart row per user and
    product), every cart row has a quantity of at least 1, and the
    connection has foreign key enforcement off. *)
Theorem reachable_states_keep_invariant :
  forall st : AppState,
    reachable st ->
    well_formed (db st)
    /\ Forall (fun c => 1 <= c_quantity c) (cart_items (db st))
    /\ foreign_keys (db st) = false.
Proof. exact reachable_invariant. Qed.

(** With enforcement off, deleting users deletes rows of [users] only. *)
Lemma deleteUser_keeps_dependents now userId d :
  foreign_keys d = false ->
  favorites (fst (deleteUser now userId d)) = favorites d
  /\ cart_items (fst (deleteUser now userId d)) = cart_items d.
Proof.
  intros Hfk. unfold deleteUser, dbRun, execute. rewrite Hfk. split; reflexivity.
Qed.

Lemma reachable_delete_never_cascades st now userId :
  reachable st ->
  favorites (fst (deleteUser now userId (db st))) = favorites (db st)
  /\ cart_items (fst (deleteUser now userId (db st))) = cart_items (db st).
Proof.
  intros H. apply deleteUser_keeps_dependents.
  apply (reachable_invariant st H).
Qed.

(** ** Stored password hashes and responses *)

Lemma find_map_invariant {A : Type} (f : A -> bool) (g : A -> A) l :
  (forall x, f (g x) = f x) -> find f (map g l) = option_map g (find f l).
Proof.
  intros Hg. induction l as [|x l IH]; simpl; [reflexivity|].
  rewrite Hg. destruct (f x); [reflexivity | exact IH].
Qed.

Lemma filter_map_invariant {A : Type} (f : A -> bool) (g : A -> A) l :
  (forall x, f (g x) = f x) -> filter f (map g l) = map g (filter f l).
Proof.
  intros Hg. induction l as [|x l IH]; simpl; [reflexivity|].
  rewrite Hg. destruct (f x); simpl; rewrite IH; reflexivity.
Qed.

Lemma existsb_map_invariant {A : Type} (f : A -> bool) (g : A -> A) l :
  (forall x, f (g x) = f x) -> existsb f (map g l) = existsb f l.
Proof.
  intros Hg. induction l as [|x l IH]; simpl; [reflexivity|].
  rewrite Hg, IH. reflexivity.
Qed.

Lemma forallb_map_invariant {A : Type} (f : A -> bool) (g : A -> A) l :
  (forall x, f (g x) = f x) -> forallb f (map g l) = forallb f l.
Proof.
  intros Hg. induction l as [|x l IH]; simpl; [reflexivity|].
  rewrite Hg, IH. reflexivity.
Qed.

Lemma count_if_map_invariant {A : Type} (f : A -> bool) (g : A -> A) l :
  (forall x, f (g x) = f x) -> count_if f (map g l) = count_if f l.
Proof.
  intros Hg. unfold count_if. rewrite filter_map_invariant by exact Hg.
  rewrite length_map. reflexivity.
Qed.

Lemma insert_desc_map {A : Type} (key : A -> Z) (g : A -> A) x l :
  (forall y, key (g y) = key y) ->
  insert_desc key (g x) (map g l) = map g (insert_desc key x l).
Proof.
  intros Hg. induction l as [|y l IH]; simpl; [reflexivity|].
  rewrite !Hg. destruct (key y <=? key x); simpl; [reflexivity|].
  rewrite IH. reflexivity.
Qed.

Lemma order_by_desc_map {A : Type} (key : A -> Z) (g : A -> A) l :
  (forall y, key (g y) = key y) ->
  order_by_desc key (map g l) = map g (order_by_desc key l).
Proof.
  intros Hg. unfold order_by_desc.
  induction l as [|x l IH]; simpl; [reflexivity|].
  rewrite IH. apply insert_desc_map. exact Hg.
Qed.

Lemma without_password_twice u :
  without_password (without_password u) = without_password u.
Proof. reflexivity. Qed.

Lemma without_passwords_twice d :
  without_passwords (without_passwords d) = without_passwords d.
Proof.
  unfold without_passwords, with_users. simpl. rewrite map_map. reflexivity.
Qed.

(** Every query that does not select the password column reads the same
    from a database and from the one without the hashes. *)
Lemma dbGet_auth_user_hashless d id :
  dbGet_auth_user (without_passwords d) id = dbGet_auth_user d id.
Proof.
  unfold dbGet_auth_user. simpl.
  rewrite find_map_invariant by reflexivity.
  destruct (find (user_has_id id) (users d)); reflexivity.
Qed.

Lemma dbGet_user_id_by_email_hashless d email :
  dbGet_user_id_by_email (without_passwords d) email
  = dbGet_user_id_by_email d email.
Proof.
  unfold dbGet_user_id_by_email. simpl.
  rewrite find_map_invariant by reflexivity.
  destruct (find (user_has_email email) (users d)); reflexivity.
Qed.

Lemma dbGet_new_user_hashless d id :
  dbGet_new_user (without_passwords d) id = dbGet_new_user d id.
Proof.
  unfold dbGet_new_user. simpl.
  rewrite find_map_invariant by reflexivity.
  destruct (find (user_has_id id) (users d)); reflexivity.
Qed.

(** The login query selects the password; the other columns of its row
    are the same. *)
Lemma dbGet_login_user_hashless d email :
  dbGet_login_user (without_passwords d) email
  = option_map without_password (dbGet_login_user d email).
Proof.
  unfold dbGet_login_user. simpl. apply find_map_invariant. reflexivity.
Qed.

Lemma dbAll_users_hashless d :
  dbAll_users (without_passwords d) = dbAll_users d.
Proof.
  unfold dbAll_users. simpl.
  rewrite order_by_desc_map by reflexivity. rewrite map_map. reflexivity.
Qed.

Lemma getStats_hashless d : getStats (without_passwords d) = getStats d.
Proof.
  unfold getStats, dbGet_count_users, dbGet_count_admins, dbGet_count_active,
    dbGet_count_products. simpl.
  rewrite !count_if_map_invariant by reflexivity. reflexivity.
Qed.

Lemma authenticateToken_hashless d s :
  authenticateToken (without_passwords d) s = authenticateToken d s.
Proof.
  unfold authenticateToken. destruct (userId s) as [id|]; [|reflexivity].
  rewrite dbGet_auth_user_hashless. reflexivity.
Qed.

Lemma parents_exist_hashless d uid pid :
  parents_exist (without_passwords d) uid pid = parents_exist d uid pid.
Proof.
  unfold parents_exist. simpl.
  rewrite existsb_map_invariant by reflexivity. reflexivity.
Qed.

Lemma assign_without_password sets u :
  fold_left assign sets (without_password u)
  = without_password (fold_left assign sets u).
Proof.
  revert u. induction sets as [|a sets IH]; intros u; simpl; [reflexivity|].
  rewrite <- IH. destruct a; reflexivity.
Qed.

Ltac hashless_done :=
  cbn; unfold without_passwords, with_users, with_favorites, with_cart_items,
         with_products; cbn;
  rewrite ?map_app, ?map_map; reflexivity.

Lemma execute_hashless now d st :
  hashless_result (execute now (without_passwords d) st)
  = hashless_result (execute now d st).
Proof.
  destruct st; cbn [execute];
    rewrite ?parents_exist_hashless;
    cbn [without_passwords with_users users products favorites cart_items
         seq_users seq_products seq_favorites seq_cart_items foreign_keys].
  - (* InsertUser *)
    rewrite existsb_map_invariant by reflexivity.
    destruct (sql_is_null first_name || sql_is_null last_name); [reflexivity|].
    destruct (existsb (user_has_email email) (users d)); [reflexivity|].
    hashless_done.
  - hashless_done.
  - destruct (foreign_keys d && negb (parents_exist d user_id product_id));
      [reflexivity|].
    destruct (existsb (favorite_of user_id product_id) (favorites d));
      [reflexivity|]. hashless_done.
  - hashless_done.
  - destruct (foreign_keys d && negb (parents_exist d user_id product_id));
      [reflexivity|].
    destruct (existsb (cart_item_of user_id product_id) (cart_items d));
      [reflexivity|]. hashless_done.
  - hashless_done.
  - (* UpdateUser *)
    rewrite forallb_map_invariant.
    2:{ intros u. cbn [without_password u_id].
        destruct (id_matches id (u_id u)); [|reflexivity].
        rewrite assign_without_password. reflexivity. }
    destruct (forallb _ (users d)); [|reflexivity].
    cbn. unfold without_passwords, with_users. cbn.
    rewrite count_if_map_invariant by reflexivity.
    f_equal. f_equal. f_equal. rewrite !map_map. apply map_ext. intros u.
    cbn [without_password u_id].
    destruct (id_matches id (u_id u)); [|reflexivity].
    rewrite assign_without_password. reflexivity.
  - (* DeleteUser *)
    rewrite count_if_map_invariant by reflexivity.
    rewrite (filter_map_invariant
               (fun u => negb (id_matches id (u_id u))) without_password)
      by reflexivity.
    destruct (foreign_keys d); cbn; unfold without_passwords, with_users; cbn.
    + rewrite map_map.
      assert (Hex : forall uid,
                 existsb (fun u => id_matches id (u_id u) && (u_id u =? uid))
                         (map without_password (users d))
                 = existsb (fun u => id_matches id (u_id u) && (u_id u =? uid))
                           (users d))
        by (intros uid; apply existsb_map_invariant; reflexivity).
      f_equal. f_equal. f_equal.
      * apply filter_ext. intros f. rewrite Hex. reflexivity.
      * apply filter_ext. intros c. rewrite Hex. reflexivity.
    + rewrite map_map. reflexivity.
  - destruct (sql_is_null name || sql_is_null brand || sql_is_null price);
      [reflexivity|]. hashless_done.
Qed.

(** On two databases that differ in hashes only, a statement is accepted
    by both or rejected by both, with the same run result, and the
    databases still differ in hashes only. *)
Lemma dbRun_same_but_passwords now st d1 d2 :
  same_but_passwords d1 d2 ->
  match dbRun now d1 st, dbRun now d2 st with
  | Ok (d1', r1), Ok (d2', r2) => same_but_passwords d1' d2' /\ r1 = r2
  | Err _, Err _ => True
  | _, _ => False
  end.
Proof.
  intros Hsame. unfold dbRun.
  pose proof (execute_hashless now d1 st) as H1.
  pose proof (execute_hashless now d2 st) as H2.
  rewrite Hsame, H2 in H1.
  destruct (execute now d1 st) as [[d1' r1]|], (execute now d2 st) as [[d2' r2]|];
    cbn [hashless_result] in H1; try discriminate; [|exact I].
  unfold same_but_passwords. split; congruence.
Qed.

Lemma same_but_passwords_tables d1 d2 :
  same_but_passwords d1 d2 ->
  products d1 = products d2 /\ favorites d1 = favorites d2
  /\ cart_items d1 = cart_items d2.
Proof.
  unfold same_but_passwords. intros H.
  pose proof (f_equal products H). pose proof (f_equal favorites H).
  pose proof (f_equal cart_items H). auto.
Qed.

Lemma authenticateToken_same_but d1 d2 s :
  same_but_passwords d1 d2 -> authenticateToken d1 s = authenticateToken d2 s.
Proof.
  intros H. rewrite <- (authenticateToken_hashless d1), H.
  apply authenticateToken_hashless.
Qed.

Lemma authenticated_same_response handler s d1 d2 :
  same_but_passwords d1 d2 ->
  (forall user, snd (handler user d1) = snd (handler user d2)) ->
  same_response (authenticated handler s d1) (authenticated handler s d2).
Proof.
  intros Hsame Hh. unfold same_response, authenticated.
  rewrite (authenticateToken_same_but d1 d2 s Hsame).
  destruct (authenticateToken d2 s) as [resp|user]; [reflexivity|].
  specialize (Hh user).
  destruct (handler user d1), (handler user d2). exact Hh.
Qed.

Lemma admin_only_same_response handler s d1 d2 :
  same_but_passwords d1 d2 ->
  (forall user, snd (handler user d1) = snd (handler user d2)) ->
  same_response (admin_only handler s d1) (admin_only handler s d2).
Proof.
  intros Hsame Hh. unfold admin_only.
  apply authenticated_same_response; [exact Hsame|].
  intros user. destruct (requireAdmin user); [reflexivity | apply Hh].
Qed.

(** A handler that runs one statement and answers by its success. *)
Lemma run_same_response now st d1 d2 (ok error : Response) :
  same_but_passwords d1 d2 ->
  snd (match dbRun now d1 st with
       | Err _ => (d1, error)
       | Ok (d', _) => (d', ok)
       end)
  = snd (match dbRun now d2 st with
         | Err _ => (d2, error)
         | Ok (d', _) => (d', ok)
         end).
Proof.
  intros Hsame. pose proof (dbRun_same_but_passwords now st d1 d2 Hsame) as H.
  destruct (dbRun now d1 st) as [[? ?]|], (dbRun now d2 st) as [[? ?]|];
    try contradiction; reflexivity.
Qed.

Lemma toggle_favorite_same_response now key user d1 d2 :
  same_but_passwords d1 d2 ->
  snd (toggle_favorite now key user d1) = snd (toggle_favorite now key user d2).
Proof.
  intros Hsame. destruct (same_but_passwords_tables _ _ Hsame) as [Hp [Hf Hc]].
  unfold toggle_favorite, dbGet_product_id_by_name, dbGet_favorite_id.
  rewrite Hp, Hf.
  destruct (decodeURIComponent key) as [name|]; [|reflexivity].
  destruct (option_map p_id _) as [pid|]; [|reflexivity].
  destruct (option_map f_id _) as [fid|]; apply run_same_response; exact Hsame.
Qed.

Lemma add_to_cart_same_response now key user d1 d2 :
  same_but_passwords d1 d2 ->
  snd (add_to_cart now key user d1) = snd (add_to_cart now key user d2).
Proof.
  intros Hsame. destruct (same_but_passwords_tables _ _ Hsame) as [Hp [Hf Hc]].
  unfold add_to_cart, dbGet_product_id_by_name, dbGet_cart_item.
  rewrite Hp, Hc.
  destruct (decodeURIComponent key) as [name|]; [|reflexivity].
  destruct (option_map p_id _) as [pid|]; [|reflexivity].
  apply run_same_response. exact Hsame.
Qed.

Lemma remove_from_cart_same_response now key user d1 d2 :
  same_but_passwords d1 d2 ->
  snd (remove_from_cart now key user d1)
  = snd (remove_from_cart now key user d2).
Proof.
  intros Hsame. destruct (same_but_passwords_tables _ _ Hsame) as [Hp [Hf Hc]].
  unfold remove_from_cart, dbGet_product_id_by_name. rewrite Hp.
  destruct (decodeURIComponent key) as [name|]; [|reflexivity].
  destruct (option_map p_id _) as [pid|]; [|reflexivity].
  apply run_same_response. exact Hsame.
Qed.

Lemma run_same_json now st d1 d2 (ok error : json) :
  same_but_passwords d1 d2 ->
  snd (match dbRun now d1 st with
       | Err _ => (d1, error)
       | Ok (d', _) => (d', ok)
       end)
  = snd (match dbRun now d2 st with
         | Err _ => (d2, error)
         | Ok (d', _) => (d', ok)
         end).
Proof.
  intros Hsame. pose proof (dbRun_same_but_passwords now st d1 d2 Hsame) as H.
  destruct (dbRun now d1 st) as [[? ?]|], (dbRun now d2 st) as [[? ?]|];
    try contradiction; reflexivity.
Qed.

Lemma put_admin_user_same_response now userId b user d1 d2 :
  same_but_passwords d1 d2 ->
  snd (put_admin_user now userId b user d1)
  = snd (put_admin_user now userId b user d2).
Proof.
  intros Hsame. unfold put_admin_user.
  destruct (is_own_id userId user); [reflexivity|].
  assert (H : snd (updateUser now userId b d1) = snd (updateUser now userId b d2)).
  { unfold updateUser. destruct (validUpdates b); [reflexivity|].
    apply run_same_json. exact Hsame. }
  destruct (updateUser now userId b d1), (updateUser now userId b d2).
  simpl in *. rewrite H. reflexivity.
Qed.

Lemma delete_admin_user_same_response now userId user d1 d2 :
  same_but_passwords d1 d2 ->
  snd (delete_admin_user now userId user d1)
  = snd (delete_admin_user now userId user d2).
Proof.
  intros Hsame. unfold delete_admin_user.
  destruct (is_own_id userId user); [reflexivity|].
  assert (H : snd (deleteUser now userId d1) = snd (deleteUser now userId d2))
    by (unfold deleteUser; apply run_same_json; exact Hsame).
  destruct (deleteUser now userId d1), (deleteUser now userId d2).
  simpl in *. rewrite H. reflexivity.
Qed.

Lemma post_admin_product_same_response now b user d1 d2 :
  same_but_passwords d1 d2 ->
  snd (post_admin_product now b user d1) = snd (post_admin_product now b user d2).
Proof.
  intros Hsame. unfold post_admin_product.
  assert (H : snd (addProduct now b d1) = snd (addProduct now b d2))
    by (unfold addProduct; apply run_same_json; exact Hsame).
  destruct (addProduct now b d1), (addProduct now b d2).
  simpl in *. rewrite H. reflexivity.
Qed.

Lemma register_same_response r s d1 d2 :
  same_but_passwords d1 d2 ->
  same_response (register r s d1) (register r s d2).
Proof.
  intros Hsame. unfold same_response, register.
  destruct (handleValidationErrors _ _); [reflexivity|].
  rewrite <- (dbGet_user_id_by_email_hashless d1), Hsame,
    dbGet_user_id_by_email_hashless.
  destruct (dbGet_user_id_by_email d2 _); [reflexivity|].
  destruct (bcrypt_hash_js _ _) as [hash|]; [|reflexivity].
  match goal with
  | |- context [dbRun ?now d1 ?st] =>
      pose proof (dbRun_same_but_passwords now st d1 d2 Hsame) as H;
      destruct (dbRun now d1 st) as [[d1' r1]|],
               (dbRun now d2 st) as [[d2' r2]|]; try contradiction;
      [|reflexivity]
  end.
  destruct H as [Hsame' <-].
  rewrite <- (dbGet_new_user_hashless d1'), Hsame', dbGet_new_user_hashless.
  destruct (dbGet_new_user d2' (run_id r1)); reflexivity.
Qed.

(** Login reads the hash, and only to compare: two runs on databases
    that differ in hashes answer the same whenever they answer with the
    same status. *)
Lemma login_same_response_if_same_status r s d1 d2 :
  same_but_passwords d1 d2 ->
  status (out_response (login r s d1)) = status (out_response (login r s d2)) ->
  out_response (login r s d1) = out_response (login r s d2).
Proof.
  intros Hsame. unfold login.
  destruct (handleValidationErrors _ _); [reflexivity|].
  pose proof (dbGet_login_user_hashless d1
                (normalizeEmail (js_get (req_body r) "email"))) as H1.
  pose proof (dbGet_login_user_hashless d2
                (normalizeEmail (js_get (req_body r) "email"))) as H2.
  rewrite Hsame, H2 in H1.
  destruct (dbGet_login_user d1 _) as [u1|], (dbGet_login_user d2 _) as [u2|];
    cbn [option_map] in H1; try discriminate; [|reflexivity].
  injection H1 as Hu.
  assert (Hfields : u_id u1 = u_id u2 /\ u_email u1 = u_email u2
                    /\ u_first_name u1 = u_first_name u2
                    /\ u_last_name u1 = u_last_name u2
                    /\ u_role u1 = u_role u2
                    /\ u_is_active u1 = u_is_active u2).
  { destruct u1, u2. simpl in *. repeat split; congruence. }
  destruct Hfields as [Hid [Hemail [Hfirst [Hlast [Hrole Hactive]]]]].
  rewrite Hid, Hemail, Hfirst, Hlast, Hrole, Hactive.
  destruct (u_is_active u2 =? 0); [reflexivity|].
  unfold bcrypt_compare_js.
  destruct (js_get (req_body r) "password") as [[|flag|n|p|items|fields]|];
    try reflexivity.
  destruct (bcrypt_compare p (u_password u1)), (bcrypt_compare p (u_password u2));
    cbn; intros Hstatus; try reflexivity; discriminate Hstatus.
Qed.

Lemma dispatch_related (R : Outcome -> Outcome -> Prop) table r s d1 d2 :
  Forall (fun route =>
            forall ps, R (route_handler route ps r s d1)
                         (route_handler route ps r s d2)) table ->
  match dispatch table r s d1, dispatch table r s d2 with
  | Some o1, Some o2 => R o1 o2
  | None, None => True
  | _, _ => False
  end.
Proof.
  induction table as [|route table IH]; simpl; [auto|].
  intros Hall. inversion Hall as [|? ? Hroute Hrest]; subst.
  destruct (verb_matches (route_verb route) (req_method r));
    [|apply IH; exact Hrest].
  destruct (match_path (route_pattern route) (req_path r));
    [|apply IH; exact Hrest].
  apply Hroute.
Qed.

Lemma serve_related (R : Outcome -> Outcome -> Prop) r s d1 d2 :
  (forall s',
      Forall (fun route =>
                forall ps, R (route_handler route ps r s' d1)
                             (route_handler route ps r s' d2)) routes) ->
  R (get_csrf_token r s d1) (get_csrf_token r s d2) ->
  (forall s' resp, R (mkOutcome d1 s' resp) (mkOutcome d2 s' resp)) ->
  R (serve r s d1) (serve r s d2).
Proof.
  intros Hroutes Htoken Hown. unfold serve.
  destruct (verb_matches "GET" (req_method r)
            && match match_path [Lit "api"; Lit "csrf-token"] (req_path r) with
               | Some _ => true
               | None => false
               end); [exact Htoken|].
  destruct (if mounted_at ["api"] (req_path r) then csrf_guard r s else (s, true))
    as [s1 passed].
  destruct passed; [|apply Hown].
  destruct (static_file r) as [name|]; [apply Hown|].
  pose proof (dispatch_related R routes r s1 d1 d2 (Hroutes s1)) as H.
  destruct (dispatch routes r s1 d1), (dispatch routes r s1 d2);
    try contradiction; [exact H | apply Hown].
Qed.

Lemma routes_answer_without_hashes r s d1 d2 :
  same_but_passwords d1 d2 ->
  Forall (fun route =>
            forall ps,
              same_response_if_same_status (route_handler route ps r s d1)
                                           (route_handler route ps r s d2))
         routes.
Proof.
  intros Hsame. destruct (same_but_passwords_tables _ _ Hsame) as [Hp [Hf Hc]].
  assert (Husers : dbAll_users d1 = dbAll_users d2)
    by (rewrite <- (dbAll_users_hashless d1), Hsame; apply dbAll_users_hashless).
  assert (Hstats : getStats d1 = getStats d2)
    by (rewrite <- (getStats_hashless d1), Hsame; apply getStats_hashless).
  unfold routes.
  repeat (apply Forall_cons;
          [intros ps; cbn [route_handler]; unfold same_response_if_same_status
          |]);
    try apply Forall_nil.
  - intros _. cbn. unfold get_products, dbAll_products. rewrite Hp. reflexivity.
  - intros _. apply register_same_response. exact Hsame.
  - apply login_same_response_if_same_status. exact Hsame.
  - intros _. apply authenticated_same_response; [exact Hsame|]. reflexivity.
  - reflexivity.
  - intros _. apply authenticated_same_response; [exact Hsame|].
    intros user. cbn. unfold dbAll_favorites. rewrite Hp, Hf. reflexivity.
  - intros _. apply authenticated_same_response; [exact Hsame|].
    intros user. apply toggle_favorite_same_response. exact Hsame.
  - intros _. apply authenticated_same_response; [exact Hsame|].
    intros user. cbn. unfold dbAll_cart. rewrite Hp, Hc. reflexivity.
  - intros _. apply authenticated_same_response; [exact Hsame|].
    intros user. apply add_to_cart_same_response. exact Hsame.
  - intros _. apply authenticated_same_response; [exact Hsame|].
    intros user. apply remove_from_cart_same_response. exact Hsame.
  - intros _. apply admin_only_same_response; [exact Hsame|].
    intros user. cbn. unfold getUsers. rewrite Husers. reflexivity.
  - intros _. apply admin_only_same_response; [exact Hsame|].
    intros user. cbn. rewrite Hstats. reflexivity.
  - intros _. apply admin_only_same_response; [exact Hsame|].
    intros user. apply put_admin_user_same_response. exact Hsame.
  - intros _. apply admin_only_same_response; [exact Hsame|].
    intros user. apply delete_admin_user_same_response. exact Hsame.
  - intros _. apply admin_only_same_response; [exact Hsame|].
    intros user. cbn. unfold getAllProducts, dbAll_products_newest_first.
    rewrite Hp. reflexivity.
  - intros _. apply admin_only_same_response; [exact Hsame|].
    intros user. apply post_admin_product_same_response. exact Hsame.
Qed.

Lemma serve_answers_without_hashes r s d1 d2 :
  same_but_passwords d1 d2 ->
  same_response_if_same_status (serve r s d1) (serve r s d2).
Proof.
  intros Hsame. apply serve_related.
  - intros s'. apply routes_answer_without_hashes. exact Hsame.
  - intros _. unfold get_csrf_token.
    destruct (csrfProtection r s) as [s' passed]. destruct passed; reflexivity.
  - intros s' resp _. reflexivity.
Qed.

Lemma app_answers_without_hashes r st1 st2 :
  sessions st1 = sessions st2 ->
  auth_hits st1 = auth_hits st2 ->
  api_hits st1 = api_hits st2 ->
  same_but_passwords (db st1) (db st2) ->
  status (snd (app r st1)) = status (snd (app r st2)) ->
  snd (app r st1) = snd (app r st2).
Proof.
  intros Hs Hah Hph Hsame.
  pose proof (serve_answers_without_hashes r
                (load_session (req_sid r) (sessions st2))
                (db st1) (db st2) Hsame) as Hserve.
  unfold same_response_if_same_status in Hserve.
  unfold app, with_api_limiter, rateLimit, with_session, increment.
  rewrite Hs, Hah, Hph.
  generalize dependent (serve r (load_session (req_sid r) (sessions st2)) (db st1)).
  generalize (serve r (load_session (req_sid r) (sessions st2)) (db st2)).
  intros o2 o1 Hserve.
  destruct (mounted_at ["api"; "auth"; "login"] (req_path r)
            || mounted_at ["api"; "auth"; "register"] (req_path r));
    destruct (mounted_at ["api"] (req_path r)); cbn [fst snd];
    repeat match goal with
           | |- context [if (?a <? ?b)%N then _ else _] =>
               destruct (a <? b)%N; cbn [fst snd]
           end;
    cbn [fst snd]; auto.
Qed.

Lemma login_success_shape r s d :
  status (out_response (login r s d)) = 200 ->
  exists u,
    In u (users d)
    /\ out_response (login r s d)
       = json_ok (JObj [("success", JBool true);
                        ("message", JStr "Connexion réussie");
                        ("user",
                         user_object (u_id u) (u_email u) (u_first_name u)
                                     (u_last_name u) (u_role u))]).
Proof.
  unfold login, handleValidationErrors, dbGet_login_user.
  destruct (isEmail _ && notEmpty _); [|discriminate].
  destruct (find _ (users d)) as [u|] eqn:Hfind; [|discriminate].
  destruct (u_is_active u =? 0); [discriminate|].
  destruct (bcrypt_compare_js _ _) as [[|]|]; try discriminate.
  intros _. exists u. split; [|reflexivity].
  apply find_some in Hfind. tauto.
Qed.

Lemma register_success_shape r s d :
  status (out_response (register r s d)) = 200 ->
  exists u,
    In u (users (out_db (register r s d)))
    /\ out_response (register r s d)
       = json_ok (JObj [("success", JBool true);
                        ("message", JStr "Compte créé avec succès");
                        ("user",
                         user_object (u_id u) (u_email u) (u_first_name u)
                                     (u_last_name u) (u_role u))]).
Proof.
  unfold register, handleValidationErrors.
  destruct (isEmail _ && isLength 8 None _ && isLength 2 (Some 50) _
            && isLength 2 (Some 50) _); [|discriminate].
  destruct (dbGet_user_id_by_email d _); [discriminate|].
  destruct (bcrypt_hash_js _ _) as [hash|]; [|discriminate].
  destruct (dbRun _ d _) as [[d' result]|]; [|discriminate].
  unfold dbGet_new_user.
  destruct (find _ (users d')) as [u|] eqn:Hfind; [|discriminate].
  intros _. exists u. split; [|reflexivity].
  apply find_some in Hfind. cbn. tauto.
Qed.

(** C10. The response to a request does not depend on the stored
    password hashes beyond the status that login answers with: on two
    server states that differ in stored hashes only, a request that is
    answered with the same status is answered with the same response.
    The success responses of login and register carry, of a row of
    [users], the object made of id, email, firstName, lastName and role;
    the verify response and the admin user listing are the same as on
    the database with every hash erased. *)
Theorem responses_without_password_hash :
  (forall (r : Request) (st1 st2 : AppState),
      sessions st1 = sessions st2 ->
      auth_hits st1 = auth_hits st2 ->
      api_hits st1 = api_hits st2 ->
      same_but_passwords (db st1) (db st2) ->
      status (snd (app r st1)) = status (snd (app r st2)) ->
      snd (app r st1) = snd (app r st2))
  /\
  (forall (r : Request) (s : Session) (d : Database),
      status (out_response (login r s d)) = 200 ->
      exists u,
        In u (users d)
        /\ out_response (login r s d)
           = json_ok (JObj [("success", JBool true);
                            ("message", JStr "Connexion réussie");
                            ("user",
                             user_object (u_id u) (u_email u) (u_first_name u)
                                         (u_last_name u) (u_role u))]))
  /\
  (forall (r : Request) (s : Session) (d : Database),
      status (out_response (register r s d)) = 200 ->
      exists u,
        In u (users (out_db (register r s d)))
        /\ out_response (register r s d)
           = json_ok (JObj [("success", JBool true);
                            ("message", JStr "Compte créé avec succès");
                            ("user",
                             user_object (u_id u) (u_email u) (u_first_name u)
                                         (u_last_name u) (u_role u))]))
  /\
  (forall (s : Session) (d : Database),
      out_response (verify s d)
      = out_response (verify s (without_passwords d))
      /\ getUsers d = getUsers (without_passwords d)).
Proof.
  split; [exact app_answers_without_hashes|].
  split; [exact login_success_shape|].
  split; [exact register_success_shape|].
  intros s d. split.
  - unfold verify, authenticated. rewrite authenticateToken_hashless.
    destruct (authenticateToken d s); reflexivity.
  - unfold getUsers. rewrite dbAll_users_hashless. reflexivity.
Qed.

(** ** The shape of the chain *)

Lemma match_path_under prefix :
  forall pattern path ps,
    match_path pattern path = Some ps ->
    mounted_at prefix path = true ->
    pattern_under prefix pattern = true.
Proof.
  induction prefix as [|p prefix IH]; intros pattern path ps Hm Hu;
    [destruct pattern; reflexivity|].
  destruct path as [|seg path]; [discriminate Hu|].
  cbn [mounted_at] in Hu. apply andb_prop in Hu. destruct Hu as [Hseg Hu].
  destruct pattern as [|[s|] pattern]; [reflexivity| |].
  - cbn [match_path] in Hm. cbn [pattern_under].
    destruct (String.eqb (lower seg) s) eqn:Hs; [|discriminate Hm].
    apply String.eqb_eq in Hs, Hseg. subst s p. rewrite String.eqb_refl.
    exact (IH _ _ _ Hm Hu).
  - cbn [match_path] in Hm. cbn [pattern_under].
    destruct (String.eqb seg ""); [discriminate Hm|].
    destruct (match_path pattern path) as [ps'|] eqn:Hm'; [|discriminate Hm].
    exact (IH _ _ _ Hm' Hu).
Qed.

Lemma dispatch_matched (P : Outcome -> Prop) table r s d o :
  Forall (fun route =>
            forall ps,
              verb_matches (route_verb route) (req_method r) = true ->
              match_path (route_pattern route) (req_path r) = Some ps ->
              P (route_handler route ps r s d)) table ->
  dispatch table r s d = Some o -> P o.
Proof.
  induction table as [|route table IH]; simpl; [discriminate|].
  intros Hall. inversion Hall as [|? ? Hroute Hrest]; subst.
  destruct (verb_matches (route_verb route) (req_method r)) eqn:Hv; [|auto].
  destruct (match_path (route_pattern route) (req_path r)) as [ps|] eqn:Hp;
    [|auto].
  intros H. injection H as <-. apply Hroute; reflexivity.
Qed.

(** Under a mount point only the routes registered under it answer. *)
Lemma dispatch_under (P : Outcome -> Prop) prefix table r s d o :
  mounted_at prefix (req_path r) = true ->
  Forall (fun route =>
            pattern_under prefix (route_pattern route) = true ->
            forall ps, P (route_handler route ps r s d)) table ->
  dispatch table r s d = Some o -> P o.
Proof.
  intros Hu Hall. apply dispatch_matched.
  eapply Forall_impl; [|exact Hall]. intros route H ps _ Hm.
  apply H. exact (match_path_under _ _ _ _ Hm Hu).
Qed.

Lemma static_file_is_top_level r name :
  static_file r = Some name -> (List.length (req_path r) <= 1)%nat.
Proof.
  unfold static_file.
  destruct (String.eqb (req_method r) "GET" || String.eqb (req_method r) "HEAD");
    [|discriminate].
  destruct (req_path r) as [|a [|b rest]]; simpl; intros H; [lia | lia |].
  discriminate H.
Qed.

Lemma mounted_at_length prefix :
  forall path, mounted_at prefix path = true ->
               (List.length prefix <= List.length path)%nat.
Proof.
  induction prefix as [|p prefix IH]; intros path H; simpl; [lia|].
  destruct path as [|seg path]; [discriminate H|].
  cbn [mounted_at] in H. apply andb_prop in H. destruct H as [_ H].
  specialize (IH _ H). simpl. lia.
Qed.

Lemma csrf_guard_keeps_user r s : userId (fst (csrf_guard r s)) = userId s.
Proof. unfold csrf_guard. destruct (ignored_method (req_method r)); reflexivity. Qed.

(** The five ways in which the chain below the session middleware answers: the
    token route, the error handler after the guard, a static file, a
    route, the fallback.  The session handed on has the user of the
    session of the request. *)
Lemma serve_cases r s d :
  ((exists ps, match_path [Lit "api"; Lit "csrf-token"] (req_path r) = Some ps)
   /\ serve r s d = get_csrf_token r s d)
  \/ exists s1,
      userId s1 = userId s
      /\ (serve r s d = mkOutcome d s1 csrf_error_response
          \/ (exists name,
                 static_file r = Some name
                 /\ serve r s d = mkOutcome d s1 (mkResponse 200 (FileBody name)))
          \/ dispatch routes r s1 d = Some (serve r s d)
          \/ (dispatch routes r s1 d = None
              /\ serve r s d = mkOutcome d s1 (spa_route r))).
Proof.
  unfold serve.
  destruct (match_path [Lit "api"; Lit "csrf-token"] (req_path r)) as [ps|] eqn:Ht.
  - destruct (verb_matches "GET" (req_method r)); cbn [andb].
    + left. split; [exists ps|]; reflexivity.
    + right. 
      pose proof (csrf_guard_keeps_user r s) as Hu.
      destruct (if mounted_at ["api"] (req_path r) then csrf_guard r s
                else (s, true)) as [s1 passed] eqn:Hg.
      exists s1. split.
      { destruct (mounted_at ["api"] (req_path r));
          [rewrite Hg in Hu; exact Hu | injection Hg as <- _; reflexivity]. }
      destruct passed; [|left; reflexivity].
      destruct (static_file r) as [name|]; [right; left; eauto|].
      destruct (dispatch routes r s1 d) as [o|]; right; right; auto.
  - rewrite andb_false_r. right.
    pose proof (csrf_guard_keeps_user r s) as Hu.
    destruct (if mounted_at ["api"] (req_path r) then csrf_guard r s
              else (s, true)) as [s1 passed] eqn:Hg.
    exists s1. split.
    { destruct (mounted_at ["api"] (req_path r));
        [rewrite Hg in Hu; exact Hu | injection Hg as <- _; reflexivity]. }
    destruct passed; [|left; reflexivity].
    destruct (static_file r) as [name|]; [right; left; eauto|].
    destruct (dispatch routes r s1 d) as [o|]; right; right; auto.
Qed.

(** ** Authentication and the role gate *)

Lemma authenticateToken_same_user d s s' :
  userId s' = userId s -> authenticateToken d s' = authenticateToken d s.
Proof. intros H. unfold authenticateToken. rewrite H. reflexivity. Qed.

Lemma authenticateToken_refusal d s resp :
  authenticateToken d s = inl resp -> status resp = 401.
Proof.
  unfold authenticateToken.
  destruct (userId s) as [id|]; [|intros H; injection H as <-; reflexivity].
  destruct (id =? 0); [intros H; injection H as <-; reflexivity|].
  destruct (dbGet_auth_user d id) as [user|];
    [|intros H; injection H as <-; reflexivity].
  destruct (au_is_active user =? 0); [|discriminate].
  intros H; injection H as <-; reflexivity.
Qed.

Lemma authenticated_refused handler s d resp :
  authenticateToken d s = inl resp ->
  authenticated handler s d = mkOutcome d s resp.
Proof. intros H. unfold authenticated. rewrite H. reflexivity. Qed.

Lemma admin_only_refused handler s d resp :
  authenticateToken d s = inl resp ->
  admin_only handler s d = mkOutcome d s resp.
Proof. apply authenticated_refused. Qed.

Lemma admin_only_forbidden handler s d user :
  authenticateToken d s = inr user ->
  au_role user <> "admin" ->
  admin_only handler s d
  = mkOutcome d s (json_status 403 (failure "Accès administrateur requis")).
Proof.
  intros Hauth Hrole. unfold admin_only.
  rewrite (authenticated_as _ _ _ _ Hauth). unfold requireAdmin.
  apply String.eqb_neq in Hrole. rewrite Hrole. reflexivity.
Qed.

Ltac under_prefix Hu :=
  cbn [route_pattern pattern_under] in Hu;
  first [ discriminate Hu | vm_compute in Hu; discriminate Hu | idtac ].

Lemma not_under_token_route prefix path ps :
  match_path [Lit "api"; Lit "csrf-token"] path = Some ps ->
  mounted_at prefix path = true ->
  pattern_under prefix [Lit "api"; Lit "csrf-token"] = true.
Proof. apply match_path_under. Qed.

Lemma needs_user_cases path :
  needs_user path = true ->
  exists prefix,
    mounted_at prefix path = true
    /\ (prefix = ["api"; "users"] \/ prefix = ["api"; "admin"]
        \/ prefix = ["api"; "auth"; "verify"]).
Proof.
  unfold needs_user. intros H.
  apply orb_prop in H. destruct H as [H|H]; [apply orb_prop in H; destruct H as [H|H]|];
    eauto 6.
Qed.

Lemma no_static_file_under prefix r :
  (2 <= List.length prefix)%nat ->
  mounted_at prefix (req_path r) = true -> static_file r = None.
Proof.
  intros Hlen Hu. destruct (static_file r) as [name|] eqn:Hs; [|reflexivity].
  apply static_file_is_top_level in Hs. apply mounted_at_length in Hu. lia.
Qed.

Lemma serve_refused r s d refusal :
  needs_user (req_path r) = true ->
  authenticateToken d s = inl refusal ->
  exists s1,
    userId s1 = userId s
    /\ (serve r s d = mkOutcome d s1 refusal
        \/ serve r s d = mkOutcome d s1 csrf_error_response
        \/ serve r s d = mkOutcome d s1 (spa_route r)).
Proof.
  intros Hpath Hauth.
  destruct (needs_user_cases _ Hpath) as [prefix [Hu Hprefix]].
  destruct (serve_cases r s d)
    as [[[ps Ht] _]|[s1 [Hs1 [Hc|[[name [Hst _]]|[Hd|[_ Hf]]]]]]].
  - pose proof (not_under_token_route _ _ _ Ht Hu) as Hno.
    destruct Hprefix as [ -> | [ -> | -> ]]; discriminate Hno.
  - exists s1. auto.
  - rewrite (no_static_file_under prefix r) in Hst;
      [discriminate Hst
      | destruct Hprefix as [ -> | [ -> | -> ]]; simpl; lia
      | exact Hu].
  - exists s1. split; [exact Hs1|]. left.
    assert (Hauth1 : authenticateToken d s1 = inl refusal)
      by (rewrite (authenticateToken_same_user d s s1 Hs1); exact Hauth).
    revert Hd.
    apply (dispatch_under (fun o => o = mkOutcome d s1 refusal)
                          prefix routes r s1 d (serve r s d) Hu).
    destruct Hprefix as [ -> | [ -> | -> ]];
      routes_by ltac:(
        match goal with
        | Hp : pattern_under _ _ = true |- _ => under_prefix Hp
        end;
        unfold verify, get_favorites, get_cart;
        first [ apply (authenticated_refused _ _ _ _ Hauth1)
              | apply (admin_only_refused _ _ _ _ Hauth1) ]).
  - exists s1. auto.
Qed.

(** X4. A request to a path under /api/users, /api/admin or
    /api/auth/verify whose session [authenticateToken] refuses (no user
    in the session, no row for it, or an inactive row) changes nothing:
    the database and the user of the session stay as they were.  The
    answer is the 401 of [authenticateToken], or the 403 of the CSRF
    guard, or, where no route matches, the answer of the fallback. *)
Theorem protected_routes_need_an_active_user :
  forall (r : Request) (s : Session) (d : Database) (refusal : Response),
    needs_user (req_path r) = true ->
    authenticateToken d s = inl refusal ->
    let o := serve r s d in
    out_db o = d
    /\ userId (out_session o) = userId s
    /\ status refusal = 401
    /\ (out_response o = refusal
        \/ out_response o = csrf_error_response
        \/ out_response o = spa_route r).
Proof.
  intros r s d refusal Hpath Hauth o. subst o.
  destruct (serve_refused r s d refusal Hpath Hauth)
    as [s1 [Hs1 [ -> | [ -> | -> ]]]];
    cbn [out_db out_session out_response];
    (split; [reflexivity|]); (split; [exact Hs1|]);
    (split; [exact (authenticateToken_refusal _ _ _ Hauth)|]); auto.
Qed.

Lemma serve_forbidden r s d user :
  mounted_at ["api"; "admin"] (req_path r) = true ->
  authenticateToken d s = inr user ->
  au_role user <> "admin" ->
  exists s1,
    userId s1 = userId s
    /\ (serve r s d
        = mkOutcome d s1
            (json_status 403 (failure "Accès administrateur requis"))
        \/ serve r s d = mkOutcome d s1 csrf_error_response
        \/ serve r s d = mkOutcome d s1 (spa_route r)).
Proof.
  intros Hu Hauth Hrole.
  destruct (serve_cases r s d)
    as [[[ps Ht] _]|[s1 [Hs1 [Hc|[[name [Hst _]]|[Hd|[_ Hf]]]]]]].
  - pose proof (not_under_token_route _ _ _ Ht Hu) as Hno. discriminate Hno.
  - exists s1. auto.
  - rewrite (no_static_file_under ["api"; "admin"] r) in Hst;
      [discriminate Hst | simpl; lia | exact Hu].
  - exists s1. split; [exact Hs1|]. left.
    assert (Hauth1 : authenticateToken d s1 = inr user)
      by (rewrite (authenticateToken_same_user d s s1 Hs1); exact Hauth).
    revert Hd.
    apply (dispatch_under
             (fun o => o = mkOutcome d s1
                             (json_status 403
                                (failure "Accès administrateur requis")))
             ["api"; "admin"] routes r s1 d (serve r s d) Hu).
    routes_by ltac:(
      match goal with
      | Hp : pattern_under _ _ = true |- _ => under_prefix Hp
      end;
      apply (admin_only_forbidden _ _ _ _ Hauth1 Hrole)).
  - exists s1. auto.
Qed.

(** X5. A request to a path under /api/admin from a session whose user
    is active and has another role than 'admin' changes nothing and is
    answered by the 403 "Accès administrateur requis" of [requireAdmin],
    or by the 403 of the CSRF guard, or, where no route matches, by the
    fallback. *)
Theorem admin_routes_need_the_admin_role :
  forall (r : Request) (s : Session) (d : Database) (user : AuthUser),
    mounted_at ["api"; "admin"] (req_path r) = true ->
    authenticateToken d s = inr user ->
    au_role user <> "admin" ->
    let o := serve r s d in
    out_db o = d
    /\ userId (out_session o) = userId s
    /\ (out_response o
        = json_status 403 (failure "Accès administrateur requis")
        \/ out_response o = csrf_error_response
        \/ out_response o = spa_route r).
Proof.
  intros r s d user Hu Hauth Hrole o. subst o.
  destruct (serve_forbidden r s d user Hu Hauth Hrole)
    as [s1 [Hs1 [ -> | [ -> | -> ]]]];
    cbn [out_db out_session out_response];
    (split; [reflexivity|]); (split; [exact Hs1|]); auto.
Qed.

(** What holds of the outcome of the token route, of every route run on
    a session with the user of the request's session, and of the
    responses the chain sends itself, holds of the chain. *)
Lemma serve_outcomes (P : Outcome -> Prop) r s d :
  P (get_csrf_token r s d) ->
  (forall s1,
      userId s1 = userId s ->
      Forall (fun route => forall ps, P (route_handler route ps r s1 d)) routes
      /\ forall resp,
          (resp = csrf_error_response \/ resp = spa_route r
           \/ exists name, resp = mkResponse 200 (FileBody name)) ->
          P (mkOutcome d s1 resp)) ->
  P (serve r s d).
Proof.
  intros Htoken Hrest.
  destruct (serve_cases r s d)
    as [[_ ->]|[s1 [Hs1 [Hc|[[name [_ Hst]]|[Hd|[_ Hf]]]]]]];
    [exact Htoken|..]; destruct (Hrest s1 Hs1) as [Hroutes Hown].
  - rewrite Hc. apply Hown. auto.
  - rewrite Hst. apply Hown. eauto.
  - apply (dispatch_forall (fun _ _ _ o => P o) routes r s1 d _ Hroutes Hd).
  - rewrite Hf. apply Hown. auto.
Qed.

(** ** Who changes the accounts *)

Lemma user_handlers_keep_accounts now key user d :
  (users (fst (toggle_favorite now key user d)) = users d
   /\ products (fst (toggle_favorite now key user d)) = products d)
  /\ (users (fst (add_to_cart now key user d)) = users d
      /\ products (fst (add_to_cart now key user d)) = products d)
  /\ (users (fst (remove_from_cart now key user d)) = users d
      /\ products (fst (remove_from_cart now key user d)) = products d).
Proof.
  unfold toggle_favorite, add_to_cart, remove_from_cart, dbRun, execute.
  repeat split; repeat (break_match; cbv beta iota); reflexivity.
Qed.

Lemma authenticated_keeps {A : Type} (table : Database -> A) handler s d :
  (forall user, table (fst (handler user d)) = table d) ->
  table (out_db (authenticated handler s d)) = table d.
Proof.
  intros H. unfold authenticated.
  destruct (authenticateToken d s) as [resp|user]; [reflexivity|].
  specialize (H user). destruct (handler user d). exact H.
Qed.

Lemma admin_only_without_admin handler s1 s d :
  userId s1 = userId s ->
  (forall user, authenticateToken d s = inr user -> au_role user <> "admin") ->
  out_db (admin_only handler s1 d) = d.
Proof.
  intros Hs1 Hnot.
  destruct (authenticateToken d s1) as [resp|user] eqn:Ha.
  - rewrite (admin_only_refused _ _ _ _ Ha). reflexivity.
  - rewrite (admin_only_forbidden _ _ _ _ Ha); [reflexivity|].
    apply Hnot. rewrite <- (authenticateToken_same_user d s s1 Hs1). exact Ha.
Qed.

Lemma register_accounts r s d :
  products (out_db (register r s d)) = products d
  /\ (users (out_db (register r s d)) = users d
      \/ exists row,
          users (out_db (register r s d)) = (users d ++ [row])%list
          /\ u_id row = seq_users d + 1
          /\ u_role row = "user"
          /\ u_is_active row = 1).
Proof.
  unfold register.
  destruct (handleValidationErrors _ _); [auto|].
  destruct (dbGet_user_id_by_email d _); [auto|].
  destruct (bcrypt_hash_js _ _) as [hash|]; [|auto].
  destruct (dbRun _ d _) as [[d' result]|] eqn:Hrun; [|auto].
  assert (Hd' : products d' = products d
                /\ exists row,
                    users d' = (users d ++ [row])%list
                    /\ u_id row = seq_users d + 1
                    /\ u_role row = "user"
                    /\ u_is_active row = 1).
  { unfold dbRun, execute in Hrun.
    destruct (sql_is_null _ || sql_is_null _); [discriminate Hrun|].
    destruct (existsb _ (users d)); [discriminate Hrun|].
    injection Hrun as <- _. split; [reflexivity|].
    eexists. repeat split. }
  destruct Hd' as [Hp Hu].
  destruct (dbGet_new_user d' (run_id result)); cbn [out_db]; auto.
Qed.

Lemma login_keeps_database r s d : out_db (login r s d) = d.
Proof.
  unfold login, handleValidationErrors.
  repeat (break_match; cbv beta iota); reflexivity.
Qed.

(** X6. Whatever the request, a session whose user is not an active
    administrator leaves the table of products as it is, and changes
    the table of users in one way only: the register route appends one
    row, with the next rowid, role 'user' and active flag 1.  No request
    of such a session changes or removes a row of [users]. *)
Theorem only_administrators_change_accounts :
  forall (r : Request) (s : Session) (d : Database),
    (forall user, authenticateToken d s = inr user -> au_role user <> "admin") ->
    let d' := out_db (serve r s d) in
    products d' = products d
    /\ (users d' = users d
        \/ exists row,
            users d' = (users d ++ [row])%list
            /\ u_id row = seq_users d + 1
            /\ u_role row = "user"
            /\ u_is_active row = 1).
Proof.
  intros r s d Hnot d'. subst d'.
  apply (serve_outcomes
           (fun o => products (out_db o) = products d
                     /\ (users (out_db o) = users d
                         \/ exists row,
                             users (out_db o) = (users d ++ [row])%list
                             /\ u_id row = seq_users d + 1
                             /\ u_role row = "user"
                             /\ u_is_active row = 1))).
  - unfold get_csrf_token. destruct (csrfProtection r s) as [s' [|]]; auto.
  - intros s1 Hs1. split; [|intros; cbn [out_db]; auto].
    pose proof (fun now key user => user_handlers_keep_accounts now key user d)
      as Hkeep.
    routes_by ltac:(
      first
        [ apply register_accounts
        | rewrite login_keeps_database; auto
        | rewrite (admin_only_without_admin _ _ _ _ Hs1 Hnot); auto
        | unfold verify, get_favorites, get_cart, logout, get_products;
          cbn [out_db];
          split;
          [ first [ reflexivity
                  | apply (authenticated_keeps products); intros;
                    first [reflexivity | apply Hkeep] ]
          | left;
            first [ reflexivity
                  | apply (authenticated_keeps users); intros;
                    first [reflexivity | apply Hkeep] ] ] ]).
Qed.

(** ** Registration *)

Lemma find_app_new {A : Type} (f : A -> bool) l x :
  existsb f l = false -> f x = true -> find f (l ++ [x]) = Some x.
Proof.
  intros Hl Hx. induction l as [|y l IH]; simpl in *; [rewrite Hx; reflexivity|].
  apply orb_false_iff in Hl. destruct Hl as [Hy Hl]. rewrite Hy. auto.
Qed.

Lemma fresh_rowid {A : Type} (rowid : A -> Z) sequence rows :
  rowids_ok rowid sequence rows ->
  existsb (fun x => rowid x =? sequence + 1) rows = false.
Proof.
  intros [_ Hle]. apply existsb_filter_nil. apply filter_none.
  rewrite Forall_forall in Hle. intros x Hx. specialize (Hle x Hx).
  apply Z.eqb_neq. lia.
Qed.

(** A registration that passes the validators, with strings in the
    three fields the handler binds and an email that is not taken. *)
Lemma register_succeeds r s d password first last :
  let b := req_body r in
  let email := normalizeEmail (js_get b "email") in
  let id := seq_users d + 1 in
  let row := mkUser id email (bcrypt_hash password (req_salt r))
                    (SqlText first) (SqlText last) "user" 1 (req_now r) in
  well_formed d ->
  isEmail (js_get b "email")
  && isLength 8 None (js_get b "password")
  && isLength 2 (Some 50) (js_get b "firstName")
  && isLength 2 (Some 50) (js_get b "lastName") = true ->
  js_get b "password" = Some (JStr password) ->
  js_get b "firstName" = Some (JStr first) ->
  js_get b "lastName" = Some (JStr last) ->
  dbGet_user_id_by_email d email = None ->
  register r s d
  = mkOutcome (with_users d (users d ++ [row]) id)
              (mkSession (Some id) (csrfSecret s))
              (json_ok
                 (JObj [("success", JBool true);
                        ("message", JStr "Compte créé avec succès");
                        ("user",
                         user_object id email (SqlText first) (SqlText last)
                                     "user")])).
Proof.
  intros b email id row Hwf Hvalid Hp Hf Hl Hnew.
  unfold register. fold b. rewrite Hvalid. cbn [handleValidationErrors].
  fold email. rewrite Hnew, Hp, Hf, Hl.
  cbn [bcrypt_hash_js bind_text dbRun execute sql_is_null orb].
  assert (Hfree : existsb (user_has_email email) (users d) = false).
  { unfold dbGet_user_id_by_email in Hnew.
    destruct (find (user_has_email email) (users d)) eqn:Hfind;
      [discriminate Hnew|].
    exact (find_none_existsb _ _ Hfind). }
  rewrite Hfree. cbn [run_id]. fold id. fold row.
  unfold dbGet_new_user. cbn [users with_users].
  rewrite (find_app_new (user_has_id id) (users d) row).
  - reflexivity.
  - exact (fresh_rowid u_id _ _ (wf_users d Hwf)).
  - unfold user_has_id. cbn [u_id row]. apply Z.eqb_refl.
Qed.

(** X7. A registration that passes the validators, with strings as
    password and names and an email that no row has, appends the row
    (normalised email, the hash [bcrypt.hash] returned, role 'user',
    active) under the next rowid, puts that id in the session and
    answers with the user object of role 'user'.  A verify request on
    the session then answers with the same id, and a second
    registration with the same body is answered 400 "Un compte avec cet
    email existe déjà" and changes nothing. *)
Theorem register_then_verify :
  forall (r : Request) (s : Session) (d : Database)
         (password first last : string),
    let b := req_body r in
    let email := normalizeEmail (js_get b "email") in
    let id := seq_users d + 1 in
    let row := mkUser id email (bcrypt_hash password (req_salt r))
                      (SqlText first) (SqlText last) "user" 1 (req_now r) in
    let o := register r s d in
    well_formed d ->
    0 <= seq_users d ->
    isEmail (js_get b "email")
    && isLength 8 None (js_get b "password")
    && isLength 2 (Some 50) (js_get b "firstName")
    && isLength 2 (Some 50) (js_get b "lastName") = true ->
    js_get b "password" = Some (JStr password) ->
    js_get b "firstName" = Some (JStr first) ->
    js_get b "lastName" = Some (JStr last) ->
    dbGet_user_id_by_email d email = None ->
    users (out_db o) = (users d ++ [row])%list
    /\ userId (out_session o) = Some id
    /\ out_response o
       = json_ok
           (JObj [("success", JBool true);
                  ("message", JStr "Compte créé avec succès");
                  ("user",
                   user_object id email (SqlText first) (SqlText last) "user")])
    /\ verify (out_session o) (out_db o)
       = mkOutcome (out_db o) (out_session o)
           (json_ok
              (JObj [("success", JBool true);
                     ("user",
                      JObj [("id", JInt id);
                            ("email", JStr email);
                            ("first_name", JStr first);
                            ("last_name", JStr last);
                            ("role", JStr "user");
                            ("is_active", JInt 1)])]))
    /\ (forall (r' : Request) (s' : Session),
           req_body r' = b ->
           register r' s' (out_db o)
           = mkOutcome (out_db o) s'
               (json_status 400
                  (failure "Un compte avec cet email existe déjà"))).
Proof.
  intros r s d password first last b email id row o Hwf Hseq Hvalid Hp Hf Hl
         Hnew.
  subst o.
  rewrite (register_succeeds r s d password first last Hwf Hvalid Hp Hf Hl Hnew).
  fold b email id row. cbn [out_db out_session out_response users with_users userId].
  assert (Hrow : find (user_has_id id) (users d ++ [row]) = Some row).
  { apply find_app_new.
    - exact (fresh_rowid u_id _ _ (wf_users d Hwf)).
    - unfold user_has_id. cbn [u_id row]. apply Z.eqb_refl. }
  assert (Hmail : existsb (user_has_email email) (users d ++ [row]) = true).
  { rewrite existsb_app. cbn [existsb]. unfold user_has_email at 2.
    cbn [u_email row]. rewrite String.eqb_refl. rewrite !orb_true_r.
    reflexivity. }
  split; [reflexivity|]. split; [reflexivity|]. split; [reflexivity|]. split.
  - unfold verify, authenticated, authenticateToken, dbGet_auth_user.
    cbn [userId users with_users].
    destruct (id =? 0) eqn:Hz; [apply Z.eqb_eq in Hz; subst id; lia|].
    rewrite Hrow. reflexivity.
  - intros r' s' Hb. unfold register. rewrite Hb. fold b. rewrite Hvalid.
    cbn [handleValidationErrors]. fold email.
    unfold dbGet_user_id_by_email. cbn [users with_users].
    destruct (existsb_find_some _ _ Hmail) as [u ->]. reflexivity.
Qed.

(** X8. After such a registration, a login with the same email and
    password is answered 200 with the same user object and puts the new
    id in the session, provided [bcrypt.compare] accepts the password
    for the hash that [bcrypt.hash] made of it; a login with the same
    email and a password that [bcrypt.compare] does not accept is
    answered 401. *)
Theorem register_then_login :
  forall (r : Request) (s : Session) (d : Database)
         (password first last : string),
    let b := req_body r in
    let email := normalizeEmail (js_get b "email") in
    let id := seq_users d + 1 in
    let hash := bcrypt_hash password (req_salt r) in
    let d' := out_db (register r s d) in
    well_formed d ->
    isEmail (js_get b "email")
    && isLength 8 None (js_get b "password")
    && isLength 2 (Some 50) (js_get b "firstName")
    && isLength 2 (Some 50) (js_get b "lastName") = true ->
    js_get b "password" = Some (JStr password) ->
    js_get b "firstName" = Some (JStr first) ->
    js_get b "lastName" = Some (JStr last) ->
    dbGet_user_id_by_email d email = None ->
    (notEmpty (Some (JStr password)) = true ->
     bcrypt_compare password hash = true ->
     forall (r' : Request) (s' : Session),
       js_get (req_body r') "email" = js_get b "email" ->
       js_get (req_body r') "password" = Some (JStr password) ->
       login r' s' d'
       = mkOutcome d' (mkSession (Some id) (csrfSecret s'))
           (json_ok
              (JObj [("success", JBool true);
                     ("message", JStr "Connexion réussie");
                     ("user",
                      user_object id email (SqlText first) (SqlText last)
                                  "user")])))
    /\
    (forall (r' : Request) (s' : Session) (guess : string),
        js_get (req_body r') "email" = js_get b "email" ->
        js_get (req_body r') "password" = Some (JStr guess) ->
        notEmpty (Some (JStr guess)) = true ->
        bcrypt_compare guess hash = false ->
        login r' s' d'
        = mkOutcome d' s'
            (json_status 401 (failure "Email ou mot de passe incorrect"))).
Proof.
  intros r s d password first last b email id hash d' Hwf Hvalid Hp Hf Hl Hnew.
  subst d'.
  rewrite (register_succeeds r s d password first last Hwf Hvalid Hp Hf Hl Hnew).
  fold b email id hash. cbn [out_db].
  set (row := mkUser id email hash (SqlText first) (SqlText last) "user" 1
                     (req_now r)).
  assert (Hfree : existsb (user_has_email email) (users d) = false).
  { unfold dbGet_user_id_by_email in Hnew.
    destruct (find (user_has_email email) (users d)) eqn:Hfind;
      [discriminate Hnew|].
    exact (find_none_existsb _ _ Hfind). }
  assert (Hrow : dbGet_login_user (with_users d (users d ++ [row]) id) email
                 = Some row).
  { unfold dbGet_login_user. cbn [users with_users].
    apply find_app_new; [exact Hfree|].
    unfold user_has_email. cbn [u_email row]. apply String.eqb_refl. }
  assert (Hmail : isEmail (js_get b "email") = true).
  { apply andb_prop in Hvalid. destruct Hvalid as [Hvalid _].
    apply andb_prop in Hvalid. destruct Hvalid as [Hvalid _].
    apply andb_prop in Hvalid. tauto. }
  split.
  - intros Hne Hok r' s' He Hpw. unfold login. rewrite He, Hpw, Hmail, Hne.
    cbn [andb handleValidationErrors]. fold email. rewrite Hrow.
    cbn [u_is_active row Z.eqb bcrypt_compare_js u_password].
    rewrite Hok. reflexivity.
  - intros r' s' guess He Hpw Hne Hbad. unfold login.
    rewrite He, Hpw, Hmail, Hne.
    cbn [andb handleValidationErrors]. fold email. rewrite Hrow.
    cbn [u_is_active row Z.eqb bcrypt_compare_js u_password].
    rewrite Hbad. reflexivity.
Qed.

(** ** Numerals as SQL parameters *)

Lemma skip_ascii_spaces_digit d r :
  0 <= d < 10 ->
  skip_ascii_spaces (String (digit_char d) r) = String (digit_char d) r
  /\ read_sign (String (digit_char d) r) = (1, String (digit_char d) r).
Proof. intros Hd. each_digit Hd; split; reflexivity. Qed.

(** SQLite reads the numeral of [n] as [n]. *)
Lemma sqlite_integer_of_decimal n :
  0 <= n -> sqlite_integer_of_text (decimal n) = Some n.
Proof.
  intros Hn. unfold decimal.
  destruct (decimal_shape (S (Z.to_nat n)) n EmptyString Hn ltac:(lia)
                          (or_introl eq_refl))
    as [d [r [Hshape [Hd _]]]].
  destruct (read_decimal (S (Z.to_nat n)) n EmptyString 0 O Hn ltac:(lia))
    as [k Hk].
  unfold sqlite_integer_of_text. rewrite Hshape in *.
  destruct (skip_ascii_spaces_digit d r Hd) as [-> ->].
  rewrite Hk. cbn [read_digits read_fraction Nat.add].
  replace (0 * 10 ^ Z.of_nat (S k) + n) with n by lia.
  cbn [read_exponent skip_ascii_spaces String.eqb].
  f_equal. lia.
Qed.

Lemma id_matches_decimal n id :
  0 <= n -> id_matches (SqlText (decimal n)) id = (n =? id).
Proof.
  intros Hn. unfold id_matches. rewrite (sqlite_integer_of_decimal n Hn).
  reflexivity.
Qed.

(** ** Rows found by their keys *)

Lemma nodup_map_eq {A B : Type} (key : A -> B) l x y :
  NoDup (map key l) -> In x l -> In y l -> key x = key y -> x = y.
Proof.
  induction l as [|z l IH]; simpl; [tauto|].
  intros Hnd Hx Hy Hk. inversion Hnd as [|? ? Hnotin Hnd']; subst.
  destruct Hx as [->|Hx], Hy as [->|Hy]; auto.
  - exfalso. apply Hnotin. rewrite Hk. apply in_map. exact Hy.
  - exfalso. apply Hnotin. rewrite <- Hk. apply in_map. exact Hx.
Qed.

Lemma find_unique {A B : Type} (key : A -> B) (f : A -> bool) l x :
  NoDup (map key l) ->
  (forall y, f y = true -> key y = key x) ->
  In x l -> f x = true -> find f l = Some x.
Proof.
  intros Hnd Hkey Hin Hx.
  destruct (find f l) as [y|] eqn:Hfind.
  - apply find_some in Hfind. destruct Hfind as [Hy Hfy].
    f_equal. exact (nodup_map_eq key l y x Hnd Hy Hin (Hkey y Hfy)).
  - exfalso. pose proof (find_none _ _ Hfind x Hin) as Hno. congruence.
Qed.

Lemma find_user_by_id d u :
  well_formed d -> In u (users d) ->
  find (user_has_id (u_id u)) (users d) = Some u.
Proof.
  intros Hwf Hin. destruct (wf_users d Hwf) as [Hnd _].
  apply (find_unique u_id); auto.
  - intros y Hy. apply Z.eqb_eq. exact Hy.
  - apply Z.eqb_refl.
Qed.

Lemma find_user_by_email d u :
  well_formed d -> In u (users d) ->
  find (user_has_email (u_email u)) (users d) = Some u.
Proof.
  intros Hwf Hin. apply (find_unique u_email); auto.
  - exact (wf_emails d Hwf).
  - intros y Hy. apply String.eqb_eq. exact Hy.
  - apply String.eqb_refl.
Qed.

(** ** What an update and a delete do to the rows *)

Lemma updateUser_rows now userId b d :
  Forall (fun u => role_check u = true) (users d) ->
  validUpdates b <> [] ->
  updateUser now userId b d
  = (with_users d
       (map (fun u => if id_matches (SqlText userId) (u_id u)
                      then with_role_and_active (requested_role b)
                                                (requested_active b) u
                      else u)
            (users d))
       (seq_users d),
     success "Utilisateur modifié avec succès").
Proof.
  intros Hroles Hsets. unfold updateUser.
  destruct (validUpdates b) as [|a sets] eqn:Hv; [contradiction|].
  rewrite <- Hv. unfold dbRun, execute.
  assert (Hcheck :
            forallb (fun u =>
                       negb (id_matches (SqlText userId) (u_id u))
                       || role_check
                            (if id_matches (SqlText userId) (u_id u)
                             then fold_left assign (validUpdates b) u else u))
                    (users d) = true).
  { apply forallb_forall. intros u Hu.
    rewrite Forall_forall in Hroles. specialize (Hroles u Hu).
    destruct (id_matches (SqlText userId) (u_id u)); simpl; [|reflexivity].
    rewrite fold_assign_whitelist.
    destruct (requested_role b) as [role|] eqn:Hr.
    - unfold role_check, with_role_and_active. simpl.
      apply (requested_role_valid b). exact Hr.
    - unfold role_check, with_role_and_active in *. simpl. exact Hroles. }
  rewrite Hcheck. f_equal. f_equal.
  apply map_ext. intros u.
  destruct (id_matches (SqlText userId) (u_id u)); [|reflexivity].
  apply fold_assign_whitelist.
Qed.

Lemma deleteUser_rows now userId d :
  foreign_keys d = false ->
  deleteUser now userId d
  = (with_users d
       (filter (fun u => negb (id_matches (SqlText userId) (u_id u))) (users d))
       (seq_users d),
     success "Utilisateur supprimé avec succès").
Proof. intros Hfk. unfold deleteUser, dbRun, execute. rewrite Hfk. reflexivity. Qed.

Lemma requested_active_is_valid b flag :
  requested_active b = Some flag -> validUpdates b <> [].
Proof.
  intros H. rewrite validUpdates_whitelist, H.
  destruct (requested_role b); discriminate.
Qed.

Lemma requested_role_is_valid b role :
  requested_role b = Some role -> validUpdates b <> [].
Proof.
  intros H. rewrite validUpdates_whitelist, H. discriminate.
Qed.

(** X9. [authenticateToken] reads the row of the session's user at
    every request.  Once an administrator has set the active flag of an
    account to false, a session of that account is answered 401
    "Utilisateur non trouvé ou désactivé" on every route behind
    [authenticateToken], and a login for its email is answered 401
    "Compte désactivé" whatever the password.  Once the account is
    deleted, its session gets the same 401 and a login for its email is
    answered like one for an unknown email. *)
Theorem locked_out_after_deactivation_or_deletion :
  forall (now : Z) (d : Database) (target : User) (b : json) (s : Session),
    let userId_param := decimal (u_id target) in
    let refusal :=
      json_status 401 (failure "Utilisateur non trouvé ou désactivé") in
    let deactivated := fst (updateUser now userId_param b d) in
    let deleted := fst (deleteUser now userId_param d) in
    let for_target r :=
      isEmail (js_get (req_body r) "email")
      && notEmpty (js_get (req_body r) "password") = true
      /\ normalizeEmail (js_get (req_body r) "email") = u_email target in
    well_formed d ->
    foreign_keys d = false ->
    In target (users d) ->
    0 < u_id target ->
    userId s = Some (u_id target) ->
    requested_active b = Some false ->
    (authenticateToken deactivated s = inl refusal
     /\ forall r s',
         for_target r ->
         login r s' deactivated
         = mkOutcome deactivated s'
             (json_status 401 (failure "Compte désactivé")))
    /\
    (authenticateToken deleted s = inl refusal
     /\ forall r s',
         for_target r ->
         login r s' deleted
         = mkOutcome deleted s'
             (json_status 401 (failure "Email ou mot de passe incorrect"))).
Proof.
  intros now d target b s userId_param refusal deactivated deleted for_target
         Hwf Hfk Hin Hpos Hs Hb.
  assert (Hmatch : forall u, id_matches (SqlText userId_param) (u_id u)
                             = (u_id target =? u_id u))
    by (intros u; apply id_matches_decimal; lia).
  split.
  - subst deactivated.
    rewrite (updateUser_rows now userId_param b d (wf_roles d Hwf)
               (requested_active_is_valid b false Hb)).
    cbn [fst]. rewrite Hb.
    set (upd := fun u => if id_matches (SqlText userId_param) (u_id u)
                         then with_role_and_active (requested_role b)
                                                   (Some false) u
                         else u).
    assert (Hupd : upd target
                   = with_role_and_active (requested_role b) (Some false) target)
      by (unfold upd; rewrite Hmatch, Z.eqb_refl; reflexivity).
    split.
    + unfold authenticateToken, dbGet_auth_user. rewrite Hs.
      destruct (u_id target =? 0) eqn:Hz; [apply Z.eqb_eq in Hz; lia|].
      cbn [users with_users].
      rewrite (find_map_invariant (user_has_id (u_id target)) upd).
      * rewrite (find_user_by_id d target Hwf Hin). cbn [option_map].
        rewrite Hupd. reflexivity.
      * intros u. unfold upd, user_has_id.
        destruct (id_matches (SqlText userId_param) (u_id u)); reflexivity.
    + intros r s' [Hvalid Hemail]. unfold login. rewrite Hvalid.
      cbn [handleValidationErrors]. rewrite Hemail.
      unfold dbGet_login_user. cbn [users with_users].
      rewrite (find_map_invariant (user_has_email (u_email target)) upd).
      * rewrite (find_user_by_email d target Hwf Hin). cbn [option_map].
        rewrite Hupd. reflexivity.
      * intros u. unfold upd, user_has_email.
        destruct (id_matches (SqlText userId_param) (u_id u)); reflexivity.
  - subst deleted. rewrite (deleteUser_rows now userId_param d Hfk).
    cbn [fst].
    assert (Hgone : forall f,
               (forall u, In u (users d) -> f u = true -> u = target) ->
               find f (filter (fun u => negb (id_matches (SqlText userId_param)
                                                         (u_id u)))
                              (users d)) = None).
    { intros f Hf.
      destruct (find f _) as [u|] eqn:Hfind; [|reflexivity].
      apply find_some in Hfind. destruct Hfind as [Hu Hfu].
      apply filter_In in Hu. destruct Hu as [Hu Hkept].
      rewrite (Hf u Hu Hfu), Hmatch, Z.eqb_refl in Hkept. discriminate. }
    split.
    + unfold authenticateToken, dbGet_auth_user. rewrite Hs.
      destruct (u_id target =? 0) eqn:Hz; [apply Z.eqb_eq in Hz; lia|].
      cbn [users with_users]. rewrite Hgone; [reflexivity|].
      intros u Hu Hid. destruct (wf_users d Hwf) as [Hnd _].
      apply (nodup_map_eq u_id (users d)); auto.
      apply Z.eqb_eq. exact Hid.
    + intros r s' [Hvalid Hemail]. unfold login. rewrite Hvalid.
      cbn [handleValidationErrors]. rewrite Hemail.
      unfold dbGet_login_user. cbn [users with_users].
      rewrite Hgone; [reflexivity|].
      intros u Hu Hmail.
      apply (nodup_map_eq u_email (users d)); auto.
      * exact (wf_emails d Hwf).
      * apply String.eqb_eq. exact Hmail.
Qed.

(** ** Statistics *)

Lemma map_other_keys {A : Type} (key : A -> Z) (g : A -> A) k l :
  ~ In k (map key l) ->
  map (fun y => if k =? key y then g y else y) l = l.
Proof.
  induction l as [|y l IH]; simpl; intros Hk; [reflexivity|].
  destruct (k =? key y) eqn:E;
    [apply Z.eqb_eq in E; exfalso; apply Hk; left; congruence|].
  rewrite IH; tauto.
Qed.

(** Changing the one row of key [key x] changes a count by what the row
    counted for before and counts for after. *)
Lemma count_if_map_one {A : Type} (key : A -> Z) (f : A -> bool) (g : A -> A)
      l x :
  NoDup (map key l) -> In x l ->
  count_if f (map (fun y => if key x =? key y then g y else y) l)
  = count_if f l - (if f x then 1 else 0) + (if f (g x) then 1 else 0).
Proof.
  unfold count_if. induction l as [|y l IH]; [simpl; tauto|].
  intros Hnd Hin. cbn [map] in *.
  inversion Hnd as [|? ? Hnotin Hnd']; subst.
  cbn [filter].
  destruct (key x =? key y) eqn:E.
  - apply Z.eqb_eq in E.
    assert (x = y).
    { destruct Hin as [Hy|Hx]; [auto|].
      exfalso. apply Hnotin. rewrite <- E. apply in_map. exact Hx. }
    subst y. rewrite map_other_keys by exact Hnotin.
    destruct (f (g x)), (f x); cbn [List.length];
      rewrite ?Nat2Z.inj_succ; lia.
  - destruct Hin as [Hy|Hx]; [subst y; rewrite Z.eqb_refl in E; discriminate|].
    specialize (IH Hnd' Hx).
    destruct (f y); cbn [List.length]; rewrite ?Nat2Z.inj_succ; lia.
Qed.

Lemma count_if_le {A : Type} (f : A -> bool) l :
  0 <= count_if f l <= count_if (fun _ => true) l.
Proof.
  unfold count_if. pose proof (filter_length_le f l) as H.
  rewrite (filter_all (fun _ => true)) by reflexivity. lia.
Qed.

Lemma count_if_split {A : Type} (f g : A -> bool) l :
  (forall x, In x l -> g x = negb (f x)) ->
  count_if f l + count_if g l = count_if (fun _ => true) l.
Proof.
  unfold count_if. induction l as [|x l IH]; intros H; [reflexivity|].
  cbn [filter]. rewrite (H x (or_introl eq_refl)).
  specialize (IH (fun y Hy => H y (or_intror Hy))).
  destruct (f x); cbn [negb List.length]; rewrite ?Nat2Z.inj_succ; lia.
Qed.

(** X10. On a database whose roles satisfy the CHECK constraint, the
    statistics count every account once as administrator or as regular
    user: [totalRegularUsers], which [getStats] computes as a
    difference, is the number of rows with role 'user'; no count is
    negative and none exceeds [totalUsers]. *)
Theorem getStats_counts :
  forall d : Database,
    Forall (fun u => role_check u = true) (users d) ->
    let total := Z.of_nat (List.length (users d)) in
    let admins := count_if (fun u => String.eqb (u_role u) "admin") (users d) in
    let regular := count_if (fun u => String.eqb (u_role u) "user") (users d) in
    let active := count_if (fun u => u_is_active u =? 1) (users d) in
    getStats d
    = JObj [("success", JBool true);
            ("stats",
             JObj [("totalUsers", JInt total);
                   ("totalAdmins", JInt admins);
                   ("activeUsers", JInt active);
                   ("totalProducts", JInt (Z.of_nat (List.length (products d))));
                   ("totalRegularUsers", JInt regular)])]
    /\ admins + regular = total
    /\ 0 <= admins /\ 0 <= regular /\ 0 <= active <= total.
Proof.
  intros d Hroles total admins regular active.
  assert (Htotal : forall (A : Type) (l : list A),
             count_if (fun _ => true) l = Z.of_nat (List.length l))
    by (intros A l; unfold count_if; rewrite filter_all; reflexivity).
  assert (Hsum : admins + regular = total).
  { subst admins regular total. rewrite <- Htotal. apply count_if_split.
    intros u Hu. rewrite Forall_forall in Hroles. specialize (Hroles u Hu).
    unfold role_check in Hroles.
    destruct (String.eqb (u_role u) "admin") eqn:Ha;
      destruct (String.eqb (u_role u) "user") eqn:Hu'; try reflexivity;
      try discriminate.
    apply String.eqb_eq in Ha, Hu'. congruence. }
  pose proof (count_if_le (fun u => String.eqb (u_role u) "admin") (users d)).
  pose proof (count_if_le (fun u => String.eqb (u_role u) "user") (users d)).
  pose proof (count_if_le (fun u => u_is_active u =? 1) (users d)) as Hact.
  rewrite Htotal in Hact.
  split.
  - unfold getStats, dbGet_count_users, dbGet_count_admins, dbGet_count_active,
      dbGet_count_products.
    rewrite !Htotal. fold total admins active.
    replace (total - admins) with regular by lia. reflexivity.
  - fold admins in H. fold regular in H0. fold active total in Hact.
    split; [exact Hsum|]. lia.
Qed.

(** X11. An administrator who gives another account, of role 'user',
    the role 'admin' (PUT /api/admin/users/:userId with the numeral of
    its id and a body whose only valid field is the role) is answered
    with the success message; in the statistics served afterwards
    [totalAdmins] is one more and [totalRegularUsers] one less than
    before, and the other counts are the same. *)
Theorem promotion_shows_in_stats :
  forall (now : Z) (s : Session) (d : Database) (admin : AuthUser)
         (target : User) (b : json),
    let stats_route := admin_only (fun _ d0 => (d0, json_ok (getStats d0))) in
    let o := admin_only (put_admin_user now (decimal (u_id target)) b) s d in
    let admins := dbGet_count_admins d in
    well_formed d ->
    authenticateToken d s = inr admin ->
    au_role admin = "admin" ->
    In target (users d) ->
    u_role target = "user" ->
    0 <= u_id target ->
    u_id target <> au_id admin ->
    requested_role b = Some "admin" ->
    requested_active b = None ->
    out_response o = json_ok (success "Utilisateur modifié avec succès")
    /\ out_response (stats_route s d)
       = json_ok
           (JObj [("success", JBool true);
                  ("stats",
                   JObj [("totalUsers", JInt (dbGet_count_users d));
                         ("totalAdmins", JInt admins);
                         ("activeUsers", JInt (dbGet_count_active d));
                         ("totalProducts", JInt (dbGet_count_products d));
                         ("totalRegularUsers",
                          JInt (dbGet_count_users d - admins))])])
    /\ out_response (stats_route (out_session o) (out_db o))
       = json_ok
           (JObj [("success", JBool true);
                  ("stats",
                   JObj [("totalUsers", JInt (dbGet_count_users d));
                         ("totalAdmins", JInt (admins + 1));
                         ("activeUsers", JInt (dbGet_count_active d));
                         ("totalProducts", JInt (dbGet_count_products d));
                         ("totalRegularUsers",
                          JInt (dbGet_count_users d - (admins + 1)))])]).
Proof.
  intros now s d admin target b stats_route o admins Hwf Hauth Hadmin Hin Hrole
         Hpos Hother Hr Ha.
  assert (Hgate : forall handler d0,
             authenticateToken d0 s = inr admin ->
             admin_only handler s d0
             = mkOutcome (fst (handler admin d0)) s (snd (handler admin d0))).
  { intros handler d0 H0. unfold admin_only.
    rewrite (authenticated_as _ _ _ _ H0). unfold requireAdmin.
    rewrite Hadmin. reflexivity. }
  set (upd := fun u => if u_id target =? u_id u
                       then with_role_and_active (Some "admin") None u else u).
  assert (Ho : o = mkOutcome
                     (with_users d (map upd (users d)) (seq_users d)) s
                     (json_ok (success "Utilisateur modifié avec succès"))).
  { subst o. rewrite (Hgate _ d Hauth). unfold put_admin_user, is_own_id.
    rewrite (parseInt_decimal _ Hpos).
    destruct (u_id target =? au_id admin) eqn:E;
      [apply Z.eqb_eq in E; contradiction|].
    rewrite (updateUser_rows now _ b d (wf_roles d Hwf)
               (requested_role_is_valid b "admin" Hr)).
    rewrite Hr, Ha. cbn [fst snd]. f_equal. f_equal.
    apply map_ext. intros u. rewrite id_matches_decimal by exact Hpos.
    reflexivity. }
  destruct (wf_users d Hwf) as [Hnd _].
  assert (Hcount : forall f,
             count_if f (map upd (users d))
             = count_if f (users d) - (if f target then 1 else 0)
               + (if f (with_role_and_active (Some "admin") None target)
                  then 1 else 0))
    by (intros f; apply (count_if_map_one u_id); assumption).
  assert (Hauth' : authenticateToken
                     (with_users d (map upd (users d)) (seq_users d)) s
                   = inr admin).
  { revert Hauth. unfold authenticateToken, dbGet_auth_user.
    destruct (userId s) as [id|]; [|discriminate].
    destruct (id =? 0); [discriminate|]. cbn [users with_users].
    rewrite (find_map_invariant (user_has_id id) upd)
      by (intros u; unfold upd, user_has_id;
          destruct (u_id target =? u_id u); reflexivity).
    destruct (find (user_has_id id) (users d)) as [u|] eqn:Hfind;
      [|discriminate].
    cbn [option_map]. intros H.
    assert (Hid : u_id u = au_id admin).
    { destruct (au_is_active (auth_columns u) =? 0); [discriminate|].
      injection H as <-. reflexivity. }
    assert (Hsame : upd u = u).
    { unfold upd. destruct (u_id target =? u_id u) eqn:E; [|reflexivity].
      apply Z.eqb_eq in E. congruence. }
    rewrite Hsame. exact H. }
  rewrite Ho. cbn [out_response out_session out_db].
  split; [reflexivity|]. subst stats_route. cbv beta.
  rewrite (Hgate _ d Hauth), (Hgate _ _ Hauth'). cbn [fst snd].
  split; [reflexivity|].
  unfold getStats, dbGet_count_users, dbGet_count_admins, dbGet_count_active,
    dbGet_count_products in *.
  cbn [users products with_users]. rewrite !Hcount.
  unfold with_role_and_active. cbn [u_role u_is_active].
  rewrite Hrole. change (String.eqb "user" "admin") with false.
  change (String.eqb "admin" "admin") with true. cbv iota.
  subst admins.
  replace (count_if (fun _ : User => true) (users d) - 1 + 1)
    with (count_if (fun _ : User => true) (users d)) by lia.
  destruct (u_is_active target =? 1); cbn [out_response];
    unfold json_ok, JInt; repeat f_equal; lia.
Qed.

(** ** Administration of accounts that do not exist *)

Lemma no_row_selected (select : User -> bool) (g : User -> User) l :
  existsb select l = false ->
  filter (fun u => negb (select u)) l = l
  /\ map (fun u => if select u then g u else u) l = l
  /\ forallb (fun u => negb (select u)
                       || role_check (if select u then g u else u)) l = true
  /\ forall uid, existsb (fun u => select u && (u_id u =? uid)) l = false.
Proof.
  intros Hnone. apply existsb_filter_nil in Hnone.
  assert (Hno : forall u, In u l -> select u = false)
    by (intros u Hu; exact (filter_nil_none _ _ _ Hnone Hu)).
  repeat split.
  - apply filter_all. intros u Hu. rewrite (Hno u Hu). reflexivity.
  - rewrite <- (map_id l) at 2. apply map_ext_in. intros u Hu.
    rewrite (Hno u Hu). reflexivity.
  - apply forallb_forall. intros u Hu. rewrite (Hno u Hu). reflexivity.
  - intros uid. apply existsb_filter_nil. apply filter_none.
    intros u Hu. rewrite (Hno u Hu). reflexivity.
Qed.

Lemma deleteUser_of_no_row now userId d :
  existsb (fun u => id_matches (SqlText userId) (u_id u)) (users d) = false ->
  deleteUser now userId d = (d, success "Utilisateur supprimé avec succès").
Proof.
  intros Hnone.
  destruct (no_row_selected _ (fun u => u) _ Hnone) as [Hf [_ [_ Horphan]]].
  unfold deleteUser, dbRun, execute. rewrite Hf.
  destruct (foreign_keys d) eqn:Hfk.
  - rewrite !filter_all.
    + destruct d; cbn in *. rewrite Hfk. reflexivity.
    + intros c _. rewrite Horphan. reflexivity.
    + intros f _. rewrite Horphan. reflexivity.
  - rewrite with_users_same. reflexivity.
Qed.

Lemma updateUser_of_no_row now userId b d :
  existsb (fun u => id_matches (SqlText userId) (u_id u)) (users d) = false ->
  validUpdates b <> [] ->
  updateUser now userId b d = (d, success "Utilisateur modifié avec succès").
Proof.
  intros Hnone Hsets. unfold updateUser.
  destruct (validUpdates b) as [|a sets] eqn:Hv; [contradiction|].
  destruct (no_row_selected _ (fold_left assign (a :: sets)) _ Hnone)
    as [_ [Hm [Hc _]]].
  unfold dbRun, execute. rewrite Hc, Hm, with_users_same. reflexivity.
Qed.


(** ** Products *)

Lemma find_app_old {A : Type} (f : A -> bool) l l' x :
  find f l = Some x -> find f (l ++ l') = Some x.
Proof.
  induction l as [|y l IH]; simpl; [discriminate|].
  destruct (f y); auto.
Qed.

Lemma lookup_after_append d d' name pid rows :
  products d' = (products d ++ rows)%list ->
  dbGet_product_id_by_name d name = Some pid ->
  dbGet_product_id_by_name d' name = Some pid.
Proof.
  unfold dbGet_product_id_by_name. intros -> H.
  destruct (find (product_has_name name) (products d)) as [p|] eqn:Hfind;
    [|discriminate H].
  rewrite (find_app_old _ _ rows p Hfind). exact H.
Qed.

(** X13. [addProduct] answers "Erreur ajout produit" and leaves the
    database alone when the name, the brand or the price binds to NULL
    (a field that is missing or null).  Otherwise it appends one row
    under the next rowid, whatever the name: a name that already named
    a product goes on naming the older product, so that the favorites
    and cart routes, which look products up by name, do not reach the
    new one; a name that named no product names the new row. *)
Theorem addProduct_appends :
  forall (now : Z) (b : json) (d : Database),
    let name := bind_text (js_get b "name") in
    let brand := bind_text (js_get b "brand") in
    let price := bind_numeric (js_get b "price") in
    let row := mkProduct (seq_products d + 1) name brand
                         (bind_text (js_get b "description")) price
                         (bind_text (js_get b "image_emoji"))
                         (bind_text (js_get b "sizes")) now in
    let d' := fst (addProduct now b d) in
    (sql_is_null name || sql_is_null brand || sql_is_null price = true ->
     addProduct now b d = (d, failure "Erreur ajout produit"))
    /\
    (sql_is_null name || sql_is_null brand || sql_is_null price = false ->
     addProduct now b d
     = (with_products d (products d ++ [row]) (seq_products d + 1),
        success "Produit ajouté avec succès")
     /\ (forall n pid,
            dbGet_product_id_by_name d n = Some pid ->
            dbGet_product_id_by_name d' n = Some pid)
     /\ (forall n,
            js_get b "name" = Some (JStr n) ->
            dbGet_product_id_by_name d n = None ->
            dbGet_product_id_by_name d' n = Some (seq_products d + 1))).
Proof.
  intros now b d name brand price row d'. subst d'.
  unfold addProduct, dbRun, execute. fold name brand price.
  split; intros Hnull; rewrite Hnull; [reflexivity|].
  fold row. cbn [fst]. split; [reflexivity|]. split.
  - intros n pid. apply (lookup_after_append d _ n pid [row]). reflexivity.
  - intros n Hn Hnone. unfold dbGet_product_id_by_name in *.
    cbn [products with_products].
    rewrite (find_app_new (product_has_name n) (products d) row).
    + reflexivity.
    + destruct (find (product_has_name n) (products d)) eqn:Hfind;
        [discriminate Hnone|].
      exact (find_none_existsb _ _ Hfind).
    + unfold product_has_name. cbn [p_name row]. subst name. rewrite Hn.
      cbn [bind_text sqlval_eqb_text]. apply String.eqb_refl.
Qed.

Lemma execute_products now d st d' res :
  execute now d st = Ok (d', res) ->
  exists rows, products d' = (products d ++ rows)%list.
Proof.
  intros H.
  destruct st; simpl in H;
    repeat match type of H with
           | (if ?c then _ else _) = _ => destruct c eqn:?; try discriminate
           end;
    injection H as <- _; cbn [products with_users with_products with_favorites
                                       with_cart_items];
    first [ exists []; rewrite app_nil_r; reflexivity
          | eexists; reflexivity ].
Qed.

Lemma initDatabase_products now salt d :
  products (initDatabase now salt d)
  = (products d
       ++ [mkProduct (seq_products d + 1) (SqlText "Air Jordan 1 Retro High")
                     (SqlText "NIKE") (SqlText "Chicago - Rouge/Blanc/Noir")
                     (SqlInt 179) (SqlText "👟") (SqlText "38-46") now;
           mkProduct (seq_products d + 1 + 1) (SqlText "Yeezy Boost 350 V2")
                     (SqlText "ADIDAS") (SqlText "Zebra - Blanc/Noir")
                     (SqlInt 249) (SqlText "🏃") (SqlText "36-45") now;
           mkProduct (seq_products d + 1 + 1 + 1) (SqlText "Air Max 90")
                     (SqlText "NIKE") (SqlText "Triple White")
                     (SqlInt 129) (SqlText "⚡") (SqlText "37-47") now])%list.
Proof.
  unfold initDatabase, insert_or_ignore_admin.
  destruct (existsb (user_has_email "admin@sneakzone.com") (users d));
    cbn [seed_products fold_left insert_seed_product products with_products
                       with_users seq_products];
    rewrite <- !app_assoc; reflexivity.
Qed.

Lemma step_products st e :
  exists rows, products (db (step st e)) = (products (db st) ++ rows)%list.
Proof.
  destruct e as [r|now salt]; cbn [step db].
  - destruct (app_transition r st) as [->|[now [stm [res H]]]].
    + exists []. rewrite app_nil_r. reflexivity.
    + exact (execute_products _ _ _ _ _ H).
  - rewrite initDatabase_products. eexists. reflexivity.
Qed.

Lemma run_products events :
  forall st,
  exists rows, products (db (run st events)) = (products (db st) ++ rows)%list.
Proof.
  unfold run. induction events as [|e events IH]; intros st; simpl.
  - exists []. rewrite app_nil_r. reflexivity.
  - destruct (IH (step st e)) as [rows Hrows].
    destruct (step_products st e) as [rows' Hrows'].
    exists (rows' ++ rows)%list. rewrite Hrows, Hrows', app_assoc. reflexivity.
Qed.

(** X14. No request and no restart removes or changes a row of
    [products]: along every run of the server the table only grows at
    its end.  A name that resolves to a product therefore resolves to
    the same product ever after. *)
Theorem products_only_grow :
  forall (st : AppState) (events : list Event) (name : string) (pid : Z),
    dbGet_product_id_by_name (db st) name = Some pid ->
    (exists rows,
        products (db (run st events)) = (products (db st) ++ rows)%list)
    /\ dbGet_product_id_by_name (db (run st events)) name = Some pid.
Proof.
  intros st events name pid Hfound.
  destruct (run_products events st) as [rows Hrows].
  split; [exists rows; exact Hrows|].
  exact (lookup_after_append _ _ name pid rows Hrows Hfound).
Qed.

(** ** Starting the server again *)

Lemma initDatabase_users now salt d :
  users (initDatabase now salt d)
  = if existsb (user_has_email "admin@sneakzone.com") (users d)
    then users d
    else (users d
            ++ [mkUser (seq_users d + 1) "admin@sneakzone.com"
                       (bcrypt_hash "#Adm1nSneakZone97!" salt)
                       (SqlText "Admin") (SqlText "SneakZone") "admin" 1 now])%list.
Proof.
  unfold initDatabase, insert_or_ignore_admin.
  destruct (existsb (user_has_email "admin@sneakzone.com") (users d));
    reflexivity.
Qed.

Lemma initDatabase_has_admin now salt d :
  existsb (user_has_email "admin@sneakzone.com") (users (initDatabase now salt d))
  = true.
Proof.
  rewrite initDatabase_users.
  destruct (existsb (user_has_email "admin@sneakzone.com") (users d)) eqn:E;
    [exact E|].
  rewrite existsb_app. cbn [existsb]. unfold user_has_email at 2.
  cbn [u_email]. rewrite String.eqb_refl, !orb_true_r. reflexivity.
Qed.

(** X15. [initDatabase] inserts the default administrator only when no
    row has its email, and inserts the three products at every start
    (INSERT OR IGNORE on a table without a UNIQUE constraint).  Starting
    the server again therefore leaves every account as it is, the
    administrator's stored hash, role and active flag included, and adds
    three more rows to [products]; favorites and cart rows are not
    touched. *)
Theorem initDatabase_on_restart :
  forall (now : Z) (salt : string) (d : Database),
    let d' := initDatabase now salt d in
    let admin :=
      mkUser (seq_users d + 1) "admin@sneakzone.com"
             (bcrypt_hash "#Adm1nSneakZone97!" salt)
             (SqlText "Admin") (SqlText "SneakZone") "admin" 1 now in
    users d' = (if existsb (user_has_email "admin@sneakzone.com") (users d)
                then users d else (users d ++ [admin])%list)
    /\ List.length (products d') = (List.length (products d) + 3)%nat
    /\ favorites d' = favorites d
    /\ cart_items d' = cart_items d
    /\ forall (now' : Z) (salt' : string),
        users (initDatabase now' salt' d') = users d'
        /\ List.length (products (initDatabase now' salt' d'))
           = (List.length (products d) + 6)%nat.
Proof.
  intros now salt d d' admin. subst d' admin.
  split; [apply initDatabase_users|].
  split; [rewrite initDatabase_products, length_app; reflexivity|].
  split.
  { unfold initDatabase, insert_or_ignore_admin.
    destruct (existsb _ (users d)); reflexivity. }
  split.
  { unfold initDatabase, insert_or_ignore_admin.
    destruct (existsb _ (users d)); reflexivity. }
  intros now' salt'. split.
  - rewrite (initDatabase_users now' salt'), initDatabase_has_admin.
    reflexivity.
  - rewrite !initDatabase_products, !length_app. cbn [List.length]. lia.
Qed.

(** ** The rows of other users *)

Lemma filter_filter_kept {A : Type} (g h : A -> bool) l :
  (forall x, In x l -> g x = true -> h x = true) ->
  filter g (filter h l) = filter g l.
Proof.
  induction l as [|x l IH]; simpl; intros H; [reflexivity|].
  specialize (IH (fun y Hy => H y (or_intror Hy))).
  destruct (h x) eqn:Hh; simpl.
  - rewrite IH. reflexivity.
  - destruct (g x) eqn:Hg; [|exact IH].
    rewrite (H x (or_introl eq_refl) Hg) in Hh. discriminate.
Qed.

Lemma filter_map_kept {A : Type} (g : A -> bool) (h : A -> A) l :
  (forall x, In x l -> h x = x \/ (g x = false /\ g (h x) = false)) ->
  filter g (map h l) = filter g l.
Proof.
  induction l as [|x l IH]; simpl; intros H; [reflexivity|].
  specialize (IH (fun y Hy => H y (or_intror Hy))).
  destruct (H x (or_introl eq_refl)) as [->|[-> ->]]; rewrite IH; reflexivity.
Qed.

Lemma filter_app_rejected {A : Type} (g : A -> bool) l x :
  g x = false -> filter g (l ++ [x]) = filter g l.
Proof. intros H. rewrite filter_app. simpl. rewrite H. apply app_nil_r. Qed.

Lemma same_for_others_refl uid d : same_for_others uid d d.
Proof. repeat split. Qed.

Lemma toggle_favorite_isolated now key user d :
  well_formed d ->
  same_for_others (au_id user) d (fst (toggle_favorite now key user d)).
Proof.
  intros Hwf. unfold toggle_favorite.
  destruct (decodeURIComponent key) as [name|]; [|apply same_for_others_refl].
  destruct (dbGet_product_id_by_name d name) as [pid|];
    [|apply same_for_others_refl].
  unfold dbGet_favorite_id.
  destruct (find (favorite_of (au_id user) pid) (favorites d)) as [f|] eqn:Hf;
    cbn [option_map dbRun execute].
  - cbn [fst]. repeat split. unfold others_favorites.
    cbn [favorites with_favorites]. apply filter_filter_kept.
    intros x Hx Hother. destruct (f_id x =? f_id f) eqn:Hid; [|reflexivity].
    apply Z.eqb_eq in Hid. apply find_some in Hf. destruct Hf as [Hin Hfav].
    destruct (wf_favorites d Hwf) as [Hnd _].
    rewrite (nodup_key_eq f_id _ x f Hnd Hx Hin Hid) in Hother.
    unfold favorite_of in Hfav. apply andb_prop in Hfav.
    destruct Hfav as [Hu _]. rewrite Hu in Hother. discriminate.
  - destruct (foreign_keys d && negb (parents_exist d (au_id user) pid));
      [apply same_for_others_refl|].
    destruct (existsb (favorite_of (au_id user) pid) (favorites d));
      [apply same_for_others_refl|].
    cbn [fst]. repeat split. unfold others_favorites.
    cbn [favorites with_favorites]. apply filter_app_rejected.
    cbn [f_user_id]. rewrite Z.eqb_refl. reflexivity.
Qed.

Lemma add_to_cart_isolated now key user d :
  well_formed d ->
  same_for_others (au_id user) d (fst (add_to_cart now key user d)).
Proof.
  intros Hwf. unfold add_to_cart.
  destruct (decodeURIComponent key) as [name|]; [|apply same_for_others_refl].
  destruct (dbGet_product_id_by_name d name) as [pid|];
    [|apply same_for_others_refl].
  unfold dbGet_cart_item.
  destruct (find (cart_item_of (au_id user) pid) (cart_items d)) as [c|] eqn:Hc;
    cbn [option_map dbRun execute].
  - cbn [fst]. repeat split. unfold others_cart_items.
    cbn [cart_items with_cart_items]. apply filter_map_kept.
    intros x Hx. destruct (c_id x =? c_id c) eqn:Hid; [|left; reflexivity].
    right. apply Z.eqb_eq in Hid. apply find_some in Hc.
    destruct Hc as [Hin Hpair]. destruct (wf_cart_items d Hwf) as [Hnd _].
    rewrite (nodup_key_eq c_id _ x c Hnd Hx Hin Hid).
    unfold cart_item_of in Hpair. apply andb_prop in Hpair.
    destruct Hpair as [Hu _]. cbn [increment_quantity c_user_id].
    rewrite Hu. split; reflexivity.
  - destruct (foreign_keys d && negb (parents_exist d (au_id user) pid));
      [apply same_for_others_refl|].
    destruct (existsb (cart_item_of (au_id user) pid) (cart_items d));
      [apply same_for_others_refl|].
    cbn [fst]. repeat split. unfold others_cart_items.
    cbn [cart_items with_cart_items]. apply filter_app_rejected.
    cbn [c_user_id]. rewrite Z.eqb_refl. reflexivity.
Qed.

Lemma remove_from_cart_isolated now key user d :
  same_for_others (au_id user) d (fst (remove_from_cart now key user d)).
Proof.
  unfold remove_from_cart.
  destruct (decodeURIComponent key) as [name|]; [|apply same_for_others_refl].
  destruct (dbGet_product_id_by_name d name) as [pid|];
    [|apply same_for_others_refl].
  cbn [dbRun execute fst]. repeat split. unfold others_cart_items.
  cbn [cart_items with_cart_items]. apply filter_filter_kept.
  intros x _ Hother. unfold cart_item_of.
  destruct (c_user_id x =? au_id user); [discriminate Hother|reflexivity].
Qed.

Lemma authenticated_isolated handler s d user :
  authenticateToken d s = inr user ->
  same_for_others (au_id user) d (fst (handler user d)) ->
  same_for_others (au_id user) d (out_db (authenticated handler s d)).
Proof.
  intros Hauth H. rewrite (authenticated_as _ _ _ _ Hauth). exact H.
Qed.

(** X16. A request to a path under /api/users, served for the user of
    its session on a database that satisfies the constraints of the
    schema, leaves the accounts, the products, and the favorites and
    cart rows of every other user exactly as they were. *)
Theorem user_routes_touch_own_rows_only :
  forall (r : Request) (s : Session) (d : Database) (user : AuthUser),
    well_formed d ->
    authenticateToken d s = inr user ->
    mounted_at ["api"; "users"] (req_path r) = true ->
    let d' := out_db (serve r s d) in
    users d' = users d
    /\ products d' = products d
    /\ others_favorites (au_id user) d' = others_favorites (au_id user) d
    /\ others_cart_items (au_id user) d' = others_cart_items (au_id user) d.
Proof.
  intros r s d user Hwf Hauth Hu d'. subst d'.
  change (same_for_others (au_id user) d (out_db (serve r s d))).
  destruct (serve_cases r s d)
    as [[[ps Ht] _]|[s1 [Hs1 [Hc|[[name [Hst _]]|[Hd|[_ Hf]]]]]]].
  - pose proof (not_under_token_route _ _ _ Ht Hu) as Hno. discriminate Hno.
  - rewrite Hc. apply same_for_others_refl.
  - rewrite (no_static_file_under ["api"; "users"] r) in Hst;
      [discriminate Hst | simpl; lia | exact Hu].
  - assert (Hauth1 : authenticateToken d s1 = inr user)
      by (rewrite (authenticateToken_same_user d s s1 Hs1); exact Hauth).
    revert Hd.
    apply (dispatch_under
             (fun o => same_for_others (au_id user) d (out_db o))
             ["api"; "users"] routes r s1 d (serve r s d) Hu).
    routes_by ltac:(
      match goal with
      | Hp : pattern_under _ _ = true |- _ => under_prefix Hp
      end;
      unfold get_favorites, get_cart;
      apply (authenticated_isolated _ _ _ _ Hauth1);
      first [ apply same_for_others_refl
            | apply toggle_favorite_isolated; exact Hwf
            | apply add_to_cart_isolated; exact Hwf
            | apply remove_from_cart_isolated ]).
  - rewrite Hf. apply same_for_others_refl.
Qed.

(** ** What a user reads back *)

Lemma filter_by_key {A : Type} (key : A -> Z) l x :
  NoDup (map key l) -> In x l -> filter (fun y => key y =? key x) l = [x].
Proof.
  induction l as [|y l IH]; simpl; [tauto|].
  intros Hnd Hin. inversion Hnd as [|? ? Hnotin Hnd']; subst.
  destruct (key y =? key x) eqn:E.
  - apply Z.eqb_eq in E.
    assert (y = x).
    { destruct Hin as [Hy|Hx]; [auto|].
      exfalso. apply Hnotin. rewrite E. apply in_map. exact Hx. }
    subst y. f_equal. apply filter_none. intros z Hz.
    apply Z.eqb_neq. intros Hk. apply Hnotin. rewrite <- Hk.
    apply in_map. exact Hz.
  - destruct Hin as [Hy|Hx]; [subst y; rewrite Z.eqb_refl in E; discriminate|].
    auto.
Qed.

Lemma product_of_name d name p :
  find (product_has_name name) (products d) = Some p ->
  dbGet_product_id_by_name d name = Some (p_id p) /\ In p (products d).
Proof.
  intros H. unfold dbGet_product_id_by_name. rewrite H.
  split; [reflexivity|]. apply find_some in H. tauto.
Qed.

Lemma joined_product d p :
  well_formed d -> In p (products d) ->
  filter (product_has_id (p_id p)) (products d) = [p].
Proof.
  intros Hwf Hin. destruct (wf_products d Hwf) as [Hnd _].
  exact (filter_by_key p_id _ p Hnd Hin).
Qed.

(** ** The order of a scan along an index *)

Lemma in_insert_asc {A : Type} (key : A -> Z) x y l :
  In y (insert_asc key x l) <-> y = x \/ In y l.
Proof.
  induction l as [|z l IH]; simpl; [intuition congruence|].
  destruct (key x <=? key z); simpl; [intuition congruence|].
  rewrite IH. intuition congruence.
Qed.

Lemma in_index_order {A : Type} (key : A -> Z) y l :
  In y (index_order key l) <-> In y l.
Proof.
  unfold index_order. induction l as [|x l IH]; simpl; [tauto|].
  rewrite in_insert_asc, IH. intuition congruence.
Qed.

Lemma insert_asc_sorted {A : Type} (key : A -> Z) x l :
  (forall y, In y l -> key y <> key x) ->
  StronglySorted (fun a b => key a < key b) l ->
  StronglySorted (fun a b => key a < key b) (insert_asc key x l).
Proof.
  induction l as [|y l IH]; simpl; intros Hnew Hs.
  - constructor; constructor.
  - inversion Hs as [|? ? Hs' Hall]; subst.
    assert (Hy : key y <> key x) by (apply Hnew; left; reflexivity).
    destruct (key x <=? key y) eqn:E.
    + apply Z.leb_le in E. constructor; [exact Hs|].
      constructor; [lia|]. rewrite Forall_forall in *.
      intros z Hz. specialize (Hall z Hz). lia.
    + apply Z.leb_gt in E. constructor; [apply IH; auto|].
      rewrite Forall_forall in *. intros z Hz.
      apply in_insert_asc in Hz. destruct Hz as [->|Hz]; [lia | auto].
Qed.

Lemma index_order_sorted {A : Type} (key : A -> Z) l :
  NoDup (map key l) ->
  StronglySorted (fun a b => key a < key b) (index_order key l).
Proof.
  unfold index_order. induction l as [|x l IH]; simpl; intros Hnd;
    [constructor|].
  inversion Hnd as [|? ? Hnotin Hnd']; subst.
  apply insert_asc_sorted; [|auto].
  intros y Hy Hk. apply Hnotin. rewrite <- Hk. apply in_map.
  apply (in_index_order key). exact Hy.
Qed.

(** A list sorted by a key without repetition is determined by its
    members. *)
Lemma sorted_by_key_unique {A : Type} (key : A -> Z) (l1 l2 : list A) :
  StronglySorted (fun a b => key a < key b) l1 ->
  StronglySorted (fun a b => key a < key b) l2 ->
  (forall x, In x l1 <-> In x l2) ->
  l1 = l2.
Proof.
  revert l2. induction l1 as [|a l1 IH]; intros l2 H1 H2 Hsame.
  - destruct l2 as [|b l2]; [reflexivity|].
    exfalso. apply (proj2 (Hsame b)). left. reflexivity.
  - destruct l2 as [|b l2];
      [exfalso; apply (proj1 (Hsame a)); left; reflexivity|].
    inversion H1 as [|? ? H1' Ha]; subst.
    inversion H2 as [|? ? H2' Hb]; subst.
    rewrite Forall_forall in Ha, Hb.
    assert (Hab : a = b).
    { destruct (proj1 (Hsame a) (or_introl eq_refl)) as [Hba|Hin2]; [auto|].
      destruct (proj2 (Hsame b) (or_introl eq_refl)) as [Hab|Hin1]; [auto|].
      specialize (Ha b Hin1). specialize (Hb a Hin2). lia. }
    subst b. f_equal. apply IH; [exact H1' | exact H2' |].
    intros x. split; intros Hx.
    + destruct (proj1 (Hsame x) (or_intror Hx)) as [Heq|Hin]; [|exact Hin].
      subst x. specialize (Ha a Hx). lia.
    + destruct (proj2 (Hsame x) (or_intror Hx)) as [Heq|Hin]; [|exact Hin].
      subst x. specialize (Hb a Hx). lia.
Qed.

Lemma sorted_filter {A : Type} (R : A -> A -> Prop) (f : A -> bool) l :
  StronglySorted R l -> StronglySorted R (filter f l).
Proof.
  induction l as [|x l IH]; simpl; intros Hs; [constructor|].
  inversion Hs as [|? ? Hs' Hall]; subst.
  destruct (f x); [|auto].
  constructor; [auto|]. rewrite Forall_forall in *.
  intros y Hy. apply filter_In in Hy. apply Hall. tauto.
Qed.

(** A row with a new key goes between the rows with smaller keys and
    the rows with larger ones. *)
Lemma index_order_new_row {A : Type} (key : A -> Z) l x :
  NoDup (map key l) ->
  (forall y, In y l -> key y <> key x) ->
  index_order key (l ++ [x])%list
  = (filter (fun y => key y <? key x) (index_order key l)
       ++ [x]
       ++ filter (fun y => key x <? key y) (index_order key l))%list.
Proof.
  intros Hnd Hnew.
  apply (sorted_by_key_unique key).
  - apply index_order_sorted. rewrite map_app. simpl.
    apply NoDup_app; [exact Hnd | constructor; [simpl; tauto|constructor] |].
    intros k Hk [Hx|[]]. subst k. apply in_map_iff in Hk.
    destruct Hk as [y [Hy Hin]]. exact (Hnew y Hin Hy).
  - pose proof (index_order_sorted key l Hnd) as Hs.
    assert (Hsorted : forall l1 l2,
               StronglySorted (fun a b => key a < key b) l1 ->
               StronglySorted (fun a b => key a < key b) l2 ->
               (forall a b, In a l1 -> In b l2 -> key a < key b) ->
               StronglySorted (fun a b => key a < key b) (l1 ++ l2)%list).
    { induction l1 as [|a l1 IH]; simpl; intros l2 H1 H2 Hlt; [exact H2|].
      inversion H1 as [|? ? H1' Ha]; subst.
      constructor; [apply IH; auto|].
      apply Forall_app. split; [exact Ha|].
      rewrite Forall_forall. intros b Hb. apply Hlt; [left; reflexivity|exact Hb]. }
    apply Hsorted; [apply sorted_filter; exact Hs| |].
    + apply (Hsorted [x]);
        [constructor; constructor | apply sorted_filter; exact Hs|].
      intros a b [<-|[]] Hb. apply filter_In in Hb.
      destruct Hb as [_ Hb]. apply Z.ltb_lt in Hb. exact Hb.
    + intros a b Ha Hb. apply filter_In in Ha. destruct Ha as [_ Ha].
      apply Z.ltb_lt in Ha. destruct Hb as [<-|Hb]; [exact Ha|].
      cbn [app] in Hb. apply filter_In in Hb. destruct Hb as [_ Hb].
      apply Z.ltb_lt in Hb. lia.
  - intros y. split.
    + intros Hy. apply in_index_order in Hy. apply in_app_iff in Hy.
      apply in_app_iff.
      destruct Hy as [Hy|[<-|[]]];
        [|right; left; reflexivity].
      specialize (Hnew y Hy).
      destruct (Z.lt_total (key y) (key x)) as [Hlt|[Heq|Hgt]];
        [left | contradiction | right; right];
        apply filter_In; (split; [apply in_index_order; exact Hy|]);
        apply Z.ltb_lt; assumption.
    + intros Hy. apply in_index_order. apply in_app_iff.
      apply in_app_iff in Hy.
      destruct Hy as [Hy|[<-|Hy]]; [|right; left; reflexivity|];
        apply filter_In in Hy; destruct Hy as [Hy _];
        apply in_index_order in Hy; left; exact Hy.
Qed.

Lemma filter_flat_map {A B : Type} (f : B -> bool) (g : A -> bool)
      (h : A -> list B) l :
  (forall x y, In x l -> In y (h x) -> f y = g x) ->
  filter f (flat_map h l) = flat_map h (filter g l).
Proof.
  induction l as [|x l IH]; simpl; intros Hfg; [reflexivity|].
  rewrite filter_app, IH by (intros; apply Hfg; auto).
  assert (Hx : filter f (h x) = if g x then h x else []).
  { destruct (g x) eqn:Hg.
    - apply filter_all. intros y Hy. rewrite (Hfg x y); auto.
    - apply filter_none. intros y Hy. rewrite (Hfg x y); auto. }
  rewrite Hx. destruct (g x); reflexivity.
Qed.

Lemma entry_id_of_product p rest :
  entry_id (JObj (product_fields p ++ rest)) = p_id p.
Proof. unfold entry_id. cbn. apply Z.div_1_r. Qed.

(** The product ids of the cart rows of one user differ from row to
    row. *)
Lemma cart_products_of_user d uid :
  well_formed d ->
  NoDup (map c_product_id
             (filter (fun c => c_user_id c =? uid) (cart_items d))).
Proof.
  intros Hwf. pose proof (wf_cart_pairs d Hwf) as Hpairs.
  unfold unique_pairs in Hpairs.
  induction (cart_items d) as [|c l IH]; simpl; [constructor|].
  assert (Hl : forall u p, (List.length (filter (cart_item_of u p) l) <= 1)%nat).
  { intros u p. specialize (Hpairs u p). simpl in Hpairs.
    destruct (cart_item_of u p c); simpl in Hpairs; lia. }
  destruct (c_user_id c =? uid) eqn:Hu; [|auto].
  simpl. constructor; [|auto].
  intros Hin. apply in_map_iff in Hin. destruct Hin as [c' [Hp Hc']].
  apply filter_In in Hc'. destruct Hc' as [Hc' Hu'].
  specialize (Hpairs uid (c_product_id c)). simpl in Hpairs.
  unfold cart_item_of at 1 in Hpairs. rewrite Hu, Z.eqb_refl in Hpairs.
  simpl in Hpairs.
  assert (Hsome : In c' (filter (cart_item_of uid (c_product_id c)) l)).
  { apply filter_In. split; [exact Hc'|]. unfold cart_item_of.
    rewrite Hu', Hp, Z.eqb_refl. reflexivity. }
  destruct (filter (cart_item_of uid (c_product_id c)) l); [destruct Hsome|].
  simpl in Hpairs. lia.
Qed.

Lemma dbAll_cart_with_row d uid p q t :
  well_formed d -> In p (products d) ->
  existsb (cart_item_of uid (p_id p)) (cart_items d) = false ->
  dbAll_cart (with_cart_row d uid (p_id p) q t) uid
  = (filter (fun j => entry_id j <? p_id p) (dbAll_cart d uid)
       ++ [JObj (product_fields p ++ [("quantity", JInt q)])]
       ++ filter (fun j => p_id p <? entry_id j) (dbAll_cart d uid))%list.
Proof.
  intros Hwf Hin Habsent. unfold dbAll_cart, with_cart_row.
  cbn [cart_items products with_cart_items].
  rewrite filter_app. cbn [filter c_user_id]. rewrite Z.eqb_refl.
  set (row := mkCartItem (seq_cart_items d + 1) uid (p_id p) q t).
  set (rows := filter (fun c => c_user_id c =? uid) (cart_items d)).
  assert (Hnew : forall c, In c rows -> c_product_id c <> c_product_id row).
  { intros c Hc Hp. subst rows. apply filter_In in Hc. destruct Hc as [Hc Hu].
    apply existsb_filter_nil in Habsent.
    pose proof (filter_nil_none _ _ _ Habsent Hc) as Hno.
    unfold cart_item_of in Hno. rewrite Hu, Hp in Hno.
    cbn [row c_product_id] in Hno. rewrite Z.eqb_refl in Hno. discriminate. }
  rewrite (index_order_new_row c_product_id rows row
             (cart_products_of_user d uid Hwf) Hnew).
  rewrite !flat_map_app. cbn [flat_map row c_product_id c_quantity].
  rewrite (joined_product d p Hwf Hin). cbn [map app].
  assert (Hpart : forall (f : Z -> bool),
             filter (fun j => f (entry_id j))
                    (flat_map
                       (fun c =>
                          map (fun p0 => JObj (product_fields p0
                                                 ++ [("quantity",
                                                      JInt (c_quantity c))]))
                              (filter (product_has_id (c_product_id c))
                                      (products d)))
                       (index_order c_product_id rows))
             = flat_map
                 (fun c =>
                    map (fun p0 => JObj (product_fields p0
                                           ++ [("quantity",
                                                JInt (c_quantity c))]))
                        (filter (product_has_id (c_product_id c))
                                (products d)))
                 (filter (fun c => f (c_product_id c))
                         (index_order c_product_id rows))).
  { intros f. apply filter_flat_map. intros c j _ Hj.
    apply in_map_iff in Hj. destruct Hj as [p0 [<- Hp0]].
    apply filter_In in Hp0. destruct Hp0 as [_ Hid].
    apply Z.eqb_eq in Hid. rewrite entry_id_of_product, Hid. reflexivity. }
  rewrite (Hpart (fun k => k <? p_id p)), (Hpart (fun k => p_id p <? k)).
  reflexivity.
Qed.

(** X17. What the cart routes wrote is what GET /api/users/cart reads:
    after N >= 1 adds of a product that was not in the user's cart,
    the listing is the one from before with one more entry, the columns
    of that product with quantity N.  The entry stands at its place by
    product id: after the entries of smaller id and before those of
    larger id. *)
Theorem cart_listing_after_adds :
  forall (s : Session) (d : Database) (user : AuthUser) (key name : string)
         (p : Product) (now : Z) (times : list Z),
    let uid := au_id user in
    let n := List.length (now :: times) in
    let run := serve_times (post_cart key) (now :: times) s d in
    well_formed d ->
    authenticateToken d s = inr user ->
    decodeURIComponent key = Some name ->
    find (product_has_name name) (products d) = Some p ->
    existsb (cart_item_of uid (p_id p)) (cart_items d) = false ->
    out_response (get_cart s d)
    = json_ok (JObj [("success", JBool true);
                     ("cartItems", JArr (dbAll_cart d uid))])
    /\ out_response (get_cart (fst (fst run)) (snd (fst run)))
       = json_ok
           (JObj [("success", JBool true);
                  ("cartItems",
                   JArr (filter (fun j => entry_id j <? p_id p)
                                (dbAll_cart d uid)
                         ++ [JObj (product_fields p
                                     ++ [("quantity", JInt (Z.of_nat n))])]
                         ++ filter (fun j => p_id p <? entry_id j)
                                   (dbAll_cart d uid))%list)]).
Proof.
  intros s d user key name p now times uid n run Hwf Hauth Hkey Hfind Habsent.
  subst uid.
  destruct (product_of_name d name p Hfind) as [Hprod Hin].
  pose proof (parents_of_request _ _ _ _ _ Hauth Hprod) as Hparents.
  assert (Hrun : run = (s, with_cart_row d (au_id user) (p_id p) (Z.of_nat n) now,
                        repeat (json_ok (success "Produit ajouté au panier")) n)).
  { assert (Hstep : post_cart key now s d
                    = mkOutcome (with_cart_row d (au_id user) (p_id p) 1 now) s
                        (json_ok (success "Produit ajouté au panier"))).
    { unfold post_cart. rewrite (authenticated_as _ _ _ _ Hauth).
      rewrite (add_to_cart_first now _ _ _ _ _ Hkey Hprod Habsent Hparents).
      reflexivity. }
    subst run n. cbn [serve_times]. rewrite Hstep.
    cbn [out_db out_session out_response].
    rewrite (post_cart_repeated key name (p_id p) user s d now
               Hwf Hauth Hkey Hprod Habsent times 1).
    cbn [List.length repeat].
    replace (1 + Z.of_nat (List.length times))
      with (Z.of_nat (S (List.length times))) by lia.
    reflexivity. }
  rewrite Hrun. cbn [fst snd].
  assert (Hauth' : authenticateToken
                     (with_cart_row d (au_id user) (p_id p) (Z.of_nat n) now) s
                   = inr user)
    by (rewrite <- Hauth; apply authenticateToken_same_users; reflexivity).
  unfold get_cart.
  rewrite (authenticated_as _ _ _ _ Hauth), (authenticated_as _ _ _ _ Hauth').
  cbn [fst snd out_response].
  rewrite (dbAll_cart_with_row d (au_id user) p (Z.of_nat n) now Hwf Hin Habsent).
  split; reflexivity.
Qed.

Lemma in_insert_desc {A : Type} (key : A -> Z) x y l :
  In y (insert_desc key x l) <-> y = x \/ In y l.
Proof.
  induction l as [|z l IH]; simpl; [intuition congruence|].
  destruct (key z <=? key x); simpl; [intuition congruence|].
  rewrite IH. intuition congruence.
Qed.

Lemma in_order_by_desc {A : Type} (key : A -> Z) y l :
  In y (order_by_desc key l) <-> In y l.
Proof.
  unfold order_by_desc. induction l as [|x l IH]; simpl; [tauto|].
  rewrite in_insert_desc, IH. intuition congruence.
Qed.

(** The entries of the favorites listing: one per favorites row of the
    user and product row of its product id. *)
Lemma in_dbAll_favorites d uid j :
  In j (dbAll_favorites d uid)
  <-> exists f p,
      In f (favorites d) /\ f_user_id f = uid
      /\ In p (products d) /\ p_id p = f_product_id f
      /\ j = JObj (product_fields p
                     ++ [("favorited_at", JInt (f_created_at f))]).
Proof.
  unfold dbAll_favorites. rewrite in_flat_map. split.
  - intros [f [Hf Hj]]. apply in_order_by_desc in Hf.
    apply in_index_order in Hf. apply filter_In in Hf.
    destruct Hf as [Hf Hu]. apply Z.eqb_eq in Hu.
    apply in_map_iff in Hj. destruct Hj as [p [<- Hp]].
    apply filter_In in Hp. destruct Hp as [Hp Hid]. apply Z.eqb_eq in Hid.
    exists f, p. auto.
  - intros [f [p [Hf [Hu [Hp [Hid ->]]]]]]. exists f. split.
    + apply in_order_by_desc. apply in_index_order.
      apply filter_In. split; [exact Hf|].
      apply Z.eqb_eq. exact Hu.
    + apply in_map_iff. exists p. split; [reflexivity|].
      apply filter_In. split; [exact Hp|]. apply Z.eqb_eq. exact Hid.
Qed.

Lemma product_fields_id p p' rest rest' :
  JObj (product_fields p ++ rest) = JObj (product_fields p' ++ rest') ->
  p_id p = p_id p'.
Proof.
  intros H.
  apply (f_equal (fun j => match j with
                           | JObj ((_, JNum q) :: _) => Qnum q
                           | _ => 0
                           end)) in H.
  exact H.
Qed.

(** X18. What the favorites toggle wrote is what GET
    /api/users/favorites reads.  A toggle that adds the product puts
    its columns, with the time of the toggle, into the listing of the
    user, which held no entry of that product before; a toggle that
    removes it leaves no entry of that product in the listing. *)
Theorem favorites_listing_follows_toggle :
  forall (s : Session) (d : Database) (user : AuthUser) (key name : string)
         (p : Product) (now : Z),
    let uid := au_id user in
    let o := post_favorite key now s d in
    let entry t :=
      JObj (product_fields p ++ [("favorited_at", JInt t)]) in
    let listing d0 := dbAll_favorites d0 uid in
    well_formed d ->
    authenticateToken d s = inr user ->
    decodeURIComponent key = Some name ->
    find (product_has_name name) (products d) = Some p ->
    out_response (get_favorites (out_session o) (out_db o))
    = json_ok (JObj [("success", JBool true);
                     ("favorites", JArr (listing (out_db o)))])
    /\ (existsb (favorite_of uid (p_id p)) (favorites d) = false ->
        (forall t, ~ In (entry t) (listing d))
        /\ In (entry now) (listing (out_db o)))
    /\ (existsb (favorite_of uid (p_id p)) (favorites d) = true ->
        (exists t, In (entry t) (listing d))
        /\ forall t, ~ In (entry t) (listing (out_db o))).
Proof.
  intros s d user key name p now uid o entry listing Hwf Hauth Hkey Hfind.
  destruct (product_of_name d name p Hfind) as [Hprod Hin].
  assert (Hnone : forall d0,
             products d0 = products d ->
             existsb (favorite_of uid (p_id p)) (favorites d0) = false ->
             forall t, ~ In (entry t) (listing d0)).
  { intros d0 Hsame Hno t Hentry. apply in_dbAll_favorites in Hentry.
    destruct Hentry as [f [p' [Hf [Hu [_ [Hid Heq]]]]]].
    apply product_fields_id in Heq.
    apply existsb_filter_nil in Hno.
    pose proof (filter_nil_none _ _ _ Hno Hf) as Hf'.
    unfold favorite_of in Hf'. rewrite Hu, <- Hid, <- Heq, !Z.eqb_refl in Hf'.
    discriminate. }
  assert (Hsession : out_session o = s).
  { subst o. unfold post_favorite. rewrite (authenticated_as _ _ _ _ Hauth).
    reflexivity. }
  assert (Hdb : out_db o = fst (toggle_favorite now key user d)).
  { subst o. unfold post_favorite. rewrite (authenticated_as _ _ _ _ Hauth).
    reflexivity. }
  assert (Husers : users (out_db o) = users d).
  { rewrite Hdb. apply user_handlers_keep_accounts. }
  split; [|split].
  - unfold get_favorites. rewrite Hsession.
    assert (Hauth' : authenticateToken (out_db o) s = inr user)
      by (rewrite <- Hauth; apply authenticateToken_same_users; exact Husers).
    rewrite (authenticated_as _ _ _ _ Hauth'). reflexivity.
  - intros Habsent. split; [apply Hnone; [reflexivity | exact Habsent]|].
    pose proof (parents_of_request _ _ _ _ _ Hauth Hprod) as Hparents.
    rewrite Hdb.
    rewrite (toggle_favorite_absent now key name (p_id p) user d
               Hkey Hprod Habsent Hparents).
    cbn [fst]. apply in_dbAll_favorites.
    exists (mkFavorite (seq_favorites d + 1) uid (p_id p) now), p.
    cbn [favorites products with_favorites f_user_id f_product_id f_created_at].
    repeat split; auto. apply in_or_app. right. left. reflexivity.
  - intros Hpresent. destruct (existsb_find_some _ _ Hpresent) as [f Hf].
    split.
    + exists (f_created_at f). apply in_dbAll_favorites. exists f, p.
      apply find_some in Hf. destruct Hf as [Hfin Hpair].
      unfold favorite_of in Hpair. apply andb_prop in Hpair.
      destruct Hpair as [Hu Hp]. apply Z.eqb_eq in Hu, Hp.
      repeat split; auto.
    + rewrite Hdb.
      rewrite (toggle_favorite_present now key name (p_id p) user d f
                 Hkey Hprod Hf).
      cbn [fst]. apply Hnone; [reflexivity|].
      cbn [favorites with_favorites].
      rewrite (delete_found_favorite d uid (p_id p) f Hwf Hf).
      apply existsb_filter_nil. apply filter_not_of_pair_after.
Qed.

(** ** The envelope of the responses *)

(** A response is the 429 of one of the two limiters or the response of
    the chain below them. *)
Lemma app_response_cases r st :
  snd (app r st) = json_status 429 (message authLimiter)
  \/ snd (app r st) = json_status 429 (message apiLimiter)
  \/ snd (app r st)
     = out_response (serve r (load_session (req_sid r) (sessions st)) (db st)).
Proof.
  unfold app, with_api_limiter, rateLimit, with_session, increment.
  set (o := serve r (load_session (req_sid r) (sessions st)) (db st)).
  clearbody o.
  destruct (mounted_at ["api"; "auth"; "login"] (req_path r)
            || mounted_at ["api"; "auth"; "register"] (req_path r));
    destruct (mounted_at ["api"] (req_path r)); cbn [fst snd];
    repeat match goal with
           | |- context [if (?a <? ?b)%N then _ else _] =>
               destruct (a <? b)%N; cbn [fst snd]
           end;
    cbn [fst snd]; auto.
Qed.

Ltac envelope_cases :=
  repeat (break_match; cbv beta iota); reflexivity.

Lemma serve_envelope r s d : envelope_ok (out_response (serve r s d)) = true.
Proof.
  apply (serve_forall (fun _ _ _ o => envelope_ok (out_response o) = true)).
  - routes_by ltac:(
      unfold register, login, verify, logout, get_favorites, get_cart,
        admin_only, authenticated, authenticateToken, requireAdmin,
        handleValidationErrors, get_products,
        toggle_favorite, add_to_cart, remove_from_cart, put_admin_user,
        delete_admin_user, post_admin_product, updateUser, deleteUser,
        addProduct; envelope_cases).
  - unfold get_csrf_token. envelope_cases.
  - intros s' resp [->|[->|[name ->]]]; unfold spa_route, send_index;
      envelope_cases.
Qed.

Ltac page_cases :=
  repeat (break_match; cbv beta iota); intros Hpage; discriminate Hpage.

Lemma serve_error_page r s d :
  body (out_response (serve r s d)) = ErrorPage ->
  public_file "index.html" = false.
Proof.
  apply (serve_forall
           (fun _ _ _ o => body (out_response o) = ErrorPage ->
                           public_file "index.html" = false)).
  - routes_by ltac:(
      idtac;
      match goal with
      | Hpage : body _ = ErrorPage |- _ => revert Hpage
      end;
      cbn [route_handler];
      unfold register, login, verify, logout, get_favorites, get_cart,
        admin_only, authenticated, authenticateToken, requireAdmin,
        handleValidationErrors, get_products,
        toggle_favorite, add_to_cart, remove_from_cart, put_admin_user,
        delete_admin_user, post_admin_product, updateUser, deleteUser,
        addProduct; page_cases).
  - unfold get_csrf_token. page_cases.
  - intros s' resp [->|[->|[name ->]]]; try discriminate.
    unfold spa_route, send_index.
    destruct (public_file "index.html"); [|reflexivity].
    repeat (break_match; cbv beta iota); discriminate.
Qed.


(** ** Failures of the admin operations *)

Lemma admin_only_as handler s d admin :
  authenticateToken d s = inr admin ->
  au_role admin = "admin" ->
  admin_only handler s d
  = mkOutcome (fst (handler admin d)) s (snd (handler admin d)).
Proof.
  intros Hauth Hadmin. unfold admin_only.
  rewrite (authenticated_as _ _ _ _ Hauth). unfold requireAdmin.
  rewrite Hadmin. reflexivity.
Qed.

(** X20. The admin routes send the result of [AdminFunctions] with
    [res.json], without a status: an operation that fails is answered
    with status 200 and [success: false] in the body.  For an
    authenticated administrator, a PUT of another account without a
    valid field is answered 200 "Aucune modification valide", and a
    POST of a product whose name, brand or price binds to NULL is
    answered 200 "Erreur ajout produit"; both leave the database as it
    was. *)
Theorem admin_failures_are_answered_200 :
  forall (now : Z) (userId : string) (b : json) (s : Session) (d : Database)
         (admin : AuthUser),
    authenticateToken d s = inr admin ->
    au_role admin = "admin" ->
    (is_own_id userId admin = false ->
     validUpdates b = [] ->
     admin_only (put_admin_user now userId b) s d
     = mkOutcome d s (mkResponse 200 (JsonBody (failure "Aucune modification valide"))))
    /\
    (sql_is_null (bind_text (js_get b "name"))
     || sql_is_null (bind_text (js_get b "brand"))
     || sql_is_null (bind_numeric (js_get b "price")) = true ->
     admin_only (post_admin_product now b) s d
     = mkOutcome d s (mkResponse 200 (JsonBody (failure "Erreur ajout produit")))).
Proof.
  intros now userId b s d admin Hauth Hadmin. split.
  - intros Hother Hnone. rewrite (admin_only_as _ _ _ _ Hauth Hadmin).
    unfold put_admin_user, updateUser. rewrite Hother, Hnone. reflexivity.
  - intros Hnull. rewrite (admin_only_as _ _ _ _ Hauth Hadmin).
    unfold post_admin_product, addProduct, dbRun, execute. rewrite Hnull.
    reflexivity.
Qed.

(** ** Logout *)

Lemma load_saved_session sid s store k :
  load_session k (save_session sid s store)
  = if String.eqb k sid then s else load_session k store.
Proof.
  unfold load_session, save_session.
  destruct (String.eqb k sid) eqn:Hk.
  - apply String.eqb_eq in Hk. subst k.
    assert (Hgone : assoc sid (filter (fun e => negb (String.eqb (fst e) sid))
                                      store) = None).
    { induction store as [|[x v] store IH]; simpl; [reflexivity|].
      destruct (String.eqb x sid) eqn:Hx; simpl; [exact IH|].
      rewrite String.eqb_sym, Hx. exact IH. }
    destruct s as [[id|] [secret|]]; cbn [userId csrfSecret assoc];
      rewrite ?String.eqb_refl, ?Hgone; reflexivity.
  - assert (Hother : assoc k (filter (fun e => negb (String.eqb (fst e) sid))
                                     store) = assoc k store)
      by (apply assoc_filter_other; exact Hk).
    destruct (userId s), (csrfSecret s); cbn [assoc]; rewrite ?Hk, Hother;
      reflexivity.
Qed.

Lemma serve_logout r s d :
  req_method r = "POST" ->
  req_path r = ["api"; "auth"; "logout"] ->
  tokens_verify (session_secret r s) (csrf_value r) = true ->
  serve r s d
  = mkOutcome d empty_session (json_ok (success "Déconnexion réussie")).
Proof.
  intros Hm Hp Htoken.
  destruct r as [m p b ip sid tok now sec salt]. cbn [req_method req_path] in *.
  subst m p. unfold serve, csrf_guard, csrfProtection.
  cbn [req_method req_path]. rewrite Htoken. reflexivity.
Qed.

(** X21. POST /api/auth/logout with a token that verifies is answered
    200 "Déconnexion réussie" whether or not a user is logged in.  The
    database is left alone, nothing is kept for the session id, the CSRF
    secret included, and the other sessions stay as they were, so that a
    later request with the same cookie to a route behind
    [authenticateToken] is answered 401 "Non authentifié". *)
Theorem logout_forgets_the_session :
  forall (r : Request) (st : AppState),
    let s := load_session (req_sid r) (sessions st) in
    let st' := fst (app r st) in
    req_method r = "POST" ->
    req_path r = ["api"; "auth"; "logout"] ->
    tokens_verify (session_secret r s) (csrf_value r) = true ->
    status (snd (app r st)) <> 429 ->
    snd (app r st) = json_ok (success "Déconnexion réussie")
    /\ db st' = db st
    /\ load_session (req_sid r) (sessions st') = empty_session
    /\ (forall sid, sid <> req_sid r ->
                    load_session sid (sessions st') = load_session sid (sessions st))
    /\ authenticateToken (db st') (load_session (req_sid r) (sessions st'))
       = inl (json_status 401 (failure "Non authentifié")).
Proof.
  intros r st s st' Hm Hp Htoken Hserved. subst s st'.
  pose proof (app_limited_or_served r st) as H. cbv zeta in H.
  rewrite (serve_logout r _ (db st) Hm Hp Htoken) in H.
  cbn [out_response out_db out_session] in H.
  destruct H as [[H429 _]|[Hresp [Hdb Hsessions]]]; [contradiction|].
  rewrite Hresp, Hdb, Hsessions. split; [reflexivity|]. split; [reflexivity|].
  rewrite load_saved_session, String.eqb_refl.
  split; [reflexivity|]. split; [|reflexivity].
  intros sid Hsid. rewrite load_saved_session.
  apply String.eqb_neq in Hsid. rewrite Hsid. reflexivity.
Qed.

(** ** Paths outside /api *)

Lemma match_path_mounted a pattern path ps :
  match_path (Lit a :: pattern) path = Some ps -> mounted_at [a] path = true.
Proof.
  destruct path as [|seg path]; [discriminate|]. cbn [match_path mounted_at].
  destruct (String.eqb (lower seg) a); [reflexivity | discriminate].
Qed.

Lemma mounted_at_deeper a prefix path :
  mounted_at (a :: prefix) path = true -> mounted_at [a] path = true.
Proof.
  destruct path as [|seg path]; [discriminate|]. cbn [mounted_at].
  intros H. apply andb_prop in H. destruct H as [-> _]. reflexivity.
Qed.

Lemma routes_are_under_api r s d :
  mounted_at ["api"] (req_path r) = false -> dispatch routes r s d = None.
Proof.
  intros Hno. destruct (dispatch routes r s d) as [o|] eqn:Hd; [|reflexivity].
  exfalso. revert Hd.
  apply (dispatch_matched (fun _ => False) routes r s d o).
  routes_by ltac:(
    idtac;
    match goal with
    | Hm : match_path _ _ = Some _ |- _ =>
        cbn [route_pattern] in Hm; apply match_path_mounted in Hm; congruence
    end).
Qed.

Lemma static_file_is_there r name :
  static_file r = Some name -> public_file name = true.
Proof.
  unfold static_file.
  destruct (String.eqb (req_method r) "GET" || String.eqb (req_method r) "HEAD");
    [|discriminate].
  destruct (match req_path r with
            | [] => Some "index.html"
            | [name0] => Some (if String.eqb name0 "" then "index.html" else name0)
            | _ => None
            end) as [[|c rest]|]; try discriminate.
  destruct (negb (Ascii.eqb c ".")); cbn [andb]; [|discriminate].
  destruct (public_file (String c rest)) eqn:Hfile; [|discriminate].
  intros H. injection H as <-. exact Hfile.
Qed.

Lemma send_index_cases : file_or_error_page send_index.
Proof.
  unfold file_or_error_page, send_index.
  destruct (public_file "index.html") eqn:Hindex; [left; eauto | right; auto].
Qed.

Lemma serve_outside_api r s d :
  mounted_at ["api"] (req_path r) = false ->
  exists resp, serve r s d = mkOutcome d s resp /\ file_or_error_page resp.
Proof.
  intros Hno. unfold serve.
  destruct (match_path [Lit "api"; Lit "csrf-token"] (req_path r)) as [ps|] eqn:Ht;
    [apply match_path_mounted in Ht; congruence|].
  rewrite andb_false_r, Hno, (routes_are_under_api r s d Hno).
  destruct (static_file r) as [name|] eqn:Hstatic.
  { eexists. split; [reflexivity|]. left. exists name.
    split; [exact (static_file_is_there r name Hstatic) | reflexivity]. }
  eexists. split; [reflexivity|]. unfold spa_route.
  destruct (req_path r) as [|first [|second rest]];
    try apply send_index_cases.
  destruct (String.eqb first "api") eqn:Hfirst; [|apply send_index_cases].
  apply String.eqb_eq in Hfirst. subst first. discriminate Hno.
Qed.


(** ** The CSRF secret of a session *)

Lemma serve_outcomes_with (Q : Session -> Prop) (P : Outcome -> Prop) r s d :
  Q s ->
  Q (fst (csrfProtection r s)) ->
  P (get_csrf_token r s d) ->
  (forall s1,
      Q s1 ->
      Forall (fun route =>
                forall ps,
                  verb_matches (route_verb route) (req_method r) = true ->
                  match_path (route_pattern route) (req_path r) = Some ps ->
                  P (route_handler route ps r s1 d)) routes
      /\ forall resp,
          (resp = csrf_error_response \/ resp = spa_route r
           \/ exists name, resp = mkResponse 200 (FileBody name)) ->
          P (mkOutcome d s1 resp)) ->
  P (serve r s d).
Proof.
  intros Hs Hprotected Htoken Hrest. unfold serve.
  destruct (verb_matches "GET" (req_method r)
            && match match_path [Lit "api"; Lit "csrf-token"] (req_path r) with
               | Some _ => true
               | None => false
               end); [exact Htoken|].
  assert (Hguard : Q (fst (if mounted_at ["api"] (req_path r)
                           then csrf_guard r s else (s, true)))).
  { unfold csrf_guard.
    destruct (mounted_at ["api"] (req_path r)); [|exact Hs].
    destruct (ignored_method (req_method r)); [exact Hs | exact Hprotected]. }
  destruct (if mounted_at ["api"] (req_path r) then csrf_guard r s else (s, true))
    as [s1 passed].
  cbn [fst] in Hguard. destruct (Hrest s1 Hguard) as [Hroutes Hown].
  destruct passed; [|apply Hown; auto].
  destruct (static_file r) as [name|]; [apply Hown; eauto|].
  destruct (dispatch routes r s1 d) as [o|] eqn:Hd; [|apply Hown; auto].
  exact (dispatch_matched P routes r s1 d o Hroutes Hd).
Qed.

Lemma csrfProtection_keeps_secret r s secret :
  csrfSecret s = Some secret -> secret <> "" ->
  csrfSecret (fst (csrfProtection r s)) = Some secret.
Proof.
  intros Hs Hne. unfold csrfProtection, session_secret. rewrite Hs.
  apply String.eqb_neq in Hne. rewrite Hne. reflexivity.
Qed.

Lemma register_session r s d :
  csrfSecret (out_session (register r s d)) = csrfSecret s.
Proof.
  unfold register.
  repeat (break_match; cbv beta iota); reflexivity.
Qed.

Lemma login_session r s d :
  csrfSecret (out_session (login r s d)) = csrfSecret s.
Proof.
  unfold login.
  repeat (break_match; cbv beta iota); reflexivity.
Qed.

Lemma authenticated_session handler s d :
  out_session (authenticated handler s d) = s.
Proof.
  unfold authenticated. destruct (authenticateToken d s) as [resp|user];
    [reflexivity|].
  destruct (handler user d). reflexivity.
Qed.

(** X23. csurf keeps the secret it stored in the session, and no route
    but the logout replaces the session: whatever the request, a session
    that holds a (non-empty) CSRF secret holds the same secret
    afterwards, across a login or a registration as well, unless the
    request is answered by the logout route, which leaves nothing of
    the session. *)
Theorem csrf_secret_is_kept :
  forall (r : Request) (s : Session) (d : Database) (secret : string),
    csrfSecret s = Some secret ->
    secret <> "" ->
    let s' := out_session (serve r s d) in
    csrfSecret s' = Some secret
    \/ (is_logout r = true /\ s' = empty_session).
Proof.
  intros r s d secret Hs Hne s'. subst s'.
  apply (serve_outcomes_with
           (fun s1 => csrfSecret s1 = Some secret)
           (fun o => csrfSecret (out_session o) = Some secret
                     \/ (is_logout r = true /\ out_session o = empty_session))).
  - exact Hs.
  - exact (csrfProtection_keeps_secret r s secret Hs Hne).
  - left. unfold get_csrf_token.
    pose proof (csrfProtection_keeps_secret r s secret Hs Hne) as H.
    destruct (csrfProtection r s) as [s1 passed]. cbn [fst] in H.
    destruct passed; exact H.
  - intros s1 Hs1. split; [|intros; left; exact Hs1].
    routes_by ltac:(
      first
        [ left; rewrite register_session; exact Hs1
        | left; rewrite login_session; exact Hs1
        | left; unfold verify, get_favorites, get_cart, admin_only;
          rewrite authenticated_session; exact Hs1
        | left; exact Hs1
        | right; split; [|reflexivity];
          unfold is_logout;
          match goal with
          | Hv : verb_matches _ _ = true, Hm : match_path _ _ = Some _ |- _ =>
              cbn [route_verb route_pattern] in Hv, Hm; rewrite Hv, Hm
          end;
          reflexivity ]).
Qed.

(** ** Rowids of accounts *)

(** A statement keeps the ids of the rows of [users] or hands out the
    next one, and never lowers the sequence. *)
Lemma execute_user_ids now d st d' res :
  execute now d st = Ok (d', res) ->
  seq_users d <= seq_users d'
  /\ forall u',
      In u' (users d') ->
      (exists u, In u (users d) /\ u_id u = u_id u') \/ seq_users d < u_id u'.
Proof.
  intros H.
  destruct st; simpl in H;
    repeat match type of H with
           | (if ?c then _ else _) = _ => destruct c eqn:?; try discriminate
           end;
    injection H as <- _;
    cbn [users seq_users with_users with_products with_favorites
               with_cart_items];
    (split; [lia|]); intros u' Hu'; eauto.
  - (* InsertUser *)
    apply in_app_or in Hu'. destruct Hu' as [Hu'|[<-|[]]]; [eauto|].
    right. cbn [u_id]. lia.
  - (* UpdateUser *)
    apply in_map_iff in Hu'. destruct Hu' as [u [<- Hu]].
    left. exists u. split; [exact Hu|]. symmetry. apply id_of_assigned.
  - (* DeleteUser, foreign keys on *)
    apply filter_In in Hu'. left. exists u'. tauto.
  - (* DeleteUser, foreign keys off *)
    apply filter_In in Hu'. left. exists u'. tauto.
Qed.

Lemma initDatabase_user_ids now salt d :
  seq_users d <= seq_users (initDatabase now salt d)
  /\ forall u',
      In u' (users (initDatabase now salt d)) ->
      (exists u, In u (users d) /\ u_id u = u_id u') \/ seq_users d < u_id u'.
Proof.
  unfold initDatabase, insert_or_ignore_admin.
  destruct (existsb (user_has_email "admin@sneakzone.com") (users d));
    cbn [seed_products fold_left insert_seed_product users seq_users
                       with_products with_users];
    (split; [lia|]); intros u' Hu'; [eauto|].
  apply in_app_or in Hu'. destruct Hu' as [Hu'|[<-|[]]]; [eauto|].
  right. cbn [u_id]. lia.
Qed.

Lemma step_user_ids st e :
  seq_users (db st) <= seq_users (db (step st e))
  /\ forall u',
      In u' (users (db (step st e))) ->
      (exists u, In u (users (db st)) /\ u_id u = u_id u')
      \/ seq_users (db st) < u_id u'.
Proof.
  destruct e as [r|now salt]; cbn [step db].
  - destruct (app_transition r st) as [->|[now [stm [res H]]]].
    + split; [lia|]. eauto.
    + exact (execute_user_ids _ _ _ _ _ H).
  - apply initDatabase_user_ids.
Qed.

Lemma user_exists_iff d id :
  user_exists d id = true <-> exists u, In u (users d) /\ u_id u = id.
Proof.
  unfold user_exists, user_has_id. rewrite existsb_exists.
  split; intros [u [Hu Hid]]; exists u; split; auto; apply Z.eqb_eq; exact Hid.
Qed.

Lemma run_user_ids events :
  forall st id,
    id <= seq_users (db st) ->
    user_exists (db st) id = false ->
    user_exists (db (run st events)) id = false
    /\ seq_users (db st) <= seq_users (db (run st events)).
Proof.
  unfold run. induction events as [|e events IH]; intros st id Hid Hnone; simpl.
  - split; [exact Hnone | lia].
  - destruct (step_user_ids st e) as [Hseq Hids].
    destruct (IH (step st e) id) as [Hgone Hle].
    + lia.
    + destruct (user_exists (db (step st e)) id) eqn:E; [|reflexivity].
      apply user_exists_iff in E. destruct E as [u' [Hu' Hid']].
      destruct (Hids u' Hu') as [[u [Hu Hsame]]|Hnew]; [|lia].
      assert (Hex : user_exists (db st) id = true)
        by (apply user_exists_iff; exists u; split; [exact Hu | congruence]).
      congruence.
    + split; [exact Hgone | lia].
Qed.

(** X24. Rowids of [users] are handed out by AUTOINCREMENT and never
    given twice.  An id that the sequence has passed and that no row
    has (the id of a deleted account) is the id of no row in any later
    state of the server, whatever is registered, changed or restarted
    in between; a session that still names it is refused by
    [authenticateToken] ever after. *)
Theorem user_ids_are_never_reused :
  forall (st : AppState) (events : list Event) (id : Z) (s : Session),
    id <= seq_users (db st) ->
    user_exists (db st) id = false ->
    userId s = Some id ->
    let st' := run st events in
    user_exists (db st') id = false
    /\ seq_users (db st) <= seq_users (db st')
    /\ exists refusal,
        authenticateToken (db st') s = inl refusal /\ status refusal = 401.
Proof.
  intros st events id s Hid Hnone Hs st'. subst st'.
  destruct (run_user_ids events st id Hid Hnone) as [Hgone Hle].
  split; [exact Hgone|]. split; [exact Hle|].
  destruct (authenticateToken (db (run st events)) s) as [resp|user] eqn:Hauth.
  - exists resp. split; [reflexivity|].
    exact (authenticateToken_refusal _ _ _ Hauth).
  - exfalso. pose proof (authenticated_user_exists _ _ _ Hauth) as Hex.
    assert (au_id user = id).
    { revert Hauth. unfold authenticateToken, dbGet_auth_user. rewrite Hs.
      destruct (id =? 0); [discriminate|].
      destruct (find (user_has_id id) _) as [u|] eqn:Hfind; [|discriminate].
      cbn [option_map]. destruct (au_is_active _ =? 0); [discriminate|].
      intros H. injection H as <-. cbn [au_id auth_columns].
      apply find_some in Hfind. destruct Hfind as [_ Hfind].
      apply Z.eqb_eq. exact Hfind. }
    congruence.
Qed.

(** ** When a limiter answers *)

Lemma rateLimit_decides {S : Type} options key now (next : S -> S * Response)
      (h : Hits) st :
  ((max options <= hits_of now key h)%N ->
   snd (fst (rateLimit options key now next h st)) = st
   /\ snd (rateLimit options key now next h st)
      = json_status 429 (message options))
  /\ ((hits_of now key h < max options)%N ->
      (snd (fst (rateLimit options key now next h st)),
       snd (rateLimit options key now next h st)) = next st)
  /\ forall t k,
      String.eqb k key = false ->
      hits_of t k (fst (fst (rateLimit options key now next h st)))
      = hits_of t k h.
Proof.
  split; [|split].
  - unfold rateLimit, increment.
    destruct (max options <? hits_of now key h + 1)%N eqn:Hmax.
    + cbn [fst snd]. auto.
    + apply N.ltb_ge in Hmax. intros Hfull. lia.
  - unfold rateLimit, increment.
    destruct (max options <? hits_of now key h + 1)%N eqn:Hmax.
    + apply N.ltb_lt in Hmax. intros Hroom. lia.
    + destruct (next st) as [st' resp]. reflexivity.
  - intros t k Hk. apply hits_of_same_entry. apply rateLimit_other. exact Hk.
Qed.

Lemma on_auth_route_is_api r :
  on_auth_route r = true -> mounted_at ["api"] (req_path r) = true.
Proof.
  unfold on_auth_route. intros H. apply orb_prop in H.
  destruct H as [H|H]; exact (mounted_at_deeper _ _ _ H).
Qed.

(** X25. Each limiter decides by the counter of the key of the request
    alone, that is by the hits counted in the window of the key that is
    open when the request comes.  On the login and register routes a
    request whose key [ip + '-' + email] (the email as sent in the body)
    has 10 hits or more is answered 429 with the message of
    [authLimiter]; otherwise, on a path under /api, a request whose
    address has 200 hits or more is answered 429 with the message of
    [apiLimiter]; a request answered 429 leaves the database and the
    sessions as they were.  Every other request is answered by the chain
    below the limiters.  The counters of all other keys stay as they
    were. *)
Theorem limiters_decide_by_their_counters :
  forall (r : Request) (st : AppState),
    let auth_count := hits_of (req_now r) (auth_key r) (auth_hits st) in
    let api_count := hits_of (req_now r) (api_key r) (api_hits st) in
    let o := serve r (load_session (req_sid r) (sessions st)) (db st) in
    let st' := fst (app r st) in
    (on_auth_route r = true ->
     (10 <= auth_count)%N ->
     snd (app r st) = json_status 429 (message authLimiter)
     /\ db st' = db st /\ sessions st' = sessions st
     /\ api_hits st' = api_hits st)
    /\
    (on_auth_route r = false \/ (auth_count < 10)%N ->
     mounted_at ["api"] (req_path r) = true ->
     (200 <= api_count)%N ->
     snd (app r st) = json_status 429 (message apiLimiter)
     /\ db st' = db st /\ sessions st' = sessions st)
    /\
    (on_auth_route r = false \/ (auth_count < 10)%N ->
     mounted_at ["api"] (req_path r) = false \/ (api_count < 200)%N ->
     snd (app r st) = out_response o
     /\ db st' = out_db o
     /\ sessions st' = save_session (req_sid r) (out_session o) (sessions st))
    /\
    (forall now key,
        key <> auth_key r ->
        hits_of now key (auth_hits st') = hits_of now key (auth_hits st))
    /\
    (forall now ip,
        ip <> api_key r ->
        hits_of now ip (api_hits st') = hits_of now ip (api_hits st)).
Proof.
  intros r st auth_count api_count o st'. subst st'.
  set (inner := (api_hits st, (db st, sessions st))).
  pose proof (rateLimit_decides authLimiter (auth_key r) (req_now r)
                                (with_api_limiter r) (auth_hits st) inner)
    as [Ha1 [Ha2 Ha3]].
  pose proof (rateLimit_decides apiLimiter (api_key r) (req_now r)
                                (with_session r) (api_hits st)
                                (db st, sessions st))
    as [Hp1 [Hp2 Hp3]].
  fold auth_count in Ha1, Ha2. fold api_count in Hp1, Hp2.
  change (max authLimiter) with 10%N in Ha1, Ha2.
  change (max apiLimiter) with 200%N in Hp1, Hp2.
  assert (Hsession : with_session r (db st, sessions st)
                     = ((out_db o,
                         save_session (req_sid r) (out_session o) (sessions st)),
                        out_response o)) by reflexivity.
  assert (Hinner :
            (mounted_at ["api"] (req_path r) = true ->
             (200 <= api_count)%N ->
             snd (with_api_limiter r inner)
             = json_status 429 (message apiLimiter)
             /\ snd (fst (with_api_limiter r inner)) = (db st, sessions st))
            /\ (mounted_at ["api"] (req_path r) = false \/ (api_count < 200)%N ->
                snd (with_api_limiter r inner) = out_response o
                /\ snd (fst (with_api_limiter r inner))
                   = (out_db o,
                      save_session (req_sid r) (out_session o) (sessions st)))
            /\ (forall now ip,
                   ip <> api_key r ->
                   hits_of now ip (fst (fst (with_api_limiter r inner)))
                   = hits_of now ip (api_hits st))).
  { unfold with_api_limiter, inner.
    destruct (mounted_at ["api"] (req_path r)) eqn:Hapi.
    - destruct (rateLimit apiLimiter (api_key r) (req_now r) (with_session r)
                          (api_hits st) (db st, sessions st))
        as [[h' inner'] resp].
      cbn [fst snd] in *. split; [|split].
      + intros _ Hfull. destruct (Hp1 Hfull) as [-> ->]. auto.
      + intros [Hno|Hroom]; [discriminate Hno|].
        specialize (Hp2 Hroom). rewrite Hsession in Hp2.
        injection Hp2 as -> ->. auto.
      + intros now ip Hip. apply Hp3. apply String.eqb_neq. exact Hip.
    - rewrite Hsession. cbn [fst snd]. split; [|split]; auto.
      intros H. discriminate H. }
  destruct Hinner as [Hi1 [Hi2 Hi3]].
  unfold app. fold inner. unfold on_auth_route in *.
  destruct (mounted_at ["api"; "auth"; "login"] (req_path r)
            || mounted_at ["api"; "auth"; "register"] (req_path r)) eqn:Hauth.
  - destruct (rateLimit authLimiter (auth_key r) (req_now r)
                        (with_api_limiter r) (auth_hits st) inner)
      as [[ah inner'] resp] eqn:Hrl.
    cbn [fst snd] in Ha1, Ha2, Ha3.
    destruct inner' as [ph [d store]].
    cbn [fst snd db sessions auth_hits api_hits].
    split; [|split; [|split; [|split]]].
    + intros _ Hfull. destruct (Ha1 Hfull) as [Hst ->].
      unfold inner in Hst. injection Hst as -> -> ->. auto.
    + intros [Hno|Hroom] Hapi Hfull; [discriminate Hno|].
      specialize (Ha2 Hroom). destruct (Hi1 Hapi Hfull) as [Hresp Hstate].
      rewrite <- Ha2 in Hresp, Hstate. cbn [fst snd] in Hresp, Hstate.
      injection Hstate as -> ->. auto.
    + intros [Hno|Hroom] Hfree; [discriminate Hno|].
      specialize (Ha2 Hroom). destruct (Hi2 Hfree) as [Hresp Hstate].
      rewrite <- Ha2 in Hresp, Hstate. cbn [fst snd] in Hresp, Hstate.
      injection Hstate as -> ->. auto.
    + intros now key Hkey. apply Ha3. apply String.eqb_neq. exact Hkey.
    + intros now ip Hip.
      destruct (N.le_gt_cases 10 auth_count) as [Hfull|Hroom].
      * destruct (Ha1 Hfull) as [Hst _].
        unfold inner in Hst. injection Hst as -> _ _. reflexivity.
      * specialize (Ha2 Hroom).
        specialize (Hi3 now ip Hip). rewrite <- Ha2 in Hi3. exact Hi3.
  - destruct (with_api_limiter r inner) as [[ph [d store]] resp].
    cbn [fst snd db sessions auth_hits api_hits] in *.
    split; [intros H; discriminate H|].
    split; [|split; [|split]].
    + intros _ Hapi Hfull. destruct (Hi1 Hapi Hfull) as [-> Hstate].
      injection Hstate as -> ->. auto.
    + intros _ Hfree. destruct (Hi2 Hfree) as [-> Hstate].
      injection Hstate as -> ->. auto.
    + reflexivity.
    + exact Hi3.
Qed.

(** ** Names that are decoded twice *)

Lemma same_for_product_refl pid d : same_for_product pid d d.
Proof. split; reflexivity. Qed.

(** A name that [decodeURIComponent] does not leave as it is resolves,
    once decoded, to another product than the one it names, if to
    any. *)
Lemma decoded_name_misses d p name name' pid :
  well_formed d ->
  In p (products d) ->
  p_name p = SqlText name ->
  name' <> name ->
  dbGet_product_id_by_name d name' = Some pid ->
  (pid =? p_id p) = false.
Proof.
  intros Hwf Hin Hname Hne Hfound. unfold dbGet_product_id_by_name in Hfound.
  destruct (find (product_has_name name') (products d)) as [p2|] eqn:Hfind;
    [|discriminate Hfound].
  injection Hfound as <-. apply find_some in Hfind.
  destruct Hfind as [Hin2 Hname2]. apply Z.eqb_neq. intros Hid.
  destruct (wf_products d Hwf) as [Hnd _].
  pose proof (nodup_key_eq p_id _ p2 p Hnd Hin2 Hin Hid) as Heq. subst p2.
  unfold product_has_name in Hname2. rewrite Hname in Hname2.
  cbn [sqlval_eqb_text] in Hname2. apply String.eqb_eq in Hname2. congruence.
Qed.

Lemma toggle_favorite_other_product now key user d pid :
  well_formed d ->
  (forall name' pid',
      decodeURIComponent key = Some name' ->
      dbGet_product_id_by_name d name' = Some pid' -> (pid' =? pid) = false) ->
  same_for_product pid d (fst (toggle_favorite now key user d)).
Proof.
  intros Hwf Hmiss. unfold toggle_favorite.
  destruct (decodeURIComponent key) as [name'|]; [|apply same_for_product_refl].
  destruct (dbGet_product_id_by_name d name') as [pid'|] eqn:Hfound;
    [|apply same_for_product_refl].
  specialize (Hmiss name' pid' eq_refl Hfound).
  unfold dbGet_favorite_id.
  destruct (find (favorite_of (au_id user) pid') (favorites d)) as [f|] eqn:Hf;
    cbn [option_map dbRun execute].
  - cbn [fst]. split; [|reflexivity]. unfold favorites_of_product.
    cbn [favorites with_favorites]. apply filter_filter_kept.
    intros x Hx Hprod. destruct (f_id x =? f_id f) eqn:Hid; [|reflexivity].
    apply Z.eqb_eq in Hid. apply find_some in Hf. destruct Hf as [Hin Hfav].
    destruct (wf_favorites d Hwf) as [Hnd _].
    rewrite (nodup_key_eq f_id _ x f Hnd Hx Hin Hid) in Hprod.
    unfold favorite_of in Hfav. apply andb_prop in Hfav.
    destruct Hfav as [_ Hp]. apply Z.eqb_eq in Hp, Hprod.
    apply Z.eqb_neq in Hmiss. congruence.
  - destruct (foreign_keys d && negb (parents_exist d (au_id user) pid'));
      [apply same_for_product_refl|].
    destruct (existsb (favorite_of (au_id user) pid') (favorites d));
      [apply same_for_product_refl|].
    cbn [fst]. split; [|reflexivity]. unfold favorites_of_product.
    cbn [favorites with_favorites]. apply filter_app_rejected.
    cbn [f_product_id]. exact Hmiss.
Qed.

Lemma add_to_cart_other_product now key user d pid :
  well_formed d ->
  (forall name' pid',
      decodeURIComponent key = Some name' ->
      dbGet_product_id_by_name d name' = Some pid' -> (pid' =? pid) = false) ->
  same_for_product pid d (fst (add_to_cart now key user d)).
Proof.
  intros Hwf Hmiss. unfold add_to_cart.
  destruct (decodeURIComponent key) as [name'|]; [|apply same_for_product_refl].
  destruct (dbGet_product_id_by_name d name') as [pid'|] eqn:Hfound;
    [|apply same_for_product_refl].
  specialize (Hmiss name' pid' eq_refl Hfound).
  unfold dbGet_cart_item.
  destruct (find (cart_item_of (au_id user) pid') (cart_items d)) as [c|] eqn:Hc;
    cbn [option_map dbRun execute].
  - cbn [fst]. split; [reflexivity|]. unfold cart_items_of_product.
    cbn [cart_items with_cart_items]. apply filter_map_kept.
    intros x Hx. destruct (c_id x =? c_id c) eqn:Hid; [|left; reflexivity].
    right. apply Z.eqb_eq in Hid. apply find_some in Hc.
    destruct Hc as [Hin Hpair]. destruct (wf_cart_items d Hwf) as [Hnd _].
    rewrite (nodup_key_eq c_id _ x c Hnd Hx Hin Hid).
    unfold cart_item_of in Hpair. apply andb_prop in Hpair.
    destruct Hpair as [_ Hp]. apply Z.eqb_eq in Hp.
    cbn [increment_quantity c_product_id]. rewrite Hp, Hmiss.
    split; reflexivity.
  - destruct (foreign_keys d && negb (parents_exist d (au_id user) pid'));
      [apply same_for_product_refl|].
    destruct (existsb (cart_item_of (au_id user) pid') (cart_items d));
      [apply same_for_product_refl|].
    cbn [fst]. split; [reflexivity|]. unfold cart_items_of_product.
    cbn [cart_items with_cart_items]. apply filter_app_rejected.
    cbn [c_product_id]. exact Hmiss.
Qed.

Lemma remove_from_cart_other_product now key user d pid :
  (forall name' pid',
      decodeURIComponent key = Some name' ->
      dbGet_product_id_by_name d name' = Some pid' -> (pid' =? pid) = false) ->
  same_for_product pid d (fst (remove_from_cart now key user d)).
Proof.
  intros Hmiss. unfold remove_from_cart.
  destruct (decodeURIComponent key) as [name'|]; [|apply same_for_product_refl].
  destruct (dbGet_product_id_by_name d name') as [pid'|] eqn:Hfound;
    [|apply same_for_product_refl].
  specialize (Hmiss name' pid' eq_refl Hfound).
  cbn [dbRun execute fst]. split; [reflexivity|]. unfold cart_items_of_product.
  cbn [cart_items with_cart_items]. apply filter_filter_kept.
  intros x _ Hprod. unfold cart_item_of. apply Z.eqb_eq in Hprod.
  rewrite Hprod, (Z.eqb_sym pid pid'), Hmiss, andb_false_r. reflexivity.
Qed.

(** X26. The favorites and cart handlers decode the route parameter
    with [decodeURIComponent], although Express has decoded it already.
    For a product whose name [decodeURIComponent] does not leave as it
    is (a name with a percent sign), the parameter that Express makes of
    the URL of the client, the name itself, never reaches the product:
    where the second decoding throws, the three handlers answer 500
    with their error message and change nothing, and in every case the
    favorites and cart rows of that product are left as they were. *)
Theorem product_name_is_decoded_twice :
  forall (now : Z) (d : Database) (user : AuthUser) (p : Product)
         (name : string),
    well_formed d ->
    In p (products d) ->
    p_name p = SqlText name ->
    decodeURIComponent name <> Some name ->
    (favorites_of_product (p_id p) (fst (toggle_favorite now name user d))
     = favorites_of_product (p_id p) d
     /\ cart_items_of_product (p_id p) (fst (add_to_cart now name user d))
        = cart_items_of_product (p_id p) d
     /\ cart_items_of_product (p_id p) (fst (remove_from_cart now name user d))
        = cart_items_of_product (p_id p) d)
    /\ (decodeURIComponent name = None ->
        toggle_favorite now name user d
        = (d, json_status 500 (failure "Erreur gestion favoris"))
        /\ add_to_cart now name user d
           = (d, json_status 500 (failure "Erreur ajout panier"))
        /\ remove_from_cart now name user d
           = (d, json_status 500 (failure "Erreur suppression panier"))).
Proof.
  intros now d user p name Hwf Hin Hname Htwice.
  assert (Hmiss : forall name' pid',
             decodeURIComponent name = Some name' ->
             dbGet_product_id_by_name d name' = Some pid' ->
             (pid' =? p_id p) = false).
  { intros name' pid' Hdec Hfound.
    apply (decoded_name_misses d p name name' pid' Hwf Hin Hname); [|exact Hfound].
    intros ->. contradiction. }
  split.
  - split; [|split].
    + apply (toggle_favorite_other_product now name user d (p_id p) Hwf Hmiss).
    + apply (add_to_cart_other_product now name user d (p_id p) Hwf Hmiss).
    + apply (remove_from_cart_other_product now name user d (p_id p) Hmiss).
  - intros Hthrows. unfold toggle_favorite, add_to_cart, remove_from_cart.
    rewrite Hthrows. repeat split.
Qed.

(** ** The listings of the administrator *)

Lemma insert_desc_permutation {A : Type} (key : A -> Z) x l :
  Permutation (insert_desc key x l) (x :: l).
Proof.
  induction l as [|y l IH]; simpl; [apply Permutation_refl|].
  destruct (key y <=? key x); [apply Permutation_refl|].
  apply (perm_trans (l' := y :: x :: l));
    [apply perm_skip; exact IH | apply perm_swap].
Qed.

Lemma order_by_desc_permutation {A : Type} (key : A -> Z) l :
  Permutation (order_by_desc key l) l.
Proof.
  unfold order_by_desc. induction l as [|x l IH]; simpl; [apply perm_nil|].
  apply (perm_trans (insert_desc_permutation key x _)).
  apply perm_skip. exact IH.
Qed.

Lemma insert_desc_sorted {A : Type} (key : A -> Z) x l :
  StronglySorted (fun a b => key b <= key a) l ->
  StronglySorted (fun a b => key b <= key a) (insert_desc key x l).
Proof.
  induction l as [|y l IH]; simpl; intros Hs.
  - constructor; constructor.
  - inversion Hs as [|? ? Hs' Hall]; subst.
    destruct (key y <=? key x) eqn:E.
    + apply Z.leb_le in E. constructor; [exact Hs|].
      constructor; [lia|]. rewrite Forall_forall in *.
      intros z Hz. specialize (Hall z Hz). lia.
    + apply Z.leb_gt in E. constructor; [exact (IH Hs')|].
      rewrite Forall_forall in *. intros z Hz.
      apply in_insert_desc in Hz. destruct Hz as [->|Hz]; [lia | auto].
Qed.

Lemma order_by_desc_sorted {A : Type} (key : A -> Z) l :
  StronglySorted (fun a b => key b <= key a) (order_by_desc key l).
Proof.
  unfold order_by_desc. induction l as [|x l IH]; simpl; [constructor|].
  apply insert_desc_sorted. exact IH.
Qed.

(** X27. The two listings of the administrator are complete and
    sorted.  [getUsers] answers with the seven selected columns of
    every account, each account once, in the order of decreasing
    [created_at]; [getAllProducts] answers in the same way with every
    product.  The public listing of GET /api/products has the products
    in the order of the table. *)
Theorem listings_are_complete_and_sorted :
  forall d : Database,
    (exists accounts,
        getUsers d
        = JObj [("success", JBool true);
                ("users",
                 JArr (map (fun u => JObj (user_listing_fields u)) accounts))]
        /\ Permutation accounts (users d)
        /\ StronglySorted (fun a b => u_created_at b <= u_created_at a)
                          accounts)
    /\ (exists rows,
           getAllProducts d
           = JObj [("success", JBool true);
                   ("products",
                    JArr (map (fun p => JObj (product_fields p)) rows))]
           /\ Permutation rows (products d)
           /\ StronglySorted (fun a b => p_created_at b <= p_created_at a)
                             rows)
    /\ get_products d
       = json_ok
           (JObj [("success", JBool true);
                  ("products",
                   JArr (map (fun p => JObj (product_fields p))
                             (products d)))]).
Proof.
  intros d. split; [|split].
  - exists (order_by_desc u_created_at (users d)).
    split; [reflexivity|].
    split; [apply order_by_desc_permutation | apply order_by_desc_sorted].
  - exists (order_by_desc p_created_at (products d)).
    split; [reflexivity|].
    split; [apply order_by_desc_permutation | apply order_by_desc_sorted].
  - reflexivity.
Qed.

(** ** The sanitizer of the client *)

Lemma subsequence_refl s : Subsequence s s.
Proof.
  induction s as [|c s IH]; [apply subsequence_nil|].
  apply subsequence_keep. exact IH.
Qed.

Lemma subsequence_trans a b c :
  Subsequence a b -> Subsequence b c -> Subsequence a c.
Proof.
  intros Hab Hbc. revert a Hab.
  induction Hbc as [|x b c Hbc IH|x b c Hbc IH]; intros a Hab.
  - exact Hab.
  - apply subsequence_skip, IH. exact Hab.
  - inversion Hab as [|? ? ? Hab'|? ? ? Hab']; subst.
    + apply subsequence_skip, IH. exact Hab'.
    + apply subsequence_keep, IH. exact Hab'.
Qed.

Lemma subsequence_suffix pre s : Subsequence s (pre ++ s).
Proof.
  induction pre as [|c pre IH]; simpl; [apply subsequence_refl|].
  apply subsequence_skip. exact IH.
Qed.

Lemma subsequence_prefix s post : Subsequence s (s ++ post).
Proof.
  induction s as [|c s IH]; simpl.
  - induction post as [|c post IH]; [apply subsequence_nil|].
    apply subsequence_skip. exact IH.
  - apply subsequence_keep. exact IH.
Qed.

Lemma subsequence_length t s :
  Subsequence t s -> (List.length t <= List.length s)%nat.
Proof. induction 1; simpl; lia. Qed.

Lemma subsequence_forall (P : Z -> Prop) t s :
  Subsequence t s -> Forall P s -> Forall P t.
Proof.
  induction 1 as [|c t s H IH|c t s H IH]; intros Hs; [constructor|..];
    inversion Hs; subst; auto.
Qed.

Lemma remove_matches_subsequence matcher :
  cuts matcher ->
  forall fuel s, Subsequence (remove_matches fuel matcher s) s.
Proof.
  intros Hcuts. induction fuel as [|fuel IH]; intros s; simpl;
    [apply subsequence_refl|].
  destruct s as [|c s']; [apply subsequence_nil|].
  destruct (matcher (c :: s')) as [rest|] eqn:Hm.
  - destruct (Hcuts _ _ Hm) as [pre ->].
    exact (subsequence_trans _ _ _ (IH rest) (subsequence_suffix pre rest)).
  - apply subsequence_keep. apply IH.
Qed.

Lemma prefix_ci_cuts pattern : cuts (prefix_ci pattern).
Proof.
  induction pattern as [|p pattern IH]; intros s rest; simpl.
  - intros H. injection H as <-. exists []. reflexivity.
  - destruct s as [|c s]; [discriminate|].
    destruct (upper_unit c =? upper_unit p); [|discriminate].
    intros H. destruct (IH _ _ H) as [pre ->]. exists (c :: pre). reflexivity.
Qed.

Lemma skip_word_cuts s : exists pre, s = (pre ++ skip_word s)%list.
Proof.
  induction s as [|c s [pre IH]]; simpl; [exists []; reflexivity|].
  destruct (is_word c); [|exists []; reflexivity].
  exists (c :: pre). simpl. rewrite <- IH. reflexivity.
Qed.

Lemma match_handler_cuts : cuts match_handler.
Proof.
  intros s rest. unfold match_handler.
  destruct (prefix_ci (units_of "on") s) as [[|c after]|] eqn:Hon;
    try discriminate.
  destruct (is_word c); [|discriminate].
  destruct (skip_word after) as [|e rest'] eqn:Hrun; [discriminate|].
  destruct (e =? 61); [|discriminate].
  intros H. injection H as <-.
  destruct (prefix_ci_cuts _ _ _ Hon) as [pre ->].
  destruct (skip_word_cuts after) as [run Hafter]. rewrite Hrun in Hafter.
  exists (pre ++ c :: run ++ [e])%list. rewrite Hafter.
  rewrite <- !app_assoc. simpl. rewrite <- app_assoc. reflexivity.
Qed.

Lemma match_class_cuts class : cuts (match_class class).
Proof.
  intros [|c s] rest; simpl; [discriminate|].
  destruct (class c); [|discriminate].
  intros H. injection H as <-. exists [c]. reflexivity.
Qed.

Lemma replace_all_subsequence matcher s :
  cuts matcher -> Subsequence (replace_all matcher s) s.
Proof. intros H. apply remove_matches_subsequence. exact H. Qed.

(** Removing a character class leaves none of its characters. *)
Lemma remove_class class :
  forall fuel s,
    (List.length s <= fuel)%nat ->
    remove_matches fuel (match_class class) s
    = filter (fun c => negb (class c)) s.
Proof.
  induction fuel as [|fuel IH]; intros [|c s] Hlen; simpl in *;
    try reflexivity; try lia.
  destruct (class c); simpl; rewrite IH by lia; reflexivity.
Qed.

Lemma replace_all_class class s :
  Forall (fun c => class c = false) (replace_all (match_class class) s).
Proof.
  unfold replace_all. rewrite remove_class by lia.
  apply Forall_forall. intros c Hc. apply filter_In in Hc.
  destruct Hc as [_ Hc]. destruct (class c); [discriminate | reflexivity].
Qed.

Lemma trim_start_cuts s : exists pre, s = (pre ++ trim_start s)%list.
Proof.
  induction s as [|c s [pre IH]]; simpl; [exists []; reflexivity|].
  destruct (is_white_space c); [|exists []; reflexivity].
  exists (c :: pre). simpl. rewrite <- IH. reflexivity.
Qed.

Lemma trim_subsequence s : Subsequence (trim s) s.
Proof.
  unfold trim.
  destruct (trim_start_cuts s) as [pre Hs].
  destruct (trim_start_cuts (rev (trim_start s))) as [post Hr].
  apply (subsequence_trans _ (trim_start s)).
  - rewrite <- (rev_involutive (trim_start s)) at 2. rewrite Hr at 2.
    rewrite rev_app_distr. apply subsequence_prefix.
  - rewrite Hs at 2. apply subsequence_suffix.
Qed.

(** X28. [sanitizeInput] only removes: its result is the input with
    some code units left out, so it is never longer than the input.  No
    [<], no [>] and no control character (U+0000 to U+001F, U+007F to
    U+009F) is left in the result.  It is applied once and is no fixed
    point: removing one match can bring the two sides of it together to
    a new one, so that the result can still hold [javascript:], which a
    second application would remove. *)
Theorem sanitizeInput_only_removes :
  (forall input : list Z,
      Subsequence (sanitizeInput input) input
      /\ (List.length (sanitizeInput input) <= List.length input)%nat
      /\ Forall (fun c => is_angle c = false /\ is_control c = false)
                (sanitizeInput input))
  /\ (exists input,
         occurs_ci (units_of "javascript:") (sanitizeInput input) = true
         /\ occurs_ci (units_of "javascript:")
                      (sanitizeInput (sanitizeInput input)) = false).
Proof.
  split.
  - intros input.
    set (s1 := replace_all (match_class is_angle) input).
    set (s2 := replace_all (prefix_ci (units_of "javascript:")) s1).
    set (s3 := replace_all match_handler s2).
    set (s4 := replace_all (prefix_ci (units_of "data:")) s3).
    set (s5 := replace_all (prefix_ci (units_of "vbscript:")) s4).
    set (s6 := replace_all (match_class is_control) s5).
    assert (H1 : Subsequence s1 input)
      by (apply replace_all_subsequence, match_class_cuts).
    assert (H2 : Subsequence s2 s1)
      by (apply replace_all_subsequence, prefix_ci_cuts).
    assert (H3 : Subsequence s3 s2)
      by (apply replace_all_subsequence, match_handler_cuts).
    assert (H4 : Subsequence s4 s3)
      by (apply replace_all_subsequence, prefix_ci_cuts).
    assert (H5 : Subsequence s5 s4)
      by (apply replace_all_subsequence, prefix_ci_cuts).
    assert (H6 : Subsequence s6 s5)
      by (apply replace_all_subsequence, match_class_cuts).
    assert (H7 : Subsequence (sanitizeInput input) s6)
      by (apply trim_subsequence).
    assert (Hs1 : Subsequence s6 s1).
    { apply (subsequence_trans _ _ _ H6). apply (subsequence_trans _ _ _ H5).
      apply (subsequence_trans _ _ _ H4). apply (subsequence_trans _ _ _ H3).
      exact H2. }
    assert (Hall : Subsequence (sanitizeInput input) input).
    { apply (subsequence_trans _ _ _ H7). apply (subsequence_trans _ _ _ Hs1).
      exact H1. }
    split; [exact Hall|]. split; [exact (subsequence_length _ _ Hall)|].
    pose proof (subsequence_forall _ _ _
                  (subsequence_trans _ _ _ H7 Hs1)
                  (replace_all_class is_angle input)) as Hangle.
    pose proof (subsequence_forall _ _ _ H7 (replace_all_class is_control s5))
      as Hcontrol.
    rewrite Forall_forall in *. intros c Hc. split; auto.
  - exists (units_of "javajavascript:script:alert(1)").
    split; vm_compute; reflexivity.
Qed.

(** ** Which requests leave a session behind *)

Lemma serve_outcomes_guarded (Q : Session -> Prop) (P : Outcome -> Prop) r s d :
  Q (fst (if mounted_at ["api"] (req_path r) then csrf_guard r s else (s, true))) ->
  (match_path [Lit "api"; Lit "csrf-token"] (req_path r) <> None ->
   P (get_csrf_token r s d)) ->
  (forall s1,
      Q s1 ->
      Forall (fun route =>
                forall ps,
                  verb_matches (route_verb route) (req_method r) = true ->
                  match_path (route_pattern route) (req_path r) = Some ps ->
                  P (route_handler route ps r s1 d)) routes
      /\ forall resp,
          (resp = csrf_error_response \/ resp = spa_route r
           \/ exists name, resp = mkResponse 200 (FileBody name)) ->
          P (mkOutcome d s1 resp)) ->
  P (serve r s d).
Proof.
  intros Hguard Htoken Hrest. unfold serve.
  destruct (match_path [Lit "api"; Lit "csrf-token"] (req_path r)) as [ps|];
    [destruct (verb_matches "GET" (req_method r)); cbn [andb];
     [apply Htoken; discriminate|]
    |rewrite andb_false_r].
  all: destruct (if mounted_at ["api"] (req_path r) then csrf_guard r s else (s, true))
    as [s1 passed].
  all: cbn [fst] in Hguard; destruct (Hrest s1 Hguard) as [Hroutes Hown].
  all: destruct passed; [|apply Hown; auto].
  all: destruct (static_file r) as [name|]; [apply Hown; eauto|].
  all: destruct (dispatch routes r s1 d) as [o|] eqn:Hd; [|apply Hown; auto].
  all: exact (dispatch_matched P routes r s1 d o Hroutes Hd).
Qed.

Lemma logout_route_matched r ps :
  verb_matches "POST" (req_method r) = true ->
  match_path [Lit "api"; Lit "auth"; Lit "logout"] (req_path r) = Some ps ->
  is_logout r = true.
Proof. intros Hv Hm. unfold is_logout. rewrite Hv, Hm. reflexivity. Qed.

(** The session that an unsafe request under /api leaves: csurf has put
    its secret in. *)
Lemma unsafe_request_session r s d :
  mounted_at ["api"] (req_path r) = true ->
  ignored_method (req_method r) = false ->
  csrfSecret (out_session (serve r s d)) = Some (session_secret r s)
  \/ (is_logout r = true /\ out_session (serve r s d) = empty_session).
Proof.
  intros Hapi Hunsafe.
  apply (serve_outcomes_guarded
           (fun s1 => csrfSecret s1 = Some (session_secret r s))
           (fun o => csrfSecret (out_session o) = Some (session_secret r s)
                     \/ (is_logout r = true /\ out_session o = empty_session))).
  - rewrite Hapi. unfold csrf_guard. rewrite Hunsafe. reflexivity.
  - intros _. left. unfold get_csrf_token, csrfProtection.
    destruct (ignored_method (req_method r) || _); reflexivity.
  - intros s1 Hs1. split; [|intros; left; exact Hs1].
    routes_by ltac:(
      first
        [ left; rewrite register_session; exact Hs1
        | left; rewrite login_session; exact Hs1
        | left; unfold verify, get_favorites, get_cart, admin_only;
          rewrite authenticated_session; exact Hs1
        | left; exact Hs1
        | right; split; [|reflexivity];
          eapply logout_route_matched; eassumption ]).
Qed.

(** The session that a safe request under /api leaves, the token route
    aside: the one it found. *)
Lemma safe_request_session r s d :
  ignored_method (req_method r) = true ->
  match_path [Lit "api"; Lit "csrf-token"] (req_path r) = None ->
  out_session (serve r s d) = s.
Proof.
  intros Hsafe Htoken.
  assert (Hpost : forall v, ignored_method v = true -> verb_matches "POST" v = false).
  { intros v. unfold ignored_method, verb_matches.
    intros H. apply orb_prop in H.
    destruct H as [H|H]; [apply orb_prop in H; destruct H as [H|H]|];
      apply String.eqb_eq in H; subst v; reflexivity. }
  apply (serve_outcomes_guarded
           (fun s1 => s1 = s) (fun o => out_session o = s)).
  - unfold csrf_guard. rewrite Hsafe.
    destruct (mounted_at ["api"] (req_path r)); reflexivity.
  - intros Hmatched. contradiction.
  - intros s1 ->. split; [|reflexivity].
    routes_by ltac:(
      first
        [ reflexivity
        | unfold verify, get_favorites, get_cart, admin_only;
          apply authenticated_session
        | exfalso;
          match goal with
          | Hv : verb_matches _ _ = true |- _ =>
              cbn [route_verb] in Hv;
              first [ rewrite (Hpost _ Hsafe) in Hv; discriminate Hv
                    | revert Hv; generalize Hsafe;
                      unfold ignored_method, verb_matches;
                      generalize (req_method r); intros v Hs Hv;
                      apply orb_prop in Hs;
                      destruct Hs as [Hs|Hs];
                      [apply orb_prop in Hs; destruct Hs as [Hs|Hs]|];
                      apply String.eqb_eq in Hs; subst v; discriminate Hv ]
          end ]).
Qed.

Lemma assoc_saved_session sid s store :
  assoc sid (save_session sid s store)
  = match userId s, csrfSecret s with
    | None, None => None
    | _, _ => Some s
    end.
Proof.
  unfold save_session.
  assert (Hgone : assoc sid (filter (fun e => negb (String.eqb (fst e) sid))
                                    store) = None).
  { induction store as [|[x v] store IH]; simpl; [reflexivity|].
    destruct (String.eqb x sid) eqn:Hx; simpl; [exact IH|].
    rewrite String.eqb_sym, Hx. exact IH. }
  destruct (userId s), (csrfSecret s); cbn [assoc];
    rewrite ?String.eqb_refl, ?Hgone; reflexivity.
Qed.

(** X29. Which requests leave a session in the store, for a client whose
    cookie names no stored session and whose request the limiters let
    through.  A request under /api with a method other than GET, HEAD and
    OPTIONS leaves one, with the CSRF secret made for it, also when it is
    refused (403 for the missing token); only the logout, which needs a
    token that verifies, leaves none.  A request with one of the three
    methods leaves none, the token route apart. *)
Theorem sessions_come_from_unsafe_requests :
  forall (r : Request) (st : AppState),
    let st' := fst (app r st) in
    assoc (req_sid r) (sessions st) = None ->
    status (snd (app r st)) <> 429 ->
    (mounted_at ["api"] (req_path r) = true ->
     ignored_method (req_method r) = false ->
     (exists s, assoc (req_sid r) (sessions st') = Some s
                /\ csrfSecret s = Some (req_secret r))
     \/ (is_logout r = true /\ assoc (req_sid r) (sessions st') = None))
    /\ (ignored_method (req_method r) = true ->
        match_path [Lit "api"; Lit "csrf-token"] (req_path r) = None ->
        assoc (req_sid r) (sessions st') = None).
Proof.
  intros r st st' Hnew Hserved. subst st'.
  pose proof (app_limited_or_served r st) as H. cbv zeta in H.
  destruct H as [[H429 _]|[_ [_ Hsessions]]]; [contradiction|].
  rewrite Hsessions, assoc_saved_session.
  assert (Hload : load_session (req_sid r) (sessions st) = empty_session)
    by (unfold load_session; rewrite Hnew; reflexivity).
  rewrite Hload. split.
  - intros Hapi Hunsafe.
    destruct (unsafe_request_session r empty_session (db st) Hapi Hunsafe)
      as [Hsecret|[Hlogout Hempty]].
    + left. exists (out_session (serve r empty_session (db st))).
      rewrite Hsecret. split; [|reflexivity].
      destruct (userId _); reflexivity.
    + right. rewrite Hempty. split; [exact Hlogout | reflexivity].
  - intros Hsafe Htoken.
    rewrite (safe_request_session r empty_session (db st) Hsafe Htoken).
    reflexivity.
Qed.

End Properties.

(* ================================================================== *)
(** * Runs of the server on the sample instance *)
(* ================================================================== *)

Lemma started_is_reachable : reachable started.
Proof. exists 1000, "seed", []. reflexivity. Qed.

Lemma started_well_formed : well_formed (db started).
Proof. exact (proj1 (reachable_invariant started started_is_reachable)). Qed.

Lemma root_is_authenticated :
  authenticateToken (db started) root_session = inr root_user.
Proof. reflexivity. Qed.

Lemma air_max_decodes : decodeURIComponent "Air Max 90" = Some "Air Max 90".
Proof. reflexivity. Qed.

Lemma air_max_is_product_3 :
  dbGet_product_id_by_name (db started) "Air Max 90" = Some 3.
Proof. reflexivity. Qed.

(** The default administrator toggles "Air Max 90" twice on the freshly
    seeded database: added, then removed, and the table is empty
    again. *)
Lemma favorites_toggle_twice_on_seed :
  let o := post_favorite "Air Max 90" 2000 root_session (db started) in
  let o' := post_favorite "Air Max 90" 2001 (out_session o) (out_db o) in
  out_response o
  = json_ok (JObj [("success", JBool true);
                   ("message", JStr "Produit ajouté aux favoris");
                   ("isFavorite", JBool true)])
  /\ out_response o'
     = json_ok (JObj [("success", JBool true);
                      ("message", JStr "Produit retiré des favoris");
                      ("isFavorite", JBool false)])
  /\ favorites (out_db o') = [].
Proof.
  cbv zeta.
  pose proof (favorites_toggle (L := sample_libs) root_session (db started)
                root_user "Air Max 90" "Air Max 90" 2000
                started_well_formed root_is_authenticated air_max_decodes)
    as H.
  cbv zeta in H. destruct H as [_ Hfound].
  destruct (Hfound 3 air_max_is_product_3) as [_ Habsent].
  assert (Hnone : existsb (favorite_of (au_id root_user) 3)
                          (favorites (db started)) = false) by reflexivity.
  destruct (Habsent Hnone) as [Hfirst [_ [_ Hsecond]]].
  destruct (Hsecond 2001) as [Hresponse [Htable _]].
  split; [exact Hfirst|]. split; [exact Hresponse | exact Htable].
Defined.

(** Three adds of "Air Max 90" by the default administrator leave one
    row of quantity 3; the remove empties the cart. *)
Lemma cart_three_adds_on_seed :
  let run := serve_times (post_cart "Air Max 90") [2000; 2001; 2002]
                         root_session (db started) in
  let o := delete_cart "Air Max 90" 2003 (fst (fst run)) (snd (fst run)) in
  cart_items (snd (fst run)) = [mkCartItem 1 1 3 3 2000]
  /\ cart_items (out_db o) = [].
Proof.
  cbv zeta.
  pose proof (cart_add_n_then_remove (L := sample_libs) root_session
                (db started) root_user "Air Max 90" "Air Max 90" 2000
                [2001; 2002]
                started_well_formed root_is_authenticated air_max_decodes)
    as H.
  cbv zeta in H. destruct H as [_ Hfound].
  assert (Hnone : existsb (cart_item_of (au_id root_user) 3)
                          (cart_items (db started)) = false) by reflexivity.
  destruct (Hfound 3 air_max_is_product_3 Hnone) as [_ [Hrows [_ Hremove]]].
  destruct (Hremove 2003) as [_ [Hempty _]].
  split; [exact Hrows | exact Hempty].
Defined.

(** Removing a product that is not in the cart succeeds and changes
    nothing. *)
Lemma cart_remove_absent_on_seed :
  delete_cart "Air Max 90" 2000 root_session (db started)
  = mkOutcome (db started) root_session
              (json_ok (success "Produit retiré du panier")).
Proof.
  pose proof (cart_remove_absent_succeeds (L := sample_libs) root_session
                (db started) root_user "Air Max 90" "Air Max 90" 2000
                root_is_authenticated air_max_decodes) as H.
  cbv zeta in H. destruct H as [_ Hfound].
  destruct (Hfound 3 air_max_is_product_3) as [_ [_ [_ Hsame]]].
  apply Hsame. reflexivity.
Defined.

(** A wrong password for the administrator and a login for an unknown
    address get the same answer. *)
Lemma login_failures_on_seed :
  let wrong := login_attempt (JObj [("email", JStr "admin@sneakzone.com");
                                    ("password", JStr "guess")]) 2000 in
  let unknown := login_attempt (JObj [("email", JStr "nobody@example.com");
                                      ("password", JStr "guess")]) 2000 in
  out_response (login wrong empty_session (db started))
  = out_response (login unknown empty_session (db started))
  /\ status (out_response (login wrong empty_session (db started))) = 401.
Proof.
  cbv zeta.
  pose proof (login_failures_indistinguishable (L := sample_libs)
                (login_attempt (JObj [("email", JStr "admin@sneakzone.com");
                                      ("password", JStr "guess")]) 2000)
                (login_attempt (JObj [("email", JStr "nobody@example.com");
                                      ("password", JStr "guess")]) 2000)
                empty_session empty_session (db started) (db started)
                (mkUser 1 "admin@sneakzone.com"
                        "$2a$12$seed$#Adm1nSneakZone97!"
                        (SqlText "Admin") (SqlText "SneakZone") "admin" 1 1000))
    as H.
  cbv zeta in H.
  destruct H as [_ [_ [Hsame Hstatus]]];
    [reflexivity | reflexivity | reflexivity | discriminate | reflexivity
    | reflexivity |].
  split; [exact Hsame | exact Hstatus].
Defined.

(** An update of the administrator's row with a role, a flag and a
    field outside the whitelist. *)
Lemma updateUser_on_seed :
  let b := JObj [("role", JStr "user"); ("is_active", JBool false);
                 ("email", JStr "other@example.com")] in
  map (fun u => (u_email u, u_role u, u_is_active u))
      (users (fst (updateUser 2000 "1" b (db started))))
  = [("admin@sneakzone.com", "user", 0)].
Proof.
  cbv zeta.
  pose proof (updateUser_whitelist 2000 "1"
                (JObj [("role", JStr "user"); ("is_active", JBool false);
                       ("email", JStr "other@example.com")])
                (db started) (wf_roles _ started_well_formed)) as H.
  cbv zeta in H. destruct H as [_ [Hchange _]].
  rewrite Hchange.
  - vm_compute. reflexivity.
  - left. vm_compute. discriminate.
Defined.

(** A logout without token is refused; with the token issued for the
    session it passes the guard. *)
Lemma csrf_guard_on_seed :
  let logout_request token :=
    sample_request "POST" ["api"; "auth"; "logout"] (JObj []) "root" token 2001 in
  let issued := serve (token_request "root" 2000) root_session (db started) in
  out_response (serve (logout_request None) root_session (db started))
  = csrf_error_response
  /\ csrf_guard (logout_request root_token) (out_session issued)
     = (out_session issued, true).
Proof.
  cbv zeta.
  pose proof (csrf_guard_on_unsafe_methods (L := sample_libs)
                (sample_request "POST" ["api"; "auth"; "logout"] (JObj [])
                                "root" None 2001)
                root_session (db started)) as Hwithout.
  pose proof (csrf_guard_on_unsafe_methods (L := sample_libs)
                (sample_request "POST" ["api"; "auth"; "logout"] (JObj [])
                                "root" root_token 2001)
                root_session (db started)) as Hwith.
  destruct Hwithout as [_ [Hrefused _]]; [reflexivity|].
  destruct Hwith as [_ [_ Hpasses]]; [reflexivity|].
  destruct Hrefused as [Hresponse _]; [reflexivity | reflexivity |].
  split; [exact Hresponse|].
  assert (Hunsafe : ignored_method "POST" = false) by reflexivity.
  specialize (Hpasses Hunsafe (token_request "root" 2000) (db started)).
  cbv zeta in Hpasses.
  destruct Hpasses as [_ Hguard];
    [reflexivity | reflexivity | vm_compute; discriminate
    | vm_compute; discriminate | reflexivity |].
  apply Hguard. reflexivity.
Defined.

(** Two servers seeded with different salts store different hashes.  On
    both the default administrator is logged in.  The listing of the
    users is answered 200 on both, with the same body: the seven
    columns of the administrator's row.  GET /api/auth/verify is
    answered as on the database with the hash erased: the six columns
    of the row. *)
Lemma user_listing_on_two_seeds :
  let listing := sample_request "GET" ["api"; "admin"; "users"] (JObj []) "root"
                                None 2000 in
  let s := load_session "root" (sessions root_logged_in) in
  map u_password (users (db root_logged_in))
  <> map u_password (users (db root_logged_in_elsewhere))
  /\ snd (app listing root_logged_in) = snd (app listing root_logged_in_elsewhere)
  /\ snd (app listing root_logged_in)
     = json_ok (JObj [("success", JBool true);
                      ("users", JArr [JObj (user_listing_fields root_row)])])
  /\ out_response (verify s (without_passwords (db root_logged_in)))
     = json_ok (JObj [("success", JBool true);
                      ("user", json_of_auth_user root_user)]).
Proof.
  cbv zeta.
  pose proof (responses_without_password_hash (L := sample_libs))
    as [Hsame [_ [_ Hverify]]].
  split; [vm_compute; discriminate|].
  split.
  - apply Hsame; vm_compute; reflexivity.
  - split; [vm_compute; reflexivity|].
    rewrite <- (proj1 (Hverify (load_session "root" (sessions root_logged_in))
                               (db root_logged_in))).
    vm_compute. reflexivity.
Defined.

(** The default administrator targets id 1 with the numeral "1". *)
Lemma admin_own_id_on_seed :
  decimal 1 = "1"
  /\ admin_only (delete_admin_user 2000 "1") root_session (db started)
     = mkOutcome (db started) root_session
         (json_status 400
            (failure "Impossible de supprimer son propre compte")).
Proof.
  split; [reflexivity|].
  assert (Hrole : au_role root_user = "admin") by reflexivity.
  assert (Hown : (0 <= au_id root_user /\ "1" = decimal (au_id root_user))
                 \/ parseInt "1" = Some (au_id root_user))
    by (left; split; [vm_compute; discriminate | reflexivity]).
  exact (proj2 (admin_own_id_is_rejected 2000 "1" (JObj [])
                  root_session (db started) root_user
                  root_is_authenticated Hrole Hown)).
Defined.

(** A login for the administrator's address with the number 12345678 as
    password. *)
Lemma login_with_a_number_on_seed :
  let attempt := login_attempt (JObj [("email", JStr "admin@sneakzone.com");
                                      ("password", JInt 12345678)]) 2000 in
  out_response (login attempt empty_session (db started))
  = json_status 500 (failure "Erreur connexion").
Proof.
  cbv zeta.
  pose proof (login_password_not_a_string (L := sample_libs)
                (login_attempt (JObj [("email", JStr "admin@sneakzone.com");
                                      ("password", JInt 12345678)]) 2000)
                empty_session (db started)
                (mkUser 1 "admin@sneakzone.com"
                        "$2a$12$seed$#Adm1nSneakZone97!"
                        (SqlText "Admin") (SqlText "SneakZone") "admin" 1 1000))
    as H.
  cbv zeta in H. rewrite H; [reflexivity | reflexivity | reflexivity
                            | discriminate | intros p; vm_compute; discriminate].
Defined.

(** The state after Jane's account was deleted satisfies the
    invariant. *)
Lemma invariant_after_jane :
  let d := db (run started jane_is_deleted) in
  well_formed d /\ Forall (fun c => 1 <= c_quantity c) (cart_items d)
  /\ foreign_keys d = false.
Proof.
  cbv zeta.
  apply (reachable_states_keep_invariant (L := sample_libs)).
  exists 1000, "seed", jane_is_deleted.
  cbv [run started fold_left]. reflexivity.
Defined.



(** C6 (what the code does at the failing input).  After Jane's account
    was deleted by the administrator, the row of [favorites] and the row
    of [cart_items] that name her are still there; the state is
    reachable. *)
Theorem deleted_user_leaves_rows_behind :
  let st := run started jane_is_deleted in
  reachable st
  /\ map u_id (users (db st)) = [1]
  /\ map (fun f => (f_user_id f, f_product_id f)) (favorites (db st)) = [(2, 3)]
  /\ map (fun c => (c_user_id c, c_product_id c, c_quantity c))
         (cart_items (db st)) = [(2, 3, 1)]
  /\ existsb (dangling_favorite (db st)) (favorites (db st)) = true
  /\ existsb (dangling_cart_item (db st)) (cart_items (db st)) = true.
Proof.
  cbv zeta. split.
  - exists 1000, "seed", jane_is_deleted.
    cbv [run started fold_left]. reflexivity.
  - repeat split; vm_compute; reflexivity.
Qed.

(** A cart request without a login changes nothing and is answered
    401. *)
Lemma cart_without_login_on_seed :
  let r := sample_request "GET" ["api"; "users"; "cart"] (JObj []) "nobody"
                          None 2000 in
  let o := serve r empty_session (db started) in
  out_db o = db started
  /\ out_response o = json_status 401 (failure "Non authentifié").
Proof.
  cbv zeta.
  pose proof (protected_routes_need_an_active_user (L := sample_libs)
                (sample_request "GET" ["api"; "users"; "cart"] (JObj [])
                                "nobody" None 2000)
                empty_session (db started)
                (json_status 401 (failure "Non authentifié"))) as H.
  cbv zeta in H.
  destruct H as [Hdb [_ [_ Hresp]]]; [reflexivity | reflexivity |].
  split; [exact Hdb|].
  destruct Hresp as [H|[H|H]]; [exact H | |]; vm_compute in H; discriminate H.
Defined.

Lemma jane_is_authenticated :
  authenticateToken (db jane_registered) jane_session = inr jane_user.
Proof. vm_compute. reflexivity. Qed.

(** Jane, a regular user, asks for the list of accounts. *)
Lemma user_listing_refused_to_jane :
  let r := sample_request "GET" ["api"; "admin"; "users"] (JObj []) "jane"
                          None 2000 in
  let o := serve r jane_session (db jane_registered) in
  out_db o = db jane_registered
  /\ out_response o
     = json_status 403 (failure "Accès administrateur requis").
Proof.
  cbv zeta.
  pose proof (admin_routes_need_the_admin_role (L := sample_libs)
                (sample_request "GET" ["api"; "admin"; "users"] (JObj [])
                                "jane" None 2000)
                jane_session (db jane_registered) jane_user) as H.
  cbv zeta in H.
  destruct H as [Hdb [_ Hresp]];
    [reflexivity | exact jane_is_authenticated | discriminate |].
  split; [exact Hdb|].
  destruct Hresp as [H|[H|H]]; [exact H | |]; vm_compute in H; discriminate H.
Defined.

(** Jane tries to make herself administrator; the table of users stays
    as it is. *)
Lemma jane_cannot_promote_herself :
  let r := sample_request "PUT" ["api"; "admin"; "users"; "2"]
                          (JObj [("role", JStr "admin")]) "jane" jane_token
                          2000 in
  users (out_db (serve r jane_session (db jane_registered)))
  = [root_row; jane_row].
Proof.
  cbv zeta.
  pose proof (only_administrators_change_accounts (L := sample_libs)
                (sample_request "PUT" ["api"; "admin"; "users"; "2"]
                                (JObj [("role", JStr "admin")]) "jane"
                                jane_token 2000)
                jane_session (db jane_registered)) as H.
  cbv zeta in H.
  destruct H as [_ [Hsame|[row [Hrow _]]]].
  - intros user Hauth. rewrite jane_is_authenticated in Hauth.
    injection Hauth as <-. discriminate.
  - rewrite Hsame. vm_compute. reflexivity.
  - exfalso. vm_compute in Hrow. discriminate Hrow.
Defined.
Lemma jane_registered_is_reachable : reachable jane_registered.
Proof.
  exists 1000, "seed",
    [Serve (token_request "jane" 1001);
     Serve (sample_request "POST" ["api"; "auth"; "register"] jane "jane"
                           jane_token 1002)].
  cbv [run jane_registered started fold_left]. reflexivity.
Qed.

Lemma jane_registered_well_formed : well_formed (db jane_registered).
Proof.
  exact (proj1 (reachable_invariant jane_registered
                  jane_registered_is_reachable)).
Qed.

(** Jane registers on the freshly seeded database and asks who she
    is. *)
Lemma jane_registers_on_seed :
  let r := sample_request "POST" ["api"; "auth"; "register"] jane "jane"
                          jane_token 1002 in
  let o := register r empty_session (db started) in
  users (out_db o) = [root_row; jane_row]
  /\ userId (out_session o) = Some 2
  /\ out_response (verify (out_session o) (out_db o))
     = json_ok
         (JObj [("success", JBool true);
                ("user",
                 JObj [("id", JInt 2);
                       ("email", JStr "u1@example.com");
                       ("first_name", JStr "Jane");
                       ("last_name", JStr "Doe");
                       ("role", JStr "user");
                       ("is_active", JInt 1)])]).
Proof.
  cbv zeta.
  pose proof (register_then_verify (L := sample_libs)
                (sample_request "POST" ["api"; "auth"; "register"] jane "jane"
                                jane_token 1002)
                empty_session (db started) "password1" "Jane" "Doe") as H.
  cbv zeta in H.
  destruct H as [Husers [Hsession [_ [Hverify _]]]];
    [exact started_well_formed | vm_compute; discriminate | reflexivity
    | reflexivity | reflexivity | reflexivity | reflexivity |].
  split; [rewrite Husers; vm_compute; reflexivity|].
  split; [rewrite Hsession; reflexivity|].
  rewrite Hverify. reflexivity.
Defined.

(** After her registration Jane logs in with her password, and not with
    another one. *)
Lemma jane_logs_in_after_registering :
  let r := sample_request "POST" ["api"; "auth"; "register"] jane "jane"
                          jane_token 1002 in
  let d' := out_db (register r empty_session (db started)) in
  let attempt password :=
    sample_request "POST" ["api"; "auth"; "login"]
                   (JObj [("email", JStr "u1@example.com");
                          ("password", JStr password)])
                   "jane" jane_token 1003 in
  status (out_response (login (attempt "password1") empty_session d')) = 200
  /\ status (out_response (login (attempt "password2") empty_session d')) = 401.
Proof.
  cbv zeta.
  pose proof (register_then_login (L := sample_libs)
                (sample_request "POST" ["api"; "auth"; "register"] jane "jane"
                                jane_token 1002)
                empty_session (db started) "password1" "Jane" "Doe") as H.
  cbv zeta in H.
  destruct H as [Hright Hwrong];
    [exact started_well_formed | reflexivity | reflexivity | reflexivity
    | reflexivity | reflexivity |].
  split.
  - rewrite Hright; reflexivity.
  - rewrite (Hwrong _ _ "password2"); reflexivity.
Defined.

(** The administrator deactivates Jane's account, or deletes it: her
    session is refused. *)
Lemma jane_is_locked_out :
  let off := JObj [("is_active", JBool false)] in
  authenticateToken (fst (updateUser 2000 "2" off (db jane_registered)))
                    jane_session
  = inl (json_status 401 (failure "Utilisateur non trouvé ou désactivé"))
  /\ authenticateToken (fst (deleteUser 2000 "2" (db jane_registered)))
                       jane_session
     = inl (json_status 401 (failure "Utilisateur non trouvé ou désactivé")).
Proof.
  cbv zeta.
  pose proof (locked_out_after_deactivation_or_deletion (L := sample_libs)
                2000 (db jane_registered) jane_row
                (JObj [("is_active", JBool false)]) jane_session) as H.
  cbv zeta in H.
  destruct H as [[Hoff _] [Hgone _]];
    [exact jane_registered_well_formed | reflexivity
    | vm_compute; auto | reflexivity | reflexivity | reflexivity |].
  split; [exact Hoff | exact Hgone].
Defined.

(** The statistics after Jane's registration: one administrator, one
    regular user. *)
Lemma stats_after_jane :
  getStats (db jane_registered)
  = JObj [("success", JBool true);
          ("stats",
           JObj [("totalUsers", JInt 2);
                 ("totalAdmins", JInt 1);
                 ("activeUsers", JInt 2);
                 ("totalProducts", JInt 3);
                 ("totalRegularUsers", JInt 1)])].
Proof.
  pose proof (getStats_counts (db jane_registered)
                (wf_roles _ jane_registered_well_formed)) as H.
  cbv zeta in H. destruct H as [H _]. rewrite H. vm_compute. reflexivity.
Defined.

Lemma root_is_authenticated_after_jane :
  authenticateToken (db jane_registered) root_session = inr root_user.
Proof. vm_compute. reflexivity. Qed.

(** The administrator makes Jane an administrator: two administrators
    in the statistics. *)
Lemma jane_is_promoted :
  let o := admin_only (put_admin_user 2000 "2" (JObj [("role", JStr "admin")]))
                      root_session (db jane_registered) in
  dbGet_count_admins (db jane_registered) = 1
  /\ out_response
       (admin_only (fun _ d0 => (d0, json_ok (getStats d0)))
                   (out_session o) (out_db o))
     = json_ok
         (JObj [("success", JBool true);
                ("stats",
                 JObj [("totalUsers", JInt 2);
                       ("totalAdmins", JInt 2);
                       ("activeUsers", JInt 2);
                       ("totalProducts", JInt 3);
                       ("totalRegularUsers", JInt 0)])]).
Proof.
  cbv zeta. split; [reflexivity|].
  pose proof (promotion_shows_in_stats
                2000 root_session (db jane_registered) root_user jane_row
                (JObj [("role", JStr "admin")])) as H.
  cbv zeta in H.
  destruct H as [_ [_ Hafter]];
    [exact jane_registered_well_formed | exact root_is_authenticated_after_jane
    | reflexivity | vm_compute; auto | reflexivity | vm_compute; discriminate
    | vm_compute; discriminate | reflexivity | reflexivity |].
  change (decimal (u_id jane_row)) with "2" in Hafter.
  rewrite Hafter. vm_compute. reflexivity.
Defined.

(** "Air Max 90" names product 3 after the seed and after everything
    that happens until Jane's account is deleted. *)
Lemma air_max_keeps_its_product :
  dbGet_product_id_by_name (db (run started jane_is_deleted)) "Air Max 90"
  = Some 3.
Proof.
  pose proof (products_only_grow (L := sample_libs) started jane_is_deleted
                "Air Max 90" 3 air_max_is_product_3) as H.
  exact (proj2 H).
Defined.

Lemma after_jane_is_reachable : reachable (run started jane_is_deleted).
Proof.
  exists 1000, "seed", jane_is_deleted.
  cbv [run started fold_left]. reflexivity.
Qed.

Lemma after_jane_well_formed : well_formed (db (run started jane_is_deleted)).
Proof.
  exact (proj1 (reachable_invariant _ after_jane_is_reachable)).
Qed.

(** The administrator puts a product in the cart while the cart row of
    Jane's deleted account is still there: that row is left alone. *)
Lemma root_cart_leaves_the_row_of_jane :
  let d := db (run started jane_is_deleted) in
  let r := sample_request "POST" ["api"; "users"; "cart"; "Air Max 90"]
                          (JObj []) "root" root_token 2000 in
  let d' := out_db (serve r root_session d) in
  others_cart_items 1 d' = [mkCartItem 1 2 3 1 1004]
  /\ List.length (cart_items d') = 2%nat.
Proof.
  cbv zeta.
  pose proof (user_routes_touch_own_rows_only (L := sample_libs)
                (sample_request "POST" ["api"; "users"; "cart"; "Air Max 90"]
                                (JObj []) "root" root_token 2000)
                root_session (db (run started jane_is_deleted)) root_user)
    as H.
  cbv zeta in H.
  destruct H as [_ [_ [_ Hcart]]];
    [exact after_jane_well_formed | vm_compute; reflexivity | reflexivity |].
  split; [|vm_compute; reflexivity].
  change (au_id root_user) with 1 in Hcart. rewrite Hcart.
  vm_compute. reflexivity.
Defined.

Lemma air_max_is_found :
  find (product_has_name "Air Max 90") (products (db started)) = Some air_max.
Proof. reflexivity. Qed.

(** The administrator marks "Air Max 90" as favorite and reads the
    favorites. *)
Lemma favorites_listing_after_toggle_on_seed :
  let o := post_favorite "Air Max 90" 2000 root_session (db started) in
  In (JObj (product_fields air_max ++ [("favorited_at", JInt 2000)]))
     (dbAll_favorites (out_db o) 1)
  /\ dbAll_favorites (db started) 1 = [].
Proof.
  cbv zeta.
  pose proof (favorites_listing_follows_toggle (L := sample_libs) root_session
                (db started) root_user "Air Max 90" "Air Max 90" air_max 2000)
    as H.
  cbv zeta in H.
  destruct H as [_ [Hadded _]];
    [exact started_well_formed | exact root_is_authenticated
    | exact air_max_decodes | exact air_max_is_found |].
  destruct Hadded as [_ Hin]; [reflexivity|].
  split; [exact Hin | reflexivity].
Defined.

(** The administrator sends an update of Jane's account with an empty
    body. *)
Lemma empty_update_is_answered_200 :
  out_response (admin_only (put_admin_user 2000 "2" (JObj [])) root_session
                           (db jane_registered))
  = mkResponse 200 (JsonBody (failure "Aucune modification valide")).
Proof.
  pose proof (admin_failures_are_answered_200 (L := sample_libs) 2000 "2"
                (JObj []) root_session (db jane_registered) root_user) as H.
  destruct H as [Hput _];
    [exact root_is_authenticated_after_jane | reflexivity |].
  rewrite Hput; reflexivity.
Defined.

(** The administrator's session asks for a token and logs out with
    it. *)
Lemma logout_on_seed :
  let st := fst (app (token_request "root" 2000) started) in
  let r := sample_request "POST" ["api"; "auth"; "logout"] (JObj []) "root"
                          root_token 2001 in
  sessions st = [("root", mkSession None (Some "secret-of-root"))]
  /\ snd (app r st) = json_ok (success "Déconnexion réussie")
  /\ load_session "root" (sessions (fst (app r st))) = empty_session.
Proof.
  cbv zeta. split; [vm_compute; reflexivity|].
  pose proof (logout_forgets_the_session (L := sample_libs)
                (sample_request "POST" ["api"; "auth"; "logout"] (JObj [])
                                "root" root_token 2001)
                (fst (app (token_request "root" 2000) started))) as H.
  cbv zeta in H.
  destruct H as [Hresp [_ [Hsession _]]];
    [reflexivity | reflexivity | vm_compute; reflexivity
    | vm_compute; discriminate |].
  split; [exact Hresp | exact Hsession].
Defined.


(** The administrator logs in on a session that already holds a CSRF
    secret. *)
Lemma secret_kept_across_login :
  let s := mkSession None (Some "secret-of-root") in
  csrfSecret (out_session (serve (login_attempt root_credentials 2001) s
                                 (db started)))
  = Some "secret-of-root"
  /\ userId (out_session (serve (login_attempt root_credentials 2001) s
                                (db started))) = Some 1.
Proof.
  cbv zeta.
  pose proof (csrf_secret_is_kept (L := sample_libs)
                (login_attempt root_credentials 2001)
                (mkSession None (Some "secret-of-root")) (db started)
                "secret-of-root") as H.
  cbv zeta in H.
  destruct H as [Hkept|[Hlogout _]]; [reflexivity | discriminate | |].
  - split; [exact Hkept | vm_compute; reflexivity].
  - vm_compute in Hlogout. discriminate Hlogout.
Defined.

(** After Jane's account (id 2) was deleted, the next account gets id 3
    and Jane's old session stays refused. *)
Lemma id_of_jane_is_not_reused :
  let bob := JObj [("email", JStr "bob@example.com");
                   ("password", JStr "password2");
                   ("firstName", JStr "Bob"); ("lastName", JStr "Roe")] in
  let events :=
    [Serve (token_request "bob" 2000);
     Serve (sample_request "POST" ["api"; "auth"; "register"] bob "bob"
                           (Some "salt-secret-of-bob") 2001)] in
  let st' := run (run started jane_is_deleted) events in
  map u_id (users (db st')) = [1; 3]
  /\ user_exists (db st') 2 = false.
Proof.
  cbv zeta. split; [vm_compute; reflexivity|].
  pose proof (user_ids_are_never_reused (L := sample_libs)
                (run started jane_is_deleted)
                [Serve (token_request "bob" 2000);
                 Serve (sample_request "POST" ["api"; "auth"; "register"]
                          (JObj [("email", JStr "bob@example.com");
                                 ("password", JStr "password2");
                                 ("firstName", JStr "Bob");
                                 ("lastName", JStr "Roe")])
                          "bob" (Some "salt-secret-of-bob") 2001)]
                2 jane_session) as H.
  cbv zeta in H.
  destruct H as [Hgone _];
    [vm_compute; discriminate | vm_compute; reflexivity | reflexivity |].
  exact Hgone.
Defined.


Lemma cotton_added_is_reachable : reachable cotton_added.
Proof.
  exists 1000, "seed",
    [Serve (token_request "root" 1005);
     Serve (login_attempt root_credentials 1006);
     Serve (sample_request "POST" ["api"; "admin"; "products"] cotton "root"
                           root_token 1007)].
  cbv [run cotton_added started fold_left]. reflexivity.
Qed.

Lemma cotton_added_well_formed : well_formed (db cotton_added).
Proof.
  exact (proj1 (reachable_invariant cotton_added cotton_added_is_reachable)).
Qed.

Lemma runner_is_listed : In runner (products (db cotton_added)).
Proof. vm_compute. auto 10. Qed.

(** The product "Runner 100%" is in the list, and no request of the
    administrator can mark it or put it in the cart: the name with its
    percent sign fails the second decoding. *)
Lemma runner_cannot_be_chosen :
  In runner (products (db cotton_added))
  /\ toggle_favorite 2000 "Runner 100%" root_user (db cotton_added)
     = (db cotton_added, json_status 500 (failure "Erreur gestion favoris"))
  /\ add_to_cart 2000 "Runner 100%" root_user (db cotton_added)
     = (db cotton_added, json_status 500 (failure "Erreur ajout panier"))
  /\ remove_from_cart 2000 "Runner 100%" root_user (db cotton_added)
     = (db cotton_added, json_status 500 (failure "Erreur suppression panier")).
Proof.
  split; [exact runner_is_listed|].
  pose proof (product_name_is_decoded_twice (L := sample_libs)
                2000 (db cotton_added) root_user runner "Runner 100%"
                cotton_added_well_formed runner_is_listed) as H.
  destruct H as [_ Hfails]; [reflexivity | vm_compute; discriminate |].
  apply Hfails. vm_compute. reflexivity.
Defined.

(** The request is refused for its missing token, and the session store
    holds a session with a secret for it afterwards. *)
Lemma refused_request_leaves_a_session :
  status (snd (app guest_cart_request started)) = 403
  /\ exists s,
      assoc "guest" (sessions (fst (app guest_cart_request started))) = Some s
      /\ csrfSecret s = Some "secret-of-guest".
Proof.
  split; [vm_compute; reflexivity|].
  pose proof (sessions_come_from_unsafe_requests (L := sample_libs)
                guest_cart_request started) as H.
  cbv zeta in H.
  destruct H as [Hunsafe _];
    [vm_compute; reflexivity | vm_compute; discriminate |].
  destruct Hunsafe as [Hkept|[Hlogout _]];
    [vm_compute; reflexivity | vm_compute; reflexivity | exact Hkept |].
  vm_compute in Hlogout. discriminate Hlogout.
Defined.

(** C3 (what the code does at the failing input).  Two logins with the
    number 12345678 as password, which [notEmpty] lets pass and which
    matches no hash: for the address of the default administrator the
    answer is 500 "Erreur connexion", for an address that no account
    has it is 401 "Email ou mot de passe incorrect".  The two requests go
    through the whole chain, on a session that holds its CSRF token. *)
Theorem login_failures_told_apart :
  let known := login_attempt (numeric_password "admin@sneakzone.com") 2001 in
  let unknown := login_attempt (numeric_password "nobody@example.com") 2001 in
  snd (app known token_issued) = json_status 500 (failure "Erreur connexion")
  /\ snd (app unknown token_issued)
     = json_status 401 (failure "Email ou mot de passe incorrect")
  /\ db (fst (app known token_issued)) = db token_issued
  /\ db (fst (app unknown token_issued)) = db token_issued.
Proof. cbv zeta. repeat split; vm_compute; reflexivity. Qed.

Lemma root_logged_in_is_reachable : reachable root_logged_in.
Proof.
  exists 1000, "seed",
    [Serve (token_request "root" 1005);
     Serve (login_attempt root_credentials 1006)].
  cbv [run root_logged_in started fold_left]. reflexivity.
Qed.

(** C4 (what the code does at the failing input).  The default
    administrator, id 1, is logged in on a server that was started on a
    fresh database.  DELETE /api/admin/users/0.1e1 with the token of the
    session is answered 200 "Utilisateur supprimé avec succès" and the
    administrator's own row is gone; PUT of the same path with [{ role:
    'user' }] is answered 200 "Utilisateur modifié avec succès" and the
    administrator's own role is ['user']. *)
Theorem own_account_changed_through_the_chain :
  let delete :=
    sample_request "DELETE" ["api"; "admin"; "users"; "0.1e1"] (JObj [])
                   "root" root_token 1007 in
  let demote :=
    sample_request "PUT" ["api"; "admin"; "users"; "0.1e1"]
                   (JObj [("role", JStr "user")]) "root" root_token 1007 in
  reachable root_logged_in
  /\ authenticateToken (db root_logged_in)
                       (load_session "root" (sessions root_logged_in))
     = inr root_user
  /\ snd (app delete root_logged_in)
     = json_ok (success "Utilisateur supprimé avec succès")
  /\ users (db (fst (app delete root_logged_in))) = []
  /\ snd (app demote root_logged_in)
     = json_ok (success "Utilisateur modifié avec succès")
  /\ map (fun u => (u_id u, u_role u)) (users (db (fst (app demote root_logged_in))))
     = [(1, "user")].
Proof.
  cbv zeta. split; [exact root_logged_in_is_reachable|].
  repeat split; vm_compute; reflexivity.
Qed.

(** C9 (counterexample).  The product "Runner 100%" is in the table,
    with id 4.  DELETE /api/users/cart/Runner%20100%25 of the logged-in
    administrator, whose parameter Express decodes to the name of the
    product, is answered 500 "Erreur suppression panier": neither the
    success response nor the 404. *)
Lemma cart_remove_answers_500 :
  let r := sample_request "DELETE" ["api"; "users"; "cart"; "Runner 100%"]
                          (JObj []) "root" root_token 2000 in
  dbGet_product_id_by_name (db cotton_added) "Runner 100%" = Some 4
  /\ snd (app r cotton_added)
     = json_status 500 (failure "Erreur suppression panier")
  /\ status (snd (app r cotton_added)) <> 200
  /\ status (snd (app r cotton_added)) <> 404.
Proof.
  cbv zeta. split; [reflexivity|]. split; [vm_compute; reflexivity|].
  split; vm_compute; discriminate.
Qed.

(** C9 (amended), on the seed: removing "Air Max 90", which is not in
    the cart, succeeds and changes nothing; removing "50%", which does
    not decode, is answered 500 and changes nothing. *)
Lemma cart_remove_on_seed :
  delete_cart "Air Max 90" 2000 root_session (db started)
  = mkOutcome (db started) root_session
              (json_ok (success "Produit retiré du panier"))
  /\ delete_cart "50%" 2000 root_session (db started)
     = mkOutcome (db started) root_session
                 (json_status 500 (failure "Erreur suppression panier")).
Proof.
  split.
  - pose proof (cart_remove_outcomes (L := sample_libs) root_session
                  (db started) root_user "Air Max 90" 2000
                  root_is_authenticated) as H.
    cbv zeta in H. destruct H as [_ [Hfound _]].
    destruct (Hfound "Air Max 90" air_max_decodes) as [_ Hproduct].
    destruct (Hproduct 3 air_max_is_product_3) as [_ [_ Hsame]].
    apply Hsame. reflexivity.
  - pose proof (cart_remove_outcomes (L := sample_libs) root_session
                  (db started) root_user "50%" 2000
                  root_is_authenticated) as H.
    cbv zeta in H. destruct H as [Hfails _].
    apply Hfails. reflexivity.
Defined.

Lemma air_max_in_cart_is_reachable : reachable air_max_in_cart.
Proof.
  exists 1000, "seed",
    [Serve (token_request "root" 1005);
     Serve (login_attempt root_credentials 1006);
     Serve (sample_request "POST" ["api"; "users"; "cart"; "Air Max 90"]
                           (JObj []) "root" root_token 1007)].
  cbv [run air_max_in_cart root_logged_in started fold_left]. reflexivity.
Qed.

Lemma air_max_in_cart_well_formed : well_formed (db air_max_in_cart).
Proof.
  exact (proj1 (reachable_invariant air_max_in_cart
                  air_max_in_cart_is_reachable)).
Qed.

(** The administrator, with "Air Max 90" (product 3) in the cart, adds
    "Air Jordan 1 Retro High" (product 1) twice and reads the cart: the
    new entry comes first. *)
Lemma cart_listing_after_two_adds :
  let d := db air_max_in_cart in
  let run := serve_times (post_cart "Air Jordan 1 Retro High") [2000; 2001]
                         root_session d in
  out_response (get_cart root_session d)
  = json_ok
      (JObj [("success", JBool true);
             ("cartItems",
              JArr [JObj (product_fields air_max ++ [("quantity", JInt 1)])])])
  /\ out_response (get_cart (fst (fst run)) (snd (fst run)))
     = json_ok
         (JObj [("success", JBool true);
                ("cartItems",
                 JArr [JObj (product_fields air_jordan
                               ++ [("quantity", JInt 2)]);
                       JObj (product_fields air_max
                               ++ [("quantity", JInt 1)])])]).
Proof.
  cbv zeta.
  pose proof (cart_listing_after_adds (L := sample_libs) root_session
                (db air_max_in_cart) root_user "Air Jordan 1 Retro High"
                "Air Jordan 1 Retro High" air_jordan 2000 [2001]) as H.
  cbv zeta in H.
  destruct H as [Hbefore Hafter];
    [exact air_max_in_cart_well_formed | vm_compute; reflexivity
    | reflexivity | reflexivity | reflexivity |].
  rewrite Hbefore, Hafter. split; vm_compute; reflexivity.
Defined.
